(** * The txtx runbook grammar: lexer automaton and parse tables

    This development embeds [crates/tree-sitter-txtx/src/parser.c], the
    generated lexer function [ts_lex] and the LR parse tables of the txtx
    runbook language, and states the properties of the language that follow
    from them.

    Conventions.
    - [TSSymbol], [TSStateId] and [TSFieldId] are the 16-bit unsigned integers
      of the parser header, kept as [Z].
    - The input is the sequence of code points that the lexer sees one after
      the other in [lexer->lookahead] (for ASCII text: the bytes); the
      lookahead is [0] at the end of the input, where [eof] holds.
    - Tables written with designated initialisers are association lists
      from the index to the value; a missing index reads as zero, as in C. *)

From Stdlib Require Import ZArith List Bool Ascii String Lia.
From Stdlib.Strings Require Import Byte.
Import ListNotations.

Set Warnings "-register-all".

Local Open Scope Z_scope.

Definition TSSymbol := Z.
Definition TSStateId := Z.
Definition TSFieldId := Z.

(** ** Characters

    Character literals of the C source are written as one-character strings
    in [lookahead_scope]; they denote their code point. *)

Definition lookahead_of_bytes (s : list byte) : option Z :=
  match s with
  | [b] => Some (Z.of_N (Byte.to_N b))
  | _ => None
  end.

(** The notation is for reading the source's literals only; code points are
    printed as numbers. *)
Definition bytes_of_lookahead (z : Z) : option (list byte) := None.

Declare Scope lookahead_scope.
Delimit Scope lookahead_scope with lookahead.
String Notation Z lookahead_of_bytes bytes_of_lookahead : lookahead_scope.

Notation "a !=? b" := (negb (Z.eqb a b)) (at level 70, no associativity) : Z_scope.

(** The code points of a text. *)
Fixpoint codepoints (s : string) : list Z :=
  match s with
  | EmptyString => []
  | String c s' => Z.of_N (N_of_ascii c) :: codepoints s'
  end.

Fixpoint text_of (l : list Z) : string :=
  match l with
  | [] => EmptyString
  | c :: l' => String (ascii_of_N (Z.to_N c)) (text_of l')
  end.

(** Lookup in a table written with designated initialisers. *)
Fixpoint table_get {A : Type} (default : A) (table : list (Z * A)) (i : Z) : A :=
  match table with
  | [] => default
  | (k, v) :: table' => if k =? i then v else table_get default table' i
  end.

(** ** Types of the parser header *)

Record TSSymbolMetadata := { visible : bool; named : bool }.

Record TSFieldMapSlice := { index : Z; length : Z }.

Record TSFieldMapEntry := { field_id : TSFieldId; child_index : Z; inherited : bool }.

(** The parse actions, as the macros [SHIFT], [SHIFT_REPEAT], [REDUCE],
    [RECOVER] and [ACCEPT_INPUT] of the parser header build them. [REDUCE]
    carries the symbol, the child count and the production id (zero when the
    source gives none). *)
Inductive TSParseAction :=
| SHIFT (state : TSStateId)
| SHIFT_REPEAT (state : TSStateId)
| REDUCE (symbol : TSSymbol) (child_count : Z) (production_id : Z)
| RECOVER
| ACCEPT_INPUT.

Record TSParseActionEntry := { count : Z; reusable : bool; actions : list TSParseAction }.

(** [STATE], [ACTIONS] and [SMALL_STATE] of the parser header. *)
Definition LARGE_STATE_COUNT : Z := 2.
Definition STATE_COUNT : Z := 153.
Definition SYMBOL_COUNT : Z := 68.
Definition TOKEN_COUNT : Z := 40.
Definition STATE (id : Z) : Z := id.
Definition ACTIONS (id : Z) : Z := id.
Definition SMALL_STATE (id : Z) : Z := id - LARGE_STATE_COUNT.

(** The lex state of a parse state that needs no lookahead,
    [(TSStateId)(-1)]. *)
Definition NO_LEX_STATE : TSStateId := 65535.

(** ** The lexer macros

    One pass through the [switch] of [ts_lex] for a given state does at most
    one [ACCEPT_TOKEN] (always first) and then leaves by [ADVANCE], [SKIP] or
    [END_STATE]. *)
Inductive lex_action :=
| ADVANCE (state : TSStateId)
| SKIP (state : TSStateId)
| END_STATE.

Definition lex_state_result : Type := option TSSymbol * lex_action.

Definition ACCEPT_TOKEN (symbol : TSSymbol) (next : lex_action) : lex_state_result :=
  (Some symbol, next).
Definition NO_TOKEN (next : lex_action) : lex_state_result := (None, next).

(** ** Symbols (the anonymous [enum] of parser.c; [ts_builtin_sym_end] is 0
    and [ts_builtin_sym_error] is [(TSSymbol)-1] in the parser header) *)
Definition ts_builtin_sym_end : TSSymbol := 0.
Definition anon_sym_addon : TSSymbol := 1.
Definition anon_sym_signer : TSSymbol := 2.
Definition anon_sym_action : TSSymbol := 3.
Definition anon_sym_output : TSSymbol := 4.
Definition anon_sym_variable : TSSymbol := 5.
Definition anon_sym_input : TSSymbol := 6.
Definition anon_sym_EQ : TSSymbol := 7.
Definition anon_sym_import : TSSymbol := 8.
Definition anon_sym_LBRACE : TSSymbol := 9.
Definition anon_sym_RBRACE : TSSymbol := 10.
Definition anon_sym_DQUOTE : TSSymbol := 11.
Definition aux_sym_string_token1 : TSSymbol := 12.
Definition anon_sym_SQUOTE : TSSymbol := 13.
Definition aux_sym_string_token2 : TSSymbol := 14.
Definition anon_sym_DQUOTE_DQUOTE_DQUOTE : TSSymbol := 15.
Definition aux_sym_string_token3 : TSSymbol := 16.
Definition aux_sym_number_token1 : TSSymbol := 17.
Definition aux_sym_number_token2 : TSSymbol := 18.
Definition aux_sym_number_token3 : TSSymbol := 19.
Definition anon_sym_true : TSSymbol := 20.
Definition anon_sym_false : TSSymbol := 21.
Definition sym_null : TSSymbol := 22.
Definition anon_sym_LBRACK : TSSymbol := 23.
Definition anon_sym_COMMA : TSSymbol := 24.
Definition anon_sym_RBRACK : TSSymbol := 25.
Definition anon_sym_COLON : TSSymbol := 26.
Definition anon_sym_DOT : TSSymbol := 27.
Definition anon_sym_LPAREN : TSSymbol := 28.
Definition anon_sym_RPAREN : TSSymbol := 29.
Definition anon_sym_STAR : TSSymbol := 30.
Definition anon_sym_SLASH : TSSymbol := 31.
Definition anon_sym_PLUS : TSSymbol := 32.
Definition anon_sym_DASH : TSSymbol := 33.
Definition sym_identifier : TSSymbol := 34.
Definition anon_sym_POUND : TSSymbol := 35.
Definition aux_sym_comment_token1 : TSSymbol := 36.
Definition anon_sym_SLASH_SLASH : TSSymbol := 37.
Definition anon_sym_SLASH_STAR : TSSymbol := 38.
Definition aux_sym_comment_token2 : TSSymbol := 39.
Definition sym_runbook : TSSymbol := 40.
Definition sym__statement : TSSymbol := 41.
Definition sym_addon_block : TSSymbol := 42.
Definition sym_signer_block : TSSymbol := 43.
Definition sym_action_block : TSSymbol := 44.
Definition sym_output_block : TSSymbol := 45.
Definition sym_variable_declaration : TSSymbol := 46.
Definition sym_input_declaration : TSSymbol := 47.
Definition sym_import_statement : TSSymbol := 48.
Definition sym_block : TSSymbol := 49.
Definition sym_attribute : TSSymbol := 50.
Definition sym__expression : TSSymbol := 51.
Definition sym_string : TSSymbol := 52.
Definition sym_number : TSSymbol := 53.
Definition sym_boolean : TSSymbol := 54.
Definition sym_array : TSSymbol := 55.
Definition sym_object : TSSymbol := 56.
Definition sym_object_field : TSSymbol := 57.
Definition sym_reference : TSSymbol := 58.
Definition sym_index_access : TSSymbol := 59.
Definition sym_function_call : TSSymbol := 60.
Definition sym_binary_expression : TSSymbol := 61.
Definition sym_comment : TSSymbol := 62.
Definition aux_sym_runbook_repeat1 : TSSymbol := 63.
Definition aux_sym_block_repeat1 : TSSymbol := 64.
Definition aux_sym_array_repeat1 : TSSymbol := 65.
Definition aux_sym_object_repeat1 : TSSymbol := 66.
Definition aux_sym_reference_repeat1 : TSSymbol := 67.
Definition ts_builtin_sym_error : TSSymbol := 65535.

Definition ts_symbol_names : list (TSSymbol * string) :=
  [ 
    (ts_builtin_sym_end, "end"%string);
    (anon_sym_addon, "addon"%string);
    (anon_sym_signer, "signer"%string);
    (anon_sym_action, "action"%string);
    (anon_sym_output, "output"%string);
    (anon_sym_variable, "variable"%string);
    (anon_sym_input, "input"%string);
    (anon_sym_EQ, "="%string);
    (anon_sym_import, "import"%string);
    (anon_sym_LBRACE, "{"%string);
    (anon_sym_RBRACE, "}"%string);
    (anon_sym_DQUOTE, (String "034" EmptyString));
    (aux_sym_string_token1, "string_token1"%string);
    (anon_sym_SQUOTE, "'"%string);
    (aux_sym_string_token2, "string_token2"%string);
    (anon_sym_DQUOTE_DQUOTE_DQUOTE, (String "034" (String "034" (String "034" EmptyString))));
    (aux_sym_string_token3, "string_token3"%string);
    (aux_sym_number_token1, "number_token1"%string);
    (aux_sym_number_token2, "number_token2"%string);
    (aux_sym_number_token3, "number_token3"%string);
    (anon_sym_true, "true"%string);
    (anon_sym_false, "false"%string);
    (sym_null, "null"%string);
    (anon_sym_LBRACK, "["%string);
    (anon_sym_COMMA, ","%string);
    (anon_sym_RBRACK, "]"%string);
    (anon_sym_COLON, ":"%string);
    (anon_sym_DOT, "."%string);
    (anon_sym_LPAREN, "("%string);
    (anon_sym_RPAREN, ")"%string);
    (anon_sym_STAR, "*"%string);
    (anon_sym_SLASH, "/"%string);
    (anon_sym_PLUS, "+"%string);
    (anon_sym_DASH, "-"%string);
    (sym_identifier, "identifier"%string);
    (anon_sym_POUND, "#"%string);
    (aux_sym_comment_token1, "comment_token1"%string);
    (anon_sym_SLASH_SLASH, "//"%string);
    (anon_sym_SLASH_STAR, "/*"%string);
    (aux_sym_comment_token2, "comment_token2"%string);
    (sym_runbook, "runbook"%string);
    (sym__statement, "_statement"%string);
    (sym_addon_block, "addon_block"%string);
    (sym_signer_block, "signer_block"%string);
    (sym_action_block, "action_block"%string);
    (sym_output_block, "output_block"%string);
    (sym_variable_declaration, "variable_declaration"%string);
    (sym_input_declaration, "input_declaration"%string);
    (sym_import_statement, "import_statement"%string);
    (sym_block, "block"%string);
    (sym_attribute, "attribute"%string);
    (sym__expression, "_expression"%string);
    (sym_string, "string"%string);
    (sym_number, "number"%string);
    (sym_boolean, "boolean"%string);
    (sym_array, "array"%string);
    (sym_object, "object"%string);
    (sym_object_field, "object_field"%string);
    (sym_reference, "reference"%string);
    (sym_index_access, "index_access"%string);
    (sym_function_call, "function_call"%string);
    (sym_binary_expression, "binary_expression"%string);
    (sym_comment, "comment"%string);
    (aux_sym_runbook_repeat1, "runbook_repeat1"%string);
    (aux_sym_block_repeat1, "block_repeat1"%string);
    (aux_sym_array_repeat1, "array_repeat1"%string);
    (aux_sym_object_repeat1, "object_repeat1"%string);
    (aux_sym_reference_repeat1, "reference_repeat1"%string) ].

Definition ts_symbol_metadata : list (TSSymbol * TSSymbolMetadata) :=
  [ 
    (ts_builtin_sym_end, {| visible := false; named := true |});
    (anon_sym_addon, {| visible := true; named := false |});
    (anon_sym_signer, {| visible := true; named := false |});
    (anon_sym_action, {| visible := true; named := false |});
    (anon_sym_output, {| visible := true; named := false |});
    (anon_sym_variable, {| visible := true; named := false |});
    (anon_sym_input, {| visible := true; named := false |});
    (anon_sym_EQ, {| visible := true; named := false |});
    (anon_sym_import, {| visible := true; named := false |});
    (anon_sym_LBRACE, {| visible := true; named := false |});
    (anon_sym_RBRACE, {| visible := true; named := false |});
    (anon_sym_DQUOTE, {| visible := true; named := false |});
    (aux_sym_string_token1, {| visible := false; named := false |});
    (anon_sym_SQUOTE, {| visible := true; named := false |});
    (aux_sym_string_token2, {| visible := false; named := false |});
    (anon_sym_DQUOTE_DQUOTE_DQUOTE, {| visible := true; named := false |});
    (aux_sym_string_token3, {| visible := false; named := false |});
    (aux_sym_number_token1, {| visible := false; named := false |});
    (aux_sym_number_token2, {| visible := false; named := false |});
    (aux_sym_number_token3, {| visible := false; named := false |});
    (anon_sym_true, {| visible := true; named := false |});
    (anon_sym_false, {| visible := true; named := false |});
    (sym_null, {| visible := true; named := true |});
    (anon_sym_LBRACK, {| visible := true; named := false |});
    (anon_sym_COMMA, {| visible := true; named := false |});
    (anon_sym_RBRACK, {| visible := true; named := false |});
    (anon_sym_COLON, {| visible := true; named := false |});
    (anon_sym_DOT, {| visible := true; named := false |});
    (anon_sym_LPAREN, {| visible := true; named := false |});
    (anon_sym_RPAREN, {| visible := true; named := false |});
    (anon_sym_STAR, {| visible := true; named := false |});
    (anon_sym_SLASH, {| visible := true; named := false |});
    (anon_sym_PLUS, {| visible := true; named := false |});
    (anon_sym_DASH, {| visible := true; named := false |});
    (sym_identifier, {| visible := true; named := true |});
    (anon_sym_POUND, {| visible := true; named := false |});
    (aux_sym_comment_token1, {| visible := false; named := false |});
    (anon_sym_SLASH_SLASH, {| visible := true; named := false |});
    (anon_sym_SLASH_STAR, {| visible := true; named := false |});
    (aux_sym_comment_token2, {| visible := false; named := false |});
    (sym_runbook, {| visible := true; named := true |});
    (sym__statement, {| visible := false; named := true |});
    (sym_addon_block, {| visible := true; named := true |});
    (sym_signer_block, {| visible := true; named := true |});
    (sym_action_block, {| visible := true; named := true |});
    (sym_output_block, {| visible := true; named := true |});
    (sym_variable_declaration, {| visible := true; named := true |});
    (sym_input_declaration, {| visible := true; named := true |});
    (sym_import_statement, {| visible := true; named := true |});
    (sym_block, {| visible := true; named := true |});
    (sym_attribute, {| visible := true; named := true |});
    (sym__expression, {| visible := false; named := true |});
    (sym_string, {| visible := true; named := true |});
    (sym_number, {| visible := true; named := true |});
    (sym_boolean, {| visible := true; named := true |});
    (sym_array, {| visible := true; named := true |});
    (sym_object, {| visible := true; named := true |});
    (sym_object_field, {| visible := true; named := true |});
    (sym_reference, {| visible := true; named := true |});
    (sym_index_access, {| visible := true; named := true |});
    (sym_function_call, {| visible := true; named := true |});
    (sym_binary_expression, {| visible := true; named := true |});
    (sym_comment, {| visible := true; named := true |});
    (aux_sym_runbook_repeat1, {| visible := false; named := false |});
    (aux_sym_block_repeat1, {| visible := false; named := false |});
    (aux_sym_array_repeat1, {| visible := false; named := false |});
    (aux_sym_object_repeat1, {| visible := false; named := false |});
    (aux_sym_reference_repeat1, {| visible := false; named := false |}) ].

(** ** Fields *)

Definition field_arguments : TSFieldId := 1.
Definition field_config : TSFieldId := 2.
Definition field_key : TSFieldId := 3.
Definition field_name : TSFieldId := 4.
Definition field_network : TSFieldId := 5.
Definition field_path : TSFieldId := 6.
Definition field_type : TSFieldId := 7.
Definition field_value : TSFieldId := 8.
Definition ts_field_names : list (TSFieldId * option string) :=
  [ (0, None);
    (field_arguments, Some "arguments"%string);
    (field_config, Some "config"%string);
    (field_key, Some "key"%string);
    (field_name, Some "name"%string);
    (field_network, Some "network"%string);
    (field_path, Some "path"%string);
    (field_type, Some "type"%string);
    (field_value, Some "value"%string) ].
Definition ts_field_map_slices : list (Z * TSFieldMapSlice) :=
  [ (1, {| index := 0; length := 1 |});
    (2, {| index := 1; length := 2 |});
    (3, {| index := 3; length := 2 |});
    (4, {| index := 5; length := 3 |});
    (5, {| index := 8; length := 2 |});
    (6, {| index := 10; length := 2 |});
    (7, {| index := 12; length := 1 |});
    (8, {| index := 13; length := 2 |});
    (9, {| index := 15; length := 3 |}) ].
Definition ts_field_map_entries : list TSFieldMapEntry :=
  [ (* [0] *) {| field_id := field_path; child_index := 1; inherited := false |};
    (* [1] *) {| field_id := field_config; child_index := 2; inherited := false |};
    (* [2] *) {| field_id := field_network; child_index := 1; inherited := false |};
    (* [3] *) {| field_id := field_config; child_index := 2; inherited := false |};
    (* [4] *) {| field_id := field_name; child_index := 1; inherited := false |};
    (* [5] *) {| field_id := field_config; child_index := 3; inherited := false |};
    (* [6] *) {| field_id := field_name; child_index := 1; inherited := false |};
    (* [7] *) {| field_id := field_type; child_index := 2; inherited := false |};
    (* [8] *) {| field_id := field_name; child_index := 1; inherited := false |};
    (* [9] *) {| field_id := field_value; child_index := 3; inherited := false |};
    (* [10] *) {| field_id := field_key; child_index := 0; inherited := false |};
    (* [11] *) {| field_id := field_value; child_index := 2; inherited := false |};
    (* [12] *) {| field_id := field_name; child_index := 0; inherited := false |};
    (* [13] *) {| field_id := field_arguments; child_index := 2; inherited := false |};
    (* [14] *) {| field_id := field_name; child_index := 0; inherited := false |};
    (* [15] *) {| field_id := field_arguments; child_index := 2; inherited := false |};
    (* [16] *) {| field_id := field_arguments; child_index := 3; inherited := false |};
    (* [17] *) {| field_id := field_name; child_index := 0; inherited := false |} ].

(** ** The lexer automaton: the [switch] of [ts_lex] *)

Module LexTable.
Local Open Scope lookahead_scope.

Definition ts_lex_state (state : TSStateId) (eof : bool) (lookahead : Z) : lex_state_result :=
  match state with
  | 0 =>
      NO_TOKEN (
        if eof then ADVANCE 47 else
        if (lookahead =? 34) then ADVANCE 66 else
        if (lookahead =? "#") then ADVANCE 141 else
        if (lookahead =? "'") then ADVANCE 70 else
        if (lookahead =? "(") then ADVANCE 91 else
        if (lookahead =? ")") then ADVANCE 92 else
        if (lookahead =? "*") then ADVANCE 93 else
        if (lookahead =? "+") then ADVANCE 95 else
        if (lookahead =? ",") then ADVANCE 87 else
        if (lookahead =? "-") then ADVANCE 96 else
        if (lookahead =? ".") then ADVANCE 90 else
        if (lookahead =? "/") then ADVANCE 94 else
        if (lookahead =? "0") then ADVANCE 81 else
        if (lookahead =? ":") then ADVANCE 89 else
        if (lookahead =? "=") then ADVANCE 60 else
        if (lookahead =? "[") then ADVANCE 86 else
        if (lookahead =? "]") then ADVANCE 88 else
        if (lookahead =? "a") then ADVANCE 101 else
        if (lookahead =? "f") then ADVANCE 97 else
        if (lookahead =? "i") then ADVANCE 115 else
        if (lookahead =? "n") then ADVANCE 137 else
        if (lookahead =? "o") then ADVANCE 136 else
        if (lookahead =? "s") then ADVANCE 108 else
        if (lookahead =? "t") then ADVANCE 126 else
        if (lookahead =? "v") then ADVANCE 99 else
        if (lookahead =? "{") then ADVANCE 63 else
        if (lookahead =? "}") then ADVANCE 64 else
        if (lookahead =? 9) || (lookahead =? 10) || (lookahead =? 13) || (lookahead =? " ") then SKIP 0 else
        if (("1" <=? lookahead) && (lookahead <=? "9")) then ADVANCE 82 else
        if (("A" <=? lookahead) && (lookahead <=? "Z")) || (lookahead =? "_") || (("b" <=? lookahead) && (lookahead <=? "z")) then ADVANCE 140 else
        END_STATE)
  | 1 =>
      NO_TOKEN (
        if (lookahead =? 34) then ADVANCE 66 else
        if (lookahead =? "#") then ADVANCE 141 else
        if (lookahead =? "'") then ADVANCE 70 else
        if (lookahead =? "(") then ADVANCE 91 else
        if (lookahead =? "*") then ADVANCE 93 else
        if (lookahead =? "+") then ADVANCE 95 else
        if (lookahead =? ",") then ADVANCE 87 else
        if (lookahead =? "-") then ADVANCE 96 else
        if (lookahead =? ".") then ADVANCE 90 else
        if (lookahead =? "/") then ADVANCE 94 else
        if (lookahead =? "[") then ADVANCE 86 else
        if (lookahead =? "}") then ADVANCE 64 else
        if (lookahead =? 9) || (lookahead =? 10) || (lookahead =? 13) || (lookahead =? " ") then SKIP 1 else
        if (("A" <=? lookahead) && (lookahead <=? "Z")) || (lookahead =? "_") || (("a" <=? lookahead) && (lookahead <=? "z")) then ADVANCE 140 else
        END_STATE)
  | 2 =>
      NO_TOKEN (
        if (lookahead =? 34) then ADVANCE 66 else
        if (lookahead =? "#") then ADVANCE 141 else
        if (lookahead =? "'") then ADVANCE 70 else
        if (lookahead =? ")") then ADVANCE 92 else
        if (lookahead =? ",") then ADVANCE 87 else
        if (lookahead =? "/") then ADVANCE 8 else
        if (lookahead =? "0") then ADVANCE 81 else
        if (lookahead =? "[") then ADVANCE 86 else
        if (lookahead =? "]") then ADVANCE 88 else
        if (lookahead =? "f") then ADVANCE 97 else
        if (lookahead =? "n") then ADVANCE 137 else
        if (lookahead =? "t") then ADVANCE 126 else
        if (lookahead =? "{") then ADVANCE 63 else
        if (lookahead =? 9) || (lookahead =? 10) || (lookahead =? 13) || (lookahead =? " ") then SKIP 2 else
        if (("1" <=? lookahead) && (lookahead <=? "9")) then ADVANCE 82 else
        if (("A" <=? lookahead) && (lookahead <=? "Z")) || (lookahead =? "_") || (("a" <=? lookahead) && (lookahead <=? "z")) then ADVANCE 140 else
        END_STATE)
  | 3 =>
      NO_TOKEN (
        if (lookahead =? 34) then ADVANCE 74 else
        END_STATE)
  | 4 =>
      NO_TOKEN (
        if (lookahead =? 34) then ADVANCE 5 else
        if (lookahead =? "#") then ADVANCE 141 else
        if (lookahead =? "/") then ADVANCE 77 else
        if (lookahead =? 9) || (lookahead =? 10) || (lookahead =? 13) || (lookahead =? " ") then ADVANCE 76 else
        if (lookahead !=? 0) then ADVANCE 75 else
        END_STATE)
  | 5 =>
      NO_TOKEN (
        if (lookahead =? 34) then ADVANCE 78 else
        if (lookahead !=? 0) then ADVANCE 75 else
        END_STATE)
  | 6 =>
      NO_TOKEN (
        if (lookahead =? 34) then ADVANCE 65 else
        if (lookahead =? "#") then ADVANCE 141 else
        if (lookahead =? "/") then ADVANCE 8 else
        if (lookahead =? 9) || (lookahead =? 10) || (lookahead =? 13) || (lookahead =? " ") then SKIP 6 else
        END_STATE)
  | 7 =>
      NO_TOKEN (
        if (lookahead =? "#") then ADVANCE 142 else
        if (lookahead =? "*") then ADVANCE 159 else
        if (lookahead =? "/") then ADVANCE 10 else
        if (lookahead =? 9) || (lookahead =? 10) || (lookahead =? 13) || (lookahead =? " ") then ADVANCE 7 else
        if (lookahead !=? 0) then ADVANCE 9 else
        END_STATE)
  | 8 =>
      NO_TOKEN (
        if (lookahead =? "*") then ADVANCE 154 else
        if (lookahead =? "/") then ADVANCE 149 else
        END_STATE)
  | 9 =>
      NO_TOKEN (
        if (lookahead =? "*") then ADVANCE 159 else
        if (lookahead !=? 0) then ADVANCE 9 else
        END_STATE)
  | 10 =>
      NO_TOKEN (
        if (lookahead =? "*") then ADVANCE 155 else
        if (lookahead =? "/") then ADVANCE 150 else
        if (lookahead !=? 0) then ADVANCE 9 else
        END_STATE)
  | 11 =>
      NO_TOKEN (
        if (lookahead =? "a") then ADVANCE 34 else
        END_STATE)
  | 12 =>
      NO_TOKEN (
        if (lookahead =? "a") then ADVANCE 13 else
        END_STATE)
  | 13 =>
      NO_TOKEN (
        if (lookahead =? "b") then ADVANCE 22 else
        END_STATE)
  | 14 =>
      NO_TOKEN (
        if (lookahead =? "c") then ADVANCE 39 else
        if (lookahead =? "d") then ADVANCE 15 else
        END_STATE)
  | 15 =>
      NO_TOKEN (
        if (lookahead =? "d") then ADVANCE 28 else
        END_STATE)
  | 16 =>
      NO_TOKEN (
        if (lookahead =? "e") then ADVANCE 56 else
        END_STATE)
  | 17 =>
      NO_TOKEN (
        if (lookahead =? "e") then ADVANCE 33 else
        END_STATE)
  | 18 =>
      NO_TOKEN (
        if (lookahead =? "g") then ADVANCE 24 else
        END_STATE)
  | 19 =>
      NO_TOKEN (
        if (lookahead =? "i") then ADVANCE 18 else
        END_STATE)
  | 20 =>
      NO_TOKEN (
        if (lookahead =? "i") then ADVANCE 12 else
        END_STATE)
  | 21 =>
      NO_TOKEN (
        if (lookahead =? "i") then ADVANCE 29 else
        END_STATE)
  | 22 =>
      NO_TOKEN (
        if (lookahead =? "l") then ADVANCE 16 else
        END_STATE)
  | 23 =>
      NO_TOKEN (
        if (lookahead =? "m") then ADVANCE 30 else
        if (lookahead =? "n") then ADVANCE 31 else
        END_STATE)
  | 24 =>
      NO_TOKEN (
        if (lookahead =? "n") then ADVANCE 17 else
        END_STATE)
  | 25 =>
      NO_TOKEN (
        if (lookahead =? "n") then ADVANCE 48 else
        END_STATE)
  | 26 =>
      NO_TOKEN (
        if (lookahead =? "n") then ADVANCE 52 else
        END_STATE)
  | 27 =>
      NO_TOKEN (
        if (lookahead =? "o") then ADVANCE 35 else
        END_STATE)
  | 28 =>
      NO_TOKEN (
        if (lookahead =? "o") then ADVANCE 25 else
        END_STATE)
  | 29 =>
      NO_TOKEN (
        if (lookahead =? "o") then ADVANCE 26 else
        END_STATE)
  | 30 =>
      NO_TOKEN (
        if (lookahead =? "p") then ADVANCE 27 else
        END_STATE)
  | 31 =>
      NO_TOKEN (
        if (lookahead =? "p") then ADVANCE 42 else
        END_STATE)
  | 32 =>
      NO_TOKEN (
        if (lookahead =? "p") then ADVANCE 43 else
        END_STATE)
  | 33 =>
      NO_TOKEN (
        if (lookahead =? "r") then ADVANCE 50 else
        END_STATE)
  | 34 =>
      NO_TOKEN (
        if (lookahead =? "r") then ADVANCE 20 else
        END_STATE)
  | 35 =>
      NO_TOKEN (
        if (lookahead =? "r") then ADVANCE 37 else
        END_STATE)
  | 36 =>
      NO_TOKEN (
        if (lookahead =? "t") then ADVANCE 58 else
        END_STATE)
  | 37 =>
      NO_TOKEN (
        if (lookahead =? "t") then ADVANCE 61 else
        END_STATE)
  | 38 =>
      NO_TOKEN (
        if (lookahead =? "t") then ADVANCE 54 else
        END_STATE)
  | 39 =>
      NO_TOKEN (
        if (lookahead =? "t") then ADVANCE 21 else
        END_STATE)
  | 40 =>
      NO_TOKEN (
        if (lookahead =? "t") then ADVANCE 32 else
        END_STATE)
  | 41 =>
      NO_TOKEN (
        if (lookahead =? "u") then ADVANCE 40 else
        END_STATE)
  | 42 =>
      NO_TOKEN (
        if (lookahead =? "u") then ADVANCE 36 else
        END_STATE)
  | 43 =>
      NO_TOKEN (
        if (lookahead =? "u") then ADVANCE 38 else
        END_STATE)
  | 44 =>
      NO_TOKEN (
        if (("0" <=? lookahead) && (lookahead <=? "9")) then ADVANCE 80 else
        END_STATE)
  | 45 =>
      NO_TOKEN (
        if (("0" <=? lookahead) && (lookahead <=? "9")) || (("A" <=? lookahead) && (lookahead <=? "F")) || (("a" <=? lookahead) && (lookahead <=? "f")) then ADVANCE 79 else
        END_STATE)
  | 46 =>
      NO_TOKEN (
        if eof then ADVANCE 47 else
        if (lookahead =? 34) then ADVANCE 66 else
        if (lookahead =? "#") then ADVANCE 141 else
        if (lookahead =? "'") then ADVANCE 70 else
        if (lookahead =? "(") then ADVANCE 91 else
        if (lookahead =? ")") then ADVANCE 92 else
        if (lookahead =? "*") then ADVANCE 93 else
        if (lookahead =? "+") then ADVANCE 95 else
        if (lookahead =? ",") then ADVANCE 87 else
        if (lookahead =? "-") then ADVANCE 96 else
        if (lookahead =? ".") then ADVANCE 90 else
        if (lookahead =? "/") then ADVANCE 94 else
        if (lookahead =? ":") then ADVANCE 89 else
        if (lookahead =? "=") then ADVANCE 60 else
        if (lookahead =? "[") then ADVANCE 86 else
        if (lookahead =? "]") then ADVANCE 88 else
        if (lookahead =? "a") then ADVANCE 14 else
        if (lookahead =? "i") then ADVANCE 23 else
        if (lookahead =? "o") then ADVANCE 41 else
        if (lookahead =? "s") then ADVANCE 19 else
        if (lookahead =? "v") then ADVANCE 11 else
        if (lookahead =? "{") then ADVANCE 63 else
        if (lookahead =? "}") then ADVANCE 64 else
        if (lookahead =? 9) || (lookahead =? 10) || (lookahead =? 13) || (lookahead =? " ") then SKIP 46 else
        END_STATE)
  | 47 =>
      ACCEPT_TOKEN ts_builtin_sym_end (
        END_STATE)
  | 48 =>
      ACCEPT_TOKEN anon_sym_addon (
        END_STATE)
  | 49 =>
      ACCEPT_TOKEN anon_sym_addon (
        if (("0" <=? lookahead) && (lookahead <=? "9")) || (("A" <=? lookahead) && (lookahead <=? "Z")) || (lookahead =? "_") || (("a" <=? lookahead) && (lookahead <=? "z")) then ADVANCE 140 else
        END_STATE)
  | 50 =>
      ACCEPT_TOKEN anon_sym_signer (
        END_STATE)
  | 51 =>
      ACCEPT_TOKEN anon_sym_signer (
        if (("0" <=? lookahead) && (lookahead <=? "9")) || (("A" <=? lookahead) && (lookahead <=? "Z")) || (lookahead =? "_") || (("a" <=? lookahead) && (lookahead <=? "z")) then ADVANCE 140 else
        END_STATE)
  | 52 =>
      ACCEPT_TOKEN anon_sym_action (
        END_STATE)
  | 53 =>
      ACCEPT_TOKEN anon_sym_action (
        if (("0" <=? lookahead) && (lookahead <=? "9")) || (("A" <=? lookahead) && (lookahead <=? "Z")) || (lookahead =? "_") || (("a" <=? lookahead) && (lookahead <=? "z")) then ADVANCE 140 else
        END_STATE)
  | 54 =>
      ACCEPT_TOKEN anon_sym_output (
        END_STATE)
  | 55 =>
      ACCEPT_TOKEN anon_sym_output (
        if (("0" <=? lookahead) && (lookahead <=? "9")) || (("A" <=? lookahead) && (lookahead <=? "Z")) || (lookahead =? "_") || (("a" <=? lookahead) && (lookahead <=? "z")) then ADVANCE 140 else
        END_STATE)
  | 56 =>
      ACCEPT_TOKEN anon_sym_variable (
        END_STATE)
  | 57 =>
      ACCEPT_TOKEN anon_sym_variable (
        if (("0" <=? lookahead) && (lookahead <=? "9")) || (("A" <=? lookahead) && (lookahead <=? "Z")) || (lookahead =? "_") || (("a" <=? lookahead) && (lookahead <=? "z")) then ADVANCE 140 else
        END_STATE)
  | 58 =>
      ACCEPT_TOKEN anon_sym_input (
        END_STATE)
  | 59 =>
      ACCEPT_TOKEN anon_sym_input (
        if (("0" <=? lookahead) && (lookahead <=? "9")) || (("A" <=? lookahead) && (lookahead <=? "Z")) || (lookahead =? "_") || (("a" <=? lookahead) && (lookahead <=? "z")) then ADVANCE 140 else
        END_STATE)
  | 60 =>
      ACCEPT_TOKEN anon_sym_EQ (
        END_STATE)
  | 61 =>
      ACCEPT_TOKEN anon_sym_import (
        END_STATE)
  | 62 =>
      ACCEPT_TOKEN anon_sym_import (
        if (("0" <=? lookahead) && (lookahead <=? "9")) || (("A" <=? lookahead) && (lookahead <=? "Z")) || (lookahead =? "_") || (("a" <=? lookahead) && (lookahead <=? "z")) then ADVANCE 140 else
        END_STATE)
  | 63 =>
      ACCEPT_TOKEN anon_sym_LBRACE (
        END_STATE)
  | 64 =>
      ACCEPT_TOKEN anon_sym_RBRACE (
        END_STATE)
  | 65 =>
      ACCEPT_TOKEN anon_sym_DQUOTE (
        END_STATE)
  | 66 =>
      ACCEPT_TOKEN anon_sym_DQUOTE (
        if (lookahead =? 34) then ADVANCE 3 else
        END_STATE)
  | 67 =>
      ACCEPT_TOKEN aux_sym_string_token1 (
        if (lookahead =? "#") then ADVANCE 144 else
        if (lookahead =? "/") then ADVANCE 68 else
        if (lookahead =? 9) || (lookahead =? 10) || (lookahead =? 13) || (lookahead =? " ") then ADVANCE 67 else
        if (lookahead !=? 0) && (lookahead !=? 34) then ADVANCE 69 else
        END_STATE)
  | 68 =>
      ACCEPT_TOKEN aux_sym_string_token1 (
        if (lookahead =? "*") then ADVANCE 157 else
        if (lookahead =? "/") then ADVANCE 152 else
        if (lookahead !=? 0) && (lookahead !=? 34) then ADVANCE 69 else
        END_STATE)
  | 69 =>
      ACCEPT_TOKEN aux_sym_string_token1 (
        if (lookahead !=? 0) && (lookahead !=? 34) then ADVANCE 69 else
        END_STATE)
  | 70 =>
      ACCEPT_TOKEN anon_sym_SQUOTE (
        END_STATE)
  | 71 =>
      ACCEPT_TOKEN aux_sym_string_token2 (
        if (lookahead =? "#") then ADVANCE 145 else
        if (lookahead =? "/") then ADVANCE 72 else
        if (lookahead =? 9) || (lookahead =? 10) || (lookahead =? 13) || (lookahead =? " ") then ADVANCE 71 else
        if (lookahead !=? 0) && (lookahead !=? "'") then ADVANCE 73 else
        END_STATE)
  | 72 =>
      ACCEPT_TOKEN aux_sym_string_token2 (
        if (lookahead =? "*") then ADVANCE 158 else
        if (lookahead =? "/") then ADVANCE 153 else
        if (lookahead !=? 0) && (lookahead !=? "'") then ADVANCE 73 else
        END_STATE)
  | 73 =>
      ACCEPT_TOKEN aux_sym_string_token2 (
        if (lookahead !=? 0) && (lookahead !=? "'") then ADVANCE 73 else
        END_STATE)
  | 74 =>
      ACCEPT_TOKEN anon_sym_DQUOTE_DQUOTE_DQUOTE (
        END_STATE)
  | 75 =>
      ACCEPT_TOKEN aux_sym_string_token3 (
        END_STATE)
  | 76 =>
      ACCEPT_TOKEN aux_sym_string_token3 (
        if (lookahead =? 34) then ADVANCE 5 else
        if (lookahead =? "#") then ADVANCE 141 else
        if (lookahead =? "/") then ADVANCE 77 else
        if (lookahead =? 9) || (lookahead =? 10) || (lookahead =? 13) || (lookahead =? " ") then ADVANCE 76 else
        if (lookahead !=? 0) then ADVANCE 75 else
        END_STATE)
  | 77 =>
      ACCEPT_TOKEN aux_sym_string_token3 (
        if (lookahead =? "*") then ADVANCE 154 else
        if (lookahead =? "/") then ADVANCE 149 else
        END_STATE)
  | 78 =>
      ACCEPT_TOKEN aux_sym_string_token3 (
        if (lookahead !=? 0) && (lookahead !=? 34) then ADVANCE 78 else
        END_STATE)
  | 79 =>
      ACCEPT_TOKEN aux_sym_number_token1 (
        if (("0" <=? lookahead) && (lookahead <=? "9")) || (("A" <=? lookahead) && (lookahead <=? "F")) || (("a" <=? lookahead) && (lookahead <=? "f")) then ADVANCE 79 else
        END_STATE)
  | 80 =>
      ACCEPT_TOKEN aux_sym_number_token2 (
        if (("0" <=? lookahead) && (lookahead <=? "9")) then ADVANCE 80 else
        END_STATE)
  | 81 =>
      ACCEPT_TOKEN aux_sym_number_token3 (
        if (lookahead =? ".") then ADVANCE 44 else
        if (lookahead =? "x") then ADVANCE 45 else
        if (("0" <=? lookahead) && (lookahead <=? "9")) then ADVANCE 82 else
        END_STATE)
  | 82 =>
      ACCEPT_TOKEN aux_sym_number_token3 (
        if (lookahead =? ".") then ADVANCE 44 else
        if (("0" <=? lookahead) && (lookahead <=? "9")) then ADVANCE 82 else
        END_STATE)
  | 83 =>
      ACCEPT_TOKEN anon_sym_true (
        if (("0" <=? lookahead) && (lookahead <=? "9")) || (("A" <=? lookahead) && (lookahead <=? "Z")) || (lookahead =? "_") || (("a" <=? lookahead) && (lookahead <=? "z")) then ADVANCE 140 else
        END_STATE)
  | 84 =>
      ACCEPT_TOKEN anon_sym_false (
        if (("0" <=? lookahead) && (lookahead <=? "9")) || (("A" <=? lookahead) && (lookahead <=? "Z")) || (lookahead =? "_") || (("a" <=? lookahead) && (lookahead <=? "z")) then ADVANCE 140 else
        END_STATE)
  | 85 =>
      ACCEPT_TOKEN sym_null (
        if (("0" <=? lookahead) && (lookahead <=? "9")) || (("A" <=? lookahead) && (lookahead <=? "Z")) || (lookahead =? "_") || (("a" <=? lookahead) && (lookahead <=? "z")) then ADVANCE 140 else
        END_STATE)
  | 86 =>
      ACCEPT_TOKEN anon_sym_LBRACK (
        END_STATE)
  | 87 =>
      ACCEPT_TOKEN anon_sym_COMMA (
        END_STATE)
  | 88 =>
      ACCEPT_TOKEN anon_sym_RBRACK (
        END_STATE)
  | 89 =>
      ACCEPT_TOKEN anon_sym_COLON (
        END_STATE)
  | 90 =>
      ACCEPT_TOKEN anon_sym_DOT (
        END_STATE)
  | 91 =>
      ACCEPT_TOKEN anon_sym_LPAREN (
        END_STATE)
  | 92 =>
      ACCEPT_TOKEN anon_sym_RPAREN (
        END_STATE)
  | 93 =>
      ACCEPT_TOKEN anon_sym_STAR (
        END_STATE)
  | 94 =>
      ACCEPT_TOKEN anon_sym_SLASH (
        if (lookahead =? "*") then ADVANCE 154 else
        if (lookahead =? "/") then ADVANCE 149 else
        END_STATE)
  | 95 =>
      ACCEPT_TOKEN anon_sym_PLUS (
        END_STATE)
  | 96 =>
      ACCEPT_TOKEN anon_sym_DASH (
        END_STATE)
  | 97 =>
      ACCEPT_TOKEN sym_identifier (
        if (lookahead =? "a") then ADVANCE 111 else
        if (("0" <=? lookahead) && (lookahead <=? "9")) || (("A" <=? lookahead) && (lookahead <=? "Z")) || (lookahead =? "_") || (("b" <=? lookahead) && (lookahead <=? "z")) then ADVANCE 140 else
        END_STATE)
  | 98 =>
      ACCEPT_TOKEN sym_identifier (
        if (lookahead =? "a") then ADVANCE 100 else
        if (("0" <=? lookahead) && (lookahead <=? "9")) || (("A" <=? lookahead) && (lookahead <=? "Z")) || (lookahead =? "_") || (("b" <=? lookahead) && (lookahead <=? "z")) then ADVANCE 140 else
        END_STATE)
  | 99 =>
      ACCEPT_TOKEN sym_identifier (
        if (lookahead =? "a") then ADVANCE 127 else
        if (("0" <=? lookahead) && (lookahead <=? "9")) || (("A" <=? lookahead) && (lookahead <=? "Z")) || (lookahead =? "_") || (("b" <=? lookahead) && (lookahead <=? "z")) then ADVANCE 140 else
        END_STATE)
  | 100 =>
      ACCEPT_TOKEN sym_identifier (
        if (lookahead =? "b") then ADVANCE 114 else
        if (("0" <=? lookahead) && (lookahead <=? "9")) || (("A" <=? lookahead) && (lookahead <=? "Z")) || (lookahead =? "_") || (("a" <=? lookahead) && (lookahead <=? "z")) then ADVANCE 140 else
        END_STATE)
  | 101 =>
      ACCEPT_TOKEN sym_identifier (
        if (lookahead =? "c") then ADVANCE 133 else
        if (lookahead =? "d") then ADVANCE 102 else
        if (("0" <=? lookahead) && (lookahead <=? "9")) || (("A" <=? lookahead) && (lookahead <=? "Z")) || (lookahead =? "_") || (("a" <=? lookahead) && (lookahead <=? "z")) then ADVANCE 140 else
        END_STATE)
  | 102 =>
      ACCEPT_TOKEN sym_identifier (
        if (lookahead =? "d") then ADVANCE 119 else
        if (("0" <=? lookahead) && (lookahead <=? "9")) || (("A" <=? lookahead) && (lookahead <=? "Z")) || (lookahead =? "_") || (("a" <=? lookahead) && (lookahead <=? "z")) then ADVANCE 140 else
        END_STATE)
  | 103 =>
      ACCEPT_TOKEN sym_identifier (
        if (lookahead =? "e") then ADVANCE 83 else
        if (("0" <=? lookahead) && (lookahead <=? "9")) || (("A" <=? lookahead) && (lookahead <=? "Z")) || (lookahead =? "_") || (("a" <=? lookahead) && (lookahead <=? "z")) then ADVANCE 140 else
        END_STATE)
  | 104 =>
      ACCEPT_TOKEN sym_identifier (
        if (lookahead =? "e") then ADVANCE 84 else
        if (("0" <=? lookahead) && (lookahead <=? "9")) || (("A" <=? lookahead) && (lookahead <=? "Z")) || (lookahead =? "_") || (("a" <=? lookahead) && (lookahead <=? "z")) then ADVANCE 140 else
        END_STATE)
  | 105 =>
      ACCEPT_TOKEN sym_identifier (
        if (lookahead =? "e") then ADVANCE 57 else
        if (("0" <=? lookahead) && (lookahead <=? "9")) || (("A" <=? lookahead) && (lookahead <=? "Z")) || (lookahead =? "_") || (("a" <=? lookahead) && (lookahead <=? "z")) then ADVANCE 140 else
        END_STATE)
  | 106 =>
      ACCEPT_TOKEN sym_identifier (
        if (lookahead =? "e") then ADVANCE 125 else
        if (("0" <=? lookahead) && (lookahead <=? "9")) || (("A" <=? lookahead) && (lookahead <=? "Z")) || (lookahead =? "_") || (("a" <=? lookahead) && (lookahead <=? "z")) then ADVANCE 140 else
        END_STATE)
  | 107 =>
      ACCEPT_TOKEN sym_identifier (
        if (lookahead =? "g") then ADVANCE 118 else
        if (("0" <=? lookahead) && (lookahead <=? "9")) || (("A" <=? lookahead) && (lookahead <=? "Z")) || (lookahead =? "_") || (("a" <=? lookahead) && (lookahead <=? "z")) then ADVANCE 140 else
        END_STATE)
  | 108 =>
      ACCEPT_TOKEN sym_identifier (
        if (lookahead =? "i") then ADVANCE 107 else
        if (("0" <=? lookahead) && (lookahead <=? "9")) || (("A" <=? lookahead) && (lookahead <=? "Z")) || (lookahead =? "_") || (("a" <=? lookahead) && (lookahead <=? "z")) then ADVANCE 140 else
        END_STATE)
  | 109 =>
      ACCEPT_TOKEN sym_identifier (
        if (lookahead =? "i") then ADVANCE 98 else
        if (("0" <=? lookahead) && (lookahead <=? "9")) || (("A" <=? lookahead) && (lookahead <=? "Z")) || (lookahead =? "_") || (("a" <=? lookahead) && (lookahead <=? "z")) then ADVANCE 140 else
        END_STATE)
  | 110 =>
      ACCEPT_TOKEN sym_identifier (
        if (lookahead =? "i") then ADVANCE 121 else
        if (("0" <=? lookahead) && (lookahead <=? "9")) || (("A" <=? lookahead) && (lookahead <=? "Z")) || (lookahead =? "_") || (("a" <=? lookahead) && (lookahead <=? "z")) then ADVANCE 140 else
        END_STATE)
  | 111 =>
      ACCEPT_TOKEN sym_identifier (
        if (lookahead =? "l") then ADVANCE 129 else
        if (("0" <=? lookahead) && (lookahead <=? "9")) || (("A" <=? lookahead) && (lookahead <=? "Z")) || (lookahead =? "_") || (("a" <=? lookahead) && (lookahead <=? "z")) then ADVANCE 140 else
        END_STATE)
  | 112 =>
      ACCEPT_TOKEN sym_identifier (
        if (lookahead =? "l") then ADVANCE 85 else
        if (("0" <=? lookahead) && (lookahead <=? "9")) || (("A" <=? lookahead) && (lookahead <=? "Z")) || (lookahead =? "_") || (("a" <=? lookahead) && (lookahead <=? "z")) then ADVANCE 140 else
        END_STATE)
  | 113 =>
      ACCEPT_TOKEN sym_identifier (
        if (lookahead =? "l") then ADVANCE 112 else
        if (("0" <=? lookahead) && (lookahead <=? "9")) || (("A" <=? lookahead) && (lookahead <=? "Z")) || (lookahead =? "_") || (("a" <=? lookahead) && (lookahead <=? "z")) then ADVANCE 140 else
        END_STATE)
  | 114 =>
      ACCEPT_TOKEN sym_identifier (
        if (lookahead =? "l") then ADVANCE 105 else
        if (("0" <=? lookahead) && (lookahead <=? "9")) || (("A" <=? lookahead) && (lookahead <=? "Z")) || (lookahead =? "_") || (("a" <=? lookahead) && (lookahead <=? "z")) then ADVANCE 140 else
        END_STATE)
  | 115 =>
      ACCEPT_TOKEN sym_identifier (
        if (lookahead =? "m") then ADVANCE 122 else
        if (lookahead =? "n") then ADVANCE 123 else
        if (("0" <=? lookahead) && (lookahead <=? "9")) || (("A" <=? lookahead) && (lookahead <=? "Z")) || (lookahead =? "_") || (("a" <=? lookahead) && (lookahead <=? "z")) then ADVANCE 140 else
        END_STATE)
  | 116 =>
      ACCEPT_TOKEN sym_identifier (
        if (lookahead =? "n") then ADVANCE 49 else
        if (("0" <=? lookahead) && (lookahead <=? "9")) || (("A" <=? lookahead) && (lookahead <=? "Z")) || (lookahead =? "_") || (("a" <=? lookahead) && (lookahead <=? "z")) then ADVANCE 140 else
        END_STATE)
  | 117 =>
      ACCEPT_TOKEN sym_identifier (
        if (lookahead =? "n") then ADVANCE 53 else
        if (("0" <=? lookahead) && (lookahead <=? "9")) || (("A" <=? lookahead) && (lookahead <=? "Z")) || (lookahead =? "_") || (("a" <=? lookahead) && (lookahead <=? "z")) then ADVANCE 140 else
        END_STATE)
  | 118 =>
      ACCEPT_TOKEN sym_identifier (
        if (lookahead =? "n") then ADVANCE 106 else
        if (("0" <=? lookahead) && (lookahead <=? "9")) || (("A" <=? lookahead) && (lookahead <=? "Z")) || (lookahead =? "_") || (("a" <=? lookahead) && (lookahead <=? "z")) then ADVANCE 140 else
        END_STATE)
  | 119 =>
      ACCEPT_TOKEN sym_identifier (
        if (lookahead =? "o") then ADVANCE 116 else
        if (("0" <=? lookahead) && (lookahead <=? "9")) || (("A" <=? lookahead) && (lookahead <=? "Z")) || (lookahead =? "_") || (("a" <=? lookahead) && (lookahead <=? "z")) then ADVANCE 140 else
        END_STATE)
  | 120 =>
      ACCEPT_TOKEN sym_identifier (
        if (lookahead =? "o") then ADVANCE 128 else
        if (("0" <=? lookahead) && (lookahead <=? "9")) || (("A" <=? lookahead) && (lookahead <=? "Z")) || (lookahead =? "_") || (("a" <=? lookahead) && (lookahead <=? "z")) then ADVANCE 140 else
        END_STATE)
  | 121 =>
      ACCEPT_TOKEN sym_identifier (
        if (lookahead =? "o") then ADVANCE 117 else
        if (("0" <=? lookahead) && (lookahead <=? "9")) || (("A" <=? lookahead) && (lookahead <=? "Z")) || (lookahead =? "_") || (("a" <=? lookahead) && (lookahead <=? "z")) then ADVANCE 140 else
        END_STATE)
  | 122 =>
      ACCEPT_TOKEN sym_identifier (
        if (lookahead =? "p") then ADVANCE 120 else
        if (("0" <=? lookahead) && (lookahead <=? "9")) || (("A" <=? lookahead) && (lookahead <=? "Z")) || (lookahead =? "_") || (("a" <=? lookahead) && (lookahead <=? "z")) then ADVANCE 140 else
        END_STATE)
  | 123 =>
      ACCEPT_TOKEN sym_identifier (
        if (lookahead =? "p") then ADVANCE 138 else
        if (("0" <=? lookahead) && (lookahead <=? "9")) || (("A" <=? lookahead) && (lookahead <=? "Z")) || (lookahead =? "_") || (("a" <=? lookahead) && (lookahead <=? "z")) then ADVANCE 140 else
        END_STATE)
  | 124 =>
      ACCEPT_TOKEN sym_identifier (
        if (lookahead =? "p") then ADVANCE 139 else
        if (("0" <=? lookahead) && (lookahead <=? "9")) || (("A" <=? lookahead) && (lookahead <=? "Z")) || (lookahead =? "_") || (("a" <=? lookahead) && (lookahead <=? "z")) then ADVANCE 140 else
        END_STATE)
  | 125 =>
      ACCEPT_TOKEN sym_identifier (
        if (lookahead =? "r") then ADVANCE 51 else
        if (("0" <=? lookahead) && (lookahead <=? "9")) || (("A" <=? lookahead) && (lookahead <=? "Z")) || (lookahead =? "_") || (("a" <=? lookahead) && (lookahead <=? "z")) then ADVANCE 140 else
        END_STATE)
  | 126 =>
      ACCEPT_TOKEN sym_identifier (
        if (lookahead =? "r") then ADVANCE 135 else
        if (("0" <=? lookahead) && (lookahead <=? "9")) || (("A" <=? lookahead) && (lookahead <=? "Z")) || (lookahead =? "_") || (("a" <=? lookahead) && (lookahead <=? "z")) then ADVANCE 140 else
        END_STATE)
  | 127 =>
      ACCEPT_TOKEN sym_identifier (
        if (lookahead =? "r") then ADVANCE 109 else
        if (("0" <=? lookahead) && (lookahead <=? "9")) || (("A" <=? lookahead) && (lookahead <=? "Z")) || (lookahead =? "_") || (("a" <=? lookahead) && (lookahead <=? "z")) then ADVANCE 140 else
        END_STATE)
  | 128 =>
      ACCEPT_TOKEN sym_identifier (
        if (lookahead =? "r") then ADVANCE 131 else
        if (("0" <=? lookahead) && (lookahead <=? "9")) || (("A" <=? lookahead) && (lookahead <=? "Z")) || (lookahead =? "_") || (("a" <=? lookahead) && (lookahead <=? "z")) then ADVANCE 140 else
        END_STATE)
  | 129 =>
      ACCEPT_TOKEN sym_identifier (
        if (lookahead =? "s") then ADVANCE 104 else
        if (("0" <=? lookahead) && (lookahead <=? "9")) || (("A" <=? lookahead) && (lookahead <=? "Z")) || (lookahead =? "_") || (("a" <=? lookahead) && (lookahead <=? "z")) then ADVANCE 140 else
        END_STATE)
  | 130 =>
      ACCEPT_TOKEN sym_identifier (
        if (lookahead =? "t") then ADVANCE 59 else
        if (("0" <=? lookahead) && (lookahead <=? "9")) || (("A" <=? lookahead) && (lookahead <=? "Z")) || (lookahead =? "_") || (("a" <=? lookahead) && (lookahead <=? "z")) then ADVANCE 140 else
        END_STATE)
  | 131 =>
      ACCEPT_TOKEN sym_identifier (
        if (lookahead =? "t") then ADVANCE 62 else
        if (("0" <=? lookahead) && (lookahead <=? "9")) || (("A" <=? lookahead) && (lookahead <=? "Z")) || (lookahead =? "_") || (("a" <=? lookahead) && (lookahead <=? "z")) then ADVANCE 140 else
        END_STATE)
  | 132 =>
      ACCEPT_TOKEN sym_identifier (
        if (lookahead =? "t") then ADVANCE 55 else
        if (("0" <=? lookahead) && (lookahead <=? "9")) || (("A" <=? lookahead) && (lookahead <=? "Z")) || (lookahead =? "_") || (("a" <=? lookahead) && (lookahead <=? "z")) then ADVANCE 140 else
        END_STATE)
  | 133 =>
      ACCEPT_TOKEN sym_identifier (
        if (lookahead =? "t") then ADVANCE 110 else
        if (("0" <=? lookahead) && (lookahead <=? "9")) || (("A" <=? lookahead) && (lookahead <=? "Z")) || (lookahead =? "_") || (("a" <=? lookahead) && (lookahead <=? "z")) then ADVANCE 140 else
        END_STATE)
  | 134 =>
      ACCEPT_TOKEN sym_identifier (
        if (lookahead =? "t") then ADVANCE 124 else
        if (("0" <=? lookahead) && (lookahead <=? "9")) || (("A" <=? lookahead) && (lookahead <=? "Z")) || (lookahead =? "_") || (("a" <=? lookahead) && (lookahead <=? "z")) then ADVANCE 140 else
        END_STATE)
  | 135 =>
      ACCEPT_TOKEN sym_identifier (
        if (lookahead =? "u") then ADVANCE 103 else
        if (("0" <=? lookahead) && (lookahead <=? "9")) || (("A" <=? lookahead) && (lookahead <=? "Z")) || (lookahead =? "_") || (("a" <=? lookahead) && (lookahead <=? "z")) then ADVANCE 140 else
        END_STATE)
  | 136 =>
      ACCEPT_TOKEN sym_identifier (
        if (lookahead =? "u") then ADVANCE 134 else
        if (("0" <=? lookahead) && (lookahead <=? "9")) || (("A" <=? lookahead) && (lookahead <=? "Z")) || (lookahead =? "_") || (("a" <=? lookahead) && (lookahead <=? "z")) then ADVANCE 140 else
        END_STATE)
  | 137 =>
      ACCEPT_TOKEN sym_identifier (
        if (lookahead =? "u") then ADVANCE 113 else
        if (("0" <=? lookahead) && (lookahead <=? "9")) || (("A" <=? lookahead) && (lookahead <=? "Z")) || (lookahead =? "_") || (("a" <=? lookahead) && (lookahead <=? "z")) then ADVANCE 140 else
        END_STATE)
  | 138 =>
      ACCEPT_TOKEN sym_identifier (
        if (lookahead =? "u") then ADVANCE 130 else
        if (("0" <=? lookahead) && (lookahead <=? "9")) || (("A" <=? lookahead) && (lookahead <=? "Z")) || (lookahead =? "_") || (("a" <=? lookahead) && (lookahead <=? "z")) then ADVANCE 140 else
        END_STATE)
  | 139 =>
      ACCEPT_TOKEN sym_identifier (
        if (lookahead =? "u") then ADVANCE 132 else
        if (("0" <=? lookahead) && (lookahead <=? "9")) || (("A" <=? lookahead) && (lookahead <=? "Z")) || (lookahead =? "_") || (("a" <=? lookahead) && (lookahead <=? "z")) then ADVANCE 140 else
        END_STATE)
  | 140 =>
      ACCEPT_TOKEN sym_identifier (
        if (("0" <=? lookahead) && (lookahead <=? "9")) || (("A" <=? lookahead) && (lookahead <=? "Z")) || (lookahead =? "_") || (("a" <=? lookahead) && (lookahead <=? "z")) then ADVANCE 140 else
        END_STATE)
  | 141 =>
      ACCEPT_TOKEN anon_sym_POUND (
        END_STATE)
  | 142 =>
      ACCEPT_TOKEN anon_sym_POUND (
        if (lookahead =? "*") then ADVANCE 159 else
        if (lookahead !=? 0) then ADVANCE 9 else
        END_STATE)
  | 143 =>
      ACCEPT_TOKEN anon_sym_POUND (
        if (lookahead !=? 0) && (lookahead !=? 10) then ADVANCE 148 else
        END_STATE)
  | 144 =>
      ACCEPT_TOKEN anon_sym_POUND (
        if (lookahead !=? 0) && (lookahead !=? 34) then ADVANCE 69 else
        END_STATE)
  | 145 =>
      ACCEPT_TOKEN anon_sym_POUND (
        if (lookahead !=? 0) && (lookahead !=? "'") then ADVANCE 73 else
        END_STATE)
  | 146 =>
      ACCEPT_TOKEN aux_sym_comment_token1 (
        if (lookahead =? "#") then ADVANCE 143 else
        if (lookahead =? "/") then ADVANCE 147 else
        if (lookahead =? 9) || (lookahead =? 13) || (lookahead =? " ") then ADVANCE 146 else
        if (lookahead !=? 0) && (lookahead !=? 10) then ADVANCE 148 else
        END_STATE)
  | 147 =>
      ACCEPT_TOKEN aux_sym_comment_token1 (
        if (lookahead =? "*") then ADVANCE 156 else
        if (lookahead =? "/") then ADVANCE 151 else
        if (lookahead !=? 0) && (lookahead !=? 10) then ADVANCE 148 else
        END_STATE)
  | 148 =>
      ACCEPT_TOKEN aux_sym_comment_token1 (
        if (lookahead !=? 0) && (lookahead !=? 10) then ADVANCE 148 else
        END_STATE)
  | 149 =>
      ACCEPT_TOKEN anon_sym_SLASH_SLASH (
        END_STATE)
  | 150 =>
      ACCEPT_TOKEN anon_sym_SLASH_SLASH (
        if (lookahead =? "*") then ADVANCE 159 else
        if (lookahead !=? 0) then ADVANCE 9 else
        END_STATE)
  | 151 =>
      ACCEPT_TOKEN anon_sym_SLASH_SLASH (
        if (lookahead !=? 0) && (lookahead !=? 10) then ADVANCE 148 else
        END_STATE)
  | 152 =>
      ACCEPT_TOKEN anon_sym_SLASH_SLASH (
        if (lookahead !=? 0) && (lookahead !=? 34) then ADVANCE 69 else
        END_STATE)
  | 153 =>
      ACCEPT_TOKEN anon_sym_SLASH_SLASH (
        if (lookahead !=? 0) && (lookahead !=? "'") then ADVANCE 73 else
        END_STATE)
  | 154 =>
      ACCEPT_TOKEN anon_sym_SLASH_STAR (
        END_STATE)
  | 155 =>
      ACCEPT_TOKEN anon_sym_SLASH_STAR (
        if (lookahead =? "*") then ADVANCE 159 else
        if (lookahead !=? 0) && (lookahead !=? "/") then ADVANCE 9 else
        END_STATE)
  | 156 =>
      ACCEPT_TOKEN anon_sym_SLASH_STAR (
        if (lookahead !=? 0) && (lookahead !=? 10) then ADVANCE 148 else
        END_STATE)
  | 157 =>
      ACCEPT_TOKEN anon_sym_SLASH_STAR (
        if (lookahead !=? 0) && (lookahead !=? 34) then ADVANCE 69 else
        END_STATE)
  | 158 =>
      ACCEPT_TOKEN anon_sym_SLASH_STAR (
        if (lookahead !=? 0) && (lookahead !=? "'") then ADVANCE 73 else
        END_STATE)
  | 159 =>
      ACCEPT_TOKEN aux_sym_comment_token2 (
        if (lookahead =? "*") then ADVANCE 159 else
        if (lookahead !=? 0) && (lookahead !=? "/") then ADVANCE 9 else
        END_STATE)
  | _ => NO_TOKEN END_STATE
  end.

End LexTable.
Export LexTable.

(** ** Lex modes, parse tables and parse actions *)

Definition ts_lex_modes : list (TSStateId * TSStateId) :=
  [ (0, 0); (1, 46); (2, 2); (3, 2); (4, 2); (5, 2);
    (6, 2); (7, 2); (8, 2); (9, 2); (10, 2); (11, 2);
    (12, 2); (13, 2); (14, 2); (15, 2); (16, 2); (17, 46);
    (18, 2); (19, 2); (20, 2); (21, 46); (22, 46); (23, 46);
    (24, 46); (25, 46); (26, 46); (27, 46); (28, 46); (29, 46);
    (30, 46); (31, 46); (32, 46); (33, 46); (34, 46); (35, 46);
    (36, 46); (37, 46); (38, 46); (39, 46); (40, 46); (41, 46);
    (42, 46); (43, 46); (44, 46); (45, 46); (46, 46); (47, 1);
    (48, 46); (49, 46); (50, 46); (51, 46); (52, 46); (53, 46);
    (54, 46); (55, 1); (56, 1); (57, 46); (58, 46); (59, 1);
    (60, 1); (61, 1); (62, 1); (63, 46); (64, 0); (65, 1);
    (66, 1); (67, 0); (68, 1); (69, 1); (70, 0); (71, 0);
    (72, 1); (73, 0); (74, 1); (75, 1); (76, 1); (77, 1);
    (78, 1); (79, 1); (80, 0); (81, 1); (82, 1); (83, 1);
    (84, 1); (85, 1); (86, 1); (87, 1); (88, 1); (89, 1);
    (90, 1); (91, 1); (92, 1); (93, 1); (94, 1); (95, 0);
    (96, 0); (97, 1); (98, 0); (99, 0); (100, 0); (101, 0);
    (102, 0); (103, 1); (104, 1); (105, 0); (106, 0); (107, 0);
    (108, 0); (109, 0); (110, 0); (111, 0); (112, 0); (113, 0);
    (114, 0); (115, 0); (116, 0); (117, 0); (118, 0); (119, 1);
    (120, 0); (121, 0); (122, 0); (123, 1); (124, 0); (125, 0);
    (126, 0); (127, 1); (128, 0); (129, 0); (130, 0); (131, 0);
    (132, 71); (133, 0); (134, 0); (135, 67); (136, 0); (137, 4);
    (138, 0); (139, 0); (140, 0); (141, 6); (142, 0); (143, 146);
    (144, 0); (145, 7); (146, 0); (147, 4); (148, 6); (149, 67);
    (150, 71); (151, NO_LEX_STATE); (152, NO_LEX_STATE) ].

Definition ts_parse_table : list (TSStateId * list (TSSymbol * Z)) :=
  [
    (0,
      [ (sym_comment, STATE 0);
        (ts_builtin_sym_end, ACTIONS 1);
        (anon_sym_addon, ACTIONS 1);
        (anon_sym_signer, ACTIONS 1);
        (anon_sym_action, ACTIONS 1);
        (anon_sym_output, ACTIONS 1);
        (anon_sym_variable, ACTIONS 1);
        (anon_sym_input, ACTIONS 1);
        (anon_sym_EQ, ACTIONS 1);
        (anon_sym_import, ACTIONS 1);
        (anon_sym_LBRACE, ACTIONS 1);
        (anon_sym_RBRACE, ACTIONS 1);
        (anon_sym_DQUOTE, ACTIONS 1);
        (anon_sym_SQUOTE, ACTIONS 1);
        (anon_sym_DQUOTE_DQUOTE_DQUOTE, ACTIONS 1);
        (aux_sym_number_token1, ACTIONS 1);
        (aux_sym_number_token2, ACTIONS 1);
        (aux_sym_number_token3, ACTIONS 1);
        (anon_sym_true, ACTIONS 1);
        (anon_sym_false, ACTIONS 1);
        (sym_null, ACTIONS 1);
        (anon_sym_LBRACK, ACTIONS 1);
        (anon_sym_COMMA, ACTIONS 1);
        (anon_sym_RBRACK, ACTIONS 1);
        (anon_sym_COLON, ACTIONS 1);
        (anon_sym_DOT, ACTIONS 1);
        (anon_sym_LPAREN, ACTIONS 1);
        (anon_sym_RPAREN, ACTIONS 1);
        (anon_sym_STAR, ACTIONS 1);
        (anon_sym_SLASH, ACTIONS 1);
        (anon_sym_PLUS, ACTIONS 1);
        (anon_sym_DASH, ACTIONS 1);
        (sym_identifier, ACTIONS 1);
        (anon_sym_POUND, ACTIONS 3);
        (anon_sym_SLASH_SLASH, ACTIONS 5);
        (anon_sym_SLASH_STAR, ACTIONS 5) ]);
    (1,
      [ (sym_runbook, STATE 142);
        (sym__statement, STATE 48);
        (sym_addon_block, STATE 51);
        (sym_signer_block, STATE 51);
        (sym_action_block, STATE 51);
        (sym_output_block, STATE 51);
        (sym_variable_declaration, STATE 51);
        (sym_input_declaration, STATE 51);
        (sym_import_statement, STATE 51);
        (sym_comment, STATE 1);
        (aux_sym_runbook_repeat1, STATE 28);
        (ts_builtin_sym_end, ACTIONS 7);
        (anon_sym_addon, ACTIONS 9);
        (anon_sym_signer, ACTIONS 11);
        (anon_sym_action, ACTIONS 13);
        (anon_sym_output, ACTIONS 15);
        (anon_sym_variable, ACTIONS 17);
        (anon_sym_input, ACTIONS 19);
        (anon_sym_import, ACTIONS 21);
        (anon_sym_POUND, ACTIONS 3);
        (anon_sym_SLASH_SLASH, ACTIONS 5);
        (anon_sym_SLASH_STAR, ACTIONS 5) ]) ].

Definition ts_small_parse_table : list Z :=
  [
    (* [0] = *) 18;
      ACTIONS 3; 1; anon_sym_POUND;
      ACTIONS 23; 1; anon_sym_LBRACE;
      ACTIONS 25; 1; anon_sym_DQUOTE;
      ACTIONS 27; 1; anon_sym_SQUOTE;
      ACTIONS 29; 1; anon_sym_DQUOTE_DQUOTE_DQUOTE;
      ACTIONS 33; 1; aux_sym_number_token3;
      ACTIONS 37; 1; sym_null;
      ACTIONS 39; 1; anon_sym_LBRACK;
      ACTIONS 41; 1; anon_sym_COMMA;
      ACTIONS 43; 1; anon_sym_RBRACK;
      ACTIONS 45; 1; sym_identifier;
      STATE 2; 1; sym_comment;
      STATE 25; 1; sym_index_access;
      STATE 70; 1; sym__expression;
      ACTIONS 5; 2; anon_sym_SLASH_SLASH; anon_sym_SLASH_STAR;
      ACTIONS 31; 2; aux_sym_number_token1; aux_sym_number_token2;
      ACTIONS 35; 2; anon_sym_true; anon_sym_false;
      STATE 32; 8; sym_string; sym_number; sym_boolean; sym_array; sym_object; sym_reference; sym_function_call; sym_binary_expression;
    (* [65] = *) 18;
      ACTIONS 3; 1; anon_sym_POUND;
      ACTIONS 23; 1; anon_sym_LBRACE;
      ACTIONS 25; 1; anon_sym_DQUOTE;
      ACTIONS 27; 1; anon_sym_SQUOTE;
      ACTIONS 29; 1; anon_sym_DQUOTE_DQUOTE_DQUOTE;
      ACTIONS 33; 1; aux_sym_number_token3;
      ACTIONS 37; 1; sym_null;
      ACTIONS 39; 1; anon_sym_LBRACK;
      ACTIONS 45; 1; sym_identifier;
      ACTIONS 47; 1; anon_sym_COMMA;
      ACTIONS 49; 1; anon_sym_RBRACK;
      STATE 3; 1; sym_comment;
      STATE 25; 1; sym_index_access;
      STATE 73; 1; sym__expression;
      ACTIONS 5; 2; anon_sym_SLASH_SLASH; anon_sym_SLASH_STAR;
      ACTIONS 31; 2; aux_sym_number_token1; aux_sym_number_token2;
      ACTIONS 35; 2; anon_sym_true; anon_sym_false;
      STATE 32; 8; sym_string; sym_number; sym_boolean; sym_array; sym_object; sym_reference; sym_function_call; sym_binary_expression;
    (* [130] = *) 17;
      ACTIONS 3; 1; anon_sym_POUND;
      ACTIONS 23; 1; anon_sym_LBRACE;
      ACTIONS 25; 1; anon_sym_DQUOTE;
      ACTIONS 27; 1; anon_sym_SQUOTE;
      ACTIONS 29; 1; anon_sym_DQUOTE_DQUOTE_DQUOTE;
      ACTIONS 33; 1; aux_sym_number_token3;
      ACTIONS 37; 1; sym_null;
      ACTIONS 39; 1; anon_sym_LBRACK;
      ACTIONS 45; 1; sym_identifier;
      ACTIONS 51; 1; anon_sym_RBRACK;
      STATE 4; 1; sym_comment;
      STATE 25; 1; sym_index_access;
      STATE 64; 1; sym__expression;
      ACTIONS 5; 2; anon_sym_SLASH_SLASH; anon_sym_SLASH_STAR;
      ACTIONS 31; 2; aux_sym_number_token1; aux_sym_number_token2;
      ACTIONS 35; 2; anon_sym_true; anon_sym_false;
      STATE 32; 8; sym_string; sym_number; sym_boolean; sym_array; sym_object; sym_reference; sym_function_call; sym_binary_expression;
    (* [192] = *) 17;
      ACTIONS 3; 1; anon_sym_POUND;
      ACTIONS 23; 1; anon_sym_LBRACE;
      ACTIONS 25; 1; anon_sym_DQUOTE;
      ACTIONS 27; 1; anon_sym_SQUOTE;
      ACTIONS 29; 1; anon_sym_DQUOTE_DQUOTE_DQUOTE;
      ACTIONS 33; 1; aux_sym_number_token3;
      ACTIONS 37; 1; sym_null;
      ACTIONS 39; 1; anon_sym_LBRACK;
      ACTIONS 45; 1; sym_identifier;
      ACTIONS 53; 1; anon_sym_RBRACK;
      STATE 5; 1; sym_comment;
      STATE 25; 1; sym_index_access;
      STATE 64; 1; sym__expression;
      ACTIONS 5; 2; anon_sym_SLASH_SLASH; anon_sym_SLASH_STAR;
      ACTIONS 31; 2; aux_sym_number_token1; aux_sym_number_token2;
      ACTIONS 35; 2; anon_sym_true; anon_sym_false;
      STATE 32; 8; sym_string; sym_number; sym_boolean; sym_array; sym_object; sym_reference; sym_function_call; sym_binary_expression;
    (* [254] = *) 17;
      ACTIONS 3; 1; anon_sym_POUND;
      ACTIONS 23; 1; anon_sym_LBRACE;
      ACTIONS 25; 1; anon_sym_DQUOTE;
      ACTIONS 27; 1; anon_sym_SQUOTE;
      ACTIONS 29; 1; anon_sym_DQUOTE_DQUOTE_DQUOTE;
      ACTIONS 33; 1; aux_sym_number_token3;
      ACTIONS 37; 1; sym_null;
      ACTIONS 39; 1; anon_sym_LBRACK;
      ACTIONS 45; 1; sym_identifier;
      ACTIONS 55; 1; anon_sym_RBRACK;
      STATE 6; 1; sym_comment;
      STATE 25; 1; sym_index_access;
      STATE 64; 1; sym__expression;
      ACTIONS 5; 2; anon_sym_SLASH_SLASH; anon_sym_SLASH_STAR;
      ACTIONS 31; 2; aux_sym_number_token1; aux_sym_number_token2;
      ACTIONS 35; 2; anon_sym_true; anon_sym_false;
      STATE 32; 8; sym_string; sym_number; sym_boolean; sym_array; sym_object; sym_reference; sym_function_call; sym_binary_expression;
    (* [316] = *) 17;
      ACTIONS 3; 1; anon_sym_POUND;
      ACTIONS 23; 1; anon_sym_LBRACE;
      ACTIONS 25; 1; anon_sym_DQUOTE;
      ACTIONS 27; 1; anon_sym_SQUOTE;
      ACTIONS 29; 1; anon_sym_DQUOTE_DQUOTE_DQUOTE;
      ACTIONS 33; 1; aux_sym_number_token3;
      ACTIONS 37; 1; sym_null;
      ACTIONS 39; 1; anon_sym_LBRACK;
      ACTIONS 45; 1; sym_identifier;
      ACTIONS 57; 1; anon_sym_RBRACK;
      STATE 7; 1; sym_comment;
      STATE 25; 1; sym_index_access;
      STATE 64; 1; sym__expression;
      ACTIONS 5; 2; anon_sym_SLASH_SLASH; anon_sym_SLASH_STAR;
      ACTIONS 31; 2; aux_sym_number_token1; aux_sym_number_token2;
      ACTIONS 35; 2; anon_sym_true; anon_sym_false;
      STATE 32; 8; sym_string; sym_number; sym_boolean; sym_array; sym_object; sym_reference; sym_function_call; sym_binary_expression;
    (* [378] = *) 17;
      ACTIONS 3; 1; anon_sym_POUND;
      ACTIONS 23; 1; anon_sym_LBRACE;
      ACTIONS 25; 1; anon_sym_DQUOTE;
      ACTIONS 27; 1; anon_sym_SQUOTE;
      ACTIONS 29; 1; anon_sym_DQUOTE_DQUOTE_DQUOTE;
      ACTIONS 33; 1; aux_sym_number_token3;
      ACTIONS 37; 1; sym_null;
      ACTIONS 39; 1; anon_sym_LBRACK;
      ACTIONS 45; 1; sym_identifier;
      ACTIONS 59; 1; anon_sym_RPAREN;
      STATE 8; 1; sym_comment;
      STATE 25; 1; sym_index_access;
      STATE 67; 1; sym__expression;
      ACTIONS 5; 2; anon_sym_SLASH_SLASH; anon_sym_SLASH_STAR;
      ACTIONS 31; 2; aux_sym_number_token1; aux_sym_number_token2;
      ACTIONS 35; 2; anon_sym_true; anon_sym_false;
      STATE 32; 8; sym_string; sym_number; sym_boolean; sym_array; sym_object; sym_reference; sym_function_call; sym_binary_expression;
    (* [440] = *) 17;
      ACTIONS 3; 1; anon_sym_POUND;
      ACTIONS 23; 1; anon_sym_LBRACE;
      ACTIONS 25; 1; anon_sym_DQUOTE;
      ACTIONS 27; 1; anon_sym_SQUOTE;
      ACTIONS 29; 1; anon_sym_DQUOTE_DQUOTE_DQUOTE;
      ACTIONS 33; 1; aux_sym_number_token3;
      ACTIONS 37; 1; sym_null;
      ACTIONS 39; 1; anon_sym_LBRACK;
      ACTIONS 45; 1; sym_identifier;
      ACTIONS 61; 1; anon_sym_RPAREN;
      STATE 9; 1; sym_comment;
      STATE 25; 1; sym_index_access;
      STATE 71; 1; sym__expression;
      ACTIONS 5; 2; anon_sym_SLASH_SLASH; anon_sym_SLASH_STAR;
      ACTIONS 31; 2; aux_sym_number_token1; aux_sym_number_token2;
      ACTIONS 35; 2; anon_sym_true; anon_sym_false;
      STATE 32; 8; sym_string; sym_number; sym_boolean; sym_array; sym_object; sym_reference; sym_function_call; sym_binary_expression;
    (* [502] = *) 16;
      ACTIONS 3; 1; anon_sym_POUND;
      ACTIONS 63; 1; anon_sym_LBRACE;
      ACTIONS 65; 1; anon_sym_DQUOTE;
      ACTIONS 67; 1; anon_sym_SQUOTE;
      ACTIONS 69; 1; anon_sym_DQUOTE_DQUOTE_DQUOTE;
      ACTIONS 73; 1; aux_sym_number_token3;
      ACTIONS 77; 1; sym_null;
      ACTIONS 79; 1; anon_sym_LBRACK;
      ACTIONS 81; 1; sym_identifier;
      STATE 10; 1; sym_comment;
      STATE 55; 1; sym_index_access;
      STATE 83; 1; sym__expression;
      ACTIONS 5; 2; anon_sym_SLASH_SLASH; anon_sym_SLASH_STAR;
      ACTIONS 71; 2; aux_sym_number_token1; aux_sym_number_token2;
      ACTIONS 75; 2; anon_sym_true; anon_sym_false;
      STATE 93; 8; sym_string; sym_number; sym_boolean; sym_array; sym_object; sym_reference; sym_function_call; sym_binary_expression;
    (* [561] = *) 16;
      ACTIONS 3; 1; anon_sym_POUND;
      ACTIONS 23; 1; anon_sym_LBRACE;
      ACTIONS 25; 1; anon_sym_DQUOTE;
      ACTIONS 27; 1; anon_sym_SQUOTE;
      ACTIONS 29; 1; anon_sym_DQUOTE_DQUOTE_DQUOTE;
      ACTIONS 33; 1; aux_sym_number_token3;
      ACTIONS 37; 1; sym_null;
      ACTIONS 39; 1; anon_sym_LBRACK;
      ACTIONS 45; 1; sym_identifier;
      STATE 11; 1; sym_comment;
      STATE 25; 1; sym_index_access;
      STATE 80; 1; sym__expression;
      ACTIONS 5; 2; anon_sym_SLASH_SLASH; anon_sym_SLASH_STAR;
      ACTIONS 31; 2; aux_sym_number_token1; aux_sym_number_token2;
      ACTIONS 35; 2; anon_sym_true; anon_sym_false;
      STATE 32; 8; sym_string; sym_number; sym_boolean; sym_array; sym_object; sym_reference; sym_function_call; sym_binary_expression;
    (* [620] = *) 16;
      ACTIONS 3; 1; anon_sym_POUND;
      ACTIONS 23; 1; anon_sym_LBRACE;
      ACTIONS 25; 1; anon_sym_DQUOTE;
      ACTIONS 27; 1; anon_sym_SQUOTE;
      ACTIONS 29; 1; anon_sym_DQUOTE_DQUOTE_DQUOTE;
      ACTIONS 33; 1; aux_sym_number_token3;
      ACTIONS 37; 1; sym_null;
      ACTIONS 39; 1; anon_sym_LBRACK;
      ACTIONS 45; 1; sym_identifier;
      STATE 12; 1; sym_comment;
      STATE 25; 1; sym_index_access;
      STATE 95; 1; sym__expression;
      ACTIONS 5; 2; anon_sym_SLASH_SLASH; anon_sym_SLASH_STAR;
      ACTIONS 31; 2; aux_sym_number_token1; aux_sym_number_token2;
      ACTIONS 35; 2; anon_sym_true; anon_sym_false;
      STATE 32; 8; sym_string; sym_number; sym_boolean; sym_array; sym_object; sym_reference; sym_function_call; sym_binary_expression;
    (* [679] = *) 16;
      ACTIONS 3; 1; anon_sym_POUND;
      ACTIONS 23; 1; anon_sym_LBRACE;
      ACTIONS 25; 1; anon_sym_DQUOTE;
      ACTIONS 27; 1; anon_sym_SQUOTE;
      ACTIONS 29; 1; anon_sym_DQUOTE_DQUOTE_DQUOTE;
      ACTIONS 33; 1; aux_sym_number_token3;
      ACTIONS 37; 1; sym_null;
      ACTIONS 39; 1; anon_sym_LBRACK;
      ACTIONS 45; 1; sym_identifier;
      STATE 13; 1; sym_comment;
      STATE 25; 1; sym_index_access;
      STATE 41; 1; sym__expression;
      ACTIONS 5; 2; anon_sym_SLASH_SLASH; anon_sym_SLASH_STAR;
      ACTIONS 31; 2; aux_sym_number_token1; aux_sym_number_token2;
      ACTIONS 35; 2; anon_sym_true; anon_sym_false;
      STATE 32; 8; sym_string; sym_number; sym_boolean; sym_array; sym_object; sym_reference; sym_function_call; sym_binary_expression;
    (* [738] = *) 16;
      ACTIONS 3; 1; anon_sym_POUND;
      ACTIONS 23; 1; anon_sym_LBRACE;
      ACTIONS 25; 1; anon_sym_DQUOTE;
      ACTIONS 27; 1; anon_sym_SQUOTE;
      ACTIONS 29; 1; anon_sym_DQUOTE_DQUOTE_DQUOTE;
      ACTIONS 33; 1; aux_sym_number_token3;
      ACTIONS 37; 1; sym_null;
      ACTIONS 39; 1; anon_sym_LBRACK;
      ACTIONS 45; 1; sym_identifier;
      STATE 14; 1; sym_comment;
      STATE 25; 1; sym_index_access;
      STATE 43; 1; sym__expression;
      ACTIONS 5; 2; anon_sym_SLASH_SLASH; anon_sym_SLASH_STAR;
      ACTIONS 31; 2; aux_sym_number_token1; aux_sym_number_token2;
      ACTIONS 35; 2; anon_sym_true; anon_sym_false;
      STATE 32; 8; sym_string; sym_number; sym_boolean; sym_array; sym_object; sym_reference; sym_function_call; sym_binary_expression;
    (* [797] = *) 16;
      ACTIONS 3; 1; anon_sym_POUND;
      ACTIONS 23; 1; anon_sym_LBRACE;
      ACTIONS 25; 1; anon_sym_DQUOTE;
      ACTIONS 27; 1; anon_sym_SQUOTE;
      ACTIONS 29; 1; anon_sym_DQUOTE_DQUOTE_DQUOTE;
      ACTIONS 33; 1; aux_sym_number_token3;
      ACTIONS 37; 1; sym_null;
      ACTIONS 39; 1; anon_sym_LBRACK;
      ACTIONS 45; 1; sym_identifier;
      STATE 15; 1; sym_comment;
      STATE 25; 1; sym_index_access;
      STATE 64; 1; sym__expression;
      ACTIONS 5; 2; anon_sym_SLASH_SLASH; anon_sym_SLASH_STAR;
      ACTIONS 31; 2; aux_sym_number_token1; aux_sym_number_token2;
      ACTIONS 35; 2; anon_sym_true; anon_sym_false;
      STATE 32; 8; sym_string; sym_number; sym_boolean; sym_array; sym_object; sym_reference; sym_function_call; sym_binary_expression;
    (* [856] = *) 16;
      ACTIONS 3; 1; anon_sym_POUND;
      ACTIONS 23; 1; anon_sym_LBRACE;
      ACTIONS 25; 1; anon_sym_DQUOTE;
      ACTIONS 27; 1; anon_sym_SQUOTE;
      ACTIONS 29; 1; anon_sym_DQUOTE_DQUOTE_DQUOTE;
      ACTIONS 33; 1; aux_sym_number_token3;
      ACTIONS 37; 1; sym_null;
      ACTIONS 39; 1; anon_sym_LBRACK;
      ACTIONS 45; 1; sym_identifier;
      STATE 16; 1; sym_comment;
      STATE 25; 1; sym_index_access;
      STATE 46; 1; sym__expression;
      ACTIONS 5; 2; anon_sym_SLASH_SLASH; anon_sym_SLASH_STAR;
      ACTIONS 31; 2; aux_sym_number_token1; aux_sym_number_token2;
      ACTIONS 35; 2; anon_sym_true; anon_sym_false;
      STATE 32; 8; sym_string; sym_number; sym_boolean; sym_array; sym_object; sym_reference; sym_function_call; sym_binary_expression;
    (* [915] = *) 5;
      ACTIONS 3; 1; anon_sym_POUND;
      STATE 17; 1; sym_comment;
      ACTIONS 5; 2; anon_sym_SLASH_SLASH; anon_sym_SLASH_STAR;
      ACTIONS 85; 2; anon_sym_DQUOTE; anon_sym_SLASH;
      ACTIONS 83; 20; ts_builtin_sym_end; anon_sym_addon; anon_sym_signer; anon_sym_action; anon_sym_output; anon_sym_variable; anon_sym_input; anon_sym_EQ; anon_sym_import; anon_sym_LBRACE; anon_sym_RBRACE; anon_sym_SQUOTE; anon_sym_DQUOTE_DQUOTE_DQUOTE; anon_sym_COMMA; anon_sym_RBRACK; anon_sym_COLON; anon_sym_RPAREN; anon_sym_STAR; anon_sym_PLUS; anon_sym_DASH;
    (* [952] = *) 16;
      ACTIONS 3; 1; anon_sym_POUND;
      ACTIONS 63; 1; anon_sym_LBRACE;
      ACTIONS 65; 1; anon_sym_DQUOTE;
      ACTIONS 67; 1; anon_sym_SQUOTE;
      ACTIONS 69; 1; anon_sym_DQUOTE_DQUOTE_DQUOTE;
      ACTIONS 73; 1; aux_sym_number_token3;
      ACTIONS 77; 1; sym_null;
      ACTIONS 79; 1; anon_sym_LBRACK;
      ACTIONS 81; 1; sym_identifier;
      STATE 18; 1; sym_comment;
      STATE 55; 1; sym_index_access;
      STATE 84; 1; sym__expression;
      ACTIONS 5; 2; anon_sym_SLASH_SLASH; anon_sym_SLASH_STAR;
      ACTIONS 71; 2; aux_sym_number_token1; aux_sym_number_token2;
      ACTIONS 75; 2; anon_sym_true; anon_sym_false;
      STATE 93; 8; sym_string; sym_number; sym_boolean; sym_array; sym_object; sym_reference; sym_function_call; sym_binary_expression;
    (* [1011] = *) 16;
      ACTIONS 3; 1; anon_sym_POUND;
      ACTIONS 63; 1; anon_sym_LBRACE;
      ACTIONS 65; 1; anon_sym_DQUOTE;
      ACTIONS 67; 1; anon_sym_SQUOTE;
      ACTIONS 69; 1; anon_sym_DQUOTE_DQUOTE_DQUOTE;
      ACTIONS 73; 1; aux_sym_number_token3;
      ACTIONS 77; 1; sym_null;
      ACTIONS 79; 1; anon_sym_LBRACK;
      ACTIONS 81; 1; sym_identifier;
      STATE 19; 1; sym_comment;
      STATE 55; 1; sym_index_access;
      STATE 77; 1; sym__expression;
      ACTIONS 5; 2; anon_sym_SLASH_SLASH; anon_sym_SLASH_STAR;
      ACTIONS 71; 2; aux_sym_number_token1; aux_sym_number_token2;
      ACTIONS 75; 2; anon_sym_true; anon_sym_false;
      STATE 93; 8; sym_string; sym_number; sym_boolean; sym_array; sym_object; sym_reference; sym_function_call; sym_binary_expression;
    (* [1070] = *) 16;
      ACTIONS 3; 1; anon_sym_POUND;
      ACTIONS 23; 1; anon_sym_LBRACE;
      ACTIONS 25; 1; anon_sym_DQUOTE;
      ACTIONS 27; 1; anon_sym_SQUOTE;
      ACTIONS 29; 1; anon_sym_DQUOTE_DQUOTE_DQUOTE;
      ACTIONS 33; 1; aux_sym_number_token3;
      ACTIONS 37; 1; sym_null;
      ACTIONS 39; 1; anon_sym_LBRACK;
      ACTIONS 45; 1; sym_identifier;
      STATE 20; 1; sym_comment;
      STATE 25; 1; sym_index_access;
      STATE 96; 1; sym__expression;
      ACTIONS 5; 2; anon_sym_SLASH_SLASH; anon_sym_SLASH_STAR;
      ACTIONS 31; 2; aux_sym_number_token1; aux_sym_number_token2;
      ACTIONS 35; 2; anon_sym_true; anon_sym_false;
      STATE 32; 8; sym_string; sym_number; sym_boolean; sym_array; sym_object; sym_reference; sym_function_call; sym_binary_expression;
    (* [1129] = *) 9;
      ACTIONS 3; 1; anon_sym_POUND;
      ACTIONS 89; 1; anon_sym_LBRACK;
      ACTIONS 91; 1; anon_sym_DOT;
      ACTIONS 93; 1; anon_sym_LPAREN;
      ACTIONS 95; 1; anon_sym_SLASH;
      STATE 21; 1; sym_comment;
      STATE 24; 1; aux_sym_reference_repeat1;
      ACTIONS 5; 2; anon_sym_SLASH_SLASH; anon_sym_SLASH_STAR;
      ACTIONS 87; 15; ts_builtin_sym_end; anon_sym_addon; anon_sym_signer; anon_sym_action; anon_sym_output; anon_sym_variable; anon_sym_input; anon_sym_import; anon_sym_RBRACE; anon_sym_COMMA; anon_sym_RBRACK; anon_sym_RPAREN; anon_sym_STAR; anon_sym_PLUS; anon_sym_DASH;
    (* [1172] = *) 6;
      ACTIONS 3; 1; anon_sym_POUND;
      ACTIONS 99; 1; anon_sym_DOT;
      ACTIONS 102; 1; anon_sym_SLASH;
      ACTIONS 5; 2; anon_sym_SLASH_SLASH; anon_sym_SLASH_STAR;
      STATE 22; 2; sym_comment; aux_sym_reference_repeat1;
      ACTIONS 97; 15; ts_builtin_sym_end; anon_sym_addon; anon_sym_signer; anon_sym_action; anon_sym_output; anon_sym_variable; anon_sym_input; anon_sym_import; anon_sym_RBRACE; anon_sym_COMMA; anon_sym_RBRACK; anon_sym_RPAREN; anon_sym_STAR; anon_sym_PLUS; anon_sym_DASH;
    (* [1207] = *) 6;
      ACTIONS 3; 1; anon_sym_POUND;
      ACTIONS 89; 1; anon_sym_LBRACK;
      ACTIONS 102; 1; anon_sym_SLASH;
      STATE 23; 1; sym_comment;
      ACTIONS 5; 2; anon_sym_SLASH_SLASH; anon_sym_SLASH_STAR;
      ACTIONS 97; 16; ts_builtin_sym_end; anon_sym_addon; anon_sym_signer; anon_sym_action; anon_sym_output; anon_sym_variable; anon_sym_input; anon_sym_import; anon_sym_RBRACE; anon_sym_COMMA; anon_sym_RBRACK; anon_sym_DOT; anon_sym_RPAREN; anon_sym_STAR; anon_sym_PLUS; anon_sym_DASH;
    (* [1242] = *) 7;
      ACTIONS 3; 1; anon_sym_POUND;
      ACTIONS 91; 1; anon_sym_DOT;
      ACTIONS 106; 1; anon_sym_SLASH;
      STATE 22; 1; aux_sym_reference_repeat1;
      STATE 24; 1; sym_comment;
      ACTIONS 5; 2; anon_sym_SLASH_SLASH; anon_sym_SLASH_STAR;
      ACTIONS 104; 15; ts_builtin_sym_end; anon_sym_addon; anon_sym_signer; anon_sym_action; anon_sym_output; anon_sym_variable; anon_sym_input; anon_sym_import; anon_sym_RBRACE; anon_sym_COMMA; anon_sym_RBRACK; anon_sym_RPAREN; anon_sym_STAR; anon_sym_PLUS; anon_sym_DASH;
    (* [1279] = *) 7;
      ACTIONS 3; 1; anon_sym_POUND;
      ACTIONS 91; 1; anon_sym_DOT;
      ACTIONS 95; 1; anon_sym_SLASH;
      STATE 24; 1; aux_sym_reference_repeat1;
      STATE 25; 1; sym_comment;
      ACTIONS 5; 2; anon_sym_SLASH_SLASH; anon_sym_SLASH_STAR;
      ACTIONS 87; 15; ts_builtin_sym_end; anon_sym_addon; anon_sym_signer; anon_sym_action; anon_sym_output; anon_sym_variable; anon_sym_input; anon_sym_import; anon_sym_RBRACE; anon_sym_COMMA; anon_sym_RBRACK; anon_sym_RPAREN; anon_sym_STAR; anon_sym_PLUS; anon_sym_DASH;
    (* [1316] = *) 5;
      ACTIONS 3; 1; anon_sym_POUND;
      ACTIONS 110; 1; anon_sym_SLASH;
      STATE 26; 1; sym_comment;
      ACTIONS 5; 2; anon_sym_SLASH_SLASH; anon_sym_SLASH_STAR;
      ACTIONS 108; 16; ts_builtin_sym_end; anon_sym_addon; anon_sym_signer; anon_sym_action; anon_sym_output; anon_sym_variable; anon_sym_input; anon_sym_import; anon_sym_RBRACE; anon_sym_COMMA; anon_sym_RBRACK; anon_sym_DOT; anon_sym_RPAREN; anon_sym_STAR; anon_sym_PLUS; anon_sym_DASH;
    (* [1348] = *) 5;
      ACTIONS 3; 1; anon_sym_POUND;
      ACTIONS 102; 1; anon_sym_SLASH;
      STATE 27; 1; sym_comment;
      ACTIONS 5; 2; anon_sym_SLASH_SLASH; anon_sym_SLASH_STAR;
      ACTIONS 97; 16; ts_builtin_sym_end; anon_sym_addon; anon_sym_signer; anon_sym_action; anon_sym_output; anon_sym_variable; anon_sym_input; anon_sym_import; anon_sym_RBRACE; anon_sym_COMMA; anon_sym_RBRACK; anon_sym_DOT; anon_sym_RPAREN; anon_sym_STAR; anon_sym_PLUS; anon_sym_DASH;
    (* [1380] = *) 14;
      ACTIONS 3; 1; anon_sym_POUND;
      ACTIONS 9; 1; anon_sym_addon;
      ACTIONS 11; 1; anon_sym_signer;
      ACTIONS 13; 1; anon_sym_action;
      ACTIONS 15; 1; anon_sym_output;
      ACTIONS 17; 1; anon_sym_variable;
      ACTIONS 19; 1; anon_sym_input;
      ACTIONS 21; 1; anon_sym_import;
      ACTIONS 112; 1; ts_builtin_sym_end;
      STATE 28; 1; sym_comment;
      STATE 29; 1; aux_sym_runbook_repeat1;
      STATE 48; 1; sym__statement;
      ACTIONS 5; 2; anon_sym_SLASH_SLASH; anon_sym_SLASH_STAR;
      STATE 51; 7; sym_addon_block; sym_signer_block; sym_action_block; sym_output_block; sym_variable_declaration; sym_input_declaration; sym_import_statement;
    (* [1430] = *) 13;
      ACTIONS 3; 1; anon_sym_POUND;
      ACTIONS 114; 1; ts_builtin_sym_end;
      ACTIONS 116; 1; anon_sym_addon;
      ACTIONS 119; 1; anon_sym_signer;
      ACTIONS 122; 1; anon_sym_action;
      ACTIONS 125; 1; anon_sym_output;
      ACTIONS 128; 1; anon_sym_variable;
      ACTIONS 131; 1; anon_sym_input;
      ACTIONS 134; 1; anon_sym_import;
      STATE 48; 1; sym__statement;
      ACTIONS 5; 2; anon_sym_SLASH_SLASH; anon_sym_SLASH_STAR;
      STATE 29; 2; sym_comment; aux_sym_runbook_repeat1;
      STATE 51; 7; sym_addon_block; sym_signer_block; sym_action_block; sym_output_block; sym_variable_declaration; sym_input_declaration; sym_import_statement;
    (* [1478] = *) 5;
      ACTIONS 3; 1; anon_sym_POUND;
      ACTIONS 139; 1; anon_sym_SLASH;
      STATE 30; 1; sym_comment;
      ACTIONS 5; 2; anon_sym_SLASH_SLASH; anon_sym_SLASH_STAR;
      ACTIONS 137; 15; ts_builtin_sym_end; anon_sym_addon; anon_sym_signer; anon_sym_action; anon_sym_output; anon_sym_variable; anon_sym_input; anon_sym_import; anon_sym_RBRACE; anon_sym_COMMA; anon_sym_RBRACK; anon_sym_RPAREN; anon_sym_STAR; anon_sym_PLUS; anon_sym_DASH;
    (* [1509] = *) 5;
      ACTIONS 3; 1; anon_sym_POUND;
      ACTIONS 143; 1; anon_sym_SLASH;
      STATE 31; 1; sym_comment;
      ACTIONS 5; 2; anon_sym_SLASH_SLASH; anon_sym_SLASH_STAR;
      ACTIONS 141; 15; ts_builtin_sym_end; anon_sym_addon; anon_sym_signer; anon_sym_action; anon_sym_output; anon_sym_variable; anon_sym_input; anon_sym_import; anon_sym_RBRACE; anon_sym_COMMA; anon_sym_RBRACK; anon_sym_RPAREN; anon_sym_STAR; anon_sym_PLUS; anon_sym_DASH;
    (* [1540] = *) 5;
      ACTIONS 3; 1; anon_sym_POUND;
      ACTIONS 147; 1; anon_sym_SLASH;
      STATE 32; 1; sym_comment;
      ACTIONS 5; 2; anon_sym_SLASH_SLASH; anon_sym_SLASH_STAR;
      ACTIONS 145; 15; ts_builtin_sym_end; anon_sym_addon; anon_sym_signer; anon_sym_action; anon_sym_output; anon_sym_variable; anon_sym_input; anon_sym_import; anon_sym_RBRACE; anon_sym_COMMA; anon_sym_RBRACK; anon_sym_RPAREN; anon_sym_STAR; anon_sym_PLUS; anon_sym_DASH;
    (* [1571] = *) 5;
      ACTIONS 3; 1; anon_sym_POUND;
      ACTIONS 151; 1; anon_sym_SLASH;
      STATE 33; 1; sym_comment;
      ACTIONS 5; 2; anon_sym_SLASH_SLASH; anon_sym_SLASH_STAR;
      ACTIONS 149; 15; ts_builtin_sym_end; anon_sym_addon; anon_sym_signer; anon_sym_action; anon_sym_output; anon_sym_variable; anon_sym_input; anon_sym_import; anon_sym_RBRACE; anon_sym_COMMA; anon_sym_RBRACK; anon_sym_RPAREN; anon_sym_STAR; anon_sym_PLUS; anon_sym_DASH;
    (* [1602] = *) 5;
      ACTIONS 3; 1; anon_sym_POUND;
      ACTIONS 155; 1; anon_sym_SLASH;
      STATE 34; 1; sym_comment;
      ACTIONS 5; 2; anon_sym_SLASH_SLASH; anon_sym_SLASH_STAR;
      ACTIONS 153; 15; ts_builtin_sym_end; anon_sym_addon; anon_sym_signer; anon_sym_action; anon_sym_output; anon_sym_variable; anon_sym_input; anon_sym_import; anon_sym_RBRACE; anon_sym_COMMA; anon_sym_RBRACK; anon_sym_RPAREN; anon_sym_STAR; anon_sym_PLUS; anon_sym_DASH;
    (* [1633] = *) 5;
      ACTIONS 3; 1; anon_sym_POUND;
      ACTIONS 159; 1; anon_sym_SLASH;
      STATE 35; 1; sym_comment;
      ACTIONS 5; 2; anon_sym_SLASH_SLASH; anon_sym_SLASH_STAR;
      ACTIONS 157; 15; ts_builtin_sym_end; anon_sym_addon; anon_sym_signer; anon_sym_action; anon_sym_output; anon_sym_variable; anon_sym_input; anon_sym_import; anon_sym_RBRACE; anon_sym_COMMA; anon_sym_RBRACK; anon_sym_RPAREN; anon_sym_STAR; anon_sym_PLUS; anon_sym_DASH;
    (* [1664] = *) 5;
      ACTIONS 3; 1; anon_sym_POUND;
      ACTIONS 163; 1; anon_sym_SLASH;
      STATE 36; 1; sym_comment;
      ACTIONS 5; 2; anon_sym_SLASH_SLASH; anon_sym_SLASH_STAR;
      ACTIONS 161; 15; ts_builtin_sym_end; anon_sym_addon; anon_sym_signer; anon_sym_action; anon_sym_output; anon_sym_variable; anon_sym_input; anon_sym_import; anon_sym_RBRACE; anon_sym_COMMA; anon_sym_RBRACK; anon_sym_RPAREN; anon_sym_STAR; anon_sym_PLUS; anon_sym_DASH;
    (* [1695] = *) 5;
      ACTIONS 3; 1; anon_sym_POUND;
      ACTIONS 167; 1; anon_sym_SLASH;
      STATE 37; 1; sym_comment;
      ACTIONS 5; 2; anon_sym_SLASH_SLASH; anon_sym_SLASH_STAR;
      ACTIONS 165; 15; ts_builtin_sym_end; anon_sym_addon; anon_sym_signer; anon_sym_action; anon_sym_output; anon_sym_variable; anon_sym_input; anon_sym_import; anon_sym_RBRACE; anon_sym_COMMA; anon_sym_RBRACK; anon_sym_RPAREN; anon_sym_STAR; anon_sym_PLUS; anon_sym_DASH;
    (* [1726] = *) 5;
      ACTIONS 3; 1; anon_sym_POUND;
      ACTIONS 171; 1; anon_sym_SLASH;
      STATE 38; 1; sym_comment;
      ACTIONS 5; 2; anon_sym_SLASH_SLASH; anon_sym_SLASH_STAR;
      ACTIONS 169; 15; ts_builtin_sym_end; anon_sym_addon; anon_sym_signer; anon_sym_action; anon_sym_output; anon_sym_variable; anon_sym_input; anon_sym_import; anon_sym_RBRACE; anon_sym_COMMA; anon_sym_RBRACK; anon_sym_RPAREN; anon_sym_STAR; anon_sym_PLUS; anon_sym_DASH;
    (* [1757] = *) 5;
      ACTIONS 3; 1; anon_sym_POUND;
      ACTIONS 175; 1; anon_sym_SLASH;
      STATE 39; 1; sym_comment;
      ACTIONS 5; 2; anon_sym_SLASH_SLASH; anon_sym_SLASH_STAR;
      ACTIONS 173; 15; ts_builtin_sym_end; anon_sym_addon; anon_sym_signer; anon_sym_action; anon_sym_output; anon_sym_variable; anon_sym_input; anon_sym_import; anon_sym_RBRACE; anon_sym_COMMA; anon_sym_RBRACK; anon_sym_RPAREN; anon_sym_STAR; anon_sym_PLUS; anon_sym_DASH;
    (* [1788] = *) 5;
      ACTIONS 3; 1; anon_sym_POUND;
      ACTIONS 179; 1; anon_sym_SLASH;
      STATE 40; 1; sym_comment;
      ACTIONS 5; 2; anon_sym_SLASH_SLASH; anon_sym_SLASH_STAR;
      ACTIONS 177; 15; ts_builtin_sym_end; anon_sym_addon; anon_sym_signer; anon_sym_action; anon_sym_output; anon_sym_variable; anon_sym_input; anon_sym_import; anon_sym_RBRACE; anon_sym_COMMA; anon_sym_RBRACK; anon_sym_RPAREN; anon_sym_STAR; anon_sym_PLUS; anon_sym_DASH;
    (* [1819] = *) 5;
      ACTIONS 3; 1; anon_sym_POUND;
      ACTIONS 183; 1; anon_sym_SLASH;
      STATE 41; 1; sym_comment;
      ACTIONS 5; 2; anon_sym_SLASH_SLASH; anon_sym_SLASH_STAR;
      ACTIONS 181; 15; ts_builtin_sym_end; anon_sym_addon; anon_sym_signer; anon_sym_action; anon_sym_output; anon_sym_variable; anon_sym_input; anon_sym_import; anon_sym_RBRACE; anon_sym_COMMA; anon_sym_RBRACK; anon_sym_RPAREN; anon_sym_STAR; anon_sym_PLUS; anon_sym_DASH;
    (* [1850] = *) 5;
      ACTIONS 3; 1; anon_sym_POUND;
      ACTIONS 187; 1; anon_sym_SLASH;
      STATE 42; 1; sym_comment;
      ACTIONS 5; 2; anon_sym_SLASH_SLASH; anon_sym_SLASH_STAR;
      ACTIONS 185; 15; ts_builtin_sym_end; anon_sym_addon; anon_sym_signer; anon_sym_action; anon_sym_output; anon_sym_variable; anon_sym_input; anon_sym_import; anon_sym_RBRACE; anon_sym_COMMA; anon_sym_RBRACK; anon_sym_RPAREN; anon_sym_STAR; anon_sym_PLUS; anon_sym_DASH;
    (* [1881] = *) 6;
      ACTIONS 3; 1; anon_sym_POUND;
      ACTIONS 189; 1; anon_sym_STAR;
      ACTIONS 191; 1; anon_sym_SLASH;
      STATE 43; 1; sym_comment;
      ACTIONS 5; 2; anon_sym_SLASH_SLASH; anon_sym_SLASH_STAR;
      ACTIONS 181; 14; ts_builtin_sym_end; anon_sym_addon; anon_sym_signer; anon_sym_action; anon_sym_output; anon_sym_variable; anon_sym_input; anon_sym_import; anon_sym_RBRACE; anon_sym_COMMA; anon_sym_RBRACK; anon_sym_RPAREN; anon_sym_PLUS; anon_sym_DASH;
    (* [1914] = *) 5;
      ACTIONS 3; 1; anon_sym_POUND;
      ACTIONS 195; 1; anon_sym_SLASH;
      STATE 44; 1; sym_comment;
      ACTIONS 5; 2; anon_sym_SLASH_SLASH; anon_sym_SLASH_STAR;
      ACTIONS 193; 15; ts_builtin_sym_end; anon_sym_addon; anon_sym_signer; anon_sym_action; anon_sym_output; anon_sym_variable; anon_sym_input; anon_sym_import; anon_sym_RBRACE; anon_sym_COMMA; anon_sym_RBRACK; anon_sym_RPAREN; anon_sym_STAR; anon_sym_PLUS; anon_sym_DASH;
    (* [1945] = *) 5;
      ACTIONS 3; 1; anon_sym_POUND;
      ACTIONS 199; 1; anon_sym_SLASH;
      STATE 45; 1; sym_comment;
      ACTIONS 5; 2; anon_sym_SLASH_SLASH; anon_sym_SLASH_STAR;
      ACTIONS 197; 15; ts_builtin_sym_end; anon_sym_addon; anon_sym_signer; anon_sym_action; anon_sym_output; anon_sym_variable; anon_sym_input; anon_sym_import; anon_sym_RBRACE; anon_sym_COMMA; anon_sym_RBRACK; anon_sym_RPAREN; anon_sym_STAR; anon_sym_PLUS; anon_sym_DASH;
    (* [1976] = *) 7;
      ACTIONS 3; 1; anon_sym_POUND;
      ACTIONS 189; 1; anon_sym_STAR;
      ACTIONS 191; 1; anon_sym_SLASH;
      STATE 46; 1; sym_comment;
      ACTIONS 5; 2; anon_sym_SLASH_SLASH; anon_sym_SLASH_STAR;
      ACTIONS 203; 2; anon_sym_PLUS; anon_sym_DASH;
      ACTIONS 201; 8; ts_builtin_sym_end; anon_sym_addon; anon_sym_signer; anon_sym_action; anon_sym_output; anon_sym_variable; anon_sym_input; anon_sym_import;
    (* [2007] = *) 9;
      ACTIONS 3; 1; anon_sym_POUND;
      ACTIONS 95; 1; anon_sym_SLASH;
      ACTIONS 205; 1; anon_sym_LBRACK;
      ACTIONS 207; 1; anon_sym_DOT;
      ACTIONS 209; 1; anon_sym_LPAREN;
      STATE 47; 1; sym_comment;
      STATE 56; 1; aux_sym_reference_repeat1;
      ACTIONS 5; 2; anon_sym_SLASH_SLASH; anon_sym_SLASH_STAR;
      ACTIONS 87; 5; anon_sym_RBRACE; anon_sym_STAR; anon_sym_PLUS; anon_sym_DASH; sym_identifier;
    (* [2040] = *) 4;
      ACTIONS 3; 1; anon_sym_POUND;
      STATE 48; 1; sym_comment;
      ACTIONS 5; 2; anon_sym_SLASH_SLASH; anon_sym_SLASH_STAR;
      ACTIONS 211; 8; ts_builtin_sym_end; anon_sym_addon; anon_sym_signer; anon_sym_action; anon_sym_output; anon_sym_variable; anon_sym_input; anon_sym_import;
    (* [2061] = *) 4;
      ACTIONS 3; 1; anon_sym_POUND;
      STATE 49; 1; sym_comment;
      ACTIONS 5; 2; anon_sym_SLASH_SLASH; anon_sym_SLASH_STAR;
      ACTIONS 213; 8; ts_builtin_sym_end; anon_sym_addon; anon_sym_signer; anon_sym_action; anon_sym_output; anon_sym_variable; anon_sym_input; anon_sym_import;
    (* [2082] = *) 4;
      ACTIONS 3; 1; anon_sym_POUND;
      STATE 50; 1; sym_comment;
      ACTIONS 5; 2; anon_sym_SLASH_SLASH; anon_sym_SLASH_STAR;
      ACTIONS 215; 8; ts_builtin_sym_end; anon_sym_addon; anon_sym_signer; anon_sym_action; anon_sym_output; anon_sym_variable; anon_sym_input; anon_sym_import;
    (* [2103] = *) 4;
      ACTIONS 3; 1; anon_sym_POUND;
      STATE 51; 1; sym_comment;
      ACTIONS 5; 2; anon_sym_SLASH_SLASH; anon_sym_SLASH_STAR;
      ACTIONS 217; 8; ts_builtin_sym_end; anon_sym_addon; anon_sym_signer; anon_sym_action; anon_sym_output; anon_sym_variable; anon_sym_input; anon_sym_import;
    (* [2124] = *) 4;
      ACTIONS 3; 1; anon_sym_POUND;
      STATE 52; 1; sym_comment;
      ACTIONS 5; 2; anon_sym_SLASH_SLASH; anon_sym_SLASH_STAR;
      ACTIONS 219; 8; ts_builtin_sym_end; anon_sym_addon; anon_sym_signer; anon_sym_action; anon_sym_output; anon_sym_variable; anon_sym_input; anon_sym_import;
    (* [2145] = *) 4;
      ACTIONS 3; 1; anon_sym_POUND;
      STATE 53; 1; sym_comment;
      ACTIONS 5; 2; anon_sym_SLASH_SLASH; anon_sym_SLASH_STAR;
      ACTIONS 221; 8; ts_builtin_sym_end; anon_sym_addon; anon_sym_signer; anon_sym_action; anon_sym_output; anon_sym_variable; anon_sym_input; anon_sym_import;
    (* [2166] = *) 4;
      ACTIONS 3; 1; anon_sym_POUND;
      STATE 54; 1; sym_comment;
      ACTIONS 5; 2; anon_sym_SLASH_SLASH; anon_sym_SLASH_STAR;
      ACTIONS 223; 8; ts_builtin_sym_end; anon_sym_addon; anon_sym_signer; anon_sym_action; anon_sym_output; anon_sym_variable; anon_sym_input; anon_sym_import;
    (* [2187] = *) 7;
      ACTIONS 3; 1; anon_sym_POUND;
      ACTIONS 95; 1; anon_sym_SLASH;
      ACTIONS 207; 1; anon_sym_DOT;
      STATE 55; 1; sym_comment;
      STATE 56; 1; aux_sym_reference_repeat1;
      ACTIONS 5; 2; anon_sym_SLASH_SLASH; anon_sym_SLASH_STAR;
      ACTIONS 87; 5; anon_sym_RBRACE; anon_sym_STAR; anon_sym_PLUS; anon_sym_DASH; sym_identifier;
    (* [2214] = *) 7;
      ACTIONS 3; 1; anon_sym_POUND;
      ACTIONS 106; 1; anon_sym_SLASH;
      ACTIONS 207; 1; anon_sym_DOT;
      STATE 56; 1; sym_comment;
      STATE 61; 1; aux_sym_reference_repeat1;
      ACTIONS 5; 2; anon_sym_SLASH_SLASH; anon_sym_SLASH_STAR;
      ACTIONS 104; 5; anon_sym_RBRACE; anon_sym_STAR; anon_sym_PLUS; anon_sym_DASH; sym_identifier;
    (* [2241] = *) 4;
      ACTIONS 3; 1; anon_sym_POUND;
      STATE 57; 1; sym_comment;
      ACTIONS 5; 2; anon_sym_SLASH_SLASH; anon_sym_SLASH_STAR;
      ACTIONS 225; 8; ts_builtin_sym_end; anon_sym_addon; anon_sym_signer; anon_sym_action; anon_sym_output; anon_sym_variable; anon_sym_input; anon_sym_import;
    (* [2262] = *) 4;
      ACTIONS 3; 1; anon_sym_POUND;
      STATE 58; 1; sym_comment;
      ACTIONS 5; 2; anon_sym_SLASH_SLASH; anon_sym_SLASH_STAR;
      ACTIONS 227; 8; ts_builtin_sym_end; anon_sym_addon; anon_sym_signer; anon_sym_action; anon_sym_output; anon_sym_variable; anon_sym_input; anon_sym_import;
    (* [2283] = *) 11;
      ACTIONS 3; 1; anon_sym_POUND;
      ACTIONS 25; 1; anon_sym_DQUOTE;
      ACTIONS 27; 1; anon_sym_SQUOTE;
      ACTIONS 29; 1; anon_sym_DQUOTE_DQUOTE_DQUOTE;
      ACTIONS 229; 1; anon_sym_RBRACE;
      ACTIONS 231; 1; anon_sym_COMMA;
      ACTIONS 233; 1; sym_identifier;
      STATE 59; 1; sym_comment;
      STATE 114; 1; sym_object_field;
      STATE 140; 1; sym_string;
      ACTIONS 5; 2; anon_sym_SLASH_SLASH; anon_sym_SLASH_STAR;
    (* [2318] = *) 6;
      ACTIONS 3; 1; anon_sym_POUND;
      ACTIONS 102; 1; anon_sym_SLASH;
      ACTIONS 205; 1; anon_sym_LBRACK;
      STATE 60; 1; sym_comment;
      ACTIONS 5; 2; anon_sym_SLASH_SLASH; anon_sym_SLASH_STAR;
      ACTIONS 97; 6; anon_sym_RBRACE; anon_sym_DOT; anon_sym_STAR; anon_sym_PLUS; anon_sym_DASH; sym_identifier;
    (* [2343] = *) 6;
      ACTIONS 3; 1; anon_sym_POUND;
      ACTIONS 102; 1; anon_sym_SLASH;
      ACTIONS 235; 1; anon_sym_DOT;
      ACTIONS 5; 2; anon_sym_SLASH_SLASH; anon_sym_SLASH_STAR;
      STATE 61; 2; sym_comment; aux_sym_reference_repeat1;
      ACTIONS 97; 5; anon_sym_RBRACE; anon_sym_STAR; anon_sym_PLUS; anon_sym_DASH; sym_identifier;
    (* [2368] = *) 11;
      ACTIONS 3; 1; anon_sym_POUND;
      ACTIONS 25; 1; anon_sym_DQUOTE;
      ACTIONS 27; 1; anon_sym_SQUOTE;
      ACTIONS 29; 1; anon_sym_DQUOTE_DQUOTE_DQUOTE;
      ACTIONS 233; 1; sym_identifier;
      ACTIONS 238; 1; anon_sym_RBRACE;
      ACTIONS 240; 1; anon_sym_COMMA;
      STATE 62; 1; sym_comment;
      STATE 116; 1; sym_object_field;
      STATE 140; 1; sym_string;
      ACTIONS 5; 2; anon_sym_SLASH_SLASH; anon_sym_SLASH_STAR;
    (* [2403] = *) 4;
      ACTIONS 3; 1; anon_sym_POUND;
      STATE 63; 1; sym_comment;
      ACTIONS 5; 2; anon_sym_SLASH_SLASH; anon_sym_SLASH_STAR;
      ACTIONS 242; 8; ts_builtin_sym_end; anon_sym_addon; anon_sym_signer; anon_sym_action; anon_sym_output; anon_sym_variable; anon_sym_input; anon_sym_import;
    (* [2424] = *) 7;
      ACTIONS 3; 1; anon_sym_POUND;
      ACTIONS 189; 1; anon_sym_STAR;
      ACTIONS 191; 1; anon_sym_SLASH;
      STATE 64; 1; sym_comment;
      ACTIONS 5; 2; anon_sym_SLASH_SLASH; anon_sym_SLASH_STAR;
      ACTIONS 203; 2; anon_sym_PLUS; anon_sym_DASH;
      ACTIONS 244; 3; anon_sym_COMMA; anon_sym_RBRACK; anon_sym_RPAREN;
    (* [2450] = *) 10;
      ACTIONS 3; 1; anon_sym_POUND;
      ACTIONS 25; 1; anon_sym_DQUOTE;
      ACTIONS 27; 1; anon_sym_SQUOTE;
      ACTIONS 29; 1; anon_sym_DQUOTE_DQUOTE_DQUOTE;
      ACTIONS 233; 1; sym_identifier;
      ACTIONS 246; 1; anon_sym_RBRACE;
      STATE 65; 1; sym_comment;
      STATE 120; 1; sym_object_field;
      STATE 140; 1; sym_string;
      ACTIONS 5; 2; anon_sym_SLASH_SLASH; anon_sym_SLASH_STAR;
    (* [2482] = *) 10;
      ACTIONS 3; 1; anon_sym_POUND;
      ACTIONS 25; 1; anon_sym_DQUOTE;
      ACTIONS 27; 1; anon_sym_SQUOTE;
      ACTIONS 29; 1; anon_sym_DQUOTE_DQUOTE_DQUOTE;
      ACTIONS 233; 1; sym_identifier;
      ACTIONS 248; 1; anon_sym_RBRACE;
      STATE 66; 1; sym_comment;
      STATE 120; 1; sym_object_field;
      STATE 140; 1; sym_string;
      ACTIONS 5; 2; anon_sym_SLASH_SLASH; anon_sym_SLASH_STAR;
    (* [2514] = *) 9;
      ACTIONS 3; 1; anon_sym_POUND;
      ACTIONS 189; 1; anon_sym_STAR;
      ACTIONS 191; 1; anon_sym_SLASH;
      ACTIONS 250; 1; anon_sym_COMMA;
      ACTIONS 252; 1; anon_sym_RPAREN;
      STATE 67; 1; sym_comment;
      STATE 117; 1; aux_sym_array_repeat1;
      ACTIONS 5; 2; anon_sym_SLASH_SLASH; anon_sym_SLASH_STAR;
      ACTIONS 203; 2; anon_sym_PLUS; anon_sym_DASH;
    (* [2544] = *) 5;
      ACTIONS 3; 1; anon_sym_POUND;
      ACTIONS 102; 1; anon_sym_SLASH;
      STATE 68; 1; sym_comment;
      ACTIONS 5; 2; anon_sym_SLASH_SLASH; anon_sym_SLASH_STAR;
      ACTIONS 97; 6; anon_sym_RBRACE; anon_sym_DOT; anon_sym_STAR; anon_sym_PLUS; anon_sym_DASH; sym_identifier;
    (* [2566] = *) 10;
      ACTIONS 3; 1; anon_sym_POUND;
      ACTIONS 25; 1; anon_sym_DQUOTE;
      ACTIONS 27; 1; anon_sym_SQUOTE;
      ACTIONS 29; 1; anon_sym_DQUOTE_DQUOTE_DQUOTE;
      ACTIONS 233; 1; sym_identifier;
      ACTIONS 254; 1; anon_sym_RBRACE;
      STATE 69; 1; sym_comment;
      STATE 120; 1; sym_object_field;
      STATE 140; 1; sym_string;
      ACTIONS 5; 2; anon_sym_SLASH_SLASH; anon_sym_SLASH_STAR;
    (* [2598] = *) 9;
      ACTIONS 3; 1; anon_sym_POUND;
      ACTIONS 189; 1; anon_sym_STAR;
      ACTIONS 191; 1; anon_sym_SLASH;
      ACTIONS 256; 1; anon_sym_COMMA;
      ACTIONS 258; 1; anon_sym_RBRACK;
      STATE 70; 1; sym_comment;
      STATE 112; 1; aux_sym_array_repeat1;
      ACTIONS 5; 2; anon_sym_SLASH_SLASH; anon_sym_SLASH_STAR;
      ACTIONS 203; 2; anon_sym_PLUS; anon_sym_DASH;
    (* [2628] = *) 9;
      ACTIONS 3; 1; anon_sym_POUND;
      ACTIONS 189; 1; anon_sym_STAR;
      ACTIONS 191; 1; anon_sym_SLASH;
      ACTIONS 250; 1; anon_sym_COMMA;
      ACTIONS 260; 1; anon_sym_RPAREN;
      STATE 71; 1; sym_comment;
      STATE 113; 1; aux_sym_array_repeat1;
      ACTIONS 5; 2; anon_sym_SLASH_SLASH; anon_sym_SLASH_STAR;
      ACTIONS 203; 2; anon_sym_PLUS; anon_sym_DASH;
    (* [2658] = *) 5;
      ACTIONS 3; 1; anon_sym_POUND;
      ACTIONS 110; 1; anon_sym_SLASH;
      STATE 72; 1; sym_comment;
      ACTIONS 5; 2; anon_sym_SLASH_SLASH; anon_sym_SLASH_STAR;
      ACTIONS 108; 6; anon_sym_RBRACE; anon_sym_DOT; anon_sym_STAR; anon_sym_PLUS; anon_sym_DASH; sym_identifier;
    (* [2680] = *) 9;
      ACTIONS 3; 1; anon_sym_POUND;
      ACTIONS 189; 1; anon_sym_STAR;
      ACTIONS 191; 1; anon_sym_SLASH;
      ACTIONS 262; 1; anon_sym_COMMA;
      ACTIONS 264; 1; anon_sym_RBRACK;
      STATE 73; 1; sym_comment;
      STATE 110; 1; aux_sym_array_repeat1;
      ACTIONS 5; 2; anon_sym_SLASH_SLASH; anon_sym_SLASH_STAR;
      ACTIONS 203; 2; anon_sym_PLUS; anon_sym_DASH;
    (* [2710] = *) 10;
      ACTIONS 3; 1; anon_sym_POUND;
      ACTIONS 25; 1; anon_sym_DQUOTE;
      ACTIONS 27; 1; anon_sym_SQUOTE;
      ACTIONS 29; 1; anon_sym_DQUOTE_DQUOTE_DQUOTE;
      ACTIONS 233; 1; sym_identifier;
      ACTIONS 266; 1; anon_sym_RBRACE;
      STATE 74; 1; sym_comment;
      STATE 120; 1; sym_object_field;
      STATE 140; 1; sym_string;
      ACTIONS 5; 2; anon_sym_SLASH_SLASH; anon_sym_SLASH_STAR;
    (* [2742] = *) 5;
      ACTIONS 3; 1; anon_sym_POUND;
      ACTIONS 159; 1; anon_sym_SLASH;
      STATE 75; 1; sym_comment;
      ACTIONS 5; 2; anon_sym_SLASH_SLASH; anon_sym_SLASH_STAR;
      ACTIONS 157; 5; anon_sym_RBRACE; anon_sym_STAR; anon_sym_PLUS; anon_sym_DASH; sym_identifier;
    (* [2763] = *) 5;
      ACTIONS 3; 1; anon_sym_POUND;
      ACTIONS 195; 1; anon_sym_SLASH;
      STATE 76; 1; sym_comment;
      ACTIONS 5; 2; anon_sym_SLASH_SLASH; anon_sym_SLASH_STAR;
      ACTIONS 193; 5; anon_sym_RBRACE; anon_sym_STAR; anon_sym_PLUS; anon_sym_DASH; sym_identifier;
    (* [2784] = *) 7;
      ACTIONS 3; 1; anon_sym_POUND;
      ACTIONS 270; 1; anon_sym_STAR;
      ACTIONS 272; 1; anon_sym_SLASH;
      STATE 77; 1; sym_comment;
      ACTIONS 5; 2; anon_sym_SLASH_SLASH; anon_sym_SLASH_STAR;
      ACTIONS 268; 2; anon_sym_RBRACE; sym_identifier;
      ACTIONS 274; 2; anon_sym_PLUS; anon_sym_DASH;
    (* [2809] = *) 5;
      ACTIONS 3; 1; anon_sym_POUND;
      ACTIONS 175; 1; anon_sym_SLASH;
      STATE 78; 1; sym_comment;
      ACTIONS 5; 2; anon_sym_SLASH_SLASH; anon_sym_SLASH_STAR;
      ACTIONS 173; 5; anon_sym_RBRACE; anon_sym_STAR; anon_sym_PLUS; anon_sym_DASH; sym_identifier;
    (* [2830] = *) 9;
      ACTIONS 3; 1; anon_sym_POUND;
      ACTIONS 25; 1; anon_sym_DQUOTE;
      ACTIONS 27; 1; anon_sym_SQUOTE;
      ACTIONS 29; 1; anon_sym_DQUOTE_DQUOTE_DQUOTE;
      ACTIONS 233; 1; sym_identifier;
      STATE 79; 1; sym_comment;
      STATE 120; 1; sym_object_field;
      STATE 140; 1; sym_string;
      ACTIONS 5; 2; anon_sym_SLASH_SLASH; anon_sym_SLASH_STAR;
    (* [2859] = *) 7;
      ACTIONS 3; 1; anon_sym_POUND;
      ACTIONS 189; 1; anon_sym_STAR;
      ACTIONS 191; 1; anon_sym_SLASH;
      STATE 80; 1; sym_comment;
      ACTIONS 5; 2; anon_sym_SLASH_SLASH; anon_sym_SLASH_STAR;
      ACTIONS 203; 2; anon_sym_PLUS; anon_sym_DASH;
      ACTIONS 276; 2; anon_sym_RBRACE; anon_sym_COMMA;
    (* [2884] = *) 5;
      ACTIONS 3; 1; anon_sym_POUND;
      ACTIONS 199; 1; anon_sym_SLASH;
      STATE 81; 1; sym_comment;
      ACTIONS 5; 2; anon_sym_SLASH_SLASH; anon_sym_SLASH_STAR;
      ACTIONS 197; 5; anon_sym_RBRACE; anon_sym_STAR; anon_sym_PLUS; anon_sym_DASH; sym_identifier;
    (* [2905] = *) 5;
      ACTIONS 3; 1; anon_sym_POUND;
      ACTIONS 171; 1; anon_sym_SLASH;
      STATE 82; 1; sym_comment;
      ACTIONS 5; 2; anon_sym_SLASH_SLASH; anon_sym_SLASH_STAR;
      ACTIONS 169; 5; anon_sym_RBRACE; anon_sym_STAR; anon_sym_PLUS; anon_sym_DASH; sym_identifier;
    (* [2926] = *) 6;
      ACTIONS 3; 1; anon_sym_POUND;
      ACTIONS 270; 1; anon_sym_STAR;
      ACTIONS 272; 1; anon_sym_SLASH;
      STATE 83; 1; sym_comment;
      ACTIONS 5; 2; anon_sym_SLASH_SLASH; anon_sym_SLASH_STAR;
      ACTIONS 181; 4; anon_sym_RBRACE; anon_sym_PLUS; anon_sym_DASH; sym_identifier;
    (* [2949] = *) 5;
      ACTIONS 3; 1; anon_sym_POUND;
      ACTIONS 183; 1; anon_sym_SLASH;
      STATE 84; 1; sym_comment;
      ACTIONS 5; 2; anon_sym_SLASH_SLASH; anon_sym_SLASH_STAR;
      ACTIONS 181; 5; anon_sym_RBRACE; anon_sym_STAR; anon_sym_PLUS; anon_sym_DASH; sym_identifier;
    (* [2970] = *) 5;
      ACTIONS 3; 1; anon_sym_POUND;
      ACTIONS 187; 1; anon_sym_SLASH;
      STATE 85; 1; sym_comment;
      ACTIONS 5; 2; anon_sym_SLASH_SLASH; anon_sym_SLASH_STAR;
      ACTIONS 185; 5; anon_sym_RBRACE; anon_sym_STAR; anon_sym_PLUS; anon_sym_DASH; sym_identifier;
    (* [2991] = *) 5;
      ACTIONS 3; 1; anon_sym_POUND;
      ACTIONS 179; 1; anon_sym_SLASH;
      STATE 86; 1; sym_comment;
      ACTIONS 5; 2; anon_sym_SLASH_SLASH; anon_sym_SLASH_STAR;
      ACTIONS 177; 5; anon_sym_RBRACE; anon_sym_STAR; anon_sym_PLUS; anon_sym_DASH; sym_identifier;
    (* [3012] = *) 5;
      ACTIONS 3; 1; anon_sym_POUND;
      ACTIONS 85; 1; anon_sym_SLASH;
      STATE 87; 1; sym_comment;
      ACTIONS 5; 2; anon_sym_SLASH_SLASH; anon_sym_SLASH_STAR;
      ACTIONS 83; 5; anon_sym_RBRACE; anon_sym_STAR; anon_sym_PLUS; anon_sym_DASH; sym_identifier;
    (* [3033] = *) 5;
      ACTIONS 3; 1; anon_sym_POUND;
      ACTIONS 139; 1; anon_sym_SLASH;
      STATE 88; 1; sym_comment;
      ACTIONS 5; 2; anon_sym_SLASH_SLASH; anon_sym_SLASH_STAR;
      ACTIONS 137; 5; anon_sym_RBRACE; anon_sym_STAR; anon_sym_PLUS; anon_sym_DASH; sym_identifier;
    (* [3054] = *) 5;
      ACTIONS 3; 1; anon_sym_POUND;
      ACTIONS 155; 1; anon_sym_SLASH;
      STATE 89; 1; sym_comment;
      ACTIONS 5; 2; anon_sym_SLASH_SLASH; anon_sym_SLASH_STAR;
      ACTIONS 153; 5; anon_sym_RBRACE; anon_sym_STAR; anon_sym_PLUS; anon_sym_DASH; sym_identifier;
    (* [3075] = *) 5;
      ACTIONS 3; 1; anon_sym_POUND;
      ACTIONS 163; 1; anon_sym_SLASH;
      STATE 90; 1; sym_comment;
      ACTIONS 5; 2; anon_sym_SLASH_SLASH; anon_sym_SLASH_STAR;
      ACTIONS 161; 5; anon_sym_RBRACE; anon_sym_STAR; anon_sym_PLUS; anon_sym_DASH; sym_identifier;
    (* [3096] = *) 5;
      ACTIONS 3; 1; anon_sym_POUND;
      ACTIONS 143; 1; anon_sym_SLASH;
      STATE 91; 1; sym_comment;
      ACTIONS 5; 2; anon_sym_SLASH_SLASH; anon_sym_SLASH_STAR;
      ACTIONS 141; 5; anon_sym_RBRACE; anon_sym_STAR; anon_sym_PLUS; anon_sym_DASH; sym_identifier;
    (* [3117] = *) 5;
      ACTIONS 3; 1; anon_sym_POUND;
      ACTIONS 167; 1; anon_sym_SLASH;
      STATE 92; 1; sym_comment;
      ACTIONS 5; 2; anon_sym_SLASH_SLASH; anon_sym_SLASH_STAR;
      ACTIONS 165; 5; anon_sym_RBRACE; anon_sym_STAR; anon_sym_PLUS; anon_sym_DASH; sym_identifier;
    (* [3138] = *) 5;
      ACTIONS 3; 1; anon_sym_POUND;
      ACTIONS 147; 1; anon_sym_SLASH;
      STATE 93; 1; sym_comment;
      ACTIONS 5; 2; anon_sym_SLASH_SLASH; anon_sym_SLASH_STAR;
      ACTIONS 145; 5; anon_sym_RBRACE; anon_sym_STAR; anon_sym_PLUS; anon_sym_DASH; sym_identifier;
    (* [3159] = *) 5;
      ACTIONS 3; 1; anon_sym_POUND;
      ACTIONS 151; 1; anon_sym_SLASH;
      STATE 94; 1; sym_comment;
      ACTIONS 5; 2; anon_sym_SLASH_SLASH; anon_sym_SLASH_STAR;
      ACTIONS 149; 5; anon_sym_RBRACE; anon_sym_STAR; anon_sym_PLUS; anon_sym_DASH; sym_identifier;
    (* [3180] = *) 7;
      ACTIONS 3; 1; anon_sym_POUND;
      ACTIONS 189; 1; anon_sym_STAR;
      ACTIONS 191; 1; anon_sym_SLASH;
      ACTIONS 278; 1; anon_sym_RBRACK;
      STATE 95; 1; sym_comment;
      ACTIONS 5; 2; anon_sym_SLASH_SLASH; anon_sym_SLASH_STAR;
      ACTIONS 203; 2; anon_sym_PLUS; anon_sym_DASH;
    (* [3204] = *) 7;
      ACTIONS 3; 1; anon_sym_POUND;
      ACTIONS 189; 1; anon_sym_STAR;
      ACTIONS 191; 1; anon_sym_SLASH;
      ACTIONS 280; 1; anon_sym_RBRACK;
      STATE 96; 1; sym_comment;
      ACTIONS 5; 2; anon_sym_SLASH_SLASH; anon_sym_SLASH_STAR;
      ACTIONS 203; 2; anon_sym_PLUS; anon_sym_DASH;
    (* [3228] = *) 7;
      ACTIONS 3; 1; anon_sym_POUND;
      ACTIONS 282; 1; anon_sym_RBRACE;
      ACTIONS 284; 1; sym_identifier;
      STATE 97; 1; sym_comment;
      STATE 103; 1; aux_sym_block_repeat1;
      STATE 123; 1; sym_attribute;
      ACTIONS 5; 2; anon_sym_SLASH_SLASH; anon_sym_SLASH_STAR;
    (* [3251] = *) 7;
      ACTIONS 3; 1; anon_sym_POUND;
      ACTIONS 25; 1; anon_sym_DQUOTE;
      ACTIONS 27; 1; anon_sym_SQUOTE;
      ACTIONS 29; 1; anon_sym_DQUOTE_DQUOTE_DQUOTE;
      STATE 98; 1; sym_comment;
      STATE 121; 1; sym_string;
      ACTIONS 5; 2; anon_sym_SLASH_SLASH; anon_sym_SLASH_STAR;
    (* [3274] = *) 7;
      ACTIONS 3; 1; anon_sym_POUND;
      ACTIONS 25; 1; anon_sym_DQUOTE;
      ACTIONS 27; 1; anon_sym_SQUOTE;
      ACTIONS 29; 1; anon_sym_DQUOTE_DQUOTE_DQUOTE;
      STATE 99; 1; sym_comment;
      STATE 124; 1; sym_string;
      ACTIONS 5; 2; anon_sym_SLASH_SLASH; anon_sym_SLASH_STAR;
    (* [3297] = *) 7;
      ACTIONS 3; 1; anon_sym_POUND;
      ACTIONS 25; 1; anon_sym_DQUOTE;
      ACTIONS 27; 1; anon_sym_SQUOTE;
      ACTIONS 29; 1; anon_sym_DQUOTE_DQUOTE_DQUOTE;
      STATE 50; 1; sym_string;
      STATE 100; 1; sym_comment;
      ACTIONS 5; 2; anon_sym_SLASH_SLASH; anon_sym_SLASH_STAR;
    (* [3320] = *) 7;
      ACTIONS 3; 1; anon_sym_POUND;
      ACTIONS 25; 1; anon_sym_DQUOTE;
      ACTIONS 27; 1; anon_sym_SQUOTE;
      ACTIONS 29; 1; anon_sym_DQUOTE_DQUOTE_DQUOTE;
      STATE 101; 1; sym_comment;
      STATE 125; 1; sym_string;
      ACTIONS 5; 2; anon_sym_SLASH_SLASH; anon_sym_SLASH_STAR;
    (* [3343] = *) 7;
      ACTIONS 3; 1; anon_sym_POUND;
      ACTIONS 25; 1; anon_sym_DQUOTE;
      ACTIONS 27; 1; anon_sym_SQUOTE;
      ACTIONS 29; 1; anon_sym_DQUOTE_DQUOTE_DQUOTE;
      STATE 102; 1; sym_comment;
      STATE 122; 1; sym_string;
      ACTIONS 5; 2; anon_sym_SLASH_SLASH; anon_sym_SLASH_STAR;
    (* [3366] = *) 7;
      ACTIONS 3; 1; anon_sym_POUND;
      ACTIONS 284; 1; sym_identifier;
      ACTIONS 286; 1; anon_sym_RBRACE;
      STATE 103; 1; sym_comment;
      STATE 104; 1; aux_sym_block_repeat1;
      STATE 123; 1; sym_attribute;
      ACTIONS 5; 2; anon_sym_SLASH_SLASH; anon_sym_SLASH_STAR;
    (* [3389] = *) 6;
      ACTIONS 3; 1; anon_sym_POUND;
      ACTIONS 288; 1; anon_sym_RBRACE;
      ACTIONS 290; 1; sym_identifier;
      STATE 123; 1; sym_attribute;
      ACTIONS 5; 2; anon_sym_SLASH_SLASH; anon_sym_SLASH_STAR;
      STATE 104; 2; sym_comment; aux_sym_block_repeat1;
    (* [3410] = *) 7;
      ACTIONS 3; 1; anon_sym_POUND;
      ACTIONS 25; 1; anon_sym_DQUOTE;
      ACTIONS 27; 1; anon_sym_SQUOTE;
      ACTIONS 29; 1; anon_sym_DQUOTE_DQUOTE_DQUOTE;
      STATE 105; 1; sym_comment;
      STATE 146; 1; sym_string;
      ACTIONS 5; 2; anon_sym_SLASH_SLASH; anon_sym_SLASH_STAR;
    (* [3433] = *) 7;
      ACTIONS 3; 1; anon_sym_POUND;
      ACTIONS 25; 1; anon_sym_DQUOTE;
      ACTIONS 27; 1; anon_sym_SQUOTE;
      ACTIONS 29; 1; anon_sym_DQUOTE_DQUOTE_DQUOTE;
      STATE 106; 1; sym_comment;
      STATE 107; 1; sym_string;
      ACTIONS 5; 2; anon_sym_SLASH_SLASH; anon_sym_SLASH_STAR;
    (* [3456] = *) 7;
      ACTIONS 3; 1; anon_sym_POUND;
      ACTIONS 25; 1; anon_sym_DQUOTE;
      ACTIONS 27; 1; anon_sym_SQUOTE;
      ACTIONS 29; 1; anon_sym_DQUOTE_DQUOTE_DQUOTE;
      STATE 107; 1; sym_comment;
      STATE 126; 1; sym_string;
      ACTIONS 5; 2; anon_sym_SLASH_SLASH; anon_sym_SLASH_STAR;
    (* [3479] = *) 5;
      ACTIONS 3; 1; anon_sym_POUND;
      ACTIONS 293; 1; anon_sym_COMMA;
      ACTIONS 5; 2; anon_sym_SLASH_SLASH; anon_sym_SLASH_STAR;
      ACTIONS 244; 2; anon_sym_RBRACK; anon_sym_RPAREN;
      STATE 108; 2; sym_comment; aux_sym_array_repeat1;
    (* [3498] = *) 7;
      ACTIONS 3; 1; anon_sym_POUND;
      ACTIONS 25; 1; anon_sym_DQUOTE;
      ACTIONS 27; 1; anon_sym_SQUOTE;
      ACTIONS 29; 1; anon_sym_DQUOTE_DQUOTE_DQUOTE;
      STATE 98; 1; sym_string;
      STATE 109; 1; sym_comment;
      ACTIONS 5; 2; anon_sym_SLASH_SLASH; anon_sym_SLASH_STAR;
    (* [3521] = *) 6;
      ACTIONS 3; 1; anon_sym_POUND;
      ACTIONS 53; 1; anon_sym_RBRACK;
      ACTIONS 296; 1; anon_sym_COMMA;
      STATE 108; 1; aux_sym_array_repeat1;
      STATE 110; 1; sym_comment;
      ACTIONS 5; 2; anon_sym_SLASH_SLASH; anon_sym_SLASH_STAR;
    (* [3541] = *) 6;
      ACTIONS 3; 1; anon_sym_POUND;
      ACTIONS 254; 1; anon_sym_RBRACE;
      ACTIONS 298; 1; anon_sym_COMMA;
      STATE 111; 1; sym_comment;
      STATE 115; 1; aux_sym_object_repeat1;
      ACTIONS 5; 2; anon_sym_SLASH_SLASH; anon_sym_SLASH_STAR;
    (* [3561] = *) 6;
      ACTIONS 3; 1; anon_sym_POUND;
      ACTIONS 57; 1; anon_sym_RBRACK;
      ACTIONS 300; 1; anon_sym_COMMA;
      STATE 108; 1; aux_sym_array_repeat1;
      STATE 112; 1; sym_comment;
      ACTIONS 5; 2; anon_sym_SLASH_SLASH; anon_sym_SLASH_STAR;
    (* [3581] = *) 6;
      ACTIONS 3; 1; anon_sym_POUND;
      ACTIONS 250; 1; anon_sym_COMMA;
      ACTIONS 302; 1; anon_sym_RPAREN;
      STATE 108; 1; aux_sym_array_repeat1;
      STATE 113; 1; sym_comment;
      ACTIONS 5; 2; anon_sym_SLASH_SLASH; anon_sym_SLASH_STAR;
    (* [3601] = *) 6;
      ACTIONS 3; 1; anon_sym_POUND;
      ACTIONS 304; 1; anon_sym_RBRACE;
      ACTIONS 306; 1; anon_sym_COMMA;
      STATE 114; 1; sym_comment;
      STATE 118; 1; aux_sym_object_repeat1;
      ACTIONS 5; 2; anon_sym_SLASH_SLASH; anon_sym_SLASH_STAR;
    (* [3621] = *) 5;
      ACTIONS 3; 1; anon_sym_POUND;
      ACTIONS 308; 1; anon_sym_RBRACE;
      ACTIONS 310; 1; anon_sym_COMMA;
      ACTIONS 5; 2; anon_sym_SLASH_SLASH; anon_sym_SLASH_STAR;
      STATE 115; 2; sym_comment; aux_sym_object_repeat1;
    (* [3639] = *) 6;
      ACTIONS 3; 1; anon_sym_POUND;
      ACTIONS 313; 1; anon_sym_RBRACE;
      ACTIONS 315; 1; anon_sym_COMMA;
      STATE 111; 1; aux_sym_object_repeat1;
      STATE 116; 1; sym_comment;
      ACTIONS 5; 2; anon_sym_SLASH_SLASH; anon_sym_SLASH_STAR;
    (* [3659] = *) 6;
      ACTIONS 3; 1; anon_sym_POUND;
      ACTIONS 250; 1; anon_sym_COMMA;
      ACTIONS 317; 1; anon_sym_RPAREN;
      STATE 108; 1; aux_sym_array_repeat1;
      STATE 117; 1; sym_comment;
      ACTIONS 5; 2; anon_sym_SLASH_SLASH; anon_sym_SLASH_STAR;
    (* [3679] = *) 6;
      ACTIONS 3; 1; anon_sym_POUND;
      ACTIONS 266; 1; anon_sym_RBRACE;
      ACTIONS 319; 1; anon_sym_COMMA;
      STATE 115; 1; aux_sym_object_repeat1;
      STATE 118; 1; sym_comment;
      ACTIONS 5; 2; anon_sym_SLASH_SLASH; anon_sym_SLASH_STAR;
    (* [3699] = *) 5;
      ACTIONS 3; 1; anon_sym_POUND;
      ACTIONS 321; 1; sym_identifier;
      STATE 68; 1; sym_index_access;
      STATE 119; 1; sym_comment;
      ACTIONS 5; 2; anon_sym_SLASH_SLASH; anon_sym_SLASH_STAR;
    (* [3716] = *) 4;
      ACTIONS 3; 1; anon_sym_POUND;
      STATE 120; 1; sym_comment;
      ACTIONS 5; 2; anon_sym_SLASH_SLASH; anon_sym_SLASH_STAR;
      ACTIONS 308; 2; anon_sym_RBRACE; anon_sym_COMMA;
    (* [3731] = *) 5;
      ACTIONS 3; 1; anon_sym_POUND;
      ACTIONS 323; 1; anon_sym_LBRACE;
      STATE 58; 1; sym_block;
      STATE 121; 1; sym_comment;
      ACTIONS 5; 2; anon_sym_SLASH_SLASH; anon_sym_SLASH_STAR;
    (* [3748] = *) 5;
      ACTIONS 3; 1; anon_sym_POUND;
      ACTIONS 323; 1; anon_sym_LBRACE;
      STATE 53; 1; sym_block;
      STATE 122; 1; sym_comment;
      ACTIONS 5; 2; anon_sym_SLASH_SLASH; anon_sym_SLASH_STAR;
    (* [3765] = *) 4;
      ACTIONS 3; 1; anon_sym_POUND;
      STATE 123; 1; sym_comment;
      ACTIONS 5; 2; anon_sym_SLASH_SLASH; anon_sym_SLASH_STAR;
      ACTIONS 325; 2; anon_sym_RBRACE; sym_identifier;
    (* [3780] = *) 5;
      ACTIONS 3; 1; anon_sym_POUND;
      ACTIONS 323; 1; anon_sym_LBRACE;
      STATE 52; 1; sym_block;
      STATE 124; 1; sym_comment;
      ACTIONS 5; 2; anon_sym_SLASH_SLASH; anon_sym_SLASH_STAR;
    (* [3797] = *) 5;
      ACTIONS 3; 1; anon_sym_POUND;
      ACTIONS 323; 1; anon_sym_LBRACE;
      STATE 49; 1; sym_block;
      STATE 125; 1; sym_comment;
      ACTIONS 5; 2; anon_sym_SLASH_SLASH; anon_sym_SLASH_STAR;
    (* [3814] = *) 5;
      ACTIONS 3; 1; anon_sym_POUND;
      ACTIONS 323; 1; anon_sym_LBRACE;
      STATE 57; 1; sym_block;
      STATE 126; 1; sym_comment;
      ACTIONS 5; 2; anon_sym_SLASH_SLASH; anon_sym_SLASH_STAR;
    (* [3831] = *) 5;
      ACTIONS 3; 1; anon_sym_POUND;
      ACTIONS 327; 1; sym_identifier;
      STATE 27; 1; sym_index_access;
      STATE 127; 1; sym_comment;
      ACTIONS 5; 2; anon_sym_SLASH_SLASH; anon_sym_SLASH_STAR;
    (* [3848] = *) 4;
      ACTIONS 3; 1; anon_sym_POUND;
      ACTIONS 258; 1; anon_sym_RBRACK;
      STATE 128; 1; sym_comment;
      ACTIONS 5; 2; anon_sym_SLASH_SLASH; anon_sym_SLASH_STAR;
    (* [3862] = *) 4;
      ACTIONS 3; 1; anon_sym_POUND;
      ACTIONS 329; 1; anon_sym_SQUOTE;
      STATE 129; 1; sym_comment;
      ACTIONS 5; 2; anon_sym_SLASH_SLASH; anon_sym_SLASH_STAR;
    (* [3876] = *) 4;
      ACTIONS 3; 1; anon_sym_POUND;
      ACTIONS 331; 1; anon_sym_SQUOTE;
      STATE 130; 1; sym_comment;
      ACTIONS 5; 2; anon_sym_SLASH_SLASH; anon_sym_SLASH_STAR;
    (* [3890] = *) 4;
      ACTIONS 3; 1; anon_sym_POUND;
      ACTIONS 331; 1; anon_sym_DQUOTE_DQUOTE_DQUOTE;
      STATE 131; 1; sym_comment;
      ACTIONS 5; 2; anon_sym_SLASH_SLASH; anon_sym_SLASH_STAR;
    (* [3904] = *) 4;
      ACTIONS 333; 1; aux_sym_string_token2;
      ACTIONS 335; 1; anon_sym_POUND;
      STATE 132; 1; sym_comment;
      ACTIONS 337; 2; anon_sym_SLASH_SLASH; anon_sym_SLASH_STAR;
    (* [3918] = *) 4;
      ACTIONS 3; 1; anon_sym_POUND;
      ACTIONS 339; 1; anon_sym_EQ;
      STATE 133; 1; sym_comment;
      ACTIONS 5; 2; anon_sym_SLASH_SLASH; anon_sym_SLASH_STAR;
    (* [3932] = *) 4;
      ACTIONS 3; 1; anon_sym_POUND;
      ACTIONS 313; 1; anon_sym_RBRACE;
      STATE 134; 1; sym_comment;
      ACTIONS 5; 2; anon_sym_SLASH_SLASH; anon_sym_SLASH_STAR;
    (* [3946] = *) 4;
      ACTIONS 335; 1; anon_sym_POUND;
      ACTIONS 341; 1; aux_sym_string_token1;
      STATE 135; 1; sym_comment;
      ACTIONS 337; 2; anon_sym_SLASH_SLASH; anon_sym_SLASH_STAR;
    (* [3960] = *) 4;
      ACTIONS 3; 1; anon_sym_POUND;
      ACTIONS 264; 1; anon_sym_RBRACK;
      STATE 136; 1; sym_comment;
      ACTIONS 5; 2; anon_sym_SLASH_SLASH; anon_sym_SLASH_STAR;
    (* [3974] = *) 4;
      ACTIONS 335; 1; anon_sym_POUND;
      ACTIONS 343; 1; aux_sym_string_token3;
      STATE 137; 1; sym_comment;
      ACTIONS 337; 2; anon_sym_SLASH_SLASH; anon_sym_SLASH_STAR;
    (* [3988] = *) 4;
      ACTIONS 3; 1; anon_sym_POUND;
      ACTIONS 329; 1; anon_sym_DQUOTE_DQUOTE_DQUOTE;
      STATE 138; 1; sym_comment;
      ACTIONS 5; 2; anon_sym_SLASH_SLASH; anon_sym_SLASH_STAR;
    (* [4002] = *) 4;
      ACTIONS 3; 1; anon_sym_POUND;
      ACTIONS 345; 1; anon_sym_SLASH;
      STATE 139; 1; sym_comment;
      ACTIONS 5; 2; anon_sym_SLASH_SLASH; anon_sym_SLASH_STAR;
    (* [4016] = *) 4;
      ACTIONS 3; 1; anon_sym_POUND;
      ACTIONS 347; 1; anon_sym_COLON;
      STATE 140; 1; sym_comment;
      ACTIONS 5; 2; anon_sym_SLASH_SLASH; anon_sym_SLASH_STAR;
    (* [4030] = *) 4;
      ACTIONS 3; 1; anon_sym_POUND;
      ACTIONS 331; 1; anon_sym_DQUOTE;
      STATE 141; 1; sym_comment;
      ACTIONS 5; 2; anon_sym_SLASH_SLASH; anon_sym_SLASH_STAR;
    (* [4044] = *) 4;
      ACTIONS 3; 1; anon_sym_POUND;
      ACTIONS 349; 1; ts_builtin_sym_end;
      STATE 142; 1; sym_comment;
      ACTIONS 5; 2; anon_sym_SLASH_SLASH; anon_sym_SLASH_STAR;
    (* [4058] = *) 4;
      ACTIONS 335; 1; anon_sym_POUND;
      ACTIONS 351; 1; aux_sym_comment_token1;
      STATE 143; 1; sym_comment;
      ACTIONS 337; 2; anon_sym_SLASH_SLASH; anon_sym_SLASH_STAR;
    (* [4072] = *) 4;
      ACTIONS 3; 1; anon_sym_POUND;
      ACTIONS 304; 1; anon_sym_RBRACE;
      STATE 144; 1; sym_comment;
      ACTIONS 5; 2; anon_sym_SLASH_SLASH; anon_sym_SLASH_STAR;
    (* [4086] = *) 4;
      ACTIONS 335; 1; anon_sym_POUND;
      ACTIONS 353; 1; aux_sym_comment_token2;
      STATE 145; 1; sym_comment;
      ACTIONS 337; 2; anon_sym_SLASH_SLASH; anon_sym_SLASH_STAR;
    (* [4100] = *) 4;
      ACTIONS 3; 1; anon_sym_POUND;
      ACTIONS 355; 1; anon_sym_EQ;
      STATE 146; 1; sym_comment;
      ACTIONS 5; 2; anon_sym_SLASH_SLASH; anon_sym_SLASH_STAR;
    (* [4114] = *) 4;
      ACTIONS 335; 1; anon_sym_POUND;
      ACTIONS 357; 1; aux_sym_string_token3;
      STATE 147; 1; sym_comment;
      ACTIONS 337; 2; anon_sym_SLASH_SLASH; anon_sym_SLASH_STAR;
    (* [4128] = *) 4;
      ACTIONS 3; 1; anon_sym_POUND;
      ACTIONS 329; 1; anon_sym_DQUOTE;
      STATE 148; 1; sym_comment;
      ACTIONS 5; 2; anon_sym_SLASH_SLASH; anon_sym_SLASH_STAR;
    (* [4142] = *) 4;
      ACTIONS 335; 1; anon_sym_POUND;
      ACTIONS 359; 1; aux_sym_string_token1;
      STATE 149; 1; sym_comment;
      ACTIONS 337; 2; anon_sym_SLASH_SLASH; anon_sym_SLASH_STAR;
    (* [4156] = *) 4;
      ACTIONS 335; 1; anon_sym_POUND;
      ACTIONS 361; 1; aux_sym_string_token2;
      STATE 150; 1; sym_comment;
      ACTIONS 337; 2; anon_sym_SLASH_SLASH; anon_sym_SLASH_STAR;
    (* [4170] = *) 1;
      ACTIONS 363; 1; ts_builtin_sym_end;
    (* [4174] = *) 1;
      ACTIONS 365; 1; ts_builtin_sym_end ].

Definition ts_small_parse_table_map : list (Z * Z) :=
  [ (SMALL_STATE 2, 0); (SMALL_STATE 3, 65); (SMALL_STATE 4, 130); (SMALL_STATE 5, 192);
    (SMALL_STATE 6, 254); (SMALL_STATE 7, 316); (SMALL_STATE 8, 378); (SMALL_STATE 9, 440);
    (SMALL_STATE 10, 502); (SMALL_STATE 11, 561); (SMALL_STATE 12, 620); (SMALL_STATE 13, 679);
    (SMALL_STATE 14, 738); (SMALL_STATE 15, 797); (SMALL_STATE 16, 856); (SMALL_STATE 17, 915);
    (SMALL_STATE 18, 952); (SMALL_STATE 19, 1011); (SMALL_STATE 20, 1070); (SMALL_STATE 21, 1129);
    (SMALL_STATE 22, 1172); (SMALL_STATE 23, 1207); (SMALL_STATE 24, 1242); (SMALL_STATE 25, 1279);
    (SMALL_STATE 26, 1316); (SMALL_STATE 27, 1348); (SMALL_STATE 28, 1380); (SMALL_STATE 29, 1430);
    (SMALL_STATE 30, 1478); (SMALL_STATE 31, 1509); (SMALL_STATE 32, 1540); (SMALL_STATE 33, 1571);
    (SMALL_STATE 34, 1602); (SMALL_STATE 35, 1633); (SMALL_STATE 36, 1664); (SMALL_STATE 37, 1695);
    (SMALL_STATE 38, 1726); (SMALL_STATE 39, 1757); (SMALL_STATE 40, 1788); (SMALL_STATE 41, 1819);
    (SMALL_STATE 42, 1850); (SMALL_STATE 43, 1881); (SMALL_STATE 44, 1914); (SMALL_STATE 45, 1945);
    (SMALL_STATE 46, 1976); (SMALL_STATE 47, 2007); (SMALL_STATE 48, 2040); (SMALL_STATE 49, 2061);
    (SMALL_STATE 50, 2082); (SMALL_STATE 51, 2103); (SMALL_STATE 52, 2124); (SMALL_STATE 53, 2145);
    (SMALL_STATE 54, 2166); (SMALL_STATE 55, 2187); (SMALL_STATE 56, 2214); (SMALL_STATE 57, 2241);
    (SMALL_STATE 58, 2262); (SMALL_STATE 59, 2283); (SMALL_STATE 60, 2318); (SMALL_STATE 61, 2343);
    (SMALL_STATE 62, 2368); (SMALL_STATE 63, 2403); (SMALL_STATE 64, 2424); (SMALL_STATE 65, 2450);
    (SMALL_STATE 66, 2482); (SMALL_STATE 67, 2514); (SMALL_STATE 68, 2544); (SMALL_STATE 69, 2566);
    (SMALL_STATE 70, 2598); (SMALL_STATE 71, 2628); (SMALL_STATE 72, 2658); (SMALL_STATE 73, 2680);
    (SMALL_STATE 74, 2710); (SMALL_STATE 75, 2742); (SMALL_STATE 76, 2763); (SMALL_STATE 77, 2784);
    (SMALL_STATE 78, 2809); (SMALL_STATE 79, 2830); (SMALL_STATE 80, 2859); (SMALL_STATE 81, 2884);
    (SMALL_STATE 82, 2905); (SMALL_STATE 83, 2926); (SMALL_STATE 84, 2949); (SMALL_STATE 85, 2970);
    (SMALL_STATE 86, 2991); (SMALL_STATE 87, 3012); (SMALL_STATE 88, 3033); (SMALL_STATE 89, 3054);
    (SMALL_STATE 90, 3075); (SMALL_STATE 91, 3096); (SMALL_STATE 92, 3117); (SMALL_STATE 93, 3138);
    (SMALL_STATE 94, 3159); (SMALL_STATE 95, 3180); (SMALL_STATE 96, 3204); (SMALL_STATE 97, 3228);
    (SMALL_STATE 98, 3251); (SMALL_STATE 99, 3274); (SMALL_STATE 100, 3297); (SMALL_STATE 101, 3320);
    (SMALL_STATE 102, 3343); (SMALL_STATE 103, 3366); (SMALL_STATE 104, 3389); (SMALL_STATE 105, 3410);
    (SMALL_STATE 106, 3433); (SMALL_STATE 107, 3456); (SMALL_STATE 108, 3479); (SMALL_STATE 109, 3498);
    (SMALL_STATE 110, 3521); (SMALL_STATE 111, 3541); (SMALL_STATE 112, 3561); (SMALL_STATE 113, 3581);
    (SMALL_STATE 114, 3601); (SMALL_STATE 115, 3621); (SMALL_STATE 116, 3639); (SMALL_STATE 117, 3659);
    (SMALL_STATE 118, 3679); (SMALL_STATE 119, 3699); (SMALL_STATE 120, 3716); (SMALL_STATE 121, 3731);
    (SMALL_STATE 122, 3748); (SMALL_STATE 123, 3765); (SMALL_STATE 124, 3780); (SMALL_STATE 125, 3797);
    (SMALL_STATE 126, 3814); (SMALL_STATE 127, 3831); (SMALL_STATE 128, 3848); (SMALL_STATE 129, 3862);
    (SMALL_STATE 130, 3876); (SMALL_STATE 131, 3890); (SMALL_STATE 132, 3904); (SMALL_STATE 133, 3918);
    (SMALL_STATE 134, 3932); (SMALL_STATE 135, 3946); (SMALL_STATE 136, 3960); (SMALL_STATE 137, 3974);
    (SMALL_STATE 138, 3988); (SMALL_STATE 139, 4002); (SMALL_STATE 140, 4016); (SMALL_STATE 141, 4030);
    (SMALL_STATE 142, 4044); (SMALL_STATE 143, 4058); (SMALL_STATE 144, 4072); (SMALL_STATE 145, 4086);
    (SMALL_STATE 146, 4100); (SMALL_STATE 147, 4114); (SMALL_STATE 148, 4128); (SMALL_STATE 149, 4142);
    (SMALL_STATE 150, 4156); (SMALL_STATE 151, 4170); (SMALL_STATE 152, 4174) ].

Definition ts_parse_actions : list (Z * TSParseActionEntry) :=
  [
    (0, {| count := 0; reusable := false; actions := [] |});
    (1, {| count := 1; reusable := false; actions := [RECOVER] |});
    (3, {| count := 1; reusable := true; actions := [SHIFT 143] |});
    (5, {| count := 1; reusable := true; actions := [SHIFT 145] |});
    (7, {| count := 1; reusable := true; actions := [REDUCE sym_runbook 0 0] |});
    (9, {| count := 1; reusable := true; actions := [SHIFT 101] |});
    (11, {| count := 1; reusable := true; actions := [SHIFT 106] |});
    (13, {| count := 1; reusable := true; actions := [SHIFT 109] |});
    (15, {| count := 1; reusable := true; actions := [SHIFT 99] |});
    (17, {| count := 1; reusable := true; actions := [SHIFT 102] |});
    (19, {| count := 1; reusable := true; actions := [SHIFT 105] |});
    (21, {| count := 1; reusable := true; actions := [SHIFT 100] |});
    (23, {| count := 1; reusable := true; actions := [SHIFT 59] |});
    (25, {| count := 1; reusable := false; actions := [SHIFT 135] |});
    (27, {| count := 1; reusable := true; actions := [SHIFT 132] |});
    (29, {| count := 1; reusable := true; actions := [SHIFT 137] |});
    (31, {| count := 1; reusable := true; actions := [SHIFT 34] |});
    (33, {| count := 1; reusable := false; actions := [SHIFT 34] |});
    (35, {| count := 1; reusable := false; actions := [SHIFT 33] |});
    (37, {| count := 1; reusable := false; actions := [SHIFT 32] |});
    (39, {| count := 1; reusable := true; actions := [SHIFT 3] |});
    (41, {| count := 1; reusable := true; actions := [SHIFT 128] |});
    (43, {| count := 1; reusable := true; actions := [SHIFT 91] |});
    (45, {| count := 1; reusable := false; actions := [SHIFT 21] |});
    (47, {| count := 1; reusable := true; actions := [SHIFT 136] |});
    (49, {| count := 1; reusable := true; actions := [SHIFT 31] |});
    (51, {| count := 1; reusable := true; actions := [SHIFT 39] |});
    (53, {| count := 1; reusable := true; actions := [SHIFT 44] |});
    (55, {| count := 1; reusable := true; actions := [SHIFT 78] |});
    (57, {| count := 1; reusable := true; actions := [SHIFT 76] |});
    (59, {| count := 1; reusable := true; actions := [SHIFT 75] |});
    (61, {| count := 1; reusable := true; actions := [SHIFT 35] |});
    (63, {| count := 1; reusable := true; actions := [SHIFT 62] |});
    (65, {| count := 1; reusable := false; actions := [SHIFT 149] |});
    (67, {| count := 1; reusable := true; actions := [SHIFT 150] |});
    (69, {| count := 1; reusable := true; actions := [SHIFT 147] |});
    (71, {| count := 1; reusable := true; actions := [SHIFT 89] |});
    (73, {| count := 1; reusable := false; actions := [SHIFT 89] |});
    (75, {| count := 1; reusable := false; actions := [SHIFT 94] |});
    (77, {| count := 1; reusable := false; actions := [SHIFT 93] |});
    (79, {| count := 1; reusable := true; actions := [SHIFT 2] |});
    (81, {| count := 1; reusable := false; actions := [SHIFT 47] |});
    (83, {| count := 1; reusable := true; actions := [REDUCE sym_string 3 0] |});
    (85, {| count := 1; reusable := false; actions := [REDUCE sym_string 3 0] |});
    (87, {| count := 1; reusable := true; actions := [REDUCE sym_reference 1 0] |});
    (89, {| count := 1; reusable := true; actions := [SHIFT 20] |});
    (91, {| count := 1; reusable := true; actions := [SHIFT 127] |});
    (93, {| count := 1; reusable := true; actions := [SHIFT 9] |});
    (95, {| count := 1; reusable := false; actions := [REDUCE sym_reference 1 0] |});
    (97, {| count := 1; reusable := true; actions := [REDUCE aux_sym_reference_repeat1 2 0] |});
    (99, {| count := 2; reusable := true; actions := [REDUCE aux_sym_reference_repeat1 2 0; SHIFT_REPEAT 127] |});
    (102, {| count := 1; reusable := false; actions := [REDUCE aux_sym_reference_repeat1 2 0] |});
    (104, {| count := 1; reusable := true; actions := [REDUCE sym_reference 2 0] |});
    (106, {| count := 1; reusable := false; actions := [REDUCE sym_reference 2 0] |});
    (108, {| count := 1; reusable := true; actions := [REDUCE sym_index_access 4 0] |});
    (110, {| count := 1; reusable := false; actions := [REDUCE sym_index_access 4 0] |});
    (112, {| count := 1; reusable := true; actions := [REDUCE sym_runbook 1 0] |});
    (114, {| count := 1; reusable := true; actions := [REDUCE aux_sym_runbook_repeat1 2 0] |});
    (116, {| count := 2; reusable := true; actions := [REDUCE aux_sym_runbook_repeat1 2 0; SHIFT_REPEAT 101] |});
    (119, {| count := 2; reusable := true; actions := [REDUCE aux_sym_runbook_repeat1 2 0; SHIFT_REPEAT 106] |});
    (122, {| count := 2; reusable := true; actions := [REDUCE aux_sym_runbook_repeat1 2 0; SHIFT_REPEAT 109] |});
    (125, {| count := 2; reusable := true; actions := [REDUCE aux_sym_runbook_repeat1 2 0; SHIFT_REPEAT 99] |});
    (128, {| count := 2; reusable := true; actions := [REDUCE aux_sym_runbook_repeat1 2 0; SHIFT_REPEAT 102] |});
    (131, {| count := 2; reusable := true; actions := [REDUCE aux_sym_runbook_repeat1 2 0; SHIFT_REPEAT 105] |});
    (134, {| count := 2; reusable := true; actions := [REDUCE aux_sym_runbook_repeat1 2 0; SHIFT_REPEAT 100] |});
    (137, {| count := 1; reusable := true; actions := [REDUCE sym_array 3 0] |});
    (139, {| count := 1; reusable := false; actions := [REDUCE sym_array 3 0] |});
    (141, {| count := 1; reusable := true; actions := [REDUCE sym_array 2 0] |});
    (143, {| count := 1; reusable := false; actions := [REDUCE sym_array 2 0] |});
    (145, {| count := 1; reusable := true; actions := [REDUCE sym__expression 1 0] |});
    (147, {| count := 1; reusable := false; actions := [REDUCE sym__expression 1 0] |});
    (149, {| count := 1; reusable := true; actions := [REDUCE sym_boolean 1 0] |});
    (151, {| count := 1; reusable := false; actions := [REDUCE sym_boolean 1 0] |});
    (153, {| count := 1; reusable := true; actions := [REDUCE sym_number 1 0] |});
    (155, {| count := 1; reusable := false; actions := [REDUCE sym_number 1 0] |});
    (157, {| count := 1; reusable := true; actions := [REDUCE sym_function_call 3 7] |});
    (159, {| count := 1; reusable := false; actions := [REDUCE sym_function_call 3 7] |});
    (161, {| count := 1; reusable := true; actions := [REDUCE sym_object 3 0] |});
    (163, {| count := 1; reusable := false; actions := [REDUCE sym_object 3 0] |});
    (165, {| count := 1; reusable := true; actions := [REDUCE sym_object 2 0] |});
    (167, {| count := 1; reusable := false; actions := [REDUCE sym_object 2 0] |});
    (169, {| count := 1; reusable := true; actions := [REDUCE sym_function_call 5 9] |});
    (171, {| count := 1; reusable := false; actions := [REDUCE sym_function_call 5 9] |});
    (173, {| count := 1; reusable := true; actions := [REDUCE sym_array 5 0] |});
    (175, {| count := 1; reusable := false; actions := [REDUCE sym_array 5 0] |});
    (177, {| count := 1; reusable := true; actions := [REDUCE sym_object 5 0] |});
    (179, {| count := 1; reusable := false; actions := [REDUCE sym_object 5 0] |});
    (181, {| count := 1; reusable := true; actions := [REDUCE sym_binary_expression 3 0] |});
    (183, {| count := 1; reusable := false; actions := [REDUCE sym_binary_expression 3 0] |});
    (185, {| count := 1; reusable := true; actions := [REDUCE sym_function_call 4 8] |});
    (187, {| count := 1; reusable := false; actions := [REDUCE sym_function_call 4 8] |});
    (189, {| count := 1; reusable := true; actions := [SHIFT 13] |});
    (191, {| count := 1; reusable := false; actions := [SHIFT 13] |});
    (193, {| count := 1; reusable := true; actions := [REDUCE sym_array 4 0] |});
    (195, {| count := 1; reusable := false; actions := [REDUCE sym_array 4 0] |});
    (197, {| count := 1; reusable := true; actions := [REDUCE sym_object 4 0] |});
    (199, {| count := 1; reusable := false; actions := [REDUCE sym_object 4 0] |});
    (201, {| count := 1; reusable := true; actions := [REDUCE sym_input_declaration 4 5] |});
    (203, {| count := 1; reusable := true; actions := [SHIFT 14] |});
    (205, {| count := 1; reusable := true; actions := [SHIFT 12] |});
    (207, {| count := 1; reusable := true; actions := [SHIFT 119] |});
    (209, {| count := 1; reusable := true; actions := [SHIFT 8] |});
    (211, {| count := 1; reusable := true; actions := [REDUCE aux_sym_runbook_repeat1 1 0] |});
    (213, {| count := 1; reusable := true; actions := [REDUCE sym_addon_block 3 2] |});
    (215, {| count := 1; reusable := true; actions := [REDUCE sym_import_statement 2 1] |});
    (217, {| count := 1; reusable := true; actions := [REDUCE sym__statement 1 0] |});
    (219, {| count := 1; reusable := true; actions := [REDUCE sym_output_block 3 3] |});
    (221, {| count := 1; reusable := true; actions := [REDUCE sym_variable_declaration 3 3] |});
    (223, {| count := 1; reusable := true; actions := [REDUCE sym_block 2 0] |});
    (225, {| count := 1; reusable := true; actions := [REDUCE sym_signer_block 4 4] |});
    (227, {| count := 1; reusable := true; actions := [REDUCE sym_action_block 4 4] |});
    (229, {| count := 1; reusable := true; actions := [SHIFT 37] |});
    (231, {| count := 1; reusable := true; actions := [SHIFT 144] |});
    (233, {| count := 1; reusable := true; actions := [SHIFT 140] |});
    (235, {| count := 2; reusable := true; actions := [REDUCE aux_sym_reference_repeat1 2 0; SHIFT_REPEAT 119] |});
    (238, {| count := 1; reusable := true; actions := [SHIFT 92] |});
    (240, {| count := 1; reusable := true; actions := [SHIFT 134] |});
    (242, {| count := 1; reusable := true; actions := [REDUCE sym_block 3 0] |});
    (244, {| count := 1; reusable := true; actions := [REDUCE aux_sym_array_repeat1 2 0] |});
    (246, {| count := 1; reusable := true; actions := [SHIFT 40] |});
    (248, {| count := 1; reusable := true; actions := [SHIFT 86] |});
    (250, {| count := 1; reusable := true; actions := [SHIFT 15] |});
    (252, {| count := 1; reusable := true; actions := [SHIFT 85] |});
    (254, {| count := 1; reusable := true; actions := [SHIFT 81] |});
    (256, {| count := 1; reusable := true; actions := [SHIFT 7] |});
    (258, {| count := 1; reusable := true; actions := [SHIFT 88] |});
    (260, {| count := 1; reusable := true; actions := [SHIFT 42] |});
    (262, {| count := 1; reusable := true; actions := [SHIFT 5] |});
    (264, {| count := 1; reusable := true; actions := [SHIFT 30] |});
    (266, {| count := 1; reusable := true; actions := [SHIFT 45] |});
    (268, {| count := 1; reusable := true; actions := [REDUCE sym_attribute 3 6] |});
    (270, {| count := 1; reusable := true; actions := [SHIFT 18] |});
    (272, {| count := 1; reusable := false; actions := [SHIFT 18] |});
    (274, {| count := 1; reusable := true; actions := [SHIFT 10] |});
    (276, {| count := 1; reusable := true; actions := [REDUCE sym_object_field 3 6] |});
    (278, {| count := 1; reusable := true; actions := [SHIFT 72] |});
    (280, {| count := 1; reusable := true; actions := [SHIFT 26] |});
    (282, {| count := 1; reusable := true; actions := [SHIFT 54] |});
    (284, {| count := 1; reusable := true; actions := [SHIFT 133] |});
    (286, {| count := 1; reusable := true; actions := [SHIFT 63] |});
    (288, {| count := 1; reusable := true; actions := [REDUCE aux_sym_block_repeat1 2 0] |});
    (290, {| count := 2; reusable := true; actions := [REDUCE aux_sym_block_repeat1 2 0; SHIFT_REPEAT 133] |});
    (293, {| count := 2; reusable := true; actions := [REDUCE aux_sym_array_repeat1 2 0; SHIFT_REPEAT 15] |});
    (296, {| count := 1; reusable := true; actions := [SHIFT 4] |});
    (298, {| count := 1; reusable := true; actions := [SHIFT 66] |});
    (300, {| count := 1; reusable := true; actions := [SHIFT 6] |});
    (302, {| count := 1; reusable := true; actions := [SHIFT 38] |});
    (304, {| count := 1; reusable := true; actions := [SHIFT 36] |});
    (306, {| count := 1; reusable := true; actions := [SHIFT 74] |});
    (308, {| count := 1; reusable := true; actions := [REDUCE aux_sym_object_repeat1 2 0] |});
    (310, {| count := 2; reusable := true; actions := [REDUCE aux_sym_object_repeat1 2 0; SHIFT_REPEAT 79] |});
    (313, {| count := 1; reusable := true; actions := [SHIFT 90] |});
    (315, {| count := 1; reusable := true; actions := [SHIFT 69] |});
    (317, {| count := 1; reusable := true; actions := [SHIFT 82] |});
    (319, {| count := 1; reusable := true; actions := [SHIFT 65] |});
    (321, {| count := 1; reusable := true; actions := [SHIFT 60] |});
    (323, {| count := 1; reusable := true; actions := [SHIFT 97] |});
    (325, {| count := 1; reusable := true; actions := [REDUCE aux_sym_block_repeat1 1 0] |});
    (327, {| count := 1; reusable := true; actions := [SHIFT 23] |});
    (329, {| count := 1; reusable := true; actions := [SHIFT 17] |});
    (331, {| count := 1; reusable := true; actions := [SHIFT 87] |});
    (333, {| count := 1; reusable := false; actions := [SHIFT 129] |});
    (335, {| count := 1; reusable := false; actions := [SHIFT 143] |});
    (337, {| count := 1; reusable := false; actions := [SHIFT 145] |});
    (339, {| count := 1; reusable := true; actions := [SHIFT 19] |});
    (341, {| count := 1; reusable := false; actions := [SHIFT 148] |});
    (343, {| count := 1; reusable := false; actions := [SHIFT 138] |});
    (345, {| count := 1; reusable := false; actions := [SHIFT 151] |});
    (347, {| count := 1; reusable := true; actions := [SHIFT 11] |});
    (349, {| count := 1; reusable := true; actions := [ACCEPT_INPUT] |});
    (351, {| count := 1; reusable := false; actions := [SHIFT 152] |});
    (353, {| count := 1; reusable := false; actions := [SHIFT 139] |});
    (355, {| count := 1; reusable := true; actions := [SHIFT 16] |});
    (357, {| count := 1; reusable := false; actions := [SHIFT 131] |});
    (359, {| count := 1; reusable := false; actions := [SHIFT 141] |});
    (361, {| count := 1; reusable := false; actions := [SHIFT 130] |});
    (363, {| count := 1; reusable := true; actions := [REDUCE sym_comment 3 0] |});
    (365, {| count := 1; reusable := true; actions := [REDUCE sym_comment 2 0] |}) ].

(** ** Running the lexer: [ts_lex]

    [ts_lex] starts with [result = false], reads the lookahead, runs the
    [switch] for the current state and comes back to it after every [ADVANCE]
    or [SKIP], both of which call [lexer->advance]; [SKIP] passes [skip =
    true], which moves the start of the token to the position after the
    skipped character. [ACCEPT_TOKEN] records the symbol and marks the current
    position as the end of the token. [END_STATE] returns [result].

    Positions are counted in characters from the position where the lexer was
    started. At the end of the input [lexer->advance] moves nothing, so the
    run there is bounded by the number of lexer states. *)

Definition LEX_STATE_COUNT : nat := 160.

Record TSLexer := {
  token_start_position : nat;
  result_symbol : option (TSSymbol * nat)   (* the symbol and the marked end *)
}.

Definition lexer_start : TSLexer :=
  {| token_start_position := 0; result_symbol := None |}.

Definition accept_token (tok : option TSSymbol) (pos : nat) (lexer : TSLexer) : TSLexer :=
  match tok with
  | Some symbol =>
      {| token_start_position := token_start_position lexer;
         result_symbol := Some (symbol, pos) |}
  | None => lexer
  end.

Definition skip_to (pos : nat) (lexer : TSLexer) : TSLexer :=
  {| token_start_position := pos; result_symbol := result_symbol lexer |}.

(** What [ts_lex] leaves in the lexer when it returns [true]: the symbol, the
    start and the end of the token. *)
Record Lexeme := { lexeme_symbol : TSSymbol; lexeme_start : nat; lexeme_end : nat }.

Definition lexer_result (lexer : TSLexer) : option Lexeme :=
  match result_symbol lexer with
  | Some (symbol, e) =>
      Some {| lexeme_symbol := symbol;
              lexeme_start := token_start_position lexer;
              lexeme_end := e |}
  | None => None
  end.

Fixpoint ts_lex_eof (fuel : nat) (state : TSStateId) (pos : nat) (lexer : TSLexer)
  : option Lexeme :=
  match fuel with
  | O => None
  | S fuel' =>
      let '(tok, next) := ts_lex_state state true 0 in
      let lexer' := accept_token tok pos lexer in
      match next with
      | ADVANCE state' => ts_lex_eof fuel' state' pos lexer'
      | SKIP state' => ts_lex_eof fuel' state' pos (skip_to pos lexer')
      | END_STATE => lexer_result lexer'
      end
  end.

Fixpoint ts_lex_loop (state : TSStateId) (input : list Z) (pos : nat) (lexer : TSLexer)
  {struct input} : option Lexeme :=
  match input with
  | [] => ts_lex_eof LEX_STATE_COUNT state pos lexer
  | lookahead :: input' =>
      let '(tok, next) := ts_lex_state state false lookahead in
      let lexer' := accept_token tok pos lexer in
      match next with
      | ADVANCE state' => ts_lex_loop state' input' (S pos) lexer'
      | SKIP state' => ts_lex_loop state' input' (S pos) (skip_to (S pos) lexer')
      | END_STATE => lexer_result lexer'
      end
  end.

Definition ts_lex (state : TSStateId) (input : list Z) : option Lexeme :=
  ts_lex_loop state input 0%nat lexer_start.

(** * The table interpreter

    [parser.c] holds the tables; the loop that reads them belongs to the
    tree-sitter runtime that the crate links, and is not part of the file.
    What follows is that loop for a grammar whose table entries hold one
    action each (see [ParseFacts.ts_parse_actions_deterministic]), without
    incremental reuse and without error recovery: where the runtime would
    start to recover, the interpreter stops and reports the place. *)

(** ** Subtrees *)

(** Modelled from the spec: the syntax nodes (kind, span, ordered children);
    the tree type of the runtime is not in [parser.c]. A leaf keeps the
    characters skipped before the token (its padding) and the characters of
    the token; an inner node keeps the production it was reduced with and
    whether it is an extra. *)
Inductive Subtree :=
| Leaf (symbol : TSSymbol) (padding text : list Z)
| Node (symbol : TSSymbol) (production_id : Z) (extra : bool) (children : list Subtree).

Definition ts_subtree_symbol (t : Subtree) : TSSymbol :=
  match t with
  | Leaf symbol _ _ => symbol
  | Node symbol _ _ _ => symbol
  end.

(** A leaf is an extra exactly when it is the end-of-input token. *)
Definition ts_subtree_extra (t : Subtree) : bool :=
  match t with
  | Leaf symbol _ _ => symbol =? ts_builtin_sym_end
  | Node _ _ extra _ => extra
  end.

Definition ts_subtree_children (t : Subtree) : list Subtree :=
  match t with
  | Leaf _ _ _ => []
  | Node _ _ _ children => children
  end.

Definition ts_subtree_production_id (t : Subtree) : Z :=
  match t with
  | Leaf _ _ _ => 0
  | Node _ production_id _ _ => production_id
  end.

(** All characters under a subtree, padding included, in source order. *)
Fixpoint ts_subtree_source (t : Subtree) : list Z :=
  match t with
  | Leaf _ padding text => padding ++ text
  | Node _ _ _ children => flat_map ts_subtree_source children
  end.

(** The characters of the tokens alone, without the skipped padding. *)
Fixpoint ts_subtree_token_text (t : Subtree) : list Z :=
  match t with
  | Leaf _ _ text => text
  | Node _ _ _ children => flat_map ts_subtree_token_text children
  end.

(** ** Reading the tables *)

Definition ts_language_symbol_metadata (symbol : TSSymbol) : TSSymbolMetadata :=
  table_get {| visible := false; named := false |} ts_symbol_metadata symbol.

Definition ts_language_symbol_name (symbol : TSSymbol) : string :=
  if symbol =? ts_builtin_sym_error then "ERROR"%string
  else table_get EmptyString ts_symbol_names symbol.

(** Within one group of the small parse table: is [symbol] among the next
    [symbol_count] entries? Also gives the data after the group. *)
Fixpoint lookup_symbols (symbol_count : nat) (data : list Z) (symbol : TSSymbol)
  : bool * list Z :=
  match symbol_count with
  | O => (false, data)
  | S n =>
      match data with
      | [] => (false, [])
      | s :: data' =>
          if s =? symbol then (true, data') else lookup_symbols n data' symbol
      end
  end.

Fixpoint lookup_groups (group_count : nat) (data : list Z) (symbol : TSSymbol) : Z :=
  match group_count with
  | O => 0
  | S n =>
      match data with
      | section_value :: symbol_count :: data' =>
          let '(found, data'') := lookup_symbols (Z.to_nat symbol_count) data' symbol in
          if found then section_value else lookup_groups n data'' symbol
      | _ => 0
      end
  end.

(** Modelled from the spec: the table lookup of the generated table-driven
    core, an inline function of the runtime header that [parser.c] does not
    hold. [ts_language_lookup]: the action index of a token, or the next state
    of a non-terminal, in a parse state. *)
Definition ts_language_lookup (state : TSStateId) (symbol : TSSymbol) : Z :=
  if LARGE_STATE_COUNT <=? state then
    let index := table_get 0 ts_small_parse_table_map (state - LARGE_STATE_COUNT) in
    match skipn (Z.to_nat index) ts_small_parse_table with
    | group_count :: data => lookup_groups (Z.to_nat group_count) data symbol
    | [] => 0
    end
  else table_get 0 (table_get [] ts_parse_table state) symbol.

Definition no_actions : TSParseActionEntry :=
  {| count := 0; reusable := false; actions := [] |}.

(** Modelled from the spec: the entry of [ts_parse_actions] for a state and a
    symbol (runtime header); the error symbol has no entry. *)
Definition ts_language_table_entry (state : TSStateId) (symbol : TSSymbol)
  : TSParseActionEntry :=
  if symbol =? ts_builtin_sym_error then no_actions
  else table_get no_actions ts_parse_actions (ts_language_lookup state symbol).

(** The next state after a non-terminal. *)
Definition ts_language_next_state (state : TSStateId) (symbol : TSSymbol) : TSStateId :=
  ts_language_lookup state symbol.

Definition ts_language_lex_mode (state : TSStateId) : TSStateId :=
  table_get 0 ts_lex_modes state.

(** Modelled from the spec: the action the interpreter takes for an entry
    (the loop of the runtime over the actions of an entry, not in
    [parser.c]); it passes over every [SHIFT_REPEAT]. *)
Definition is_shift_repeat (a : TSParseAction) : bool :=
  match a with
  | SHIFT_REPEAT _ => true
  | _ => false
  end.

Definition entry_action (entry : TSParseActionEntry) : option TSParseAction :=
  match filter (fun a => negb (is_shift_repeat a)) (actions entry) with
  | a :: _ => Some a
  | [] => None
  end.

(** ** Lexing for a parse state *)

Record Token := { token_symbol : TSSymbol; token_padding : list Z; token_text : list Z }.

Definition ERROR_STATE : TSStateId := 0.

(** The token of a lexeme and the input after it. When the start of the token
    lies after its marked end, the start is moved back to the end. *)
Definition token_of_lexeme (input : list Z) (lx : Lexeme) : Token * list Z :=
  let e := lexeme_end lx in
  let s := Nat.min (lexeme_start lx) e in
  ({| token_symbol := lexeme_symbol lx;
      token_padding := firstn s input;
      token_text := firstn (e - s) (skipn s input) |},
   skipn e input).

Inductive lex_outcome :=
| Lexed (token : Token) (rest : list Z)
| NoLookahead
| Unrecognized.

(** Modelled from the spec: how the parser pulls the next token (the lexer
    is pulled on demand by the parser; this function of the runtime is not
    in [parser.c]). The lexer runs in the lex state of the parse state; when
    it finds no token there it runs again in the lex state of [ERROR_STATE],
    which knows every token. A parse state whose lex state is [NO_LEX_STATE]
    ends a non-terminal extra and takes no lookahead. *)
Definition ts_parser__lex (parse_state : TSStateId) (input : list Z) : lex_outcome :=
  let lex_mode := ts_language_lex_mode parse_state in
  if lex_mode =? NO_LEX_STATE then NoLookahead
  else
    match ts_lex lex_mode input with
    | Some lx => let '(token, rest) := token_of_lexeme input lx in Lexed token rest
    | None =>
        match ts_lex (ts_language_lex_mode ERROR_STATE) input with
        | Some lx => let '(token, rest) := token_of_lexeme input lx in Lexed token rest
        | None => Unrecognized
        end
    end.

(** ** The stack *)

Record StackEntry := { entry_subtree : Subtree; entry_state : TSStateId }.

(** The top of the stack is the head of the list; the empty stack is in
    state 1, the start state. *)
Definition Stack := list StackEntry.

Definition ts_stack_state (stack : Stack) : TSStateId :=
  match stack with
  | [] => 1
  | e :: _ => entry_state e
  end.

Definition ts_stack_push (stack : Stack) (t : Subtree) (state : TSStateId) : Stack :=
  {| entry_subtree := t; entry_state := state |} :: stack.

(** Modelled from the spec: popping the children of a reduction (runtime
    stack, not in [parser.c]). Pops subtrees until [count] of them are not
    extras; the extras met on the
    way are popped with them. The subtrees come out in source order. *)
Fixpoint ts_stack_pop_count (stack : Stack) (count : nat) (popped : list Subtree)
  {struct stack} : option (list Subtree * Stack) :=
  match count with
  | O => Some (popped, stack)
  | S n =>
      match stack with
      | [] => None
      | e :: stack' =>
          let t := entry_subtree e in
          if ts_subtree_extra t
          then ts_stack_pop_count stack' count (t :: popped)
          else ts_stack_pop_count stack' n (t :: popped)
      end
  end.

(** Splits the extras at the end of [children] off; gives the remaining
    children and the extras, both in source order. *)
Fixpoint remove_trailing_extras_rev (rev_children : list Subtree) (extras : list Subtree)
  : list Subtree * list Subtree :=
  match rev_children with
  | last :: rev_children' =>
      if ts_subtree_extra last
      then remove_trailing_extras_rev rev_children' (last :: extras)
      else (rev rev_children, extras)
  | [] => ([], extras)
  end.

Definition ts_subtree_array_remove_trailing_extras (children : list Subtree)
  : list Subtree * list Subtree :=
  remove_trailing_extras_rev (rev children) [].

Fixpoint push_all (stack : Stack) (trees : list Subtree) (state : TSStateId) : Stack :=
  match trees with
  | [] => stack
  | t :: trees' => push_all (ts_stack_push stack t state) trees' state
  end.

(** Modelled from the spec: a reduction of the table-driven core (runtime,
    not in [parser.c]). It pops the children, builds the parent, pushes it in the next
    state of the uncovered state, and pushes the trailing extras back on top.
    The parent is an extra when the reduction ends a non-terminal extra and
    leads back to the uncovered state. *)
Definition ts_parser__reduce (stack : Stack) (symbol : TSSymbol) (child_count : Z)
    (production_id : Z) (end_of_non_terminal_extra : bool) : option Stack :=
  match ts_stack_pop_count stack (Z.to_nat child_count) [] with
  | None => None
  | Some (popped, stack') =>
      let '(children, trailing_extras) := ts_subtree_array_remove_trailing_extras popped in
      let state := ts_stack_state stack' in
      let next_state := ts_language_next_state state symbol in
      let extra := end_of_non_terminal_extra && (next_state =? state) in
      let parent := Node symbol production_id extra children in
      Some (push_all (ts_stack_push stack' parent next_state) trailing_extras next_state)
  end.

(** Modelled from the spec: accepting the input (runtime, not in
    [parser.c]). Accepting pushes the end-of-input token, pops everything, and makes the
    last subtree that is not an extra the root: its children are spliced in
    its place among the other subtrees, which become children of the root.
    The root is an inner node (a token cannot be the root). *)
Fixpoint splice_root (rev_trees : list Subtree) (after : list Subtree) : option Subtree :=
  match rev_trees with
  | [] => None
  | t :: rev_before =>
      if ts_subtree_extra t then splice_root rev_before (t :: after)
      else match t with
           | Node symbol production_id _ children =>
               Some (Node symbol production_id false (rev rev_before ++ children ++ after))
           | Leaf _ _ _ => None
           end
  end.

Definition ts_parser__accept (stack : Stack) (lookahead : Subtree) : option Subtree :=
  splice_root (lookahead :: map entry_subtree stack) [].

(** ** The parse loop *)

(** The parser between two actions: the stack, the lookahead token when one
    was read and not yet shifted, and the input after it. *)
Record Parser := { stack : Stack; lookahead : option Token; input : list Z }.

Inductive Outcome :=
| Accepted (root : Subtree)
| SyntaxError (at_ : Parser)
| OutOfFuel (at_ : Parser).

Inductive Step :=
| Continue (p : Parser)
| Halt (o : Outcome).

Definition leaf_of_token (t : Token) : Subtree :=
  Leaf (token_symbol t) (token_padding t) (token_text t).

(** Modelled from the spec: reading the lookahead (runtime, not in
    [parser.c]): the one at hand, or else a new token, lexed for
    the state on top of the stack. A parse state that ends a non-terminal
    extra reads nothing. *)
Definition ts_parser__read (p : Parser) : option (option Token * list Z) :=
  match lookahead p with
  | Some t => Some (Some t, input p)
  | None =>
      match ts_parser__lex (ts_stack_state (stack p)) (input p) with
      | Lexed t rest => Some (Some t, rest)
      | NoLookahead => Some (None, input p)
      | Unrecognized => None
      end
  end.

(** Modelled from the spec: carrying out the action of the table for the
    lookahead (the parse loop of the runtime, not in [parser.c]). After a
    reduction the lookahead is kept. A parse state that ends a non-terminal
    extra finds its reduction under the end-of-input symbol. *)
Definition ts_parser__act (stack : Stack) (la : option Token) (rest : list Z) : Step :=
  let state := ts_stack_state stack in
  let here := {| stack := stack; lookahead := la; input := rest |} in
  let symbol :=
    match la with
    | Some t => token_symbol t
    | None => ts_builtin_sym_end
    end in
  match entry_action (ts_language_table_entry state symbol), la with
  | Some (SHIFT next_state), Some t =>
      Continue {| stack := ts_stack_push stack (leaf_of_token t) next_state;
                  lookahead := None;
                  input := rest |}
  | Some (REDUCE sym child_count production_id), _ =>
      match ts_parser__reduce stack sym child_count production_id
              (match la with None => true | Some _ => false end) with
      | Some stack' => Continue {| stack := stack'; lookahead := la; input := rest |}
      | None => Halt (SyntaxError here)
      end
  | Some ACCEPT_INPUT, Some t =>
      match ts_parser__accept stack (leaf_of_token t) with
      | Some root => Halt (Accepted root)
      | None => Halt (SyntaxError here)
      end
  | _, _ => Halt (SyntaxError here)
  end.

(** Modelled from the spec: one action of the parse loop (runtime, not in
    [parser.c]): read the lookahead, then act on it. *)
Definition ts_parser__advance (p : Parser) : Step :=
  match ts_parser__read p with
  | None => Halt (SyntaxError p)
  | Some (la, rest) => ts_parser__act (stack p) la rest
  end.

Fixpoint ts_parser__run (fuel : nat) (p : Parser) : Outcome :=
  match fuel with
  | O => OutOfFuel p
  | S fuel' =>
      match ts_parser__advance p with
      | Continue p' => ts_parser__run fuel' p'
      | Halt o => o
      end
  end.

Definition parser_start (source : list Z) : Parser :=
  {| stack := []; lookahead := None; input := source |}.

(** The bound on the number of actions of a parse; [OutOfFuel] tells when it
    was reached. *)
Definition parse_fuel (source : list Z) : nat := 64 + 32 * List.length source.

Definition ts_parser_parse (source : list Z) : Outcome :=
  ts_parser__run (parse_fuel source) (parser_start source).

Definition parse (source : string) : Outcome := ts_parser_parse (codepoints source).

(** ** Nodes as the tree API shows them *)

Definition is_visible (t : Subtree) : bool :=
  visible (ts_language_symbol_metadata (ts_subtree_symbol t)).

(** Modelled from the spec: the ordered children of a node (tree API of the
    runtime, not in [parser.c]), as [ts_node_child] counts them: the visible
    subtrees below it; a hidden subtree stands for its own such children. *)
Fixpoint ts_node__relevant (t : Subtree) : list Subtree :=
  match t with
  | Leaf _ _ _ => if is_visible t then [t] else []
  | Node _ _ _ children =>
      if is_visible t then [t] else flat_map ts_node__relevant children
  end.

Definition ts_node_children (t : Subtree) : list Subtree :=
  flat_map ts_node__relevant (ts_subtree_children t).

Definition ts_node_named_children (t : Subtree) : list Subtree :=
  filter (fun c => named (ts_language_symbol_metadata (ts_subtree_symbol c)))
         (ts_node_children t).

(** Modelled from the spec: the named-field accessors of a node (tree API of
    the runtime, not in [parser.c]). The field map of the node's production
    lists, for a field, the children that carry it, by their index among the
    children that are not extras. A hidden child stands for its first visible
    child. (No entry of this grammar is [inherited].) *)
Definition ts_language_field_map (production_id : Z) : list TSFieldMapEntry :=
  let slice := table_get {| index := 0; length := 0 |} ts_field_map_slices production_id in
  firstn (Z.to_nat (length slice)) (skipn (Z.to_nat (index slice)) ts_field_map_entries).

Fixpoint field_scan (field_map : list TSFieldMapEntry) (children : list Subtree)
    (structural_index : Z) {struct children} : option Subtree :=
  match children with
  | [] => None
  | child :: children' =>
      match field_map with
      | [] => None
      | entry :: field_map' =>
          if structural_index <? child_index entry
          then field_scan field_map children' (structural_index + 1)
          else if is_visible child then Some child
          else match ts_node__relevant child with
               | c :: _ => Some c
               | [] => field_scan field_map' children' (structural_index + 1)
               end
      end
  end.

Definition ts_node_child_by_field_id (t : Subtree) (field : TSFieldId) : option Subtree :=
  if field =? 0 then None
  else
    field_scan
      (filter (fun e => field_id e =? field)
              (ts_language_field_map (ts_subtree_production_id t)))
      (filter (fun c => negb (ts_subtree_extra c)) (ts_subtree_children t))
      0.

Fixpoint field_id_for_name (names : list (TSFieldId * option string)) (name : string)
  : TSFieldId :=
  match names with
  | [] => 0
  | (id, Some n) :: names' => if String.eqb n name then id else field_id_for_name names' name
  | (_, None) :: names' => field_id_for_name names' name
  end.

Definition ts_language_field_id_for_name (name : string) : TSFieldId :=
  field_id_for_name ts_field_names name.

Definition ts_node_child_by_field_name (t : Subtree) (name : string) : option Subtree :=
  ts_node_child_by_field_id t (ts_language_field_id_for_name name).

(** A printable view of a tree: the visible nodes with the names of their
    symbols, and under them every token with its name and its text (also the
    tokens that the tree API hides, which hold the text of numbers, strings
    and comments). *)
Inductive View :=
| Tok (name : string) (text : string)
| Nd (name : string) (children : list View).

Fixpoint views (t : Subtree) : list View :=
  match t with
  | Leaf symbol _ text => [Tok (ts_language_symbol_name symbol) (text_of text)]
  | Node symbol _ _ children =>
      let below := flat_map views children in
      if is_visible t then [Nd (ts_language_symbol_name symbol) below] else below
  end.

Definition view_of (o : Outcome) : option (list View) :=
  match o with
  | Accepted root => Some (views root)
  | _ => None
  end.

(** * Facts about the lexer *)

Module LexFacts.
Local Open Scope lookahead_scope.

(** ** Character classes *)

Definition is_space (c : Z) : bool :=
  (c =? 9) || (c =? 10) || (c =? 13) || (c =? " ").

Definition is_digit (c : Z) : bool := ("0" <=? c) && (c <=? "9").

Definition is_hex_digit (c : Z) : bool :=
  (("0" <=? c) && (c <=? "9")) ||
  (("A" <=? c) && (c <=? "F")) ||
  (("a" <=? c) && (c <=? "f")).

Definition is_identifier_char (c : Z) : bool :=
  (("0" <=? c) && (c <=? "9")) ||
  (("A" <=? c) && (c <=? "Z")) ||
  (c =? "_") ||
  (("a" <=? c) && (c <=? "z")).

(** [next_is p rest]: the input [rest] goes on with a character of class
    [p]; false at the end of the input. *)
Definition next_is (p : Z -> bool) (rest : list Z) : bool :=
  match rest with
  | [] => false
  | c :: _ => p c
  end.

Definition lexeme (symbol : TSSymbol) (s e : nat) : Lexeme :=
  {| lexeme_symbol := symbol; lexeme_start := s; lexeme_end := e |}.

(** ** Stepping the automaton *)

Lemma ts_lex_loop_cons state c input pos lexer :
  ts_lex_loop state (c :: input) pos lexer =
  let '(tok, next) := ts_lex_state state false c in
  let lexer' := accept_token tok pos lexer in
  match next with
  | ADVANCE state' => ts_lex_loop state' input (S pos) lexer'
  | SKIP state' => ts_lex_loop state' input (S pos) (skip_to (S pos) lexer')
  | END_STATE => lexer_result lexer'
  end.
Proof. reflexivity. Qed.

Lemma ts_lex_loop_nil state pos lexer :
  ts_lex_loop state [] pos lexer = ts_lex_eof LEX_STATE_COUNT state pos lexer.
Proof. reflexivity. Qed.

Lemma ts_lex_eof_S fuel state pos lexer :
  ts_lex_eof (S fuel) state pos lexer =
  let '(tok, next) := ts_lex_state state true 0 in
  let lexer' := accept_token tok pos lexer in
  match next with
  | ADVANCE state' => ts_lex_eof fuel state' pos lexer'
  | SKIP state' => ts_lex_eof fuel state' pos (skip_to pos lexer')
  | END_STATE => lexer_result lexer'
  end.
Proof. reflexivity. Qed.

Lemma lexer_result_accept symbol pos lexer :
  lexer_result (accept_token (Some symbol) pos lexer) =
  Some (lexeme symbol (token_start_position lexer) pos).
Proof. reflexivity. Qed.

(** Splits the comparisons of the goal on the lookahead and drops the cases
    that the hypotheses exclude. *)
Ltac split_lookahead :=
  repeat match goal with
  | |- context [Z.eqb ?a ?b] => destruct (Z.eqb_spec a b); try lia
  | |- context [Z.leb ?a ?b] => destruct (Z.leb_spec a b); try lia
  end.

(** Evaluates [ts_lex_state] at a given state and an unknown lookahead. *)
Ltac lex_state :=
  cbv beta iota delta [ts_lex_state ACCEPT_TOKEN NO_TOKEN];
  split_lookahead; try reflexivity.

(** At the end of the input. *)
Ltac lex_eof :=
  rewrite ?ts_lex_loop_nil; unfold LEX_STATE_COUNT;
  repeat (rewrite ts_lex_eof_S;
          cbv beta iota delta [ts_lex_state ACCEPT_TOKEN NO_TOKEN];
          cbn [andb orb negb]);
  try reflexivity.

(** ** Runs of the automaton *)

(** [accepts s symbol]: state [s] begins with [ACCEPT_TOKEN (symbol)]. *)
Definition accepts (s : TSStateId) (symbol : TSSymbol) : Prop :=
  forall eof c, fst (ts_lex_state s eof c) = Some symbol.

(** [stays s p]: on a character of class [p], state [s] advances to itself. *)
Definition stays (s : TSStateId) (p : Z -> bool) : Prop :=
  forall c, p c = true -> snd (ts_lex_state s false c) = ADVANCE s.

(** [skips s p]: on a character of class [p], state [s] accepts nothing and
    skips to itself. *)
Definition skips (s : TSStateId) (p : Z -> bool) : Prop :=
  forall c, p c = true -> ts_lex_state s false c = (None, SKIP s).

(** [stops s rest]: state [s] ends on the input [rest]. *)
Definition stops (s : TSStateId) (rest : list Z) : Prop :=
  match rest with
  | [] => snd (ts_lex_state s true 0) = END_STATE
  | c :: _ => snd (ts_lex_state s false c) = END_STATE
  end.

Definition lexer_at (pos : nat) : TSLexer :=
  {| token_start_position := pos; result_symbol := None |}.

Lemma ts_lex_loop_step s c input pos lexer tok next :
  ts_lex_state s false c = (tok, next) ->
  ts_lex_loop s (c :: input) pos lexer =
  match next with
  | ADVANCE s' => ts_lex_loop s' input (S pos) (accept_token tok pos lexer)
  | SKIP s' => ts_lex_loop s' input (S pos) (skip_to (S pos) (accept_token tok pos lexer))
  | END_STATE => lexer_result (accept_token tok pos lexer)
  end.
Proof. intros H. rewrite ts_lex_loop_cons, H. reflexivity. Qed.

(** An accepting state overwrites the result found so far. *)
Lemma accepts_overwrites s symbol input pos start r r' :
  accepts s symbol ->
  ts_lex_loop s input pos {| token_start_position := start; result_symbol := r |} =
  ts_lex_loop s input pos {| token_start_position := start; result_symbol := r' |}.
Proof.
  intros Hacc. destruct input as [|c input].
  - rewrite !ts_lex_loop_nil. unfold LEX_STATE_COUNT. rewrite !ts_lex_eof_S.
    specialize (Hacc true 0). destruct (ts_lex_state s true 0) as [tok next].
    cbn in Hacc. subst tok. reflexivity.
  - rewrite !ts_lex_loop_cons.
    specialize (Hacc false c). destruct (ts_lex_state s false c) as [tok next].
    cbn in Hacc. subst tok. reflexivity.
Qed.

Lemma accepts_stays s symbol p w : forall rest pos lexer,
  accepts s symbol -> stays s p ->
  Forall (fun c => p c = true) w ->
  ts_lex_loop s (w ++ rest) pos lexer =
  ts_lex_loop s rest (pos + List.length w) lexer.
Proof.
  induction w as [|c w IH]; intros rest pos lexer Hacc Hstay Hw.
  - cbn. rewrite Nat.add_0_r. reflexivity.
  - inversion Hw as [|? ? Hc Hw']; subst. cbn [app List.length].
    rewrite ts_lex_loop_cons.
    pose proof (Hacc false c) as Ha. pose proof (Hstay c Hc) as Hs.
    destruct (ts_lex_state s false c) as [tok next]. cbn in Ha, Hs. subst tok next.
    rewrite IH by assumption. rewrite Nat.add_succ_r. cbn [Nat.add].
    destruct lexer as [start r]. apply (accepts_overwrites s symbol); assumption.
Qed.

Lemma accepts_stops s symbol rest pos lexer :
  accepts s symbol -> stops s rest ->
  ts_lex_loop s rest pos lexer = Some (lexeme symbol (token_start_position lexer) pos).
Proof.
  intros Hacc Hstop. destruct rest as [|c rest]; cbn [stops] in Hstop.
  - rewrite ts_lex_loop_nil. unfold LEX_STATE_COUNT. rewrite ts_lex_eof_S.
    specialize (Hacc true 0). destruct (ts_lex_state s true 0) as [tok next].
    cbn in Hacc, Hstop. subst. reflexivity.
  - rewrite ts_lex_loop_cons.
    specialize (Hacc false c). destruct (ts_lex_state s false c) as [tok next].
    cbn in Hacc, Hstop. subst. reflexivity.
Qed.

(** A run of characters of the class that a state stays on, and then the
    state stops: the token ends after the run. *)
Lemma accepts_run s symbol p w rest pos lexer :
  accepts s symbol -> stays s p ->
  Forall (fun c => p c = true) w -> stops s rest ->
  ts_lex_loop s (w ++ rest) pos lexer =
  Some (lexeme symbol (token_start_position lexer) (pos + List.length w)).
Proof.
  intros Hacc Hstay Hw Hstop.
  rewrite (accepts_stays s symbol p) by assumption.
  apply accepts_stops; assumption.
Qed.

(** Skipped characters move the start of the token. *)
Lemma skips_run s p ws : forall rest pos,
  skips s p ->
  Forall (fun c => p c = true) ws ->
  ts_lex_loop s (ws ++ rest) pos (lexer_at pos) =
  ts_lex_loop s rest (pos + List.length ws) (lexer_at (pos + List.length ws)).
Proof.
  induction ws as [|c ws IH]; intros rest pos Hskip Hws.
  - cbn. rewrite Nat.add_0_r. reflexivity.
  - inversion Hws as [|? ? Hc Hws']; subst. cbn [app List.length].
    rewrite (ts_lex_loop_step _ _ _ _ _ _ _ (Hskip c Hc)).
    cbn [accept_token]. unfold skip_to, lexer_at at 1. cbn [result_symbol].
    fold (lexer_at (S pos)). rewrite IH by assumption.
    rewrite Nat.add_succ_r. reflexivity.
Qed.

(** The result of a run that starts [k] characters later is the result of
    the run, moved by [k]. *)
Definition shift_lexer (k : nat) (lexer : TSLexer) : TSLexer :=
  {| token_start_position := k + token_start_position lexer;
     result_symbol :=
       match result_symbol lexer with
       | Some (symbol, e) => Some (symbol, k + e)%nat
       | None => None
       end |}.

Definition shift_lexeme (k : nat) (lx : Lexeme) : Lexeme :=
  lexeme (lexeme_symbol lx) (k + lexeme_start lx) (k + lexeme_end lx).

Lemma lexer_result_shift k lexer :
  lexer_result (shift_lexer k lexer) = option_map (shift_lexeme k) (lexer_result lexer).
Proof.
  destruct lexer as [start [[symbol e]|]]; reflexivity.
Qed.

Lemma accept_token_shift k tok pos lexer :
  accept_token tok (k + pos) (shift_lexer k lexer) = shift_lexer k (accept_token tok pos lexer).
Proof. destruct tok; reflexivity. Qed.

Lemma skip_to_shift k pos lexer :
  skip_to (k + pos) (shift_lexer k lexer) = shift_lexer k (skip_to pos lexer).
Proof. reflexivity. Qed.

Lemma ts_lex_eof_shift k fuel : forall s pos lexer,
  ts_lex_eof fuel s (k + pos) (shift_lexer k lexer) =
  option_map (shift_lexeme k) (ts_lex_eof fuel s pos lexer).
Proof.
  induction fuel as [|fuel IH]; intros s pos lexer; [reflexivity|].
  rewrite !ts_lex_eof_S. destruct (ts_lex_state s true 0) as [tok [s'|s'|]]; cbv zeta.
  - rewrite accept_token_shift. apply IH.
  - rewrite accept_token_shift, skip_to_shift. apply IH.
  - rewrite accept_token_shift. apply lexer_result_shift.
Qed.

Lemma ts_lex_loop_shift k input : forall s pos lexer,
  ts_lex_loop s input (k + pos) (shift_lexer k lexer) =
  option_map (shift_lexeme k) (ts_lex_loop s input pos lexer).
Proof.
  induction input as [|c input IH]; intros s pos lexer.
  - rewrite !ts_lex_loop_nil. apply ts_lex_eof_shift.
  - rewrite !ts_lex_loop_cons. destruct (ts_lex_state s false c) as [tok [s'|s'|]]; cbv zeta.
    + rewrite accept_token_shift, <- Nat.add_succ_r. apply IH.
    + rewrite accept_token_shift, <- !Nat.add_succ_r, skip_to_shift. apply IH.
    + rewrite accept_token_shift. apply lexer_result_shift.
Qed.

(** Leading characters that the start state skips: the token is the token of
    the rest, found that much later. *)
Lemma ts_lex_skips s p ws rest :
  skips s p ->
  Forall (fun c => p c = true) ws ->
  ts_lex s (ws ++ rest) = option_map (shift_lexeme (List.length ws)) (ts_lex s rest).
Proof.
  intros Hskip Hws. unfold ts_lex.
  change lexer_start with (lexer_at 0).
  rewrite (skips_run s p) by assumption. cbn [Nat.add].
  rewrite <- (ts_lex_loop_shift (List.length ws) rest s 0%nat (lexer_at 0)).
  unfold shift_lexer, lexer_at. cbn [token_start_position result_symbol].
  rewrite Nat.add_0_r. reflexivity.
Qed.

(** ** Numbers *)

Ltac prove_accepts :=
  intros ? ?; cbv beta iota delta [ts_lex_state ACCEPT_TOKEN NO_TOKEN fst]; reflexivity.

(** Proves a goal about [ts_lex_state] at a given state from boolean
    hypotheses on the lookahead. *)
Ltac lex_state_from H :=
  revert H;
  cbv beta iota delta [ts_lex_state ACCEPT_TOKEN NO_TOKEN fst snd next_is
                       is_digit is_hex_digit is_identifier_char is_space];
  split_lookahead; cbn [andb orb negb]; intros; try discriminate; try reflexivity.

Lemma accepts_79 : accepts 79 aux_sym_number_token1. Proof. prove_accepts. Qed.
Lemma accepts_80 : accepts 80 aux_sym_number_token2. Proof. prove_accepts. Qed.
Lemma accepts_81 : accepts 81 aux_sym_number_token3. Proof. prove_accepts. Qed.
Lemma accepts_82 : accepts 82 aux_sym_number_token3. Proof. prove_accepts. Qed.

Lemma stays_79 : stays 79 is_hex_digit.
Proof. intros c H. lex_state_from H. Qed.
Lemma stays_80 : stays 80 is_digit.
Proof. intros c H. lex_state_from H. Qed.
Lemma stays_82 : stays 82 is_digit.
Proof. intros c H. lex_state_from H. Qed.

Lemma stops_79 rest : next_is is_hex_digit rest = false -> stops 79 rest.
Proof. destruct rest as [|c rest]; intros H; [reflexivity|]. unfold stops. lex_state_from H. Qed.
Lemma stops_80 rest : next_is is_digit rest = false -> stops 80 rest.
Proof. destruct rest as [|c rest]; intros H; [reflexivity|]. unfold stops. lex_state_from H. Qed.
Lemma stops_82 rest :
  next_is (fun c => is_digit c || (c =? ".")) rest = false -> stops 82 rest.
Proof. destruct rest as [|c rest]; intros H; [reflexivity|]. unfold stops. lex_state_from H. Qed.
Lemma stops_81 rest :
  next_is (fun c => is_digit c || (c =? ".") || (c =? "x")) rest = false -> stops 81 rest.
Proof. destruct rest as [|c rest]; intros H; [reflexivity|]. unfold stops. lex_state_from H. Qed.

(** The states in which a number can start. *)
Definition number_start (s : TSStateId) : Prop := s = 0 \/ s = 2.

Lemma start_zero s : number_start s -> ts_lex_state s false "0" = (None, ADVANCE 81).
Proof. intros [-> | ->]; reflexivity. Qed.

Lemma start_nonzero s c :
  number_start s -> is_digit c = true -> c <> "0" ->
  ts_lex_state s false c = (None, ADVANCE 82).
Proof. intros [-> | ->] H Hc; lex_state_from H. Qed.

Lemma state_81_digit c : is_digit c = true -> ts_lex_state 81 false c = (Some aux_sym_number_token3, ADVANCE 82).
Proof. intros H. lex_state_from H. Qed.
Lemma state_81_dot : ts_lex_state 81 false "." = (Some aux_sym_number_token3, ADVANCE 44).
Proof. reflexivity. Qed.
Lemma state_81_x : ts_lex_state 81 false "x" = (Some aux_sym_number_token3, ADVANCE 45).
Proof. reflexivity. Qed.
Lemma state_82_dot : ts_lex_state 82 false "." = (Some aux_sym_number_token3, ADVANCE 44).
Proof. reflexivity. Qed.
Lemma state_44_digit c : is_digit c = true -> ts_lex_state 44 false c = (None, ADVANCE 80).
Proof. intros H. lex_state_from H. Qed.
Lemma state_45_hex c : is_hex_digit c = true -> ts_lex_state 45 false c = (None, ADVANCE 79).
Proof. intros H. lex_state_from H. Qed.

(** States 44 and 45 accept nothing and need a digit to go on. *)
Lemma state_44_ends rest pos lexer :
  next_is is_digit rest = false ->
  ts_lex_loop 44 rest pos lexer = lexer_result lexer.
Proof.
  destruct rest as [|c rest]; intros H.
  - lex_eof.
  - rewrite ts_lex_loop_cons.
    replace (ts_lex_state 44 false c) with (NO_TOKEN END_STATE); [reflexivity|].
    lex_state_from H.
Qed.

Lemma state_45_ends rest pos lexer :
  next_is is_hex_digit rest = false ->
  ts_lex_loop 45 rest pos lexer = lexer_result lexer.
Proof.
  destruct rest as [|c rest]; intros H.
  - lex_eof.
  - rewrite ts_lex_loop_cons.
    replace (ts_lex_state 45 false c) with (NO_TOKEN END_STATE); [reflexivity|].
    lex_state_from H.
Qed.

Definition is_zero (ds : list Z) : bool :=
  match ds with
  | [c] => c =? "0"
  | _ => false
  end.

Lemma Forall_forallb (p : Z -> bool) w :
  forallb p w = true -> Forall (fun c => p c = true) w.
Proof. intros H. apply Forall_forall. apply forallb_forall. exact H. Qed.

(** After the digits of a number the automaton is in state 81 (after a lone
    [0]) or 82, at the end of the digits. *)
Lemma digits_state s ds rest :
  number_start s -> ds <> [] -> forallb is_digit ds = true ->
  ts_lex s (ds ++ rest) =
  ts_lex_loop (if is_zero ds then 81 else 82) rest (List.length ds) lexer_start.
Proof.
  intros Hs Hne Hds. apply Forall_forallb in Hds.
  destruct ds as [|d ds]; [congruence|]. clear Hne.
  inversion Hds as [|? ? Hd Hds']; subst. unfold ts_lex. cbn [app List.length].
  destruct (Z.eq_dec d "0") as [-> | Hd0].
  - rewrite (ts_lex_loop_step _ _ _ _ _ _ _ (start_zero s Hs)). cbn [accept_token].
    destruct ds as [|d' ds]; [reflexivity|].
    inversion Hds' as [|? ? Hd' Hds'']; subst. cbn [app List.length is_zero].
    rewrite (ts_lex_loop_step _ _ _ _ _ _ _ (state_81_digit d' Hd')).
    rewrite (accepts_stays 82 _ is_digit) by auto using accepts_82, stays_82.
    cbn [Nat.add]. unfold accept_token, lexer_start; cbn [token_start_position].
    apply (accepts_overwrites 82 aux_sym_number_token3), accepts_82.
  - rewrite (ts_lex_loop_step _ _ _ _ _ _ _ (start_nonzero s d Hs Hd Hd0)). cbn [accept_token].
    rewrite (accepts_stays 82 _ is_digit) by auto using accepts_82, stays_82.
    cbn [Nat.add].
    replace (is_zero (d :: ds)) with false; [reflexivity|].
    destruct ds; [|reflexivity]. cbn. symmetry. apply Z.eqb_neq. exact Hd0.
Qed.

Lemma after_digits_cases ds :
  (if is_zero ds then 81 else 82) = 81 \/ (if is_zero ds then 81 else 82) = 82.
Proof. destruct (is_zero ds); auto. Qed.

(** A decimal number: digits, not followed by a further digit or by a
    fraction (nor, after a lone [0], by [x]). *)
Lemma lex_decimal s ds rest :
  number_start s -> ds <> [] -> forallb is_digit ds = true ->
  next_is (fun c => is_digit c || (c =? ".")) rest = false ->
  is_zero ds && next_is (fun c => c =? "x") rest = false ->
  ts_lex s (ds ++ rest) = Some (lexeme aux_sym_number_token3 0 (List.length ds)).
Proof.
  intros Hs Hne Hds Hrest Hx. rewrite digits_state by assumption.
  destruct (is_zero ds).
  - apply (accepts_stops 81); [apply accepts_81|]. apply stops_81.
    destruct rest as [|c rest]; [reflexivity|]. cbn [next_is andb] in *.
    rewrite Hrest, Hx. reflexivity.
  - apply (accepts_stops 82); [apply accepts_82|]. apply stops_82. exact Hrest.
Qed.

(** Digits, a point and further digits. *)
Lemma lex_fraction s ds fs rest :
  number_start s -> ds <> [] -> forallb is_digit ds = true ->
  fs <> [] -> forallb is_digit fs = true ->
  next_is is_digit rest = false ->
  ts_lex s (ds ++ "." :: fs ++ rest) =
  Some (lexeme aux_sym_number_token2 0 (List.length ds + 1 + List.length fs)).
Proof.
  intros Hs Hne Hds Hfne Hfs Hrest. rewrite digits_state by assumption.
  apply Forall_forallb in Hfs.
  destruct fs as [|f fs]; [congruence|]. inversion Hfs as [|? ? Hf Hfs']; subst.
  assert (Hdot : forall st, st = 81 \/ st = 82 ->
            ts_lex_state st false "." = (Some aux_sym_number_token3, ADVANCE 44)).
  { intros st [-> | ->]; reflexivity. }
  rewrite (ts_lex_loop_step _ _ _ _ _ _ _ (Hdot _ (after_digits_cases ds))).
  cbn [app].
  rewrite (ts_lex_loop_step _ _ _ _ _ _ _ (state_44_digit f Hf)).
  rewrite (accepts_run 80 aux_sym_number_token2 is_digit)
    by auto using accepts_80, stays_80, stops_80.
  cbn [accept_token token_start_position lexer_start List.length].
  f_equal. f_equal. lia.
Qed.

(** Digits and a point that no digit follows: the point is not part of the
    number. *)
Lemma lex_point_without_digits s ds rest :
  number_start s -> ds <> [] -> forallb is_digit ds = true ->
  next_is is_digit rest = false ->
  ts_lex s (ds ++ "." :: rest) = Some (lexeme aux_sym_number_token3 0 (List.length ds)).
Proof.
  intros Hs Hne Hds Hrest. rewrite digits_state by assumption.
  assert (Hdot : forall st, st = 81 \/ st = 82 ->
            ts_lex_state st false "." = (Some aux_sym_number_token3, ADVANCE 44)).
  { intros st [-> | ->]; reflexivity. }
  rewrite (ts_lex_loop_step _ _ _ _ _ _ _ (Hdot _ (after_digits_cases ds))).
  rewrite state_44_ends by assumption. reflexivity.
Qed.

(** [0x] and hexadecimal digits. *)
Lemma lex_hex s hs rest :
  number_start s -> hs <> [] -> forallb is_hex_digit hs = true ->
  next_is is_hex_digit rest = false ->
  ts_lex s ("0" :: "x" :: hs ++ rest) =
  Some (lexeme aux_sym_number_token1 0 (2 + List.length hs)).
Proof.
  intros Hs Hne Hhs Hrest. apply Forall_forallb in Hhs.
  destruct hs as [|h hs]; [congruence|]. inversion Hhs as [|? ? Hh Hhs']; subst.
  unfold ts_lex.
  rewrite (ts_lex_loop_step _ _ _ _ _ _ _ (start_zero s Hs)).
  rewrite (ts_lex_loop_step _ _ _ _ _ _ _ state_81_x).
  cbn [app].
  rewrite (ts_lex_loop_step _ _ _ _ _ _ _ (state_45_hex h Hh)).
  rewrite (accepts_run 79 aux_sym_number_token1 is_hex_digit)
    by auto using accepts_79, stays_79, stops_79.
  cbn [accept_token token_start_position lexer_start List.length].
  reflexivity.
Qed.

(** [0x] without a hexadecimal digit: the token is the decimal number [0]. *)
Lemma lex_bare_0x s rest :
  number_start s -> next_is is_hex_digit rest = false ->
  ts_lex s ("0" :: "x" :: rest) = Some (lexeme aux_sym_number_token3 0 1).
Proof.
  intros Hs Hrest. unfold ts_lex.
  rewrite (ts_lex_loop_step _ _ _ _ _ _ _ (start_zero s Hs)).
  rewrite (ts_lex_loop_step _ _ _ _ _ _ _ state_81_x).
  rewrite state_45_ends by assumption. reflexivity.
Qed.

(** No sign: where a value starts (lex state 2), [-] and [+] start no token;
    in lex state 0 they are the operator tokens, one character long. *)
Lemma lex_no_sign rest :
  ts_lex 2 ("-" :: rest) = None /\ ts_lex 2 ("+" :: rest) = None /\
  ts_lex 0 ("-" :: rest) = Some (lexeme anon_sym_DASH 0 1) /\
  ts_lex 0 ("+" :: rest) = Some (lexeme anon_sym_PLUS 0 1).
Proof.
  assert (Hd : ts_lex_state 0 false "-" = (None, ADVANCE 96)) by reflexivity.
  assert (Hp : ts_lex_state 0 false "+" = (None, ADVANCE 95)) by reflexivity.
  unfold ts_lex. split; [|split; [|split]].
  - rewrite ts_lex_loop_cons. reflexivity.
  - rewrite ts_lex_loop_cons. reflexivity.
  - rewrite (ts_lex_loop_step _ _ _ _ _ _ _ Hd).
    apply (accepts_stops 96 anon_sym_DASH); [prove_accepts|]. destruct rest; reflexivity.
  - rewrite (ts_lex_loop_step _ _ _ _ _ _ _ Hp).
    apply (accepts_stops 95 anon_sym_PLUS); [prove_accepts|]. destruct rest; reflexivity.
Qed.

(** ** Words: identifiers and keywords *)

(** The state of the automaton after it advanced over all of [w]; [None]
    when it ended or skipped on the way. *)
Fixpoint ts_lex_prefix (s : TSStateId) (w : list Z) (pos : nat) (lexer : TSLexer)
  : option (TSStateId * nat * TSLexer) :=
  match w with
  | [] => Some (s, pos, lexer)
  | c :: w' =>
      match ts_lex_state s false c with
      | (tok, ADVANCE s') => ts_lex_prefix s' w' (S pos) (accept_token tok pos lexer)
      | _ => None
      end
  end.

Lemma ts_lex_loop_prefix w : forall s pos lexer s' pos' lexer' rest,
  ts_lex_prefix s w pos lexer = Some (s', pos', lexer') ->
  ts_lex_loop s (w ++ rest) pos lexer = ts_lex_loop s' rest pos' lexer'.
Proof.
  induction w as [|c w IH]; intros s pos lexer s' pos' lexer' rest H.
  - cbn in H. injection H as <- <- <-. reflexivity.
  - cbn [ts_lex_prefix] in H. cbn [app]. rewrite ts_lex_loop_cons.
    destruct (ts_lex_state s false c) as [tok [s1|s1|]]; try discriminate.
    apply IH. exact H.
Qed.

(** [lexes_as s word symbol]: in lex state [s] the text [word], when no
    identifier character follows it, is one token with that symbol. *)
Definition lexes_as (s : TSStateId) (word : string) (symbol : TSSymbol) : Prop :=
  forall rest,
    next_is is_identifier_char rest = false ->
    ts_lex s (codepoints word ++ rest) = Some (lexeme symbol 0 (String.length word)).

Lemma lexes_as_intro s word symbol k lexer' :
  ts_lex_prefix s (codepoints word) 0 lexer_start = Some (k, String.length word, lexer') ->
  token_start_position lexer' = 0%nat ->
  accepts k symbol ->
  (forall rest, next_is is_identifier_char rest = false -> stops k rest) ->
  lexes_as s word symbol.
Proof.
  intros Hrun Hstart Hacc Hstop rest Hrest. unfold ts_lex.
  rewrite (ts_lex_loop_prefix _ _ _ _ _ _ _ rest Hrun).
  rewrite (accepts_stops k symbol) by auto. rewrite Hstart. reflexivity.
Qed.

(** The states in which a word ends: state 140 for an identifier, and one
    state for each keyword. Each goes on with an identifier character only. *)
Definition word_states : list (TSStateId * TSSymbol) :=
  [ (140, sym_identifier);
    (49, anon_sym_addon); (51, anon_sym_signer); (53, anon_sym_action);
    (55, anon_sym_output); (57, anon_sym_variable); (59, anon_sym_input);
    (62, anon_sym_import); (83, anon_sym_true); (84, anon_sym_false);
    (85, sym_null) ].

Lemma word_state_accepts k symbol :
  In (k, symbol) word_states -> accepts k symbol.
Proof.
  cbn [In word_states]. intros H.
  repeat (destruct H as [H | H]; [injection H as <- <-; prove_accepts|]).
  contradiction.
Qed.

Lemma word_state_stops k symbol rest :
  In (k, symbol) word_states ->
  next_is is_identifier_char rest = false -> stops k rest.
Proof.
  cbn [In word_states]. intros H Hrest.
  destruct rest as [|c rest];
    repeat (destruct H as [H | H];
            [injection H as <- <-; first [reflexivity | unfold stops; lex_state_from Hrest]|]);
    contradiction.
Qed.

(** Proves [lexes_as s word symbol] by running the automaton over the word. *)
Ltac prove_lexes_as :=
  match goal with
  | |- lexes_as _ _ ?symbol =>
      eapply lexes_as_intro;
      [ vm_compute; reflexivity
      | reflexivity
      | eapply word_state_accepts; cbn; tauto
      | intros; eapply word_state_stops; [cbn; tauto | assumption] ]
  end.

(** The ten keywords with their symbols. *)
Definition statement_keywords : list (string * TSSymbol) :=
  [ ("addon"%string, anon_sym_addon); ("signer"%string, anon_sym_signer);
    ("action"%string, anon_sym_action); ("output"%string, anon_sym_output);
    ("variable"%string, anon_sym_variable); ("input"%string, anon_sym_input);
    ("import"%string, anon_sym_import) ].

Definition value_keywords : list (string * TSSymbol) :=
  [ ("true"%string, anon_sym_true); ("false"%string, anon_sym_false);
    ("null"%string, sym_null) ].

Definition keywords : list (string * TSSymbol) := statement_keywords ++ value_keywords.

(** In lex state 0 every keyword is lexed as its keyword. *)
Lemma keywords_state_0 :
  Forall (fun k => lexes_as 0 (fst k) (snd k)) keywords.
Proof. repeat constructor; cbn [fst snd]; prove_lexes_as. Qed.

(** In lex state 2, where a value starts, [true], [false] and [null] are
    keywords and the statement keywords are identifiers. *)
Lemma keywords_state_2 :
  Forall (fun k => lexes_as 2 (fst k) (snd k)) value_keywords /\
  Forall (fun k => lexes_as 2 (fst k) sym_identifier) statement_keywords.
Proof. split; repeat constructor; cbn [fst snd]; prove_lexes_as. Qed.

(** In lex state 1, after a value inside a block, every keyword spelling is
    an identifier. *)
Lemma keywords_state_1 :
  Forall (fun k => lexes_as 1 (fst k) sym_identifier) keywords.
Proof. repeat constructor; cbn [fst snd]; prove_lexes_as. Qed.

(** ** The text of a block comment

    After [/*] the parser is in state 145, whose lex state is 7. The content
    token [aux_sym_comment_token2] is lexed there, through the states 7, 9,
    10, 142, 150, 155 and 159. *)

Definition in_comment (s : TSStateId) : bool :=
  (s =? 7) || (s =? 9) || (s =? 10) || (s =? 142) || (s =? 150) || (s =? 155) || (s =? 159).

(** The two states entered by a [*]. *)
Definition after_star (s : TSStateId) : bool := (s =? 155) || (s =? 159).

(** The next state inside a comment. *)
Definition comment_next (s : TSStateId) (c : Z) : TSStateId :=
  if c =? "*" then (if s =? 10 then 155 else 159)
  else if s =? 7 then
         (if c =? "#" then 142 else if c =? "/" then 10 else if is_space c then 7 else 9)
  else if s =? 10 then (if c =? "/" then 150 else 9)
  else 9.

Lemma comment_step s c :
  in_comment s = true -> c <> 0 -> after_star s && (c =? "/") = false ->
  snd (ts_lex_state s false c) = ADVANCE (comment_next s c) /\
  in_comment (comment_next s c) = true /\
  after_star (comment_next s c) = (c =? "*").
Proof.
  unfold in_comment, after_star, comment_next, is_space. intros Hs Hc Hend.
  repeat match type of Hs with
         | (_ || (?s =? ?k)) = true =>
             apply orb_true_iff in Hs; destruct Hs as [Hs | Hs];
             [| apply Z.eqb_eq in Hs; subst s]
         | (?s =? ?k) = true => apply Z.eqb_eq in Hs; subst s
         end;
    revert Hend;
    cbv beta iota delta [ts_lex_state ACCEPT_TOKEN NO_TOKEN snd];
    split_lookahead; cbn; intros; try discriminate; auto.
Qed.

(** Does the text hold a [*] directly followed by [/]? *)
Fixpoint has_star_slash (w : list Z) : bool :=
  match w with
  | [] => false
  | a :: w' => ((a =? "*") && next_is (fun b => b =? "/") w') || has_star_slash w'
  end.

Fixpoint skip_spaces (w : list Z) : list Z :=
  match w with
  | c :: w' => if is_space c then skip_spaces w' else w
  | [] => []
  end.

(** Is the text, after leading blanks, the single character [/]? (Then the
    closing [*] would make it [/*], which is lexed as the opening token of a
    comment inside the comment.) *)
Definition is_lone_slash (w : list Z) : bool :=
  match skip_spaces w with
  | [c] => c =? "/"
  | _ => false
  end.

(** From inside a comment, over a text without [*/], to the first [*/]. *)
Lemma comment_run body : forall s pos lexer rest,
  in_comment s = true ->
  forallb (fun c => c !=? 0) body = true ->
  has_star_slash body = false ->
  after_star s && next_is (fun c => c =? "/") body = false ->
  (s =? 7) && is_lone_slash body = false ->
  (s =? 10) && (match body with [] => true | _ => false end) = false ->
  ts_lex_loop s (body ++ "*" :: "/" :: rest) pos lexer =
  Some (lexeme aux_sym_comment_token2 (token_start_position lexer)
               (pos + List.length body + 1)).
Proof.
  induction body as [|c body IH]; intros s pos lexer rest Hs Hnul Hss Hend H7 H10.
  - cbn [app List.length]. rewrite Nat.add_0_r.
    destruct (comment_step s "*" Hs) as (Hstep & _ & _); [lia | apply andb_false_r |].
    rewrite ts_lex_loop_cons.
    destruct (ts_lex_state s false "*") as [tok next]. cbn [snd] in Hstep. subst next.
    assert (Hn : comment_next s "*" = 159).
    { unfold comment_next. cbn. rewrite andb_true_r in H10. rewrite H10. reflexivity. }
    rewrite Hn. rewrite ts_lex_loop_cons. cbn. rewrite Nat.add_1_r.
    destruct tok; reflexivity.
  - cbn [forallb] in Hnul. apply andb_true_iff in Hnul. destruct Hnul as [Hc Hnul].
    apply negb_true_iff, Z.eqb_neq in Hc.
    cbn [has_star_slash] in Hss. apply orb_false_iff in Hss. destruct Hss as [Hcs Hss].
    cbn [next_is] in Hend.
    destruct (comment_step s c Hs Hc Hend) as (Hstep & Hin & Hafter).
    cbn [app List.length]. rewrite ts_lex_loop_cons.
    destruct (ts_lex_state s false c) as [tok next]. cbn [snd] in Hstep. subst next.
    rewrite IH; try assumption.
    + destruct tok; cbn [accept_token token_start_position]; f_equal; f_equal; lia.
    + rewrite Hafter. exact Hcs.
    + (* the next state is 7 only from 7 over a blank *)
      destruct (comment_next s c =? 7) eqn:Hn7; [|reflexivity]. cbn [andb].
      unfold comment_next in Hn7. unfold is_lone_slash in *. cbn [skip_spaces] in H7.
      destruct (c =? "*"); [destruct (s =? 10); discriminate|].
      destruct (s =? 7); [|destruct (s =? 10); [destruct (c =? "/")|]; discriminate].
      destruct (c =? "#"); [discriminate|]. destruct (c =? "/"); [discriminate|].
      destruct (is_space c); [|discriminate]. exact H7.
    + (* the next state is 10 only from 7 over a slash *)
      destruct (comment_next s c =? 10) eqn:Hn10; [|reflexivity]. cbn [andb].
      destruct body as [|c' body]; [|reflexivity].
      unfold comment_next in Hn10. unfold is_lone_slash in H7. cbn [skip_spaces] in H7.
      destruct (c =? "*"); [destruct (s =? 10); discriminate|].
      destruct (s =? 7); [|destruct (s =? 10); [destruct (c =? "/")|]; discriminate].
      destruct (c =? "#"); [discriminate|].
      destruct (c =? "/") eqn:Hc'; [|destruct (is_space c); discriminate].
      apply Z.eqb_eq in Hc'. subst c. cbn in H7. discriminate.
Qed.

(** The content of a block comment ends with the first [*] that a [/]
    follows: an inner [/*] changes nothing. *)
Lemma comment_content_ends_at_first_close body rest :
  forallb (fun c => c !=? 0) body = true ->
  has_star_slash body = false ->
  is_lone_slash body = false ->
  ts_lex 7 (body ++ "*" :: "/" :: rest) =
  Some (lexeme aux_sym_comment_token2 0 (List.length body + 1)).
Proof.
  intros Hnul Hss Hlone. unfold ts_lex.
  rewrite comment_run; auto.
Qed.

(** ** The end-of-input token

    [ts_builtin_sym_end] is accepted in state 47 only, and state 47 is
    entered at the end of the input only. *)

Ltac destruct_positive p n :=
  lazymatch n with
  | O => idtac
  | S ?n' =>
      destruct p as [p|p|];
      [destruct_positive p n' | destruct_positive p n' | idtac]
  end.

(** Splits a lexer state into the states of the [switch] and the rest. *)
Ltac each_lex_state s :=
  let p := fresh "p" in
  destruct s as [|p|p]; [ | destruct_positive p 8%nat | ].

Lemma end_accepted_in_47 s eof c :
  fst (ts_lex_state s eof c) = Some ts_builtin_sym_end -> s = 47.
Proof.
  each_lex_state s;
    cbv beta iota delta [ts_lex_state ACCEPT_TOKEN NO_TOKEN fst];
    intros H; try discriminate H; reflexivity.
Qed.

Lemma state_47_needs_eof s c :
  snd (ts_lex_state s false c) <> ADVANCE 47 /\ snd (ts_lex_state s false c) <> SKIP 47.
Proof.
  each_lex_state s;
    cbv beta iota delta [ts_lex_state ACCEPT_TOKEN NO_TOKEN snd];
    split_lookahead; cbn [andb orb negb]; split; discriminate.
Qed.

Definition no_end_yet (lexer : TSLexer) : Prop :=
  forall e, result_symbol lexer <> Some (ts_builtin_sym_end, e).

Lemma ts_lex_eof_end fuel : forall s pos lexer lx,
  (forall e, result_symbol lexer = Some (ts_builtin_sym_end, e) -> e = pos) ->
  ts_lex_eof fuel s pos lexer = Some lx ->
  lexeme_symbol lx = ts_builtin_sym_end ->
  lexeme_end lx = pos.
Proof.
  induction fuel as [|fuel IH]; intros s pos lexer lx Hres H Hsym; [discriminate|].
  rewrite ts_lex_eof_S in H.
  destruct (ts_lex_state s true 0) as [tok next]. cbv zeta in H.
  assert (Hres' : forall e, result_symbol (accept_token tok pos lexer)
                              = Some (ts_builtin_sym_end, e) -> e = pos).
  { destruct tok as [symbol|]; cbn; [|exact Hres]. intros e He. congruence. }
  destruct next as [s'|s'|].
  - exact (IH s' pos _ lx Hres' H Hsym).
  - exact (IH s' pos (skip_to pos (accept_token tok pos lexer)) lx Hres' H Hsym).
  - unfold lexer_result in H.
    destruct (result_symbol (accept_token tok pos lexer)) as [[symbol e]|] eqn:E;
      [|discriminate].
    injection H as <-. cbn in Hsym |- *. subst symbol. apply Hres'. reflexivity.
Qed.

(** A token [ts_builtin_sym_end] ends where the input ends. *)
Lemma ts_lex_loop_end input : forall s pos lexer lx,
  s <> 47 -> no_end_yet lexer ->
  ts_lex_loop s input pos lexer = Some lx ->
  lexeme_symbol lx = ts_builtin_sym_end ->
  lexeme_end lx = (pos + List.length input)%nat.
Proof.
  induction input as [|c input IH]; intros s pos lexer lx Hs Hno H Hsym.
  - rewrite ts_lex_loop_nil in H. rewrite Nat.add_0_r.
    eapply ts_lex_eof_end; eauto. intros e He. elim (Hno e He).
  - rewrite ts_lex_loop_cons in H.
    pose proof (end_accepted_in_47 s false c) as HA.
    pose proof (state_47_needs_eof s c) as [HB1 HB2].
    destruct (ts_lex_state s false c) as [tok next]. cbn [fst snd] in HA, HB1, HB2.
    cbv zeta in H.
    assert (Hno' : no_end_yet (accept_token tok pos lexer)).
    { destruct tok as [symbol|]; cbn; [|exact Hno]. intros e He.
      injection He as -> _. apply Hs, HA. reflexivity. }
    destruct next as [s'|s'|].
    + cbn [List.length]. rewrite Nat.add_succ_r.
      apply (IH s' (S pos) (accept_token tok pos lexer) lx); auto. congruence.
    + cbn [List.length]. rewrite Nat.add_succ_r.
      apply (IH s' (S pos) (skip_to (S pos) (accept_token tok pos lexer)) lx); auto.
      congruence.
    + unfold lexer_result in H.
      destruct (result_symbol (accept_token tok pos lexer)) as [[symbol e]|] eqn:E;
        [|discriminate].
      injection H as <-. cbn in Hsym. subst symbol. elim (Hno' e E).
Qed.

Lemma ts_lex_end s input lx :
  s <> 47 ->
  ts_lex s input = Some lx ->
  lexeme_symbol lx = ts_builtin_sym_end ->
  lexeme_end lx = List.length input.
Proof.
  intros Hs H Hsym. apply (ts_lex_loop_end input s 0%nat lexer_start lx); auto.
  intros e He. discriminate He.
Qed.

(** ** The text of a line comment

    After [#] the parser is in state 143, whose lex state is 146. The text
    token [aux_sym_comment_token1] is lexed there, through the states 146,
    143, 147, 148, 151 and 156, up to the end of the line. *)

Definition in_line (s : TSStateId) : bool :=
  (s =? 146) || (s =? 143) || (s =? 147) || (s =? 148) || (s =? 151) || (s =? 156).

(** The token that a state of the line accepts. *)
Definition line_token (s : TSStateId) : TSSymbol :=
  if s =? 143 then anon_sym_POUND
  else if s =? 151 then anon_sym_SLASH_SLASH
  else if s =? 156 then anon_sym_SLASH_STAR
  else aux_sym_comment_token1.

(** The next state within a line. *)
Definition line_next (s : TSStateId) (c : Z) : TSStateId :=
  if s =? 146 then
    (if c =? "#" then 143 else if c =? "/" then 147 else if is_space c then 146 else 148)
  else if s =? 147 then
    (if c =? "*" then 156 else if c =? "/" then 151 else 148)
  else 148.

(** The characters of a line: all but the line feed and NUL. *)
Definition is_line_char (c : Z) : bool := (c !=? 0) && (c !=? 10).

Ltac each_line_state Hs :=
  unfold in_line in Hs;
  repeat match type of Hs with
         | (_ || (?s =? ?k)) = true =>
             apply orb_true_iff in Hs; destruct Hs as [Hs | Hs];
             [| apply Z.eqb_eq in Hs; subst s]
         | (?s =? ?k) = true => apply Z.eqb_eq in Hs; subst s
         end.

Lemma line_step s c :
  in_line s = true -> is_line_char c = true ->
  ts_lex_state s false c = (Some (line_token s), ADVANCE (line_next s c)) /\
  in_line (line_next s c) = true.
Proof.
  intros Hs Hc. unfold is_line_char in Hc.
  each_line_state Hs; revert Hc;
    cbv beta iota delta [ts_lex_state ACCEPT_TOKEN NO_TOKEN line_next line_token is_space in_line];
    split_lookahead; cbn; intros; try discriminate; auto.
Qed.

Lemma line_accepts s : in_line s = true -> accepts s (line_token s).
Proof. intros Hs. each_line_state Hs; prove_accepts. Qed.

Lemma line_stops s rest :
  in_line s = true -> next_is is_line_char rest = false -> stops s rest.
Proof.
  intros Hs H. destruct rest as [|c rest].
  - each_line_state Hs; reflexivity.
  - unfold stops. cbn [next_is] in H. unfold is_line_char in H.
    each_line_state Hs; revert H;
      cbv beta iota delta [ts_lex_state ACCEPT_TOKEN NO_TOKEN snd];
      split_lookahead; cbn; intros; try discriminate; auto.
Qed.

(** Over the text of a line, to its end. *)
Lemma line_run t : forall s pos lexer rest,
  in_line s = true ->
  forallb is_line_char t = true ->
  next_is is_line_char rest = false ->
  ts_lex_loop s (t ++ rest) pos lexer =
  Some (lexeme (line_token (fold_left line_next t s)) (token_start_position lexer)
               (pos + List.length t)).
Proof.
  induction t as [|c t IH]; intros s pos lexer rest Hs Ht Hrest.
  - cbn [app List.length fold_left]. rewrite Nat.add_0_r.
    apply accepts_stops; [apply line_accepts | apply line_stops]; assumption.
  - cbn [forallb] in Ht. apply andb_true_iff in Ht. destruct Ht as [Hc Ht].
    destruct (line_step s c Hs Hc) as [Hstep Hin].
    cbn [app List.length fold_left].
    rewrite (ts_lex_loop_step _ _ _ _ _ _ _ Hstep).
    rewrite IH by assumption.
    cbn [accept_token token_start_position]. f_equal. f_equal. lia.
Qed.

Lemma line_stays_148 t : fold_left line_next t 148 = 148.
Proof. induction t as [|c t IH]; [reflexivity | exact IH]. Qed.

(** Is the text, after leading blanks, nothing but the opening token of a
    comment? (Then it is lexed as that token, and not as text.) *)
Definition is_opener_only (t : list Z) : bool :=
  match skip_spaces t with
  | [c] => c =? "#"
  | [c; d] => (c =? "/") && ((d =? "/") || (d =? "*"))
  | _ => false
  end.

Lemma line_token_text t :
  forallb is_line_char t = true ->
  is_opener_only t = false ->
  line_token (fold_left line_next t 146) = aux_sym_comment_token1.
Proof.
  unfold is_opener_only.
  induction t as [|c t IH]; intros Ht Hopen; [reflexivity|].
  cbn [forallb] in Ht. apply andb_true_iff in Ht. destruct Ht as [Hc Ht].
  cbn [skip_spaces] in Hopen. cbn [fold_left].
  destruct (is_space c) eqn:Hsp.
  - assert (Hn : line_next 146 c = 146).
    { unfold line_next. revert Hsp. unfold is_space. cbn [Z.eqb Pos.eqb].
      split_lookahead; cbn; intros; try discriminate; reflexivity. }
    rewrite Hn. apply IH; assumption.
  - unfold line_next at 2. cbn [Z.eqb Pos.eqb]. rewrite Hsp.
    destruct (Z.eqb_spec c "#") as [-> | Hp].
    + destruct t as [|d t]; [discriminate Hopen|].
      cbn [fold_left]. change (line_next 143 d) with 148.
      rewrite line_stays_148. reflexivity.
    + destruct (Z.eqb_spec c "/") as [-> | Hsl].
      * destruct t as [|d t]; [reflexivity|].
        cbn [fold_left]. unfold line_next at 2. cbn [Z.eqb Pos.eqb].
        destruct (Z.eqb_spec d "*") as [-> | Hst].
        { destruct t as [|e t]; [discriminate Hopen|].
          cbn [fold_left]. change (line_next 156 e) with 148.
          rewrite line_stays_148. reflexivity. }
        destruct (Z.eqb_spec d "/") as [-> | Hsl'].
        { destruct t as [|e t]; [discriminate Hopen|].
          cbn [fold_left]. change (line_next 151 e) with 148.
          rewrite line_stays_148. reflexivity. }
        rewrite line_stays_148. reflexivity.
      * rewrite line_stays_148. reflexivity.
Qed.

(** The text of a line comment runs to the end of the line. *)
Lemma lex_line_comment t rest :
  forallb is_line_char t = true ->
  is_opener_only t = false ->
  next_is is_line_char rest = false ->
  ts_lex 146 (t ++ rest) = Some (lexeme aux_sym_comment_token1 0 (List.length t)).
Proof.
  intros Ht Hopen Hrest. unfold ts_lex.
  rewrite line_run by auto. rewrite line_token_text by assumption. reflexivity.
Qed.

(** ** The opening and closing tokens of comments *)

Lemma lex_pound rest : ts_lex 46 ("#" :: rest) = Some (lexeme anon_sym_POUND 0 1).
Proof.
  assert (H : ts_lex_state 46 false "#" = (None, ADVANCE 141)) by reflexivity.
  unfold ts_lex. rewrite (ts_lex_loop_step _ _ _ _ _ _ _ H).
  apply (accepts_stops 141 anon_sym_POUND); [prove_accepts|]. destruct rest; reflexivity.
Qed.

Lemma lex_comment_opener c rest :
  c = "/" \/ c = "*" ->
  ts_lex 46 ("/" :: c :: rest) =
  Some (lexeme (if c =? "/" then anon_sym_SLASH_SLASH else anon_sym_SLASH_STAR) 0 2).
Proof.
  assert (H : ts_lex_state 46 false "/" = (None, ADVANCE 94)) by reflexivity.
  assert (H1 : ts_lex_state 94 false "/" = (Some anon_sym_SLASH, ADVANCE 149)) by reflexivity.
  assert (H2 : ts_lex_state 94 false "*" = (Some anon_sym_SLASH, ADVANCE 154)) by reflexivity.
  unfold ts_lex. rewrite (ts_lex_loop_step _ _ _ _ _ _ _ H).
  intros [-> | ->].
  - rewrite (ts_lex_loop_step _ _ _ _ _ _ _ H1).
    apply (accepts_stops 149 anon_sym_SLASH_SLASH); [prove_accepts|]. destruct rest; reflexivity.
  - rewrite (ts_lex_loop_step _ _ _ _ _ _ _ H2).
    apply (accepts_stops 154 anon_sym_SLASH_STAR); [prove_accepts|]. destruct rest; reflexivity.
Qed.

Lemma lex_comment_closer rest :
  next_is (fun c => (c =? "/") || (c =? "*")) rest = false ->
  ts_lex 0 ("/" :: rest) = Some (lexeme anon_sym_SLASH 0 1).
Proof.
  intros Hrest.
  assert (H : ts_lex_state 0 false "/" = (None, ADVANCE 94)) by reflexivity.
  unfold ts_lex. rewrite (ts_lex_loop_step _ _ _ _ _ _ _ H).
  apply (accepts_stops 94 anon_sym_SLASH); [prove_accepts|].
  destruct rest as [|c rest]; [reflexivity|]. unfold stops. lex_state_from Hrest.
Qed.

End LexFacts.
(** * Facts about the table interpreter *)

Module ParseFacts.
Import LexFacts.
Local Open Scope lookahead_scope.

(** ** The rows of the parse table *)

Lemma table_get_cases {A} (d : A) table i :
  table_get d table i = d \/ In (i, table_get d table i) table.
Proof.
  induction table as [|[k v] table IH]; [left; reflexivity|].
  cbn [table_get]. destruct (Z.eqb_spec k i) as [-> | Hk].
  - right. left. reflexivity.
  - destruct IH as [IH | IH]; [left; exact IH | right; right; exact IH].
Qed.

Lemma table_get_values {A} (d : A) table i :
  In (table_get d table i) (d :: map snd table).
Proof.
  destruct (table_get_cases d table i) as [H | H].
  - left. symmetry. exact H.
  - right. apply (in_map snd) in H. exact H.
Qed.

(** The groups of a row of the small parse table: each gives a value (an
    action index or a state) to a list of symbols. *)
Fixpoint groups (group_count : nat) (data : list Z) : list (Z * list Z) :=
  match group_count with
  | O => []
  | S n =>
      match data with
      | section_value :: symbol_count :: data' =>
          (section_value, firstn (Z.to_nat symbol_count) data')
            :: groups n (skipn (Z.to_nat symbol_count) data')
      | _ => []
      end
  end.

Lemma lookup_symbols_spec symbol_count : forall data symbol,
  lookup_symbols symbol_count data symbol =
  (existsb (Z.eqb symbol) (firstn symbol_count data),
   if existsb (Z.eqb symbol) (firstn symbol_count data)
   then snd (lookup_symbols symbol_count data symbol)
   else skipn symbol_count data).
Proof.
  induction symbol_count as [|n IH]; intros data symbol; [reflexivity|].
  destruct data as [|s data]; [reflexivity|].
  cbn [lookup_symbols firstn skipn existsb].
  rewrite (Z.eqb_sym symbol s). destruct (s =? symbol); [reflexivity|].
  cbn [orb]. rewrite IH at 1. reflexivity.
Qed.

Lemma lookup_groups_spec group_count : forall data symbol,
  lookup_groups group_count data symbol = 0 \/
  exists symbols,
    In (lookup_groups group_count data symbol, symbols) (groups group_count data) /\
    In symbol symbols.
Proof.
  induction group_count as [|n IH]; intros data symbol; [left; reflexivity|].
  destruct data as [|section_value [|symbol_count data]]; try (left; reflexivity).
  cbn [lookup_groups groups]. rewrite lookup_symbols_spec.
  destruct (existsb (Z.eqb symbol) (firstn (Z.to_nat symbol_count) data)) eqn:E.
  - right. exists (firstn (Z.to_nat symbol_count) data). split; [left; reflexivity|].
    apply existsb_exists in E. destruct E as (x & Hx & Heq).
    apply Z.eqb_eq in Heq. subst x. exact Hx.
  - destruct (IH (skipn (Z.to_nat symbol_count) data) symbol) as [H | (symbols & H1 & H2)].
    + left. exact H.
    + right. exists symbols. split; [right; exact H1 | exact H2].
Qed.

(** The row of a parse state, as groups. *)
Definition small_row (index : Z) : list (Z * list Z) :=
  match skipn (Z.to_nat index) ts_small_parse_table with
  | group_count :: data => groups (Z.to_nat group_count) data
  | [] => []
  end.

Definition large_row (row : list (TSSymbol * Z)) : list (Z * list Z) :=
  map (fun e => (snd e, [fst e])) row.

(** Every row that a lookup can read. *)
Definition all_rows : list (list (Z * list Z)) :=
  map small_row (0 :: map snd ts_small_parse_table_map) ++
  map large_row ([] :: map snd ts_parse_table).

Lemma ts_language_lookup_row state symbol :
  ts_language_lookup state symbol = 0 \/
  exists row symbols,
    In row all_rows /\
    In (ts_language_lookup state symbol, symbols) row /\
    In symbol symbols.
Proof.
  unfold ts_language_lookup. destruct (LARGE_STATE_COUNT <=? state).
  - set (index := table_get 0 ts_small_parse_table_map (state - LARGE_STATE_COUNT)).
    assert (Hrow : In (small_row index) all_rows).
    { unfold all_rows. apply in_or_app. left. apply in_map. apply table_get_values. }
    unfold small_row in Hrow.
    destruct (skipn (Z.to_nat index) ts_small_parse_table) as [|group_count data];
      [left; reflexivity|].
    destruct (lookup_groups_spec (Z.to_nat group_count) data symbol)
      as [H | (symbols & H1 & H2)]; [left; exact H|].
    right. eauto.
  - set (row := table_get [] ts_parse_table state).
    assert (Hrow : In (large_row row) all_rows).
    { unfold all_rows. apply in_or_app. right. apply in_map. apply table_get_values. }
    destruct (table_get_cases 0 row symbol) as [H | H]; [left; exact H|].
    right. exists (large_row row), [symbol]. split; [exact Hrow|]. split; [|left; reflexivity].
    unfold large_row. apply (in_map (fun e => (snd e, [fst e]))) in H. exact H.
Qed.

(** A property of all entries of all rows, checked by computation. *)
Definition rows_forall (check : Z -> list Z -> bool) : bool :=
  forallb (fun row => forallb (fun g => check (fst g) (snd g)) row) all_rows.

Lemma rows_forall_spec check state symbol :
  rows_forall check = true ->
  ts_language_lookup state symbol = 0 \/
  exists symbols,
    check (ts_language_lookup state symbol) symbols = true /\ In symbol symbols.
Proof.
  intros Hall. destruct (ts_language_lookup_row state symbol)
    as [H | (row & symbols & Hrow & Hin & Hsym)]; [left; exact H|].
  right. exists symbols. split; [|exact Hsym].
  unfold rows_forall in Hall. rewrite forallb_forall in Hall.
  specialize (Hall row Hrow). rewrite forallb_forall in Hall.
  apply (Hall _ Hin).
Qed.

(** The action taken for an action index. *)
Definition action_at (i : Z) : option TSParseAction :=
  entry_action (table_get no_actions ts_parse_actions i).

Lemma ts_language_table_entry_action state symbol :
  entry_action (ts_language_table_entry state symbol) = None \/
  entry_action (ts_language_table_entry state symbol) =
    action_at (ts_language_lookup state symbol).
Proof.
  unfold ts_language_table_entry, action_at.
  destruct (symbol =? ts_builtin_sym_error); [left; reflexivity | right; reflexivity].
Qed.

(** Every entry of [ts_parse_actions] holds at most one action that is not a
    [SHIFT_REPEAT]: the interpreter never has to choose. *)
Lemma ts_parse_actions_deterministic :
  forallb (fun e => (List.length (filter (fun a => negb (is_shift_repeat a))
                                         (actions (snd e))) <=? 1)%nat)
          ts_parse_actions = true.
Proof. vm_compute. reflexivity. Qed.

Definition is_accept (a : option TSParseAction) : bool :=
  match a with
  | Some ACCEPT_INPUT => true
  | _ => false
  end.

(** The input is accepted on the end-of-input token only. *)
Lemma accept_at_end_only state symbol :
  entry_action (ts_language_table_entry state symbol) = Some ACCEPT_INPUT ->
  symbol = ts_builtin_sym_end.
Proof.
  intros H.
  destruct (ts_language_table_entry_action state symbol) as [E | E];
    rewrite E in H; [discriminate H|].
  assert (Hall : rows_forall (fun v symbols =>
            negb (is_accept (action_at v)) ||
            forallb (Z.eqb ts_builtin_sym_end) symbols) = true) by (vm_compute; reflexivity).
  destruct (rows_forall_spec _ state symbol Hall) as [H0 | (symbols & Hc & Hin)].
  - rewrite H0 in H. vm_compute in H. discriminate H.
  - rewrite H in Hc. cbn in Hc. rewrite forallb_forall in Hc.
    specialize (Hc symbol Hin). apply Z.eqb_eq in Hc. symmetry. exact Hc.
Qed.

Lemma lex_mode_not_47 state : ts_language_lex_mode state <> 47.
Proof.
  unfold ts_language_lex_mode.
  assert (H : forallb (fun m => negb (m =? 47)) (0 :: map snd ts_lex_modes) = true)
    by (vm_compute; reflexivity).
  rewrite forallb_forall in H. specialize (H _ (table_get_values 0 ts_lex_modes state)).
  apply negb_true_iff, Z.eqb_neq in H. exact H.
Qed.

(** ** Every character is kept

    The source of a parser state: what is on the stack, then the lookahead,
    then the input not yet read. *)

Definition stack_source (stack : Stack) : list Z :=
  flat_map (fun e => ts_subtree_source (entry_subtree e)) (rev stack).

Definition token_source (t : Token) : list Z := token_padding t ++ token_text t.

Definition lookahead_source (la : option Token) : list Z :=
  match la with
  | Some t => token_source t
  | None => []
  end.

Definition parser_source (p : Parser) : list Z :=
  stack_source (stack p) ++ lookahead_source (lookahead p) ++ input p.

Definition outcome_source (o : Outcome) : list Z :=
  match o with
  | Accepted root => ts_subtree_source root
  | SyntaxError p => parser_source p
  | OutOfFuel p => parser_source p
  end.

Lemma flat_map_source_app (l1 l2 : list Subtree) :
  flat_map ts_subtree_source (l1 ++ l2) =
  flat_map ts_subtree_source l1 ++ flat_map ts_subtree_source l2.
Proof. apply flat_map_app. Qed.

Lemma stack_source_push stack t state :
  stack_source (ts_stack_push stack t state) = stack_source stack ++ ts_subtree_source t.
Proof.
  unfold stack_source, ts_stack_push. cbn [rev]. rewrite flat_map_app. cbn.
  rewrite app_nil_r. reflexivity.
Qed.

Lemma stack_source_push_all trees : forall stack state,
  stack_source (push_all stack trees state) =
  stack_source stack ++ flat_map ts_subtree_source trees.
Proof.
  induction trees as [|t trees IH]; intros stack state; cbn [push_all flat_map].
  - rewrite app_nil_r. reflexivity.
  - rewrite IH, stack_source_push, <- app_assoc. reflexivity.
Qed.

Lemma token_of_lexeme_source source lx token rest :
  token_of_lexeme source lx = (token, rest) ->
  token_source token ++ rest = source.
Proof.
  unfold token_of_lexeme, token_source. intros H. injection H as <- <-.
  cbn [token_padding token_text].
  set (e := lexeme_end lx). set (s := Nat.min (lexeme_start lx) e).
  assert (Hse : (s <= e)%nat) by apply Nat.le_min_r.
  replace (skipn e source) with (skipn (e - s) (skipn s source)).
  - rewrite <- app_assoc. rewrite (firstn_skipn (e - s) (skipn s source)).
    apply firstn_skipn.
  - rewrite skipn_skipn. f_equal. lia.
Qed.

Lemma ts_parser__lex_source state source token rest :
  ts_parser__lex state source = Lexed token rest ->
  token_source token ++ rest = source.
Proof.
  unfold ts_parser__lex. destruct (_ =? NO_LEX_STATE); [discriminate|].
  destruct (ts_lex _ source) as [lx|].
  - destruct (token_of_lexeme source lx) as [t r] eqn:E. intros H. injection H as <- <-.
    eapply token_of_lexeme_source; eauto.
  - destruct (ts_lex _ source) as [lx|]; [|discriminate].
    destruct (token_of_lexeme source lx) as [t r] eqn:E. intros H. injection H as <- <-.
    eapply token_of_lexeme_source; eauto.
Qed.

Lemma ts_stack_pop_count_source stack : forall count popped popped' stack',
  ts_stack_pop_count stack count popped = Some (popped', stack') ->
  stack_source stack ++ flat_map ts_subtree_source popped =
  stack_source stack' ++ flat_map ts_subtree_source popped'.
Proof.
  induction stack as [|e stack IH]; intros count popped popped' stack' H.
  - destruct count; cbn in H; [|discriminate]. injection H as <- <-. reflexivity.
  - destruct count as [|n].
    + cbn in H. injection H as <- <-. reflexivity.
    + cbn [ts_stack_pop_count] in H.
      assert (Hkey : forall k, ts_stack_pop_count stack k (entry_subtree e :: popped)
                               = Some (popped', stack') ->
                stack_source (e :: stack) ++ flat_map ts_subtree_source popped =
                stack_source stack' ++ flat_map ts_subtree_source popped').
      { intros k Hk. apply IH in Hk. rewrite <- Hk.
        unfold stack_source. cbn [rev flat_map]. rewrite flat_map_app. cbn [flat_map].
        rewrite app_nil_r, <- app_assoc. reflexivity. }
      destruct (ts_subtree_extra (entry_subtree e)); eapply Hkey; eauto.
Qed.

Lemma remove_trailing_extras_rev_source rev_children : forall extras children trailing,
  remove_trailing_extras_rev rev_children extras = (children, trailing) ->
  flat_map ts_subtree_source children ++ flat_map ts_subtree_source trailing =
  flat_map ts_subtree_source (rev rev_children) ++ flat_map ts_subtree_source extras.
Proof.
  induction rev_children as [|last rest IH]; intros extras children trailing H.
  - cbn in H. injection H as <- <-. reflexivity.
  - cbn [remove_trailing_extras_rev] in H. destruct (ts_subtree_extra last).
    + apply IH in H. rewrite H. cbn [rev flat_map]. rewrite flat_map_app. cbn [flat_map].
      rewrite app_nil_r, <- app_assoc. reflexivity.
    + injection H as <- <-. reflexivity.
Qed.

Lemma ts_parser__reduce_source stack symbol child_count production_id flag stack' :
  ts_parser__reduce stack symbol child_count production_id flag = Some stack' ->
  stack_source stack' = stack_source stack.
Proof.
  unfold ts_parser__reduce.
  destruct (ts_stack_pop_count stack (Z.to_nat child_count) []) as [[popped below]|] eqn:Hpop;
    [|discriminate].
  destruct (ts_subtree_array_remove_trailing_extras popped) as [children trailing] eqn:Hrem.
  intros H. injection H as <-.
  rewrite stack_source_push_all, stack_source_push. cbn [ts_subtree_source].
  apply ts_stack_pop_count_source in Hpop. cbn [flat_map] in Hpop.
  rewrite app_nil_r in Hpop. rewrite Hpop.
  unfold ts_subtree_array_remove_trailing_extras in Hrem.
  apply remove_trailing_extras_rev_source in Hrem.
  rewrite rev_involutive in Hrem. cbn [flat_map] in Hrem. rewrite app_nil_r in Hrem.
  rewrite <- app_assoc, Hrem. reflexivity.
Qed.

Lemma splice_root_source rev_trees : forall after root,
  splice_root rev_trees after = Some root ->
  ts_subtree_source root =
  flat_map ts_subtree_source (rev rev_trees) ++ flat_map ts_subtree_source after.
Proof.
  induction rev_trees as [|t rev_before IH]; intros after root H; [discriminate|].
  cbn [splice_root] in H. destruct (ts_subtree_extra t).
  - apply IH in H. rewrite H. cbn [rev flat_map]. rewrite flat_map_app. cbn [flat_map].
    rewrite app_nil_r, <- app_assoc. reflexivity.
  - destruct t as [|symbol production_id extra children]; [discriminate|].
    injection H as <-. cbn [ts_subtree_source rev].
    rewrite !flat_map_app. cbn [flat_map ts_subtree_source].
    rewrite app_nil_r, <- app_assoc. reflexivity.
Qed.

Lemma ts_parser__accept_source stack t root :
  ts_parser__accept stack t = Some root ->
  ts_subtree_source root = stack_source stack ++ ts_subtree_source t.
Proof.
  unfold ts_parser__accept. intros H. apply splice_root_source in H.
  rewrite H. cbn [rev flat_map]. rewrite flat_map_app. cbn [flat_map].
  rewrite !app_nil_r. unfold stack_source. rewrite <- map_rev, flat_map_concat_map.
  rewrite (flat_map_concat_map _ (rev stack)), map_map. reflexivity.
Qed.

Lemma ts_parser__lex_end state source token rest :
  ts_parser__lex state source = Lexed token rest ->
  token_symbol token = ts_builtin_sym_end ->
  rest = [].
Proof.
  unfold ts_parser__lex. destruct (_ =? NO_LEX_STATE); [discriminate|].
  assert (Hkey : forall mode lx t r,
            ts_lex (ts_language_lex_mode mode) source = Some lx ->
            token_of_lexeme source lx = (t, r) ->
            token_symbol t = ts_builtin_sym_end -> r = []).
  { intros mode lx t r Hlx Htok Hsym. unfold token_of_lexeme in Htok.
    injection Htok as <- <-. cbn [token_symbol] in Hsym.
    rewrite (ts_lex_end _ _ _ (lex_mode_not_47 mode) Hlx Hsym).
    apply skipn_all. }
  destruct (ts_lex (ts_language_lex_mode state) source) as [lx|] eqn:E1.
  - destruct (token_of_lexeme source lx) as [t r] eqn:Et. intros H. injection H as <- <-.
    eapply Hkey; eauto.
  - destruct (ts_lex (ts_language_lex_mode ERROR_STATE) source) as [lx|] eqn:E2;
      [|discriminate].
    destruct (token_of_lexeme source lx) as [t r] eqn:Et. intros H. injection H as <- <-.
    eapply Hkey; eauto.
Qed.

(** Once the end-of-input token is the lookahead, no input is left. *)
Definition at_end_if_end (p : Parser) : Prop :=
  forall t, lookahead p = Some t -> token_symbol t = ts_builtin_sym_end -> input p = [].

Lemma ts_parser__read_source p la rest :
  at_end_if_end p ->
  ts_parser__read p = Some (la, rest) ->
  lookahead_source la ++ rest = lookahead_source (lookahead p) ++ input p /\
  (forall t, la = Some t -> token_symbol t = ts_builtin_sym_end -> rest = []).
Proof.
  intros Hwf. unfold ts_parser__read. destruct (lookahead p) as [t|] eqn:Ela.
  - intros H. injection H as <- <-. split; [reflexivity|].
    intros t' Ht' Hsym. apply (Hwf t'); [congruence | exact Hsym].
  - destruct (ts_parser__lex (ts_stack_state (stack p)) (input p)) as [t r| |] eqn:E;
      intros H; [| |discriminate H]; injection H as <- <-.
    + split; [eapply ts_parser__lex_source; eauto|].
      intros t' Ht' Hsym. injection Ht' as <-. eapply ts_parser__lex_end; eauto.
    + split; [reflexivity|]. intros t' Ht'. discriminate Ht'.
Qed.

Lemma ts_parser__act_source st la rest :
  (forall t, la = Some t -> token_symbol t = ts_builtin_sym_end -> rest = []) ->
  match ts_parser__act st la rest with
  | Continue p' =>
      at_end_if_end p' /\
      parser_source p' = stack_source st ++ lookahead_source la ++ rest
  | Halt o => outcome_source o = stack_source st ++ lookahead_source la ++ rest
  end.
Proof.
  intros Hend. unfold ts_parser__act.
  destruct (entry_action (ts_language_table_entry (ts_stack_state st)
              match la with Some t => token_symbol t | None => ts_builtin_sym_end end))
    as [[next_state|next_state|sym child_count production_id| |]|] eqn:Eact.
  - (* SHIFT *)
    destruct la as [t|]; [|reflexivity]. split.
    + intros t' Ht'. discriminate Ht'.
    + unfold parser_source. cbn [stack lookahead input lookahead_source].
      rewrite stack_source_push, <- app_assoc. reflexivity.
  - (* SHIFT_REPEAT *)
    destruct la as [t|]; reflexivity.
  - (* REDUCE *)
    destruct (ts_parser__reduce st sym child_count production_id
                match la with None => true | Some _ => false end)
      as [stack'|] eqn:Hred; [|destruct la; reflexivity].
    set (p' := {| stack := stack'; lookahead := la; input := rest |}).
    assert (Hgoal : at_end_if_end p' /\
                    parser_source p' = stack_source st ++ lookahead_source la ++ rest).
    { split.
      - intros t Ht Hsym. cbn [p' lookahead input] in *. eapply Hend; eauto.
      - apply ts_parser__reduce_source in Hred.
        unfold parser_source. cbn [p' stack lookahead input].
        rewrite Hred. reflexivity. }
    subst p'. destruct la; exact Hgoal.
  - (* RECOVER *)
    destruct la as [t|]; reflexivity.
  - (* ACCEPT_INPUT *)
    destruct la as [t|]; [|reflexivity].
    destruct (ts_parser__accept st (leaf_of_token t)) as [root|] eqn:Hacc;
      [|reflexivity].
    apply ts_parser__accept_source in Hacc. cbn [outcome_source]. rewrite Hacc.
    apply accept_at_end_only in Eact.
    cbn [lookahead_source]. rewrite (Hend t eq_refl Eact), app_nil_r. reflexivity.
  - destruct la as [t|]; reflexivity.
Qed.

Lemma ts_parser__advance_source p :
  at_end_if_end p ->
  match ts_parser__advance p with
  | Continue p' => at_end_if_end p' /\ parser_source p' = parser_source p
  | Halt o => outcome_source o = parser_source p
  end.
Proof.
  intros Hwf. unfold ts_parser__advance.
  destruct (ts_parser__read p) as [[la rest]|] eqn:Eread; [|reflexivity].
  destruct (ts_parser__read_source p la rest Hwf Eread) as [Hsrc Hend].
  pose proof (ts_parser__act_source (stack p) la rest Hend) as H.
  rewrite Hsrc in H. fold (parser_source p) in H.
  destruct (ts_parser__act (stack p) la rest); exact H.
Qed.

Lemma ts_parser__run_source fuel : forall p,
  at_end_if_end p ->
  outcome_source (ts_parser__run fuel p) = parser_source p.
Proof.
  induction fuel as [|fuel IH]; intros p Hwf; [reflexivity|].
  cbn [ts_parser__run]. pose proof (ts_parser__advance_source p Hwf) as H.
  destruct (ts_parser__advance p) as [p'|o].
  - destruct H as [Hwf' H]. rewrite IH by exact Hwf'. exact H.
  - exact H.
Qed.

Lemma ts_parser_parse_source source :
  outcome_source (ts_parser_parse source) = source.
Proof.
  unfold ts_parser_parse. rewrite ts_parser__run_source.
  - reflexivity.
  - intros t Ht. discriminate Ht.
Qed.

(** ** Blanks before a token *)

Ltac prove_skips :=
  let c := fresh "c" in let H := fresh "H" in
  intros c H; revert H;
  cbv beta iota delta [ts_lex_state ACCEPT_TOKEN NO_TOKEN is_space];
  split_lookahead; cbn [andb orb negb]; intros; try discriminate; reflexivity.

Lemma skips_0 : skips 0 is_space. Proof. prove_skips. Qed.
Lemma skips_1 : skips 1 is_space. Proof. prove_skips. Qed.
Lemma skips_2 : skips 2 is_space. Proof. prove_skips. Qed.
Lemma skips_6 : skips 6 is_space. Proof. prove_skips. Qed.
Lemma skips_46 : skips 46 is_space. Proof. prove_skips. Qed.

(** The lex states that skip blanks. (In the others, which lex the text of
    strings and comments, a blank is part of the token.) *)
Definition skips_blanks (mode : TSStateId) : bool :=
  (mode =? 0) || (mode =? 1) || (mode =? 2) || (mode =? 6) || (mode =? 46).

Lemma skips_blanks_spec mode : skips_blanks mode = true -> skips mode is_space.
Proof.
  unfold skips_blanks. intros H.
  repeat (apply orb_true_iff in H; destruct H as [H | H]);
    apply Z.eqb_eq in H; subst mode;
    auto using skips_0, skips_1, skips_2, skips_6, skips_46.
Qed.

Definition pad (ws : list Z) (t : Token) : Token :=
  {| token_symbol := token_symbol t;
     token_padding := ws ++ token_padding t;
     token_text := token_text t |}.

Lemma token_of_lexeme_shift ws source lx :
  token_of_lexeme (ws ++ source) (shift_lexeme (List.length ws) lx) =
  (pad ws (fst (token_of_lexeme source lx)), snd (token_of_lexeme source lx)).
Proof.
  unfold token_of_lexeme, shift_lexeme, lexeme, pad.
  cbn [lexeme_symbol lexeme_start lexeme_end fst snd token_symbol token_padding token_text].
  set (e := lexeme_end lx). set (s := lexeme_start lx).
  assert (Hskip : forall k, skipn (List.length ws + k) (ws ++ source) = skipn k source).
  { intros k. rewrite skipn_app.
    rewrite skipn_all2 by lia. cbn [app]. f_equal. lia. }
  rewrite Nat.add_min_distr_l, firstn_app_2, !Hskip.
  replace (List.length ws + e - (List.length ws + Nat.min s e))%nat
    with (e - Nat.min s e)%nat by lia.
  reflexivity.
Qed.

Definition pad_outcome (ws : list Z) (o : lex_outcome) : lex_outcome :=
  match o with
  | Lexed t rest => Lexed (pad ws t) rest
  | NoLookahead => NoLookahead
  | Unrecognized => Unrecognized
  end.

(** Blanks before a token become its padding. *)
Lemma ts_parser__lex_blanks state ws source :
  skips_blanks (ts_language_lex_mode state) = true ->
  forallb is_space ws = true ->
  ts_parser__lex state (ws ++ source) = pad_outcome ws (ts_parser__lex state source).
Proof.
  intros Hmode Hws. apply Forall_forallb in Hws. unfold ts_parser__lex.
  destruct (ts_language_lex_mode state =? NO_LEX_STATE); [reflexivity|].
  rewrite (ts_lex_skips _ is_space ws source (skips_blanks_spec _ Hmode) Hws).
  change (ts_language_lex_mode ERROR_STATE) with 0.
  rewrite (ts_lex_skips 0 is_space ws source skips_0 Hws).
  destruct (ts_lex (ts_language_lex_mode state) source) as [lx|]; cbn [option_map].
  - rewrite token_of_lexeme_shift. destruct (token_of_lexeme source lx). reflexivity.
  - destruct (ts_lex 0 source) as [lx|]; cbn [option_map]; [|reflexivity].
    rewrite token_of_lexeme_shift. destruct (token_of_lexeme source lx). reflexivity.
Qed.

(** ** Running with more fuel *)

Lemma ts_parser__run_S fuel p :
  ts_parser__run (S fuel) p =
  match ts_parser__advance p with
  | Continue p' => ts_parser__run fuel p'
  | Halt o => o
  end.
Proof. reflexivity. Qed.

Definition finished (o : Outcome) : bool :=
  match o with
  | OutOfFuel _ => false
  | _ => true
  end.

Lemma ts_parser__run_more fuel : forall p more,
  finished (ts_parser__run fuel p) = true ->
  ts_parser__run (fuel + more) p = ts_parser__run fuel p.
Proof.
  induction fuel as [|fuel IH]; intros p more H; [discriminate H|].
  cbn [Nat.add]. rewrite !ts_parser__run_S in *.
  destruct (ts_parser__advance p) as [p'|o]; [apply IH; exact H | reflexivity].
Qed.

Lemma ts_parser_parse_run source fuel o :
  ts_parser__run fuel (parser_start source) = o ->
  finished o = true -> (fuel <= 64)%nat ->
  ts_parser_parse source = o.
Proof.
  intros Hrun Hfin Hle. unfold ts_parser_parse, parse_fuel.
  replace (64 + 32 * List.length source)%nat
    with (fuel + (64 - fuel + 32 * List.length source))%nat by lia.
  rewrite ts_parser__run_more; rewrite Hrun; auto.
Qed.

(** ** The empty document *)

Lemma parse_blanks ws :
  forallb is_space ws = true ->
  ts_parser_parse ws =
  Accepted (Node sym_runbook 0 false [Leaf ts_builtin_sym_end ws []]).
Proof.
  intros Hws. apply (ts_parser_parse_run ws 2); [|reflexivity|lia].
  rewrite ts_parser__run_S. unfold ts_parser__advance, ts_parser__read, parser_start.
  cbn [lookahead stack input ts_stack_state].
  rewrite <- (app_nil_r ws) at 1.
  rewrite ts_parser__lex_blanks by (auto; reflexivity).
  replace (ts_parser__lex 1 [])
    with (Lexed {| token_symbol := ts_builtin_sym_end; token_padding := []; token_text := [] |} [])
    by (vm_compute; reflexivity).
  cbn [pad_outcome]. unfold pad. cbn [token_symbol token_padding token_text].
  rewrite app_nil_r.
  unfold ts_parser__act. cbn [ts_stack_state token_symbol].
  replace (entry_action (ts_language_table_entry 1 ts_builtin_sym_end))
    with (Some (REDUCE sym_runbook 0 0)) by (vm_compute; reflexivity).
  replace (ts_parser__reduce [] sym_runbook 0 0 false)
    with (Some [{| entry_subtree := Node sym_runbook 0 false []; entry_state := 142 |}])
    by (vm_compute; reflexivity).
  rewrite ts_parser__run_S. unfold ts_parser__advance, ts_parser__read.
  cbn [lookahead stack input]. unfold ts_parser__act.
  cbn [ts_stack_state entry_state token_symbol].
  replace (entry_action (ts_language_table_entry 142 ts_builtin_sym_end))
    with (Some ACCEPT_INPUT) by (vm_compute; reflexivity).
  reflexivity.
Qed.

End ParseFacts.
(** * Reading the results *)

Module Results.
Import LexFacts ParseFacts.

Definition accepted (o : Outcome) : option Subtree :=
  match o with
  | Accepted root => Some root
  | _ => None
  end.

(** Where a parse stopped: the state on top of the stack, the text parsed so
    far, the token that has no action there (its name and its text) and the
    text after it. *)
Record Stop := {
  stop_state : TSStateId;
  stop_parsed : string;
  stop_token : option (string * string);
  stop_unread : string
}.

Definition syntax_error (o : Outcome) : option Stop :=
  match o with
  | SyntaxError p =>
      Some {| stop_state := ts_stack_state (stack p);
              stop_parsed := text_of (stack_source (stack p));
              stop_token :=
                option_map
                  (fun t => (ts_language_symbol_name (token_symbol t), text_of (token_text t)))
                  (lookahead p);
              stop_unread := text_of (input p) |}
  | _ => None
  end.

(** The first node with a given symbol, in source order. *)
Fixpoint find_node (symbol : TSSymbol) (t : Subtree) : option Subtree :=
  if (ts_subtree_symbol t =? symbol)%Z then Some t
  else
    match t with
    | Leaf _ _ _ => None
    | Node _ _ _ children =>
        (fix first (l : list Subtree) : option Subtree :=
           match l with
           | [] => None
           | c :: l' =>
               match find_node symbol c with
               | Some r => Some r
               | None => first l'
               end
           end) children
    end.

Definition first_node (symbol : TSSymbol) (o : Outcome) : option Subtree :=
  match o with
  | Accepted root => find_node symbol root
  | _ => None
  end.

(** The view of the child that a node has under a field name; [Some None]
    when the node has no such field. *)
Definition field_view (name : string) (node : option Subtree) : option (option (list View)) :=
  option_map (fun t => option_map views (ts_node_child_by_field_name t name)) node.

(** The view of the value of the attribute [v] of a block, and of the value of
    an input, for a given text of the value. *)
Definition attribute_value (value : string) : option (option (list View)) :=
  field_view "value"%string (first_node sym_attribute (parse ("output 'o' { v = " ++ value ++ " }")%string)).

Definition input_value (value : string) : option (option (list View)) :=
  field_view "value"%string (first_node sym_input_declaration (parse ("input 'i' = " ++ value)%string)).

(** The parse states, but for state 0: that is the error state, which only
    the recovery of the runtime enters. *)
Definition all_states : list TSStateId :=
  map Z.of_nat (seq 1 (Z.to_nat STATE_COUNT - 1)).

Definition all_tokens : list TSSymbol := map Z.of_nat (seq 0 (Z.to_nat TOKEN_COUNT)).

Definition action_of (state : TSStateId) (symbol : TSSymbol) : option TSParseAction :=
  entry_action (ts_language_table_entry state symbol).

(** The tokens that have an action in a state. *)
Definition tokens_with_action (state : TSStateId) : list TSSymbol :=
  filter (fun symbol => match action_of state symbol with Some _ => true | None => false end)
         all_tokens.


End Results.
(** * Documents of blanks and comments *)

Module Documents.
Import LexFacts ParseFacts Results.
Local Open Scope lookahead_scope.

(** ** Single steps of the parse loop *)

Lemma ts_parser__lex_token state mode symbol text rest :
  ts_language_lex_mode state = mode ->
  (mode =? NO_LEX_STATE)%Z = false ->
  ts_lex mode (text ++ rest) = Some (lexeme symbol 0 (List.length text)) ->
  ts_parser__lex state (text ++ rest) =
  Lexed {| token_symbol := symbol; token_padding := []; token_text := text |} rest.
Proof.
  intros Hmode Hno Hlex. unfold ts_parser__lex. rewrite Hmode, Hno, Hlex.
  unfold token_of_lexeme, lexeme. cbn [lexeme_symbol lexeme_start lexeme_end Nat.min].
  rewrite Nat.sub_0_r. cbn [firstn skipn].
  rewrite firstn_app, Nat.sub_diag, firstn_all, skipn_app, Nat.sub_diag, skipn_all.
  cbn [firstn skipn app]. rewrite app_nil_r. reflexivity.
Qed.

Lemma ts_parser__lex_padded_token state mode symbol ws text rest :
  ts_language_lex_mode state = mode ->
  skips_blanks mode = true ->
  forallb is_space ws = true ->
  ts_lex mode (text ++ rest) = Some (lexeme symbol 0 (List.length text)) ->
  ts_parser__lex state (ws ++ text ++ rest) =
  Lexed {| token_symbol := symbol; token_padding := ws; token_text := text |} rest.
Proof.
  intros Hmode Hskip Hws Hlex.
  rewrite ts_parser__lex_blanks; [| rewrite Hmode; exact Hskip | exact Hws].
  rewrite (ts_parser__lex_token state mode symbol text rest Hmode); [| | exact Hlex].
  - cbn [pad_outcome]. unfold pad. cbn [token_symbol token_padding token_text].
    rewrite app_nil_r. reflexivity.
  - clear Hmode Hlex. unfold skips_blanks in Hskip.
    repeat (apply orb_true_iff in Hskip; destruct Hskip as [Hskip | Hskip]);
      apply Z.eqb_eq in Hskip; rewrite Hskip; reflexivity.
Qed.

(** A token with an action [SHIFT] is pushed. *)
Lemma ts_parser__advance_shift st source token rest next :
  ts_parser__lex (ts_stack_state st) source = Lexed token rest ->
  action_of (ts_stack_state st) (token_symbol token) = Some (SHIFT next) ->
  ts_parser__advance {| stack := st; lookahead := None; input := source |} =
  Continue {| stack := ts_stack_push st (leaf_of_token token) next;
              lookahead := None; input := rest |}.
Proof.
  intros Hlex Hact. unfold ts_parser__advance, ts_parser__read.
  cbn [lookahead stack input]. rewrite Hlex. unfold ts_parser__act.
  unfold action_of in Hact. rewrite Hact. reflexivity.
Qed.

(** A state that ends a non-terminal extra reduces without a lookahead. *)
Lemma ts_parser__advance_end_extra st source symbol child_count production_id st' :
  ts_language_lex_mode (ts_stack_state st) = NO_LEX_STATE ->
  action_of (ts_stack_state st) ts_builtin_sym_end =
    Some (REDUCE symbol child_count production_id) ->
  ts_parser__reduce st symbol child_count production_id true = Some st' ->
  ts_parser__advance {| stack := st; lookahead := None; input := source |} =
  Continue {| stack := st'; lookahead := None; input := source |}.
Proof.
  intros Hmode Hact Hred. unfold ts_parser__advance, ts_parser__read.
  cbn [lookahead stack input]. unfold ts_parser__lex. rewrite Hmode.
  cbn [Z.eqb Pos.eqb NO_LEX_STATE]. unfold ts_parser__act.
  unfold action_of in Hact. rewrite Hact, Hred. reflexivity.
Qed.

(** ** Documents of comments *)

(** A comment: [#] and the text of the line, or an opening token ([//] when
    [slashes] holds, else [/*]), a body and the closing [*/]. *)
Inductive Comment :=
| LineComment (text : list Z)
| BlockComment (slashes : bool) (body : list Z).

Definition opener_symbol (slashes : bool) : TSSymbol :=
  if slashes then anon_sym_SLASH_SLASH else anon_sym_SLASH_STAR.

Definition opener_text (slashes : bool) : list Z :=
  if slashes then ["/"; "/"] else ["/"; "*"].

Definition comment_source (c : Comment) : list Z :=
  match c with
  | LineComment text => "#" :: text
  | BlockComment slashes body => opener_text slashes ++ body ++ ["*"; "/"]
  end.

(** The text of a line comment holds no line feed and no NUL, and is not an
    opening token alone; the body of a block comment holds no [*/] and no
    NUL, and is not a lone [/]. *)
Definition comment_ok (c : Comment) : bool :=
  match c with
  | LineComment text => forallb is_line_char text && negb (is_opener_only text)
  | BlockComment _ body =>
      forallb (fun c => c !=? 0) body && negb (has_star_slash body) &&
      negb (is_lone_slash body)
  end.

(** What may follow a comment: after a line comment the end of the line (or
    of the input), after a block comment anything but [/] and [*]. *)
Definition follows_ok (c : Comment) (rest : list Z) : bool :=
  match c with
  | LineComment _ => negb (next_is is_line_char rest)
  | BlockComment _ _ => negb (next_is (fun c => (c =? "/") || (c =? "*")) rest)
  end.

(** The node of a comment with the blanks [ws] before it. *)
Definition comment_node (item : list Z * Comment) : Subtree :=
  let '(ws, c) := item in
  Node sym_comment 0 true
    match c with
    | LineComment text =>
        [Leaf anon_sym_POUND ws ["#"]; Leaf aux_sym_comment_token1 [] text]
    | BlockComment slashes body =>
        [Leaf (opener_symbol slashes) ws (opener_text slashes);
         Leaf aux_sym_comment_token2 [] (body ++ ["*"]);
         Leaf anon_sym_SLASH [] ["/"]]
    end.

(** A document of comments, each after blanks, and blanks at the end. *)
Fixpoint document (items : list (list Z * Comment)) (trailing : list Z) : list Z :=
  match items with
  | [] => trailing
  | (ws, c) :: items' => ws ++ comment_source c ++ document items' trailing
  end.

Fixpoint trivia_ok (items : list (list Z * Comment)) (trailing : list Z) : bool :=
  match items with
  | [] => forallb is_space trailing
  | (ws, c) :: items' =>
      forallb is_space ws && comment_ok c && follows_ok c (document items' trailing) &&
      trivia_ok items' trailing
  end.

Definition comment_steps (c : Comment) : nat :=
  match c with
  | LineComment _ => 3
  | BlockComment _ _ => 4
  end.

Lemma ts_stack_pop_count_0 st popped : ts_stack_pop_count st 0 popped = Some (popped, st).
Proof. destruct st; reflexivity. Qed.

Ltac table_value t :=
  let v := eval vm_compute in t in
  replace t with v by (vm_compute; reflexivity).

(** At the top of a document, a comment is shifted token by token and
    reduced to an extra, which leaves the parser in state 1. *)
Lemma parse_comment st ws c rest fuel :
  ts_stack_state st = 1 ->
  forallb is_space ws = true ->
  comment_ok c = true ->
  follows_ok c rest = true ->
  ts_parser__run (comment_steps c + fuel)
    {| stack := st; lookahead := None; input := ws ++ comment_source c ++ rest |} =
  ts_parser__run fuel
    {| stack := ts_stack_push st (comment_node (ws, c)) 1; lookahead := None; input := rest |}.
Proof.
  intros Hst Hws Hok Hnext. destruct c as [text | slashes body].
  - (* a line comment *)
    cbn [comment_ok] in Hok. apply andb_true_iff in Hok. destruct Hok as [Htext Hopen].
    apply negb_true_iff in Hopen.
    cbn [follows_ok] in Hnext. apply negb_true_iff in Hnext.
    cbn [comment_steps comment_source Nat.add].
    rewrite ts_parser__run_S.
    rewrite (ts_parser__advance_shift st _
               {| token_symbol := anon_sym_POUND; token_padding := ws; token_text := ["#"] |}
               (text ++ rest) 143).
    2:{ rewrite Hst.
        apply (ts_parser__lex_padded_token 1 46 anon_sym_POUND ws ["#"] (text ++ rest));
          [reflexivity | reflexivity | exact Hws | apply lex_pound]. }
    2:{ rewrite Hst. vm_compute. reflexivity. }
    rewrite ts_parser__run_S.
    rewrite (ts_parser__advance_shift _ _
               {| token_symbol := aux_sym_comment_token1; token_padding := [];
                  token_text := text |} rest 152).
    2:{ apply (ts_parser__lex_token 143 146 aux_sym_comment_token1 text rest);
          [reflexivity | reflexivity | apply lex_line_comment; assumption]. }
    2:{ vm_compute. reflexivity. }
    rewrite ts_parser__run_S.
    rewrite (ts_parser__advance_end_extra _ _ sym_comment 2 0
               (ts_stack_push st (comment_node (ws, LineComment text)) 1)).
    + reflexivity.
    + reflexivity.
    + vm_compute. reflexivity.
    + unfold ts_parser__reduce, ts_stack_push, leaf_of_token.
      change (Z.to_nat 2) with 2%nat.
      cbn [ts_stack_pop_count entry_subtree token_symbol token_padding token_text].
      change (ts_subtree_extra (Leaf aux_sym_comment_token1 [] text)) with false.
      change (ts_subtree_extra (Leaf anon_sym_POUND ws ["#"])) with false.
      cbv iota. cbn [ts_stack_pop_count]. rewrite ts_stack_pop_count_0.
      unfold ts_subtree_array_remove_trailing_extras.
      cbn [rev app remove_trailing_extras_rev].
      change (ts_subtree_extra (Leaf aux_sym_comment_token1 [] text)) with false.
      cbv iota. cbn [rev app push_all]. rewrite Hst.
      table_value (ts_language_next_state 1 sym_comment).
      reflexivity.
  - (* a block comment *)
    cbn [comment_ok] in Hok. apply andb_true_iff in Hok. destruct Hok as [Hok Hlone].
    apply andb_true_iff in Hok. destruct Hok as [Hnul Hclose].
    apply negb_true_iff in Hlone. apply negb_true_iff in Hclose.
    cbn [follows_ok] in Hnext. apply negb_true_iff in Hnext.
    cbn [comment_steps comment_source Nat.add].
    rewrite ts_parser__run_S.
    rewrite (ts_parser__advance_shift st _
               {| token_symbol := opener_symbol slashes; token_padding := ws;
                  token_text := opener_text slashes |}
               (body ++ ["*"; "/"] ++ rest) 145).
    2:{ rewrite Hst. rewrite <- !app_assoc.
        apply (ts_parser__lex_padded_token 1 46 (opener_symbol slashes) ws
                 (opener_text slashes) (body ++ ["*"; "/"] ++ rest));
          [reflexivity | reflexivity | exact Hws |].
        destruct slashes; cbn [opener_text opener_symbol app List.length].
        - apply (lex_comment_opener "/"). left. reflexivity.
        - apply (lex_comment_opener "*"). right. reflexivity. }
    2:{ rewrite Hst. destruct slashes; vm_compute; reflexivity. }
    rewrite ts_parser__run_S.
    rewrite (ts_parser__advance_shift _ _
               {| token_symbol := aux_sym_comment_token2; token_padding := [];
                  token_text := body ++ ["*"] |} ("/" :: rest) 139).
    2:{ replace (body ++ ["*"; "/"] ++ rest) with ((body ++ ["*"]) ++ "/" :: rest)
          by (rewrite <- app_assoc; reflexivity).
        apply (ts_parser__lex_token 145 7 aux_sym_comment_token2 (body ++ ["*"]) ("/" :: rest));
          [reflexivity | reflexivity |].
        rewrite <- app_assoc, length_app. cbn [app List.length].
        apply comment_content_ends_at_first_close; assumption. }
    2:{ vm_compute. reflexivity. }
    rewrite ts_parser__run_S.
    rewrite (ts_parser__advance_shift _ _
               {| token_symbol := anon_sym_SLASH; token_padding := [];
                  token_text := ["/"] |} rest 151).
    2:{ apply (ts_parser__lex_token 139 0 anon_sym_SLASH ["/"] rest);
          [reflexivity | reflexivity | apply lex_comment_closer; exact Hnext]. }
    2:{ vm_compute. reflexivity. }
    rewrite ts_parser__run_S.
    rewrite (ts_parser__advance_end_extra _ _ sym_comment 3 0
               (ts_stack_push st (comment_node (ws, BlockComment slashes body)) 1)).
    + reflexivity.
    + reflexivity.
    + vm_compute. reflexivity.
    + unfold ts_parser__reduce, ts_stack_push, leaf_of_token.
      change (Z.to_nat 3) with 3%nat.
      cbn [ts_stack_pop_count entry_subtree token_symbol token_padding token_text].
      change (ts_subtree_extra (Leaf anon_sym_SLASH [] ["/"])) with false.
      change (ts_subtree_extra (Leaf aux_sym_comment_token2 [] (body ++ ["*"]))) with false.
      replace (ts_subtree_extra (Leaf (opener_symbol slashes) ws (opener_text slashes)))
        with false by (destruct slashes; reflexivity).
      cbv iota. cbn [ts_stack_pop_count]. rewrite ts_stack_pop_count_0.
      unfold ts_subtree_array_remove_trailing_extras.
      cbn [rev app remove_trailing_extras_rev].
      change (ts_subtree_extra (Leaf anon_sym_SLASH [] ["/"])) with false.
      cbv iota. cbn [rev app push_all]. rewrite Hst.
      table_value (ts_language_next_state 1 sym_comment).
      reflexivity.
Qed.

Definition document_steps (items : list (list Z * Comment)) : nat :=
  fold_right (fun item n => comment_steps (snd item) + n)%nat 0%nat items.

Definition push_comments (st : Stack) (items : list (list Z * Comment)) : Stack :=
  fold_left (fun s item => ts_stack_push s (comment_node item) 1) items st.

Lemma push_comments_state items : forall st,
  ts_stack_state st = 1 -> ts_stack_state (push_comments st items) = 1.
Proof.
  induction items as [|item items IH]; intros st Hst; [exact Hst|].
  cbn [push_comments fold_left]. apply IH. reflexivity.
Qed.

Lemma push_comments_subtrees items : forall st,
  rev (map entry_subtree (push_comments st items)) =
  rev (map entry_subtree st) ++ map comment_node items.
Proof.
  induction items as [|item items IH]; intros st.
  - cbn [push_comments fold_left map]. rewrite app_nil_r. reflexivity.
  - cbn [push_comments fold_left]. fold (push_comments (ts_stack_push st (comment_node item) 1) items).
    rewrite IH. unfold ts_stack_push. cbn [map rev entry_subtree].
    rewrite <- app_assoc. reflexivity.
Qed.

(** The comments of a document are parsed one after the other. *)
Lemma parse_comments items : forall st trailing fuel,
  ts_stack_state st = 1 ->
  trivia_ok items trailing = true ->
  ts_parser__run (document_steps items + fuel)
    {| stack := st; lookahead := None; input := document items trailing |} =
  ts_parser__run fuel
    {| stack := push_comments st items; lookahead := None; input := trailing |}.
Proof.
  induction items as [|[ws c] items IH]; intros st trailing fuel Hst Hok; [reflexivity|].
  cbn [trivia_ok] in Hok.
  apply andb_true_iff in Hok. destruct Hok as [Hok Hitems].
  apply andb_true_iff in Hok. destruct Hok as [Hok Hnext].
  apply andb_true_iff in Hok. destruct Hok as [Hws Hc].
  cbn [document document_steps fold_right snd]. fold (document_steps items).
  rewrite <- Nat.add_assoc.
  rewrite parse_comment by assumption.
  rewrite IH; [reflexivity | reflexivity | exact Hitems].
Qed.

(** At the end of the input the runbook is reduced from nothing, on top of
    the comments, and the input is accepted. *)
Lemma parse_end st trailing :
  ts_stack_state st = 1 ->
  forallb is_space trailing = true ->
  ts_parser__run 2 {| stack := st; lookahead := None; input := trailing |} =
  Accepted (Node sym_runbook 0 false
              (rev (map entry_subtree st) ++ [Leaf ts_builtin_sym_end trailing []])).
Proof.
  intros Hst Hws.
  rewrite ts_parser__run_S. unfold ts_parser__advance, ts_parser__read.
  cbn [lookahead stack input]. rewrite Hst.
  rewrite <- (app_nil_r trailing) at 1.
  rewrite ts_parser__lex_blanks by (auto; reflexivity).
  replace (ts_parser__lex 1 [])
    with (Lexed {| token_symbol := ts_builtin_sym_end; token_padding := []; token_text := [] |} [])
    by (vm_compute; reflexivity).
  cbn [pad_outcome]. unfold pad. cbn [token_symbol token_padding token_text].
  rewrite app_nil_r.
  unfold ts_parser__act. cbn [token_symbol]. rewrite Hst.
  replace (entry_action (ts_language_table_entry 1 ts_builtin_sym_end))
    with (Some (REDUCE sym_runbook 0 0)) by (vm_compute; reflexivity).
  unfold ts_parser__reduce. change (Z.to_nat 0) with 0%nat.
  rewrite ts_stack_pop_count_0.
  unfold ts_subtree_array_remove_trailing_extras.
  cbn [rev remove_trailing_extras_rev push_all]. rewrite Hst.
  table_value (ts_language_next_state 1 sym_runbook).
  cbn [andb].
  rewrite ts_parser__run_S. unfold ts_parser__advance, ts_parser__read.
  cbn [lookahead stack input]. unfold ts_parser__act.
  cbn [ts_stack_state ts_stack_push entry_state token_symbol].
  replace (entry_action (ts_language_table_entry 142 ts_builtin_sym_end))
    with (Some ACCEPT_INPUT) by (vm_compute; reflexivity).
  unfold ts_parser__accept, leaf_of_token.
  cbn [token_symbol token_padding token_text map entry_subtree splice_root].
  change (ts_subtree_extra (Leaf ts_builtin_sym_end trailing [])) with true.
  cbv iota. cbn [splice_root ts_subtree_extra app]. reflexivity.
Qed.

Lemma document_steps_bound items trailing :
  (document_steps items <= 4 * List.length (document items trailing))%nat.
Proof.
  induction items as [|[ws c] items IH]; [cbn; lia|].
  cbn [document document_steps fold_right snd]. fold (document_steps items).
  rewrite !length_app.
  assert (comment_steps c <= 4 * List.length (comment_source c))%nat.
  { destruct c as [text | [|] body]; cbn [comment_steps comment_source opener_text app List.length];
      lia. }
  lia.
Qed.

(** A document of comments is a runbook whose children are the comments. *)
Lemma parse_document items trailing :
  trivia_ok items trailing = true ->
  ts_parser_parse (document items trailing) =
  Accepted (Node sym_runbook 0 false
              (map comment_node items ++ [Leaf ts_builtin_sym_end trailing []])).
Proof.
  intros Hok. unfold ts_parser_parse, parse_fuel, parser_start.
  pose proof (document_steps_bound items trailing) as Hbound.
  assert (Hws : forallb is_space trailing = true).
  { clear Hbound. induction items as [|[ws c] items IH]; [exact Hok|].
    cbn [trivia_ok] in Hok. apply andb_true_iff in Hok. apply IH, Hok. }
  replace (64 + 32 * List.length (document items trailing))%nat
    with (document_steps items +
          (2 + (62 + 32 * List.length (document items trailing) - document_steps items)))%nat
    by lia.
  rewrite parse_comments by (auto; reflexivity).
  rewrite ts_parser__run_more; rewrite parse_end;
    auto using push_comments_state.
  rewrite push_comments_subtrees. reflexivity.
Qed.

Lemma comment_children items trailing :
  ts_node_children (Node sym_runbook 0 false
                      (map comment_node items ++ [Leaf ts_builtin_sym_end trailing []])) =
  map comment_node items.
Proof.
  unfold ts_node_children. cbn [ts_subtree_children].
  induction items as [|[ws c] items IH]; [reflexivity|].
  cbn [map app flat_map]. rewrite IH. reflexivity.
Qed.

End Documents.

(** * Claims *)

Module Claims.
Import LexFacts ParseFacts Results Documents.

(** Checks a fact about given states and symbols by computation; a fact
    about every element of a list that is given in full is checked element
    by element. *)
Ltac table_fact :=
  lazymatch goal with
  | |- Forall _ ?l =>
      let l' := eval vm_compute in l in
      change l with l';
      repeat (apply Forall_cons; [table_fact|]); apply Forall_nil
  | |- _ /\ _ => split; table_fact
  | |- _ \/ _ => first [left; table_fact | right; table_fact]
  | |- True => exact I
  | |- match action_of ?s ?k with _ => _ end =>
      let a := eval vm_compute in (action_of s k) in
      replace (action_of s k) with a by (vm_compute; reflexivity);
      cbv beta iota; table_fact
  | |- _ -> _ =>
      let H := fresh in
      intros H; first [vm_compute in H; discriminate H | clear H; table_fact]
  | |- exists _, _ => eexists; table_fact
  | |- ?lhs = ?rhs =>
      tryif has_evar rhs
      then (let v := eval vm_compute in lhs in
            replace lhs with v by (vm_compute; reflexivity); reflexivity)
      else (vm_compute; reflexivity)
  | |- _ => progress hnf; table_fact
  end.

Local Open Scope string_scope.

(** The double quote. *)
Definition dq : string := String "034" EmptyString.

(** ** The position after a statement keyword *)

Definition statement_keyword_symbols : list TSSymbol := map snd statement_keywords.

Definition string_openers : list TSSymbol :=
  [anon_sym_DQUOTE; anon_sym_SQUOTE; anon_sym_DQUOTE_DQUOTE_DQUOTE].

Definition comment_openers : list TSSymbol :=
  [anon_sym_POUND; anon_sym_SLASH_SLASH; anon_sym_SLASH_STAR].

(** What can follow a statement keyword. *)
Definition name_position_tokens : list TSSymbol :=
  (string_openers ++ comment_openers)%list.

(** The view of a string in single quotes. *)
Definition string_view (text : string) : list View :=
  [Nd "string" [Tok "'" "'"; Tok "string_token2" text; Tok "'" "'"]].

(** C1, as the claim has it: a bare identifier after [output]. The keyword
    leads from state 1 to state 99, where an identifier has no action: the
    parse stops there, at the identifier. *)
Lemma identifier_in_name_position_is_rejected :
  action_of 1 anon_sym_output = Some (SHIFT 99) /\
  action_of 99 sym_identifier = None /\
  tokens_with_action 99 = name_position_tokens /\
  syntax_error (parse "output myout { value = a.b }") =
  Some {| stop_state := 99;
          stop_parsed := "output";
          stop_token := Some ("identifier", "myout");
          stop_unread := " { value = a.b }" |}.
Proof. table_fact. Qed.

(** C1, amended: the position after a statement keyword takes a string (in
    any of the three quotings), not an identifier. In every state, the state
    that a shifted statement keyword leads to has actions for the three
    string openers and the comment openers only; after [signer] and [action]
    the same holds for the state after the first string. With strings,
    [output], [variable], [input] and [addon] take one string, and [signer]
    and [action] take two; the string is the child under the field [name],
    [network] or [type]. *)
Theorem name_positions_take_strings :
  Forall (fun s =>
    Forall (fun k =>
      match action_of s k with
      | Some (SHIFT t) => tokens_with_action t = name_position_tokens
      | _ => True
      end) statement_keyword_symbols) all_states /\
  Forall (fun s =>
    Forall (fun k =>
      match action_of s k with
      | Some (SHIFT t) =>
          tokens_with_action (ts_language_next_state t sym_string) = name_position_tokens
      | _ => True
      end) [anon_sym_signer; anon_sym_action]) all_states /\
  map (action_of 1) statement_keyword_symbols =
    [Some (SHIFT 101); Some (SHIFT 106); Some (SHIFT 109); Some (SHIFT 99);
     Some (SHIFT 102); Some (SHIFT 105); Some (SHIFT 100)] /\
  field_view "name" (first_node sym_output_block (parse "output 'myout' { value = a.b }"))
    = Some (Some (string_view "myout")) /\
  field_view "name" (first_node sym_variable_declaration (parse "variable 'x' { value = 1 }"))
    = Some (Some (string_view "x")) /\
  field_view "name" (first_node sym_input_declaration (parse "input 'x' = 1"))
    = Some (Some (string_view "x")) /\
  field_view "network" (first_node sym_addon_block (parse "addon 'evm' { chain_id = 1 }"))
    = Some (Some (string_view "evm")) /\
  field_view "name" (first_node sym_signer_block (parse "signer 'alice' 'evm::web_wallet' { }"))
    = Some (Some (string_view "alice")) /\
  field_view "type" (first_node sym_signer_block (parse "signer 'alice' 'evm::web_wallet' { }"))
    = Some (Some (string_view "evm::web_wallet")) /\
  field_view "name" (first_node sym_action_block (parse "action 'deploy' 'evm_contract' { a = 1 }"))
    = Some (Some (string_view "deploy")) /\
  field_view "type" (first_node sym_action_block (parse "action 'deploy' 'evm_contract' { a = 1 }"))
    = Some (Some (string_view "evm_contract")) /\
  view_of (parse ("output " ++ dq ++ "myout" ++ dq ++ " { value = a.b }")) =
    Some [Nd "runbook"
            [Nd "output_block"
               [Tok "output" "output";
                Nd "string" [Tok dq dq; Tok "string_token1" "myout"; Tok dq dq];
                Nd "block"
                  [Tok "{" "{";
                   Nd "attribute"
                     [Tok "identifier" "value"; Tok "=" "=";
                      Nd "reference"
                        [Tok "identifier" "a"; Tok "." "."; Tok "identifier" "b"]];
                   Tok "}" "}"]];
             Tok "end" ""]].
Proof.
  table_fact.
Qed.


(** ** References *)

Definition reference_view (segments : list View) : View := Nd "reference" segments.

(** Does a value start in this state? (Has the decimal number token an
    action?) *)
Definition starts_value (state : TSStateId) : bool :=
  existsb (Z.eqb aux_sym_number_token3) (tokens_with_action state).

(** C2, as the claim has it: the value [a.b/c.d]. It is not one reference:
    after [a.b] (state 56 in a block, state 24 in an input) the [/] reduces
    the reference, and the value is the division of the reference [a.b] by
    the reference [c.d]. *)
Lemma slash_splits_the_reference :
  action_of 56 anon_sym_SLASH = Some (REDUCE sym_reference 2 0) /\
  action_of 24 anon_sym_SLASH = Some (REDUCE sym_reference 2 0) /\
  attribute_value "a.b/c.d" =
  Some (Some [Nd "binary_expression"
                [reference_view [Tok "identifier" "a"; Tok "." "."; Tok "identifier" "b"];
                 Tok "/" "/";
                 reference_view [Tok "identifier" "c"; Tok "." "."; Tok "identifier" "d"]]]).
Proof. table_fact. Qed.

(** C2, amended: the segments of a reference are joined by [.] only; a [/]
    after a reference is the division operator. In every state, a shifted
    [.] leads to a state that takes an identifier (the next segment) and
    starts no value, and a shifted [/] leads to a state where a value starts
    (the right operand) or, in a comment, to state 151, which ends the
    comment. So [a.b.c.d] is one reference with the segments a, b, c, d, and
    [a.b/c.d] is a binary expression over the references [a.b] and [c.d],
    as the value of an attribute and as the value of an input alike. *)
Theorem slash_after_reference_divides :
  Forall (fun s =>
    match action_of s anon_sym_DOT with
    | Some (SHIFT t) =>
        tokens_with_action t = (sym_identifier :: comment_openers)%list /\
        starts_value t = false
    | _ => True
    end) all_states /\
  Forall (fun s =>
    match action_of s anon_sym_SLASH with
    | Some (SHIFT t) =>
        starts_value t = true \/
        (t = 151 /\ action_of t ts_builtin_sym_end = Some (REDUCE sym_comment 3 0))
    | _ => True
    end) all_states /\
  attribute_value "a.b.c.d" =
    Some (Some [reference_view
                  [Tok "identifier" "a"; Tok "." "."; Tok "identifier" "b"; Tok "." ".";
                   Tok "identifier" "c"; Tok "." "."; Tok "identifier" "d"]]) /\
  attribute_value "a.b/c.d" =
    Some (Some [Nd "binary_expression"
                  [reference_view [Tok "identifier" "a"; Tok "." "."; Tok "identifier" "b"];
                   Tok "/" "/";
                   reference_view [Tok "identifier" "c"; Tok "." "."; Tok "identifier" "d"]]]) /\
  input_value "a.b/c.d" =
    Some (Some [Nd "binary_expression"
                  [reference_view [Tok "identifier" "a"; Tok "." "."; Tok "identifier" "b"];
                   Tok "/" "/";
                   reference_view [Tok "identifier" "c"; Tok "." "."; Tok "identifier" "d"]]]).
Proof.
  table_fact.
Qed.

(** ** The fields of an attribute *)

(** C3, as the claim has it: the field [name] of an attribute. An attribute
    is reduced with production 6, whose field map holds the fields [key] and
    [value] and no field [name]: the attribute of [output 'o' { a = 1 }] has
    no child under that name. *)
Lemma attribute_has_no_name_field :
  action_of 77 anon_sym_RBRACE = Some (REDUCE sym_attribute 3 6) /\
  map field_id (ts_language_field_map 6) = [field_key; field_value] /\
  field_view "name" (first_node sym_attribute (parse "output 'o' { a = 1 }")) = Some None.
Proof. table_fact. Qed.

(** An attribute as its reduction builds it: the identifier, the [=] and the
    hidden [_expression] node over the value. *)
Definition attribute_node (extra : bool) (key : list Z * list Z) (eq : list Z * list Z)
    (value : Subtree) : Subtree :=
  Node sym_attribute 6 extra
    [Leaf sym_identifier (fst key) (snd key);
     Leaf anon_sym_EQ (fst eq) (snd eq);
     Node sym__expression 0 false [value]].

(** C3, amended: the identifier of an attribute is under the field [key], not
    [name]; the expression is under [value]. Every reduction to
    [sym_attribute], in every state and on every lookahead, takes three
    children with production 6, whose field map gives [key] to child 0 and
    [value] to child 2 and nothing else. On an attribute node, lookup of
    ["key"] gives the identifier, lookup of ["value"] gives the first visible
    node of the expression, and lookup of ["name"] gives nothing. *)
Theorem attribute_fields_key_value :
  Forall (fun s =>
    Forall (fun lookahead =>
      match action_of s lookahead with
      | Some (REDUCE symbol child_count production_id) =>
          symbol = sym_attribute -> child_count = 3 /\ production_id = 6
      | _ => True
      end) all_tokens) all_states /\
  ts_language_field_map 6 =
    [ {| field_id := field_key; child_index := 0; inherited := false |};
      {| field_id := field_value; child_index := 2; inherited := false |} ] /\
  (forall extra key eq value,
     let node := attribute_node extra key eq value in
     ts_node_child_by_field_name node "key" = Some (Leaf sym_identifier (fst key) (snd key)) /\
     ts_node_child_by_field_name node "value" = hd_error (ts_node__relevant value) /\
     ts_node_child_by_field_name node "name" = None) /\
  field_view "key" (first_node sym_attribute (parse "output 'o' { a = 1 }"))
    = Some (Some [Tok "identifier" "a"]) /\
  field_view "value" (first_node sym_attribute (parse "output 'o' { a = 1 }"))
    = Some (Some [Nd "number" [Tok "number_token3" "1"]]) /\
  field_view "name" (first_node sym_attribute (parse "output 'o' { a = 1 }"))
    = Some None.
Proof.
  split; [table_fact|].
  split; [reflexivity|]. split; [|table_fact].
  intros extra key eq value node. subst node. unfold attribute_node.
  split; [|split].
  - reflexivity.
  - unfold ts_node_child_by_field_name, ts_node_child_by_field_id.
    change (ts_language_field_id_for_name "value") with field_value.
    cbn -[ts_node__relevant is_visible]. cbv [is_visible ts_subtree_symbol].
    change (visible (ts_language_symbol_metadata sym__expression)) with false.
    cbn [ts_node__relevant flat_map]. cbv [is_visible ts_subtree_symbol].
    change (visible (ts_language_symbol_metadata sym__expression)) with false.
    cbn [flat_map]. rewrite app_nil_r.
    destruct (ts_node__relevant value); reflexivity.
  - reflexivity.
Qed.


(** ** Block comments *)




(** The same in a parse: the comment ends at the first [*/], and the parse
    of the text of the claim stops after it. *)
Example text_after_first_close_is_parsed :
  syntax_error (parse "/* a /* b */ c */") =
  Some {| stop_state := 1;
          stop_parsed := "/* a /* b */";
          stop_token := Some ("identifier", "c");
          stop_unread := " */" |}.
Proof. vm_compute. reflexivity. Qed.

(** The case that the statement leaves out: a content that is, after
    blanks, a lone [/]. With the closing [*/] the text reads [/*/]; lex
    state 7 reports the opening token [/*], state 145 shifts it to state 145
    again, and a comment stands inside the comment. *)
Example lone_slash_opens_a_comment :
  is_lone_slash (codepoints "/") = true /\
  ts_lex 7 (codepoints "/*/ x */ y */") = Some (lexeme anon_sym_SLASH_STAR 0 2) /\
  action_of 145 anon_sym_SLASH_STAR = Some (SHIFT 145) /\
  view_of (parse "/*/*/ x */ y */") =
  Some [Nd "runbook"
          [Nd "comment"
             [Tok "/*" "/*";
              Nd "comment" [Tok "/*" "/*"; Tok "comment_token2" "/ x *"; Tok "/" "/"];
              Tok "comment_token2" " y *"; Tok "/" "/"];
           Tok "end" ""]].
Proof. table_fact. Qed.

Example inner_opening_is_text :
  view_of (parse "/* a /* b */ import 'x'") =
  Some [Nd "runbook"
          [Nd "comment"
             [Tok "/*" "/*"; Tok "comment_token2" " a /* b *"; Tok "/" "/"];
           Nd "import_statement" [Tok "import" "import"; Nd "string" [Tok "'" "'"; Tok "string_token2" "x"; Tok "'" "'"]];
           Tok "end" ""]].
Proof. vm_compute. reflexivity. Qed.

(** ** Keywords *)

(** C5, as the claim has it: a keyword spelling where a value is expected.
    State 19 follows the [=] of an attribute and lexes in lex state 2, where
    [addon] is an identifier; state 47 follows an identifier of a value in a
    block and lexes in lex state 1, where [true] is an identifier. *)
Lemma keyword_lexed_as_identifier :
  ts_lex 2 (codepoints "addon") = Some (lexeme sym_identifier 0 5) /\
  ts_lex 1 (codepoints "true") = Some (lexeme sym_identifier 0 4) /\
  action_of 133 anon_sym_EQ = Some (SHIFT 19) /\ ts_language_lex_mode 19 = 2 /\
  action_of 19 sym_identifier = Some (SHIFT 47) /\ ts_language_lex_mode 47 = 1.
Proof. repeat split; vm_compute; reflexivity. Qed.

(** C5, amended: the keywords are contextual. Followed by no identifier
    character, each of the ten spellings is lexed as its keyword in lex state
    0; in lex state 2, where a value starts, [true], [false] and [null] are
    keywords and the seven statement keywords are plain identifiers; in lex
    state 1, after a value inside a block, all ten are plain identifiers.
    Lex state 0 is that of the states after a statement keyword, lex state 2
    that of the states after the [=] of an attribute and of an input, lex
    state 1 that of the state after an identifier in the value of an
    attribute. *)
Theorem keywords_are_contextual :
  Forall (fun k => lexes_as 0 (fst k) (snd k)) keywords /\
  Forall (fun k => lexes_as 2 (fst k) (snd k)) value_keywords /\
  Forall (fun k => lexes_as 2 (fst k) sym_identifier) statement_keywords /\
  Forall (fun k => lexes_as 1 (fst k) sym_identifier) keywords /\
  map ts_language_lex_mode [99; 100; 101; 102; 105; 106; 109] = [0; 0; 0; 0; 0; 0; 0] /\
  action_of 133 anon_sym_EQ = Some (SHIFT 19) /\ ts_language_lex_mode 19 = 2 /\
  action_of 146 anon_sym_EQ = Some (SHIFT 16) /\ ts_language_lex_mode 16 = 2 /\
  action_of 19 sym_identifier = Some (SHIFT 47) /\ ts_language_lex_mode 47 = 1.
Proof.
  split; [exact keywords_state_0|].
  split; [exact (proj1 keywords_state_2)|].
  split; [exact (proj2 keywords_state_2)|].
  split; [exact keywords_state_1|].
  repeat split; vm_compute; reflexivity.
Qed.

Lemma keywords_are_contextual_witness :
  ts_lex 2 (codepoints "addon" ++ codepoints " }")%list = Some (lexeme sym_identifier 0 5) /\
  ts_lex 2 (codepoints "true" ++ codepoints " }")%list = Some (lexeme anon_sym_true 0 4) /\
  ts_lex 1 (codepoints "true" ++ codepoints " = 1")%list = Some (lexeme sym_identifier 0 4).
Proof.
  destruct keywords_are_contextual as (_ & H2v & H2s & H1 & _).
  split; [|split].
  - apply (Forall_inv H2s). reflexivity.
  - apply (Forall_inv H2v). reflexivity.
  - unfold keywords in H1. apply Forall_app in H1. destruct H1 as [_ H1].
    apply (Forall_inv H1). reflexivity.
Defined.

(** The same in a parse: an attribute named [true], and a reference to
    [addon]. *)
Example keyword_spellings_in_a_block :
  view_of (parse "output 'o' { a = addon true = false }") =
  Some [Nd "runbook"
          [Nd "output_block"
             [Tok "output" "output";
              Nd "string" [Tok "'" "'"; Tok "string_token2" "o"; Tok "'" "'"];
              Nd "block"
                [Tok "{" "{";
                 Nd "attribute"
                   [Tok "identifier" "a"; Tok "=" "=";
                    Nd "reference" [Tok "identifier" "addon"]];
                 Nd "attribute"
                   [Tok "identifier" "true"; Tok "=" "=";
                    Nd "boolean" [Tok "false" "false"]];
                 Tok "}" "}"]];
           Tok "end" ""]].
Proof. vm_compute. reflexivity. Qed.


(** ** Binary operators *)

Definition number_view (text : string) : View := Nd "number" [Tok "number_token3" text].

Definition binary_view (left : View) (op : string) (right : View) : View :=
  Nd "binary_expression" [left; Tok op op; right].

Definition additive : list TSSymbol := [anon_sym_PLUS; anon_sym_DASH].
Definition multiplicative : list TSSymbol := [anon_sym_STAR; anon_sym_SLASH].

(** With a complete binary expression on the stack: the operator reduces it
    (it becomes the left operand of the operator), or it is shifted (the right
    operand of the expression on the stack goes on). *)
Definition reduces_binary (state : TSStateId) (op : TSSymbol) : Prop :=
  action_of state op = Some (REDUCE sym_binary_expression 3 0).

Definition shifts (state : TSStateId) (op : TSSymbol) : Prop :=
  exists t, action_of state op = Some (SHIFT t).

(** The state after the right operand of an operator that was shifted to
    state [t]. *)
Definition after_operand (t : TSStateId) : TSStateId :=
  ts_language_next_state t sym__expression.

(** C6: multiplication and division bind tighter than addition and
    subtraction, and both tiers group to the left. In every state: after the
    right operand of a shifted [+] or [-], a following [+] or [-] reduces and
    a following [*] or [/] is shifted; after the right operand of a shifted
    [*] or [/] (where a value follows the [/]), every operator reduces. So
    [1 + 2 * 3] has the product as the right operand of the sum, [1 * 2 + 3]
    has it as the left operand, and two operators of one tier group to the
    left, in the value of an attribute and of an input alike. *)
Theorem operator_precedence :
  Forall (fun s =>
    Forall (fun op =>
      match action_of s op with
      | Some (SHIFT t) =>
          Forall (reduces_binary (after_operand t)) additive /\
          Forall (shifts (after_operand t)) multiplicative
      | _ => True
      end) additive) all_states /\
  Forall (fun s =>
    Forall (fun op =>
      match action_of s op with
      | Some (SHIFT t) =>
          starts_value t = true ->
          Forall (reduces_binary (after_operand t)) (additive ++ multiplicative)%list
      | _ => True
      end) multiplicative) all_states /\
  Forall (fun value => attribute_value (fst value) = Some (Some [snd value]) /\
                       input_value (fst value) = Some (Some [snd value]))
    [ ("1 + 2 * 3",
       binary_view (number_view "1") "+" (binary_view (number_view "2") "*" (number_view "3")));
      ("1 * 2 + 3",
       binary_view (binary_view (number_view "1") "*" (number_view "2")) "+" (number_view "3"));
      ("1 - 2 / 3",
       binary_view (number_view "1") "-" (binary_view (number_view "2") "/" (number_view "3")));
      ("1 / 2 - 3",
       binary_view (binary_view (number_view "1") "/" (number_view "2")) "-" (number_view "3"));
      ("1 + 2 + 3",
       binary_view (binary_view (number_view "1") "+" (number_view "2")) "+" (number_view "3"));
      ("1 - 2 - 3",
       binary_view (binary_view (number_view "1") "-" (number_view "2")) "-" (number_view "3"));
      ("1 - 2 + 3",
       binary_view (binary_view (number_view "1") "-" (number_view "2")) "+" (number_view "3"));
      ("1 + 2 - 3",
       binary_view (binary_view (number_view "1") "+" (number_view "2")) "-" (number_view "3"));
      ("1 * 2 * 3",
       binary_view (binary_view (number_view "1") "*" (number_view "2")) "*" (number_view "3"));
      ("8 / 4 / 2",
       binary_view (binary_view (number_view "8") "/" (number_view "4")) "/" (number_view "2"));
      ("8 / 4 * 2",
       binary_view (binary_view (number_view "8") "/" (number_view "4")) "*" (number_view "2"));
      ("8 * 4 / 2",
       binary_view (binary_view (number_view "8") "*" (number_view "4")) "/" (number_view "2")) ].
Proof. table_fact. Qed.


(** ** Numbers *)

(** C7: numbers, in the two lex states in which a number can start (lex state
    2, where a value starts, and lex state 0). [0x] and one or more
    hexadecimal digits are a hexadecimal number token; [0x] without such a
    digit is not: there the token is the decimal number [0] alone. Otherwise
    one or more digits are a decimal number token, with a leading [0] too;
    followed by [.] and one or more digits they are a fractional number
    token, and a [.] that no digit follows is not part of the number. No sign
    is part of a number: in lex state 2 a [-] or [+] starts no token, in lex
    state 0 it is the operator token. No exponent is part of a number: the
    decimal token ends before an [e]. *)
Theorem number_lexing : forall s, number_start s ->
  (forall hs rest,
     hs <> [] -> forallb is_hex_digit hs = true -> next_is is_hex_digit rest = false ->
     ts_lex s (codepoints "0x" ++ hs ++ rest)%list =
     Some (lexeme aux_sym_number_token1 0 (2 + List.length hs))) /\
  (forall rest,
     next_is is_hex_digit rest = false ->
     ts_lex s (codepoints "0x" ++ rest)%list = Some (lexeme aux_sym_number_token3 0 1)) /\
  (forall ds rest,
     ds <> [] -> forallb is_digit ds = true ->
     next_is (fun c => is_digit c || (c =? 46)%Z) rest = false ->
     is_zero ds && next_is (fun c => (c =? 120)%Z) rest = false ->
     ts_lex s (ds ++ rest)%list = Some (lexeme aux_sym_number_token3 0 (List.length ds))) /\
  (forall ds fs rest,
     ds <> [] -> forallb is_digit ds = true ->
     fs <> [] -> forallb is_digit fs = true ->
     next_is is_digit rest = false ->
     ts_lex s (ds ++ codepoints "." ++ fs ++ rest)%list =
     Some (lexeme aux_sym_number_token2 0 (List.length ds + 1 + List.length fs))) /\
  (forall ds rest,
     ds <> [] -> forallb is_digit ds = true ->
     next_is is_digit rest = false ->
     ts_lex s (ds ++ codepoints "." ++ rest)%list =
     Some (lexeme aux_sym_number_token3 0 (List.length ds))) /\
  (forall ds rest,
     ds <> [] -> forallb is_digit ds = true ->
     ts_lex s (ds ++ codepoints "e" ++ rest)%list =
     Some (lexeme aux_sym_number_token3 0 (List.length ds))) /\
  (forall rest,
     ts_lex 2 (codepoints "-" ++ rest)%list = None /\
     ts_lex 2 (codepoints "+" ++ rest)%list = None /\
     ts_lex 0 (codepoints "-" ++ rest)%list = Some (lexeme anon_sym_DASH 0 1) /\
     ts_lex 0 (codepoints "+" ++ rest)%list = Some (lexeme anon_sym_PLUS 0 1)).
Proof.
  intros s Hs. repeat apply conj.
  - intros hs rest. apply lex_hex. exact Hs.
  - intros rest. apply lex_bare_0x. exact Hs.
  - intros ds rest. apply lex_decimal. exact Hs.
  - intros ds fs rest. apply lex_fraction. exact Hs.
  - intros ds rest. apply lex_point_without_digits. exact Hs.
  - intros ds rest Hne Hds. apply lex_decimal; auto.
    cbn [next_is app codepoints]. rewrite andb_false_r. reflexivity.
  - intros rest. apply lex_no_sign.
Qed.

Lemma number_lexing_witness :
  ts_lex 2 (codepoints "0x" ++ codepoints "1F" ++ codepoints " }")%list
    = Some (lexeme aux_sym_number_token1 0 (2 + 2)) /\
  ts_lex 2 (codepoints "0x" ++ codepoints " }")%list
    = Some (lexeme aux_sym_number_token3 0 1) /\
  ts_lex 2 (codepoints "007" ++ codepoints " }")%list
    = Some (lexeme aux_sym_number_token3 0 3) /\
  ts_lex 2 (codepoints "2" ++ codepoints "." ++ codepoints "50" ++ codepoints " }")%list
    = Some (lexeme aux_sym_number_token2 0 (1 + 1 + 2)) /\
  ts_lex 2 (codepoints "2" ++ codepoints "." ++ codepoints " }")%list
    = Some (lexeme aux_sym_number_token3 0 1) /\
  ts_lex 2 (codepoints "1" ++ codepoints "e" ++ codepoints "5")%list
    = Some (lexeme aux_sym_number_token3 0 1) /\
  ts_lex 2 (codepoints "-" ++ codepoints "5")%list = None.
Proof.
  destruct (number_lexing 2 (or_intror eq_refl))
    as (Hhex & Hbare & Hdec & Hfrac & Hpoint & Hexp & Hsign).
  split; [apply Hhex; [discriminate | reflexivity | reflexivity]|].
  split; [apply Hbare; reflexivity|].
  split; [apply Hdec; [discriminate | reflexivity | reflexivity | reflexivity]|].
  split; [apply Hfrac; [discriminate | reflexivity | discriminate | reflexivity | reflexivity]|].
  split; [apply Hpoint; [discriminate | reflexivity | reflexivity]|].
  split; [apply Hexp; [discriminate | reflexivity]|].
  apply Hsign.
Defined.

(** Numbers in a parse. *)
Example numbers_in_an_array :
  input_value "[1, 0x1f, 2.5, 007]" =
  Some (Some [Nd "array"
                [Tok "[" "["; Nd "number" [Tok "number_token3" "1"]; Tok "," ",";
                 Nd "number" [Tok "number_token1" "0x1f"]; Tok "," ",";
                 Nd "number" [Tok "number_token2" "2.5"]; Tok "," ",";
                 Nd "number" [Tok "number_token3" "007"]; Tok "]" "]"]]).
Proof. vm_compute. reflexivity. Qed.


(** ** No unary minus, no grouping *)

(** The tokens that some state shifts into the state [t]. *)
Definition shifted_into (t : TSStateId) : list TSSymbol :=
  filter (fun k =>
            existsb (fun s => match action_of s k with
                              | Some (SHIFT t') => (t' =? t)%Z
                              | _ => false
                              end) all_states)
         all_tokens.

Definition takes (symbol : TSSymbol) (state : TSStateId) : bool :=
  match action_of state symbol with
  | Some _ => true
  | None => false
  end.

(** The token that stops the parse. *)
Definition unexpected (symbol : TSSymbol) (ws : list Z) (c : Z) : Token :=
  {| token_symbol := symbol; token_padding := ws; token_text := [c] |}.

Lemma lex_no_parenthesis rest :
  ts_lex 2 (40 :: rest)%Z = None /\
  ts_lex 0 (40 :: rest)%Z = Some (lexeme anon_sym_LPAREN 0 1).
Proof.
  assert (Hp : ts_lex_state 0 false 40 = (None, ADVANCE 91)) by reflexivity.
  unfold ts_lex. split.
  - rewrite ts_lex_loop_cons. reflexivity.
  - rewrite (ts_lex_loop_step _ _ _ _ _ _ _ Hp).
    apply (accepts_stops 91 anon_sym_LPAREN); [prove_accepts|]. destruct rest; reflexivity.
Qed.

(** Where a value starts, neither [-] nor [(] has an action. *)
Lemma value_state_rejects state :
  ts_language_lex_mode state = 2%Z ->
  action_of state anon_sym_DASH = None /\ action_of state anon_sym_LPAREN = None.
Proof.
  intros Hmode. unfold ts_language_lex_mode in Hmode.
  assert (Hall : forallb (fun e => negb (snd e =? 2)%Z ||
                            (negb (takes anon_sym_DASH (fst e)) &&
                             negb (takes anon_sym_LPAREN (fst e))))
                         ts_lex_modes = true) by (vm_compute; reflexivity).
  destruct (table_get_cases 0%Z ts_lex_modes state) as [H | H].
  - rewrite H in Hmode. discriminate Hmode.
  - rewrite forallb_forall in Hall. specialize (Hall _ H). cbn [fst snd] in Hall.
    rewrite Hmode in Hall. cbn [Z.eqb Pos.eqb negb orb] in Hall.
    apply andb_true_iff in Hall. destruct Hall as [Hd Hp].
    unfold takes in Hd, Hp.
    destruct (action_of state anon_sym_DASH); [discriminate Hd|].
    destruct (action_of state anon_sym_LPAREN); [discriminate Hp|].
    split; reflexivity.
Qed.

Lemma unexpected_at_value st ws c symbol rest :
  ts_language_lex_mode (ts_stack_state st) = 2%Z ->
  forallb is_space ws = true ->
  ts_lex 2 (c :: rest) = None ->
  ts_lex 0 (c :: rest) = Some (lexeme symbol 0 1) ->
  action_of (ts_stack_state st) symbol = None ->
  ts_parser__advance {| stack := st; lookahead := None; input := (ws ++ c :: rest)%list |} =
  Halt (SyntaxError {| stack := st;
                       lookahead := Some (unexpected symbol ws c);
                       input := rest |}).
Proof.
  intros Hmode Hws H2 H0 Hact.
  unfold ts_parser__advance, ts_parser__read. cbn [lookahead stack input].
  rewrite ts_parser__lex_blanks; [| rewrite Hmode; reflexivity | exact Hws].
  unfold ts_parser__lex. rewrite Hmode. cbn [Z.eqb Pos.eqb NO_LEX_STATE].
  rewrite H2. change (ts_language_lex_mode ERROR_STATE) with 0%Z. rewrite H0.
  unfold token_of_lexeme, lexeme.
  cbn [lexeme_symbol lexeme_start lexeme_end Nat.min Nat.sub firstn skipn pad_outcome].
  unfold pad. cbn [token_symbol token_padding token_text]. rewrite app_nil_r.
  unfold ts_parser__act. cbn [token_symbol].
  unfold action_of in Hact. rewrite Hact. reflexivity.
Qed.

(** C8: no unary minus and no grouping. A value starts in the states whose
    lex state is 2. Whenever the parser is in such a state and the next
    character after any blanks is [-] or [(], the parse stops there with a
    syntax error: the character starts no token where a value starts, is read
    as the operator token, and that token has no action in the state. This
    holds wherever a value starts: after the [=] of an attribute or of an
    input, in an array, in an argument list, after an operator. The token [(]
    has an action in two states only, 21 and 47; the only token shifted into
    them is an identifier, and an identifier is shifted into them exactly
    where a value starts; there [(] is shifted into a state where a value
    starts: the first argument of a call. *)
Theorem no_unary_minus_no_grouping :
  Forall (fun s => starts_value s = (ts_language_lex_mode s =? 2)%Z) all_states /\
  (forall st ws rest,
     ts_language_lex_mode (ts_stack_state st) = 2%Z ->
     forallb is_space ws = true ->
     ts_parser__advance
       {| stack := st; lookahead := None; input := (ws ++ codepoints "-" ++ rest)%list |} =
     Halt (SyntaxError {| stack := st;
                          lookahead := Some (unexpected anon_sym_DASH ws 45);
                          input := rest |}) /\
     ts_parser__advance
       {| stack := st; lookahead := None; input := (ws ++ codepoints "(" ++ rest)%list |} =
     Halt (SyntaxError {| stack := st;
                          lookahead := Some (unexpected anon_sym_LPAREN ws 40);
                          input := rest |})) /\
  filter (takes anon_sym_LPAREN) all_states = [21; 47]%Z /\
  shifted_into 21 = [sym_identifier] /\
  shifted_into 47 = [sym_identifier] /\
  Forall (fun s =>
    starts_value s =
    match action_of s sym_identifier with
    | Some (SHIFT t) => (t =? 21)%Z || (t =? 47)%Z
    | _ => false
    end) all_states /\
  (exists t u, action_of 21 anon_sym_LPAREN = Some (SHIFT t) /\ starts_value t = true /\
               action_of 47 anon_sym_LPAREN = Some (SHIFT u) /\ starts_value u = true) /\
  syntax_error (parse "output 'o' { v = -5 }") =
    Some {| stop_state := 19; stop_parsed := "output 'o' { v =";
            stop_token := Some ("-", "-"); stop_unread := "5 }" |} /\
  syntax_error (parse "input 'i' = -5") =
    Some {| stop_state := 16; stop_parsed := "input 'i' =";
            stop_token := Some ("-", "-"); stop_unread := "5" |} /\
  syntax_error (parse "output 'o' { v = (1+2) }") =
    Some {| stop_state := 19; stop_parsed := "output 'o' { v =";
            stop_token := Some ("(", "("); stop_unread := "1+2) }" |} /\
  syntax_error (parse "input 'i' = 2 * (1+2)") =
    Some {| stop_state := 13; stop_parsed := "input 'i' = 2 *";
            stop_token := Some ("(", "("); stop_unread := "1+2)" |} /\
  syntax_error (parse "input 'i' = [1, -5]") =
    Some {| stop_state := 5; stop_parsed := "input 'i' = [1,";
            stop_token := Some ("-", "-"); stop_unread := "5]" |} /\
  attribute_value "f(1+2)" =
    Some (Some [Nd "function_call"
                  [Tok "identifier" "f"; Tok "(" "(";
                   Nd "binary_expression"
                     [Nd "number" [Tok "number_token3" "1"]; Tok "+" "+";
                      Nd "number" [Tok "number_token3" "2"]];
                   Tok ")" ")"]]).
Proof.
  split; [table_fact|].
  split.
  { intros st ws rest Hmode Hws.
    destruct (value_state_rejects _ Hmode) as [Hd Hp].
    destruct (lex_no_sign rest) as (Hd2 & _ & Hd0 & _).
    destruct (lex_no_parenthesis rest) as (Hp2 & Hp0).
    split.
    - exact (unexpected_at_value st ws _ _ rest Hmode Hws Hd2 Hd0 Hd).
    - exact (unexpected_at_value st ws _ _ rest Hmode Hws Hp2 Hp0 Hp). }
  table_fact.
Qed.

Lemma no_unary_minus_no_grouping_witness :
  ts_parser__advance
    {| stack := [{| entry_subtree := Leaf anon_sym_EQ [] (codepoints "=");
                    entry_state := 16 |}];
       lookahead := None;
       input := (codepoints " " ++ codepoints "-" ++ codepoints "5 }")%list |} =
  Halt (SyntaxError
          {| stack := [{| entry_subtree := Leaf anon_sym_EQ [] (codepoints "=");
                          entry_state := 16 |}];
             lookahead := Some (unexpected anon_sym_DASH (codepoints " ") 45);
             input := codepoints "5 }" |}).
Proof.
  destruct no_unary_minus_no_grouping as (_ & Hstep & _).
  apply Hstep; reflexivity.
Defined.


(** ** Round trip *)

(** The tokens of a tree in source order, each with the blanks skipped before
    it (its padding) and its own text. *)
Fixpoint ts_subtree_spans (t : Subtree) : list (string * string) :=
  match t with
  | Leaf _ padding text => [(text_of padding, text_of text)]
  | Node _ _ _ children => flat_map ts_subtree_spans children
  end.

(** What the interpreter shows of the round trip: when it accepts a buffer,
    the spans of the leaves of the tree, put together in source order, are
    the buffer: for each token, comment tokens too, the blanks skipped before
    it (blanks are no token of their own: they are the padding of the next
    token) followed by its text; the blanks at the end of the buffer are the
    padding of the end-of-input token. For a malformed buffer the tree is
    built by the error recovery of the runtime, which is not in [parser.c]
    and which the interpreter does not have: it returns no tree there, and
    nothing is stated about such a buffer. *)
Lemma accepted_tree_keeps_the_buffer : forall source root,
  ts_parser_parse source = Accepted root -> ts_subtree_source root = source.
Proof.
  intros source root H. pose proof (ts_parser_parse_source source) as Hsource.
  rewrite H in Hsource. exact Hsource.
Qed.

(** Blanks are the padding of the token after them. *)
Example blanks_are_padding :
  option_map ts_subtree_spans (accepted (parse " import  'a' # c
")) =
  Some [(" ", "import"); ("  ", "'"); ("", "a"); ("", "'");
        (" ", "#"); ("", " c"); ("
", "")].
Proof. vm_compute. reflexivity. Qed.

(** ** The empty document *)

(** C10, at the failing input: a buffer that holds the line comment
    [// line] and nothing else. The opening [//] is a token of its own, as
    [#] and [/*] are, and every state shifts it; but it leads to state 145,
    where [/*] leads too and where the content of a block comment is lexed,
    up to a [*/] (lex state 7). The buffer ends before a [*/]: lex state 7
    finds no token, and the parse stops in state 145, which has no action
    for the identifier [line]. The line comment [# line] is accepted: [#]
    leads to state 143, where the text of the line is lexed. *)
Lemma line_comment_is_rejected :
  action_of 1 anon_sym_SLASH_SLASH = Some (SHIFT 145) /\
  action_of 1 anon_sym_SLASH_STAR = Some (SHIFT 145) /\
  action_of 1 anon_sym_POUND = Some (SHIFT 143) /\
  ts_language_lex_mode 145 = 7 /\
  ts_lex 7 (codepoints " line") = None /\
  tokens_with_action 145 = (comment_openers ++ [aux_sym_comment_token2])%list /\
  syntax_error (parse "// line") =
  Some {| stop_state := 145;
          stop_parsed := "//";
          stop_token := Some ("identifier", "line");
          stop_unread := "" |} /\
  view_of (parse "# line") =
  Some [Nd "runbook"
          [Nd "comment" [Tok "#" "#"; Tok "comment_token1" " line"];
           Tok "end" ""]].
Proof. table_fact. Qed.

(** What the tables do with a buffer of blanks and comments that they
    accept: the root is a runbook whose only children are the comments, each
    a comment node with its tokens; the blanks are the padding of the next
    token, the blanks at the end that of the end-of-input token. A comment
    is here as the tables take it: [#] and the text of the line, or an
    opening [/*] or [//], a body without [*/] and the closing [*/] (the
    tables close a comment that opens with [//] at the next [*/], see
    [line_comment_is_rejected]). (The side conditions are those of
    [comment_ok] and [follows_ok]:
    no NUL in a comment; the text of a line comment is not an opening token
    alone and ends with the line; the body of a block comment is not a lone
    [/], and no [/] or [*] follows the comment directly.) With no comments:
    a buffer of blanks only, the empty buffer too, is a runbook without
    children. *)
Theorem blank_document_parses :
  (forall items trailing,
     trivia_ok items trailing = true ->
     let root := Node sym_runbook 0 false
                   (map comment_node items ++ [Leaf ts_builtin_sym_end trailing []]) in
     ts_parser_parse (document items trailing) = Accepted root /\
     ts_node_children root = map comment_node items /\
     Forall (fun child => ts_subtree_symbol child = sym_comment) (ts_node_children root)) /\
  (forall ws,
     forallb is_space ws = true ->
     ts_parser_parse ws =
       Accepted (Node sym_runbook 0 false [Leaf ts_builtin_sym_end ws []]) /\
     ts_node_children (Node sym_runbook 0 false [Leaf ts_builtin_sym_end ws []]) = []) /\
  view_of (parse "") = Some [Nd "runbook" [Tok "end" ""]] /\
  view_of (parse "# line
/* block */
") =
    Some [Nd "runbook"
            [Nd "comment" [Tok "#" "#"; Tok "comment_token1" " line"];
             Nd "comment" [Tok "/*" "/*"; Tok "comment_token2" " block *"; Tok "/" "/"];
             Tok "end" ""]] /\
  view_of (parse "// line */") =
    Some [Nd "runbook"
            [Nd "comment" [Tok "//" "//"; Tok "comment_token2" " line *"; Tok "/" "/"];
             Tok "end" ""]].
Proof.
  split; [|split; [|table_fact]].
  - intros items trailing Hok root. subst root.
    split; [apply parse_document; exact Hok|].
    rewrite comment_children. split; [reflexivity|].
    apply Forall_forall. intros child Hin. apply in_map_iff in Hin.
    destruct Hin as ([ws c] & <- & _). reflexivity.
  - intros ws Hws. split; [apply parse_blanks; exact Hws | reflexivity].
Qed.

Lemma blank_document_parses_witness :
  ts_parser_parse
    (document [(codepoints " ", LineComment (codepoints " line"));
               (codepoints "
", BlockComment false (codepoints " block "))]
              (codepoints "
")) =
  Accepted
    (Node sym_runbook 0 false
       (map comment_node
            [(codepoints " ", LineComment (codepoints " line"));
             (codepoints "
", BlockComment false (codepoints " block "))] ++
        [Leaf ts_builtin_sym_end (codepoints "
") []])).
Proof.
  apply (proj1 blank_document_parses). reflexivity.
Defined.

(** The document of the witness, as text. *)
Example document_text :
  text_of (document [(codepoints " ", LineComment (codepoints " line"));
                     (codepoints "
", BlockComment false (codepoints " block "))]
                    (codepoints "
")) = " # line
/* block */
".
Proof. vm_compute. reflexivity. Qed.

End Claims.

(** * The lexer, state by state

    What [ts_lex] does for every input: the bounds of a token, the end of
    the input, blanks, words, the content of strings, punctuation, and the
    tokens that each lex state can report. *)

Module Lexing.
Import LexFacts ParseFacts Results.
Local Open Scope lookahead_scope.

(** ** What every state of the automaton does *)

(** One step of any state: an accepted symbol is a token; the next state is
    a state of the [switch]; only the five states that skip blanks are left
    by [SKIP], to themselves and without a symbol, and no [ADVANCE] leads to
    them. *)
Definition step_ok (s : TSStateId) (r : lex_state_result) : Prop :=
  match fst r with
  | Some symbol => 0 <= symbol < TOKEN_COUNT /\ skips_blanks s = false
  | None => True
  end /\
  match snd r with
  | ADVANCE t => 0 < t < 160 /\ skips_blanks t = false
  | SKIP t => t = s /\ skips_blanks s = true /\ fst r = None
  | END_STATE => True
  end.

Lemma ts_lex_state_ok s eof c : step_ok s (ts_lex_state s eof c).
Proof.
  unfold step_ok.
  each_lex_state s;
    cbv beta iota delta [ts_lex_state ACCEPT_TOKEN NO_TOKEN fst snd];
    destruct eof; split_lookahead; cbn [andb orb negb fst snd];
    (split; [first [exact I | split; [split; [discriminate | reflexivity] | reflexivity]]
            | first [exact I | split; [split; reflexivity | reflexivity]
                             | split; [reflexivity | split; reflexivity]]]).
Qed.

(** ** Tokens lie within the input *)

(** The lexer between two steps: the start of the token is not after the
    position; a symbol found so far is a token, marked between the start and
    the position, and then the state is not one that skips. *)
Definition lexer_ok (s : TSStateId) (pos : nat) (lexer : TSLexer) : Prop :=
  (token_start_position lexer <= pos)%nat /\
  match result_symbol lexer with
  | Some (symbol, e) =>
      0 <= symbol < TOKEN_COUNT /\ (token_start_position lexer <= e <= pos)%nat /\
      skips_blanks s = false
  | None => True
  end.

Definition lexeme_ok (bound : nat) (lx : Lexeme) : Prop :=
  0 <= lexeme_symbol lx < TOKEN_COUNT /\
  (lexeme_start lx <= lexeme_end lx <= bound)%nat.

Lemma lexer_result_ok s pos lexer lx bound :
  lexer_ok s pos lexer -> (pos <= bound)%nat ->
  lexer_result lexer = Some lx -> lexeme_ok bound lx.
Proof.
  intros [Hstart Hres] Hpos H. unfold lexer_result in H.
  destruct (result_symbol lexer) as [[symbol e]|]; [|discriminate H].
  injection H as <-. destruct Hres as (Hsym & He & _).
  split; cbn [lexeme_symbol lexeme_start lexeme_end]; [exact Hsym | lia].
Qed.

(** The step of a state keeps the lexer in order; [moved] is the position
    after the step (the same position at the end of the input). *)
Lemma lexer_ok_step s eof c pos moved lexer :
  lexer_ok s pos lexer -> (pos <= moved)%nat ->
  match snd (ts_lex_state s eof c) with
  | ADVANCE t => lexer_ok t moved (accept_token (fst (ts_lex_state s eof c)) pos lexer)
  | SKIP t => lexer_ok t moved (skip_to moved (accept_token (fst (ts_lex_state s eof c)) pos lexer))
  | END_STATE => lexer_ok s pos (accept_token (fst (ts_lex_state s eof c)) pos lexer)
  end.
Proof.
  intros [Hstart Hres] Hmoved.
  pose proof (ts_lex_state_ok s eof c) as [Htok Hnext].
  destruct (ts_lex_state s eof c) as [tok next]. cbn [fst snd] in *.
  destruct next as [t|t|].
  - destruct Hnext as [_ Ht]. destruct tok as [symbol|]; unfold lexer_ok; cbn.
    + destruct Htok as [Hsym _]. repeat split; try lia; exact Ht.
    + split; [lia|]. destruct (result_symbol lexer) as [[symbol e]|]; [|exact I].
      destruct Hres as (Hsym & He & _). repeat split; try lia; exact Ht.
  - destruct Hnext as (-> & Hskip & ->). unfold lexer_ok; cbn.
    split; [lia|]. destruct (result_symbol lexer) as [[symbol e]|]; [|exact I].
    destruct Hres as (_ & _ & Hno). rewrite Hskip in Hno. discriminate Hno.
  - destruct tok as [symbol|]; unfold lexer_ok; cbn.
    + destruct Htok as [Hsym Hno]. repeat split; try lia; exact Hno.
    + split; [exact Hstart | exact Hres].
Qed.

Lemma ts_lex_eof_ok fuel : forall s pos lexer lx,
  lexer_ok s pos lexer ->
  ts_lex_eof fuel s pos lexer = Some lx -> lexeme_ok pos lx.
Proof.
  induction fuel as [|fuel IH]; intros s pos lexer lx Hok H; [discriminate H|].
  rewrite ts_lex_eof_S in H.
  pose proof (lexer_ok_step s true 0 pos pos lexer Hok (le_n pos)) as Hstep.
  destruct (ts_lex_state s true 0) as [tok next]. cbn [fst snd] in Hstep. cbv zeta in H.
  destruct next as [t|t|].
  - exact (IH _ _ _ _ Hstep H).
  - exact (IH _ _ _ _ Hstep H).
  - exact (lexer_result_ok _ _ _ _ _ Hstep (le_n pos) H).
Qed.

Lemma ts_lex_loop_ok input : forall s pos lexer lx,
  lexer_ok s pos lexer ->
  ts_lex_loop s input pos lexer = Some lx ->
  lexeme_ok (pos + List.length input) lx.
Proof.
  induction input as [|c input IH]; intros s pos lexer lx Hok H.
  - rewrite ts_lex_loop_nil in H. cbn [List.length]. rewrite Nat.add_0_r.
    exact (ts_lex_eof_ok _ _ _ _ _ Hok H).
  - rewrite ts_lex_loop_cons in H.
    pose proof (lexer_ok_step s false c pos (S pos) lexer Hok (Nat.le_succ_diag_r pos)) as Hstep.
    destruct (ts_lex_state s false c) as [tok next]. cbn [fst snd] in Hstep. cbv zeta in H.
    cbn [List.length]. rewrite Nat.add_succ_r.
    destruct next as [t|t|].
    + exact (IH _ _ _ _ Hstep H).
    + exact (IH _ _ _ _ Hstep H).
    + apply (lexer_result_ok _ _ _ _ _ Hstep); [lia | exact H].
Qed.

(** X1: every token that [ts_lex] reports, from whatever state it is started,
    is a terminal symbol, and lies within the input: its start is not after
    its end, and its end is not after the end of the input. *)
Theorem ts_lex_token_within_input : forall s input lx,
  ts_lex s input = Some lx ->
  0 <= lexeme_symbol lx < TOKEN_COUNT /\
  (lexeme_start lx <= lexeme_end lx <= List.length input)%nat.
Proof.
  intros s input lx H.
  apply (ts_lex_loop_ok input s 0%nat lexer_start lx); [|exact H].
  split; [apply le_n | exact I].
Qed.

Lemma ts_lex_token_within_input_witness :
  0 <= lexeme_symbol (lexeme sym_identifier 2 5) < TOKEN_COUNT /\
  (lexeme_start (lexeme sym_identifier 2 5) <= lexeme_end (lexeme sym_identifier 2 5)
   <= List.length [32; 32; 97; 98; 99; 61])%nat.
Proof.
  apply (ts_lex_token_within_input 2 [32; 32; 97; 98; 99; 61]). reflexivity.
Defined.

(** ** The end of the input *)

Lemma advance_47_at_eof s c t :
  snd (ts_lex_state s true c) = ADVANCE t -> t = 47 -> s = 0 \/ s = 46.
Proof.
  each_lex_state s;
    cbv beta iota delta [ts_lex_state ACCEPT_TOKEN NO_TOKEN snd];
    split_lookahead; cbn [andb orb negb]; intros Hadv Ht47;
    first [discriminate Hadv | injection Hadv as <-; discriminate Ht47 | auto].
Qed.

Lemma no_skip_at_eof s t : snd (ts_lex_state s true 0) <> SKIP t.
Proof. each_lex_state s; vm_compute; discriminate. Qed.

(** From a state that does not skip, no end-of-input token is found. *)
Lemma no_end_at_eof fuel : forall s pos lexer lx,
  skips_blanks s = false -> s <> 47 -> no_end_yet lexer ->
  ts_lex_eof fuel s pos lexer = Some lx ->
  lexeme_symbol lx <> ts_builtin_sym_end.
Proof.
  induction fuel as [|fuel IH]; intros s pos lexer lx Hskip Hs Hno H; [discriminate H|].
  rewrite ts_lex_eof_S in H.
  pose proof (ts_lex_state_ok s true 0) as [Htok Hnext].
  pose proof (end_accepted_in_47 s true 0) as HA.
  pose proof (advance_47_at_eof s 0) as HB.
  destruct (ts_lex_state s true 0) as [tok next]. cbn [fst snd] in *. cbv zeta in H.
  assert (Hno' : no_end_yet (accept_token tok pos lexer)).
  { destruct tok as [symbol|]; cbn; [|exact Hno]. intros e He.
    injection He as -> _. apply Hs, HA. reflexivity. }
  destruct next as [t|t|].
  - destruct Hnext as [_ Ht].
    apply (IH t pos (accept_token tok pos lexer) lx Ht); auto.
    intros ->. destruct (HB 47 eq_refl eq_refl) as [-> | ->]; discriminate Hskip.
  - destruct Hnext as (_ & Hyes & _). congruence.
  - unfold lexer_result in H.
    destruct (result_symbol (accept_token tok pos lexer)) as [[symbol e]|] eqn:E;
      [|discriminate H].
    injection H as <-. cbn. intros ->. exact (Hno' e E).
Qed.

Lemma no_end_inside input : forall s pos lexer lx,
  skips_blanks s = false -> s <> 47 -> no_end_yet lexer ->
  ts_lex_loop s input pos lexer = Some lx ->
  lexeme_symbol lx <> ts_builtin_sym_end.
Proof.
  induction input as [|c input IH]; intros s pos lexer lx Hskip Hs Hno H.
  - rewrite ts_lex_loop_nil in H. exact (no_end_at_eof _ _ _ _ _ Hskip Hs Hno H).
  - rewrite ts_lex_loop_cons in H.
    pose proof (ts_lex_state_ok s false c) as [Htok Hnext].
    pose proof (end_accepted_in_47 s false c) as HA.
    pose proof (state_47_needs_eof s c) as [HB _].
    destruct (ts_lex_state s false c) as [tok next]. cbn [fst snd] in *. cbv zeta in H.
    assert (Hno' : no_end_yet (accept_token tok pos lexer)).
    { destruct tok as [symbol|]; cbn; [|exact Hno]. intros e He.
      injection He as -> _. apply Hs, HA. reflexivity. }
    destruct next as [t|t|].
    + destruct Hnext as [_ Ht].
      apply (IH t (S pos) (accept_token tok pos lexer) lx Ht); auto. congruence.
    + destruct Hnext as (_ & Hyes & _). congruence.
    + unfold lexer_result in H.
      destruct (result_symbol (accept_token tok pos lexer)) as [[symbol e]|] eqn:E;
        [|discriminate H].
      injection H as <-. cbn. intros ->. exact (Hno' e E).
Qed.

(** In a state that skips, a character that is not skipped leads to a
    state that does not skip, or ends. *)
Lemma skip_is_blank s c t :
  snd (ts_lex_state s false c) = SKIP t -> is_space c = true.
Proof.
  each_lex_state s;
    cbv beta iota delta [ts_lex_state ACCEPT_TOKEN NO_TOKEN snd is_space];
    split_lookahead; cbn [andb orb negb]; intros Hskip;
    first [discriminate Hskip | reflexivity].
Qed.

Lemma end_needs_blanks input : forall s pos lexer lx,
  s <> 47 -> result_symbol lexer = None -> token_start_position lexer = pos ->
  ts_lex_loop s input pos lexer = Some lx ->
  lexeme_symbol lx = ts_builtin_sym_end ->
  (s = 0 \/ s = 46) /\ forallb is_space input = true /\
  lexeme_start lx = (pos + List.length input)%nat /\
  lexeme_end lx = (pos + List.length input)%nat.
Proof.
  induction input as [|c input IH]; intros s pos lexer lx Hs Hres Hstart H Hsym.
  - rewrite ts_lex_loop_nil in H. unfold LEX_STATE_COUNT in H. rewrite ts_lex_eof_S in H.
    pose proof (ts_lex_state_ok s true 0) as [Htok Hnext].
    pose proof (end_accepted_in_47 s true 0) as HA.
    pose proof (advance_47_at_eof s 0) as HB.
    pose proof (no_skip_at_eof s) as HD.
    destruct (ts_lex_state s true 0) as [tok next]. cbn [fst snd] in *. cbv zeta in H.
    assert (Hno' : no_end_yet (accept_token tok pos lexer)).
    { destruct tok as [symbol|]; cbn.
      - intros e He. injection He as -> _. apply Hs, HA. reflexivity.
      - intros e He. congruence. }
    destruct next as [t|t|].
    + destruct (Z.eq_dec t 47) as [-> | Ht47].
      * split; [exact (HB 47 eq_refl eq_refl)|]. split; [reflexivity|].
        rewrite ts_lex_eof_S in H. cbn in H.
        destruct tok as [symbol|]; cbn in H; injection H as <-; cbn; lia.
      * destruct Hnext as [_ Ht]. elim (no_end_at_eof _ _ _ _ _ Ht Ht47 Hno' H Hsym).
    + elim (HD t eq_refl).
    + unfold lexer_result in H.
      destruct (result_symbol (accept_token tok pos lexer)) as [[symbol e]|] eqn:E;
        [|discriminate H].
      injection H as <-. cbn in Hsym. subst symbol. elim (Hno' e E).
  - rewrite ts_lex_loop_cons in H.
    pose proof (ts_lex_state_ok s false c) as [Htok Hnext].
    pose proof (end_accepted_in_47 s false c) as HA.
    pose proof (state_47_needs_eof s c) as [HB HB'].
    pose proof (skip_is_blank s c) as HC.
    destruct (ts_lex_state s false c) as [tok next]. cbn [fst snd] in *. cbv zeta in H.
    assert (Hno' : no_end_yet (accept_token tok pos lexer)).
    { destruct tok as [symbol|]; cbn.
      - intros e He. injection He as -> _. apply Hs, HA. reflexivity.
      - intros e He. congruence. }
    destruct next as [t|t|].
    + destruct Hnext as [_ Ht].
      assert (Ht47 : t <> 47) by congruence.
      elim (no_end_inside _ _ _ _ _ Ht Ht47 Hno' H Hsym).
    + destruct Hnext as (-> & Hyes & ->). cbn [accept_token] in H.
      destruct (IH s (S pos) (skip_to (S pos) lexer) lx Hs Hres eq_refl H Hsym)
        as (Hs' & Hblank & Hst & He).
      split; [exact Hs'|]. cbn [forallb List.length]. rewrite (HC s eq_refl), Hblank.
      repeat split; lia.
    + unfold lexer_result in H.
      destruct (result_symbol (accept_token tok pos lexer)) as [[symbol e]|] eqn:E;
        [|discriminate H].
      injection H as <-. cbn in Hsym. subst symbol. elim (Hno' e E).
Qed.

Lemma end_after_blanks s ws :
  s = 0 \/ s = 46 -> forallb is_space ws = true ->
  ts_lex s ws = Some (lexeme ts_builtin_sym_end (List.length ws) (List.length ws)).
Proof.
  intros Hs Hws.
  assert (Hskip : skips s is_space) by (destruct Hs as [-> | ->]; [apply skips_0 | apply skips_46]).
  rewrite <- (app_nil_r ws) at 1.
  rewrite (ts_lex_skips s is_space ws [] Hskip (Forall_forallb _ _ Hws)).
  destruct Hs as [-> | ->]; vm_compute ts_lex; cbn [option_map shift_lexeme];
    unfold shift_lexeme, lexeme; cbn; rewrite Nat.add_0_r; reflexivity.
Qed.

(** X2: the end of the input. Started in any state but the final state 47,
    [ts_lex] reports the end-of-input token exactly when it was started in lex
    state 0 or 46 and the whole input is blanks; the token is then empty and
    stands at the end of the input. (In every other lex state, reaching the
    end of the input without a token is a failure to lex.) *)
Theorem end_of_input_token : forall s input,
  s <> 47 ->
  ((exists lx, ts_lex s input = Some lx /\ lexeme_symbol lx = ts_builtin_sym_end) <->
   ((s = 0 \/ s = 46) /\ forallb is_space input = true)) /\
  (forall lx, ts_lex s input = Some lx -> lexeme_symbol lx = ts_builtin_sym_end ->
     lx = lexeme ts_builtin_sym_end (List.length input) (List.length input)).
Proof.
  intros s input Hs. split; [split|].
  - intros (lx & H & Hsym).
    destruct (end_needs_blanks input s 0%nat lexer_start lx Hs eq_refl eq_refl H Hsym)
      as (H1 & H2 & _).
    split; assumption.
  - intros [Hstate Hws]. eexists. split; [apply end_after_blanks; assumption | reflexivity].
  - intros lx H Hsym.
    destruct (end_needs_blanks input s 0%nat lexer_start lx Hs eq_refl eq_refl H Hsym)
      as (_ & _ & H3 & H4).
    destruct lx as [symbol b e]. cbn [lexeme_symbol lexeme_start lexeme_end] in *.
    subst. reflexivity.
Qed.

Lemma end_of_input_token_witness :
  ((exists lx, ts_lex 46 [" "; 10] = Some lx /\ lexeme_symbol lx = ts_builtin_sym_end) <->
   ((46 = 0 \/ 46 = 46) /\ forallb is_space [" "; 10] = true)) /\
  (forall lx, ts_lex 46 [" "; 10] = Some lx -> lexeme_symbol lx = ts_builtin_sym_end ->
     lx = lexeme ts_builtin_sym_end (List.length [" "; 10]) (List.length [" "; 10])).
Proof.
  apply (end_of_input_token 46 [" "; 10]). lia.
Defined.

(** X3: blanks before a token. A [SKIP] is taken only on a blank (tab, line
    feed, carriage return, space), only in the lex states 0, 1, 2, 6 and 46,
    stays in the state and is never taken at the end of the input; started in
    one of these states on blanks followed by [rest], [ts_lex] reports the
    token of [rest], moved by the number of the blanks. *)
Theorem blanks_are_skipped : forall s,
  (forall c t, snd (ts_lex_state s false c) = SKIP t ->
     skips_blanks s = true /\ is_space c = true /\ t = s) /\
  (forall t, snd (ts_lex_state s true 0) <> SKIP t) /\
  (skips_blanks s = true ->
   forall ws rest, forallb is_space ws = true ->
     ts_lex s (ws ++ rest) = option_map (shift_lexeme (List.length ws)) (ts_lex s rest)).
Proof.
  intros s. split; [|split].
  - intros c t H. pose proof (ts_lex_state_ok s false c) as [_ Hnext].
    rewrite H in Hnext. destruct Hnext as (Ht & Hskip & _).
    split; [exact Hskip|]. split; [exact (skip_is_blank s c t H) | exact Ht].
  - apply no_skip_at_eof.
  - intros Hskip ws rest Hws.
    apply (ts_lex_skips s is_space ws rest (skips_blanks_spec s Hskip)).
    apply Forall_forallb. exact Hws.
Qed.

(** ** Words: the keyword trie *)

Definition is_word_start (c : Z) : bool :=
  (("A" <=? c) && (c <=? "Z")) || (c =? "_") || (("a" <=? c) && (c <=? "z")).

(** A word: a letter or [_], then letters, digits and [_]. *)
Definition is_word (w : list Z) : bool :=
  match w with
  | [] => false
  | c :: w' => is_word_start c && forallb is_identifier_char w'
  end.

Fixpoint is_prefix (p w : list Z) : bool :=
  match p, w with
  | [], _ => true
  | a :: p', b :: w' => (a =? b) && is_prefix p' w'
  | _ :: _, [] => false
  end.

Fixpoint list_eqb (v w : list Z) : bool :=
  match v, w with
  | [], [] => true
  | a :: v', b :: w' => (a =? b) && list_eqb v' w'
  | _, _ => false
  end.

(** The symbol of a word among the keywords [kws]: that of the keyword it
    spells, or else [sym_identifier]. *)
Fixpoint word_symbol (kws : list (string * TSSymbol)) (w : list Z) : TSSymbol :=
  match kws with
  | [] => sym_identifier
  | (spelling, symbol) :: kws' =>
      if list_eqb w (codepoints spelling) then symbol else word_symbol kws' w
  end.

(** Does [p] begin one of the keywords? *)
Definition spellings (kws : list (string * TSSymbol)) : list (list Z) :=
  map (fun k => codepoints (fst k)) kws.

Definition on_trie (kws : list (string * TSSymbol)) (p : list Z) : bool :=
  existsb (is_prefix p) (spellings kws).

(** The state that the automaton is in after it advanced over [w]. *)
Fixpoint ts_lex_walk (s : TSStateId) (w : list Z) : TSStateId :=
  match w with
  | [] => s
  | c :: w' =>
      match snd (ts_lex_state s false c) with
      | ADVANCE t => ts_lex_walk t w'
      | _ => s
      end
  end.

Lemma is_prefix_app p c w : is_prefix (p ++ [c]) w = true -> is_prefix p w = true.
Proof.
  revert w. induction p as [|a p IH]; intros w H; [reflexivity|].
  destruct w as [|b w]; [discriminate H|]. cbn [app is_prefix] in *.
  apply andb_true_iff in H. destruct H as [Hab H]. rewrite Hab. exact (IH w H).
Qed.

Lemma on_trie_app kws p c : on_trie kws p = false -> on_trie kws (p ++ [c]) = false.
Proof.
  unfold on_trie. intros H. apply not_true_is_false. intros Hc.
  apply existsb_exists in Hc. destruct Hc as (k & Hk & Hp).
  apply is_prefix_app in Hp.
  assert (existsb (is_prefix p) (spellings kws) = true)
    by (apply existsb_exists; eauto).
  congruence.
Qed.

Lemma list_eqb_prefix v w : list_eqb v w = true -> is_prefix v w = true.
Proof.
  revert w. induction v as [|a v IH]; intros [|b w] H; try discriminate H; [reflexivity|].
  cbn in *. apply andb_true_iff in H. destruct H as [-> H]. exact (IH w H).
Qed.

Lemma off_trie_identifier kws w : on_trie kws w = false -> word_symbol kws w = sym_identifier.
Proof.
  unfold on_trie, spellings.
  induction kws as [|[spelling symbol] kws IH]; intros H; [reflexivity|].
  cbn [existsb map fst] in H. apply orb_false_iff in H. destruct H as [H1 H2].
  cbn [word_symbol]. destruct (list_eqb w (codepoints spelling)) eqn:E.
  - apply list_eqb_prefix in E. congruence.
  - exact (IH H2).
Qed.

(** The beginnings of a list, the empty one too. *)
Fixpoint inits (k : list Z) : list (list Z) :=
  [] :: match k with
        | [] => []
        | a :: k' => map (cons a) (inits k')
        end.

Lemma is_prefix_inits p : forall k, is_prefix p k = true -> In p (inits k).
Proof.
  induction p as [|a p IH]; intros k H.
  - destruct k; left; reflexivity.
  - destruct k as [|b k]; [discriminate H|]. cbn [is_prefix] in H.
    apply andb_true_iff in H. destruct H as [Hab H]. apply Z.eqb_eq in Hab. subst b.
    cbn [inits]. right. apply in_map. exact (IH k H).
Qed.

Lemma on_trie_inits kws p :
  on_trie kws p = true -> In p (flat_map inits (spellings kws)).
Proof.
  unfold on_trie. intros H. apply existsb_exists in H. destruct H as (k & Hk & Hp).
  apply in_flat_map. exists k. split; [exact Hk | apply is_prefix_inits; exact Hp].
Qed.

(** Where the automaton is after a beginning [p] of a word: in the state
    that state 0 reaches over [p] while [p] begins a keyword, and in state
    140 from then on. *)
Definition word_inv (kws : list (string * TSSymbol)) (s : TSStateId) (p : list Z) : Prop :=
  p <> [] /\
  if on_trie kws p then s = ts_lex_walk 0 p else s = 140.

(** The beginnings of the keywords are few: a fact about each of them is
    proved for each in turn. *)
Ltac each_on_trie H p :=
  apply on_trie_inits in H; vm_compute in H;
  repeat (destruct H as [H | H]; [symmetry in H; subst p|]); [..|contradiction H].

Ltac walk_state Hs s :=
  match type of Hs with
  | s = ?w => let v := eval vm_compute in w in
              replace w with v in Hs by (vm_compute; reflexivity); subst s
  end.

(** [c] is none of the letters that go on with a keyword after [p]. *)
Ltac off_trie c :=
  unfold on_trie;
  match goal with
  | |- existsb _ ?l = false =>
      let v := eval vm_compute in l in
      replace l with v by (vm_compute; reflexivity)
  end;
  cbn [existsb is_prefix app Z.eqb Pos.eqb andb orb];
  repeat match goal with
         | H : c <> ?k |- context [c =? ?k] => rewrite (proj2 (Z.eqb_neq c k) H)
         end;
  reflexivity.

Ltac word_step_case c :=
  let Hc := fresh "Hc" in
  intros Hc; revert Hc;
  cbv beta iota delta [ts_lex_state ACCEPT_TOKEN NO_TOKEN is_identifier_char is_word_start];
  split_lookahead; cbn [andb orb negb]; intros Hc; try discriminate Hc; clear Hc;
  eexists; eexists; (split; [reflexivity|]);
  (split; [discriminate|]);
  first [ subst c; vm_compute; reflexivity
        | match goal with
          | |- (if on_trie ?kws ?q then _ else _) =>
              replace (on_trie kws q) with false by (symmetry; off_trie c); reflexivity
          end ].

Lemma word_step_140 c :
  is_identifier_char c = true ->
  ts_lex_state 140 false c = (Some sym_identifier, ADVANCE 140).
Proof. intros H. lex_state_from H. Qed.

Section Words.
Variable kws : list (string * TSSymbol).
Hypothesis kws_keywords : kws = keywords \/ kws = value_keywords \/ kws = [].

Lemma word_step s p c :
  word_inv kws s p -> is_identifier_char c = true ->
  exists symbol t,
    ts_lex_state s false c = (Some symbol, ADVANCE t) /\ word_inv kws t (p ++ [c]).
Proof.
  intros [Hp Hs]. destruct (on_trie kws p) eqn:Hon.
  - destruct kws_keywords as [-> | [-> | ->]]; [| |discriminate Hon];
      each_on_trie Hon p; try (elim Hp; reflexivity);
      walk_state Hs s; word_step_case c.
  - subst s. intros Hc. exists sym_identifier, 140. split; [apply word_step_140, Hc|].
    split; [destruct p; discriminate|]. rewrite on_trie_app by exact Hon. reflexivity.
Qed.

Lemma word_end s p :
  word_inv kws s p ->
  accepts s (word_symbol kws p) /\
  forall rest, next_is is_identifier_char rest = false -> stops s rest.
Proof.
  intros [Hp Hs]. destruct (on_trie kws p) eqn:Hon.
  - destruct kws_keywords as [-> | [-> | ->]]; [| |discriminate Hon];
      each_on_trie Hon p; try (elim Hp; reflexivity);
      walk_state Hs s;
      (split;
       [ intros eof c; cbv beta iota delta [ts_lex_state ACCEPT_TOKEN NO_TOKEN fst];
         vm_compute; reflexivity
       | intros rest Hrest; destruct rest as [|c rest];
         [reflexivity | unfold stops; lex_state_from Hrest] ]).
  - subst s. rewrite off_trie_identifier by exact Hon. split.
    + prove_accepts.
    + intros rest Hrest. destruct rest as [|c rest]; [reflexivity|].
      unfold stops. lex_state_from Hrest.
Qed.

(** From a state inside a word over the rest of the word. *)
Lemma word_run w : forall s p pos lexer rest,
  word_inv kws s p ->
  forallb is_identifier_char w = true ->
  next_is is_identifier_char rest = false ->
  ts_lex_loop s (w ++ rest) pos lexer =
  Some (lexeme (word_symbol kws (p ++ w)) (token_start_position lexer)
               (pos + List.length w)).
Proof.
  induction w as [|c w IH]; intros s p pos lexer rest Hinv Hw Hrest.
  - cbn [app List.length]. rewrite app_nil_r, Nat.add_0_r.
    destruct (word_end s p Hinv) as [Hacc Hstop].
    apply accepts_stops; auto.
  - cbn [forallb] in Hw. apply andb_true_iff in Hw. destruct Hw as [Hc Hw].
    destruct (word_step s p c Hinv Hc) as (symbol & t & Hstep & Hinv').
    cbn [app List.length]. rewrite (ts_lex_loop_step _ _ _ _ _ _ _ Hstep).
    rewrite (IH t (p ++ [c])) by assumption.
    rewrite <- app_assoc. cbn [app accept_token token_start_position].
    f_equal. f_equal. lia.
Qed.

End Words.

Ltac word_start_case c :=
  let Hc := fresh "Hc" in
  intros Hc; revert Hc;
  cbv beta iota delta [ts_lex_state ACCEPT_TOKEN NO_TOKEN is_identifier_char is_word_start];
  split_lookahead; cbn [andb orb negb]; intros Hc; try discriminate Hc; clear Hc;
  eexists; (split; [reflexivity|]);
  (split; [discriminate|]);
  first [ subst c; vm_compute; reflexivity
        | match goal with
          | |- (if on_trie ?kws ?q then _ else _) =>
              replace (on_trie kws q) with false by (symmetry; off_trie c); reflexivity
          end ].

Lemma word_start_0 c :
  is_word_start c = true ->
  exists t, ts_lex_state 0 false c = (None, ADVANCE t) /\ word_inv keywords t [c].
Proof. word_start_case c. Qed.

Lemma word_start_2 c :
  is_word_start c = true ->
  exists t, ts_lex_state 2 false c = (None, ADVANCE t) /\ word_inv value_keywords t [c].
Proof. word_start_case c. Qed.

Lemma word_start_1 c :
  is_word_start c = true ->
  exists t, ts_lex_state 1 false c = (None, ADVANCE t) /\ word_inv [] t [c].
Proof. word_start_case c. Qed.

Lemma word_from_start s kws w rest :
  kws = keywords \/ kws = value_keywords \/ kws = [] ->
  (forall c, is_word_start c = true ->
     exists t, ts_lex_state s false c = (None, ADVANCE t) /\ word_inv kws t [c]) ->
  is_word w = true ->
  next_is is_identifier_char rest = false ->
  ts_lex s (w ++ rest) = Some (lexeme (word_symbol kws w) 0 (List.length w)).
Proof.
  intros Hkws Hstart Hw Hrest. destruct w as [|c w]; [discriminate Hw|].
  cbn [is_word] in Hw. apply andb_true_iff in Hw. destruct Hw as [Hc Hw].
  destruct (Hstart c Hc) as (t & Hstep & Hinv).
  unfold ts_lex. cbn [app]. rewrite (ts_lex_loop_step _ _ _ _ _ _ _ Hstep).
  rewrite (word_run kws Hkws w t [c]) by assumption. reflexivity.
Qed.

(** X4: words. A word (a letter or [_], then letters, digits and [_]; no
    such character after it) is one token, as long as the word. In lex
    state 0 it is the keyword that it spells, when it spells one of the ten
    keywords, and else an identifier; in lex state 2 the same with the
    keywords [true], [false] and [null] only; in lex state 1 it is always an
    identifier. *)
Theorem word_lexing : forall w rest,
  is_word w = true ->
  next_is is_identifier_char rest = false ->
  ts_lex 0 (w ++ rest) = Some (lexeme (word_symbol keywords w) 0 (List.length w)) /\
  ts_lex 2 (w ++ rest) = Some (lexeme (word_symbol value_keywords w) 0 (List.length w)) /\
  ts_lex 1 (w ++ rest) = Some (lexeme sym_identifier 0 (List.length w)).
Proof.
  intros w rest Hw Hrest. split; [|split].
  - apply word_from_start; auto using word_start_0.
  - apply word_from_start; auto using word_start_2.
  - apply (word_from_start 1 [] w rest); auto using word_start_1.
Qed.

Lemma word_lexing_witness :
  ts_lex 0 (codepoints "inputs" ++ codepoints " = 1") =
    Some (lexeme (word_symbol keywords (codepoints "inputs")) 0
                 (List.length (codepoints "inputs"))) /\
  ts_lex 2 (codepoints "inputs" ++ codepoints " = 1") =
    Some (lexeme (word_symbol value_keywords (codepoints "inputs")) 0
                 (List.length (codepoints "inputs"))) /\
  ts_lex 1 (codepoints "inputs" ++ codepoints " = 1") =
    Some (lexeme sym_identifier 0 (List.length (codepoints "inputs"))).
Proof.
  apply word_lexing; reflexivity.
Defined.

(** The symbols of some words. *)
Example word_symbols :
  map (fun w => (word_symbol keywords (codepoints w), word_symbol value_keywords (codepoints w)))
      ["input"; "inputs"; "inpu"; "true"; "True"; "null"; "_null"]%string =
  [(anon_sym_input, sym_identifier); (sym_identifier, sym_identifier);
   (sym_identifier, sym_identifier); (anon_sym_true, anon_sym_true);
   (sym_identifier, sym_identifier); (sym_null, sym_null);
   (sym_identifier, sym_identifier)].
Proof. vm_compute. reflexivity. Qed.

(** ** The content of a quoted string

    After the opening quote the parser is in a state whose lex state is 67
    (double quote) or 71 (single quote). The content token is lexed there,
    through six states each, up to the closing quote. The text of a line
    comment is lexed in the same way (see [line_run]), up to the end of the
    line. *)

Section Content.
(** The states: at the start and after blanks, after a first [/], in the
    content, and after a [#], a [//] or a [/*] that opens the content. *)
Variables start slash inside pound slashes slash_star : TSStateId.
Variable closing : Z.
Variable token : TSSymbol.

Definition is_content_char (c : Z) : bool := (c !=? 0) && (c !=? closing).

Definition content_next (s : TSStateId) (c : Z) : TSStateId :=
  if s =? start then
    (if c =? "#" then pound else if c =? "/" then slash
     else if is_space c then start else inside)
  else if s =? slash then
    (if c =? "*" then slash_star else if c =? "/" then slashes else inside)
  else inside.

Definition content_token (s : TSStateId) : TSSymbol :=
  if s =? pound then anon_sym_POUND
  else if s =? slashes then anon_sym_SLASH_SLASH
  else if s =? slash_star then anon_sym_SLASH_STAR
  else token.

Definition content_states : list TSStateId :=
  [start; slash; inside; pound; slashes; slash_star].

Hypothesis content_step : forall s c,
  In s content_states -> is_content_char c = true ->
  ts_lex_state s false c = (Some (content_token s), ADVANCE (content_next s c)).
Hypothesis content_accepts : forall s,
  In s content_states -> accepts s (content_token s).
Hypothesis content_stops : forall s rest,
  In s content_states -> next_is is_content_char rest = false -> stops s rest.
Hypothesis states_differ :
  (start =? slash) = false /\ (inside =? start) = false /\ (inside =? slash) = false /\
  (pound =? start) = false /\ (pound =? slash) = false /\
  (slashes =? start) = false /\ (slashes =? slash) = false /\
  (slash_star =? start) = false /\ (slash_star =? slash) = false /\
  (start =? pound) = false /\ (start =? slashes) = false /\ (start =? slash_star) = false /\
  (slash =? pound) = false /\ (slash =? slashes) = false /\ (slash =? slash_star) = false /\
  (inside =? pound) = false /\ (inside =? slashes) = false /\ (inside =? slash_star) = false.

Lemma content_next_in s c : In s content_states -> In (content_next s c) content_states.
Proof.
  clear. intros _. unfold content_next, content_states.
  destruct (s =? start); [|destruct (s =? slash)];
    repeat match goal with |- context [if ?b then _ else _] => destruct b end;
    cbn; tauto.
Qed.

Lemma content_run t : forall s pos lexer rest,
  In s content_states ->
  forallb is_content_char t = true ->
  next_is is_content_char rest = false ->
  ts_lex_loop s (t ++ rest) pos lexer =
  Some (lexeme (content_token (fold_left content_next t s)) (token_start_position lexer)
               (pos + List.length t)).
Proof.
  clear states_differ.
  induction t as [|c t IH]; intros s pos lexer rest Hs Ht Hrest.
  - cbn [app List.length fold_left]. rewrite Nat.add_0_r.
    apply accepts_stops; [apply content_accepts | apply content_stops]; assumption.
  - cbn [forallb] in Ht. apply andb_true_iff in Ht. destruct Ht as [Hc Ht].
    cbn [app List.length fold_left].
    rewrite (ts_lex_loop_step _ _ _ _ _ _ _ (content_step s c Hs Hc)).
    rewrite IH; [| apply content_next_in; exact Hs | exact Ht | exact Hrest].
    cbn [accept_token token_start_position]. f_equal. f_equal. lia.
Qed.

Lemma content_inside t : fold_left content_next t inside = inside.
Proof.
  destruct states_differ as (_ & H1 & H2 & _).
  induction t as [|c t IH]; [reflexivity|]. cbn [fold_left].
  unfold content_next at 2. rewrite H1, H2. exact IH.
Qed.

Lemma content_after_opener s c t :
  s = pound \/ s = slashes \/ s = slash_star ->
  fold_left content_next (c :: t) s = inside.
Proof.
  destruct states_differ as (_ & _ & _ & Hp1 & Hp2 & Hs1 & Hs2 & Ht1 & Ht2 & _).
  intros H. cbn [fold_left].
  assert (Hn : content_next s c = inside).
  { unfold content_next. destruct H as [-> | [-> | ->]].
    - rewrite Hp1, Hp2. reflexivity.
    - rewrite Hs1, Hs2. reflexivity.
    - rewrite Ht1, Ht2. reflexivity. }
  rewrite Hn. apply content_inside.
Qed.

Lemma content_token_inside : content_token inside = token.
Proof.
  destruct states_differ as (_ & _ & _ & _ & _ & _ & _ & _ & _ & _ & _ & _ & _ & _ & _ & H1 & H2 & H3).
  unfold content_token. rewrite H1, H2, H3. reflexivity.
Qed.

Lemma content_token_text t :
  forallb is_content_char t = true ->
  is_opener_only t = false ->
  content_token (fold_left content_next t start) = token.
Proof.
  destruct states_differ
    as (H01 & _ & _ & _ & _ & _ & _ & _ & _ & H0p & H0s & H0t & H1p & H1s & H1t & _).
  unfold is_opener_only.
  induction t as [|c t IH]; intros Ht Hopen.
  { cbn [fold_left]. unfold content_token. rewrite H0p, H0s, H0t. reflexivity. }
  cbn [forallb] in Ht. apply andb_true_iff in Ht. destruct Ht as [Hc Ht].
  cbn [skip_spaces] in Hopen. cbn [fold_left].
  unfold content_next at 2. rewrite Z.eqb_refl.
  destruct (is_space c) eqn:Hsp.
  - assert (Hp : (c =? "#") = false /\ (c =? "/") = false).
    { revert Hsp. unfold is_space. split_lookahead; cbn; intros; try discriminate; auto. }
    destruct Hp as [-> ->]. apply IH; assumption.
  - destruct (Z.eqb_spec c "#") as [-> | Hp].
    + destruct t as [|d t]; [discriminate Hopen|].
      rewrite content_after_opener by auto. apply content_token_inside.
    + destruct (Z.eqb_spec c "/") as [-> | Hsl].
      * destruct t as [|d t].
        { cbn [fold_left]. unfold content_token. rewrite H1p, H1s, H1t. reflexivity. }
        cbn [fold_left]. unfold content_next at 2.
        rewrite (Z.eqb_sym slash start), H01, Z.eqb_refl.
        destruct (Z.eqb_spec d "*") as [-> | Hst].
        { destruct t as [|e t]; [discriminate Hopen|].
          rewrite content_after_opener by auto. apply content_token_inside. }
        destruct (Z.eqb_spec d "/") as [-> | Hsl'].
        { destruct t as [|e t]; [discriminate Hopen|].
          rewrite content_after_opener by auto. apply content_token_inside. }
        rewrite content_inside. apply content_token_inside.
      * rewrite content_inside. apply content_token_inside.
Qed.

(** The content runs up to the closing character. *)
Lemma lex_content t rest :
  forallb is_content_char t = true ->
  is_opener_only t = false ->
  next_is is_content_char rest = false ->
  ts_lex start (t ++ rest) = Some (lexeme token 0 (List.length t)).
Proof.
  intros Ht Hopen Hrest. unfold ts_lex.
  rewrite content_run; [| left; reflexivity | exact Ht | exact Hrest].
  rewrite content_token_text by assumption. reflexivity.
Qed.

End Content.

Ltac each_content_state Hs :=
  cbn [In content_states] in Hs;
  repeat (destruct Hs as [Hs | Hs]; [symmetry in Hs; subst|]); [..|contradiction Hs].

Ltac prove_content_step :=
  let s := fresh "s" in let c := fresh "c" in
  let Hs := fresh "Hs" in let Hc := fresh "Hc" in
  intros s c Hs Hc; each_content_state Hs; revert Hc;
  cbv beta iota delta [ts_lex_state ACCEPT_TOKEN NO_TOKEN content_token content_next
                       is_content_char is_space];
  split_lookahead; cbn; intros; try discriminate; reflexivity.

Ltac prove_content_accepts :=
  let s := fresh "s" in let Hs := fresh "Hs" in
  intros s Hs; each_content_state Hs; prove_accepts.

Ltac prove_content_stops :=
  let s := fresh "s" in let rest := fresh "rest" in
  let Hs := fresh "Hs" in let H := fresh "H" in
  intros s rest Hs H; destruct rest as [|c rest];
  [ each_content_state Hs; reflexivity
  | unfold stops; cbn [next_is] in H; each_content_state Hs; revert H;
    cbv beta iota delta [ts_lex_state ACCEPT_TOKEN NO_TOKEN snd is_content_char];
    split_lookahead; cbn; intros; try discriminate; reflexivity ].

(** Between double quotes: states 67, 68, 69, 144, 152 and 157. *)
Lemma double_quoted_step s c :
  In s (content_states 67 68 69 144 152 157) -> is_content_char 34 c = true ->
  ts_lex_state s false c =
  (Some (content_token 144 152 157 aux_sym_string_token1 s),
   ADVANCE (content_next 67 68 69 144 152 157 s c)).
Proof. revert s c. prove_content_step. Qed.

Lemma double_quoted_accepts s :
  In s (content_states 67 68 69 144 152 157) ->
  accepts s (content_token 144 152 157 aux_sym_string_token1 s).
Proof. revert s. prove_content_accepts. Qed.

Lemma double_quoted_stops s rest :
  In s (content_states 67 68 69 144 152 157) ->
  next_is (is_content_char 34) rest = false -> stops s rest.
Proof. revert s rest. prove_content_stops. Qed.

Lemma lex_double_quoted t rest :
  forallb (is_content_char 34) t = true ->
  is_opener_only t = false ->
  next_is (is_content_char 34) rest = false ->
  ts_lex 67 (t ++ rest) = Some (lexeme aux_sym_string_token1 0 (List.length t)).
Proof.
  apply (lex_content 67 68 69 144 152 157 34 aux_sym_string_token1
           double_quoted_step double_quoted_accepts double_quoted_stops).
  repeat split.
Qed.

(** Between single quotes: states 71, 72, 73, 145, 153 and 158. *)
Lemma single_quoted_step s c :
  In s (content_states 71 72 73 145 153 158) -> is_content_char "'" c = true ->
  ts_lex_state s false c =
  (Some (content_token 145 153 158 aux_sym_string_token2 s),
   ADVANCE (content_next 71 72 73 145 153 158 s c)).
Proof. revert s c. prove_content_step. Qed.

Lemma single_quoted_accepts s :
  In s (content_states 71 72 73 145 153 158) ->
  accepts s (content_token 145 153 158 aux_sym_string_token2 s).
Proof. revert s. prove_content_accepts. Qed.

Lemma single_quoted_stops s rest :
  In s (content_states 71 72 73 145 153 158) ->
  next_is (is_content_char "'") rest = false -> stops s rest.
Proof. revert s rest. prove_content_stops. Qed.

Lemma lex_single_quoted t rest :
  forallb (is_content_char "'") t = true ->
  is_opener_only t = false ->
  next_is (is_content_char "'") rest = false ->
  ts_lex 71 (t ++ rest) = Some (lexeme aux_sym_string_token2 0 (List.length t)).
Proof.
  apply (lex_content 71 72 73 145 153 158 "'" aux_sym_string_token2
           single_quoted_step single_quoted_accepts single_quoted_stops).
  repeat split.
Qed.

(** X5: the content of a quoted string. Between double quotes (lex state
    67) the content token is the whole text up to the next double quote or
    NUL character, and between single quotes (lex state 71) up to the next
    single quote or NUL: line ends are part of it, and a backslash escapes
    nothing. This holds for every text, the empty one too, that is not,
    after blanks, an opening token of a comment alone. *)
Theorem quoted_string_content : forall t rest,
  is_opener_only t = false ->
  (forallb (is_content_char 34) t = true ->
   next_is (is_content_char 34) rest = false ->
   ts_lex 67 (t ++ rest) = Some (lexeme aux_sym_string_token1 0 (List.length t))) /\
  (forallb (is_content_char "'") t = true ->
   next_is (is_content_char "'") rest = false ->
   ts_lex 71 (t ++ rest) = Some (lexeme aux_sym_string_token2 0 (List.length t))).
Proof.
  intros t rest Hopen. split; intros Ht Hrest.
  - apply lex_double_quoted; assumption.
  - apply lex_single_quoted; assumption.
Qed.

(** The text [a\] before a closing quote: the backslash does not keep the
    quote in the string. *)
Lemma quoted_string_content_witness :
  ts_lex 67 (["a"; 92] ++ [34; "b"; 34]) = Some (lexeme aux_sym_string_token1 0 2) /\
  ts_lex 71 (["a"; 92] ++ ["'"; "b"; "'"]) = Some (lexeme aux_sym_string_token2 0 2).
Proof.
  split.
  - apply (proj1 (quoted_string_content ["a"; 92] [34; "b"; 34] eq_refl)); reflexivity.
  - apply (proj2 (quoted_string_content ["a"; 92] ["'"; "b"; "'"] eq_refl)); reflexivity.
Defined.

(** X6: a string that holds only a number sign. When the content of a
    double-quoted string is, after blanks, a [#] alone, the lexer reports the
    opening token of a comment, with the blanks before it, and not a content
    token. *)
Theorem comment_opener_in_string : forall ws rest,
  forallb is_space ws = true ->
  next_is (is_content_char 34) rest = false ->
  ts_lex 67 (ws ++ ["#"] ++ rest) = Some (lexeme anon_sym_POUND 0 (List.length ws + 1)).
Proof.
  intros ws rest Hws Hrest. unfold ts_lex. rewrite app_assoc.
  rewrite (content_run 67 68 69 144 152 157 34 aux_sym_string_token1
             double_quoted_step double_quoted_accepts double_quoted_stops
             (ws ++ ["#"]) 67 0%nat lexer_start rest (or_introl eq_refl));
    [| | exact Hrest].
  - rewrite length_app, fold_left_app. cbn [List.length Nat.add].
    assert (Hfold : fold_left (content_next 67 68 69 144 152 157) ws 67 = 67).
    { induction ws as [|c ws IH]; [reflexivity|]. cbn [forallb] in Hws.
      apply andb_true_iff in Hws. destruct Hws as [Hc Hws]. cbn [fold_left].
      replace (content_next 67 68 69 144 152 157 67 c) with 67; [exact (IH Hws)|].
      unfold content_next. cbn [Z.eqb Pos.eqb]. rewrite Hc.
      revert Hc. unfold is_space. split_lookahead; cbn; intros; try discriminate; reflexivity. }
    rewrite Hfold. reflexivity.
  - rewrite forallb_app. apply andb_true_iff. split; [|reflexivity].
    apply forallb_forall. intros c Hc. rewrite forallb_forall in Hws.
    specialize (Hws c Hc). revert Hws. unfold is_space, is_content_char.
    split_lookahead; cbn; intros; try discriminate; reflexivity.
Qed.

(** The string that holds a [#] only. *)
Lemma comment_opener_in_string_witness :
  ts_lex 67 ([] ++ ["#"] ++ [34]) = Some (lexeme anon_sym_POUND 0 (List.length (@nil Z) + 1)).
Proof.
  apply (comment_opener_in_string [] [34]); reflexivity.
Defined.

(** ** The content of a triple-quoted string

    After the three opening quotes the lex state is 4. The content token is lexed
    through the states 4, 76, 5, 78, 75 and 77. *)

(** A character that is no blank, no quote, no [#], no [/] and not NUL. *)
Definition is_plain_char (c : Z) : bool :=
  (c !=? 0) && negb (is_space c) && (c !=? 34) && (c !=? "#") && (c !=? "/").

Lemma accepts_76 : accepts 76 aux_sym_string_token3. Proof. prove_accepts. Qed.
Lemma accepts_75 : accepts 75 aux_sym_string_token3. Proof. prove_accepts. Qed.
Lemma accepts_78 : accepts 78 aux_sym_string_token3. Proof. prove_accepts. Qed.
Lemma stays_76 : stays 76 is_space.
Proof. intros c H. lex_state_from H. Qed.
Lemma stays_78 : stays 78 (is_content_char 34).
Proof. intros c H. revert H. unfold is_content_char. intros H. lex_state_from H. Qed.
Lemma stops_75 rest : stops 75 rest.
Proof. destruct rest; reflexivity. Qed.
Lemma stops_78 rest : next_is (is_content_char 34) rest = false -> stops 78 rest.
Proof.
  destruct rest as [|c rest]; intros H; [reflexivity|]. unfold stops.
  revert H. unfold is_content_char. intros H. lex_state_from H.
Qed.

(** After the blanks at the start of the content the automaton is in state
    76, or still in state 4 when there are none. *)
Lemma triple_blanks ws tail :
  forallb is_space ws = true ->
  exists s lexer,
    (s = 4 \/ s = 76) /\ token_start_position lexer = 0%nat /\
    ts_lex 4 (ws ++ tail) = ts_lex_loop s tail (List.length ws) lexer.
Proof.
  intros Hws. destruct ws as [|b ws].
  - exists 4, lexer_start. repeat split. left. reflexivity.
  - cbn [forallb] in Hws. apply andb_true_iff in Hws. destruct Hws as [Hb Hws].
    exists 76, lexer_start. split; [right; reflexivity|]. split; [reflexivity|].
    assert (H4 : ts_lex_state 4 false b = (None, ADVANCE 76)) by (lex_state_from Hb).
    unfold ts_lex. cbn [app]. rewrite (ts_lex_loop_step _ _ _ _ _ _ _ H4).
    cbn [accept_token].
    rewrite (accepts_stays 76 aux_sym_string_token3 is_space ws tail 1 lexer_start
               accepts_76 stays_76 (Forall_forallb _ _ Hws)).
    reflexivity.
Qed.

(** One plain character is a content token, whatever follows it. *)
Lemma lex_triple_char ws c rest :
  forallb is_space ws = true ->
  is_plain_char c = true ->
  ts_lex 4 (ws ++ c :: rest) = Some (lexeme aux_sym_string_token3 0 (List.length ws + 1)).
Proof.
  intros Hws Hc. destruct (triple_blanks ws (c :: rest) Hws) as (s & lexer & Hs & Hstart & ->).
  assert (Hstep : exists tok, ts_lex_state s false c = (tok, ADVANCE 75)).
  { revert Hc. unfold is_plain_char, is_space.
    destruct Hs as [-> | ->];
      cbv beta iota delta [ts_lex_state ACCEPT_TOKEN NO_TOKEN];
      split_lookahead; cbn; intros; try discriminate; eexists; reflexivity. }
  destruct Hstep as [tok Hstep].
  rewrite (ts_lex_loop_step _ _ _ _ _ _ _ Hstep).
  rewrite (accepts_stops 75 aux_sym_string_token3) by auto using accepts_75, stops_75.
  destruct tok; cbn [accept_token token_start_position]; rewrite Hstart, Nat.add_1_r; reflexivity.
Qed.

(** Two quotes and what follows them up to the next quote are a content
    token. *)
Lemma lex_triple_quotes ws body rest :
  forallb is_space ws = true ->
  forallb (is_content_char 34) body = true ->
  next_is (is_content_char 34) rest = false ->
  ts_lex 4 (ws ++ 34 :: 34 :: body ++ rest) =
  Some (lexeme aux_sym_string_token3 0 (List.length ws + 2 + List.length body)).
Proof.
  intros Hws Hbody Hrest.
  destruct (triple_blanks ws (34 :: 34 :: body ++ rest) Hws) as (s & lexer & Hs & Hstart & ->).
  assert (Hstep : exists tok, ts_lex_state s false 34 = (tok, ADVANCE 5)).
  { destruct Hs as [-> | ->]; eexists; reflexivity. }
  destruct Hstep as [tok Hstep].
  rewrite (ts_lex_loop_step _ _ _ _ _ _ _ Hstep).
  assert (H5 : ts_lex_state 5 false 34 = (None, ADVANCE 78)) by reflexivity.
  rewrite (ts_lex_loop_step _ _ _ _ _ _ _ H5).
  rewrite (accepts_run 78 aux_sym_string_token3 (is_content_char 34))
    by auto using accepts_78, stays_78, stops_78, Forall_forallb.
  destruct tok; cbn [accept_token token_start_position]; rewrite Hstart;
    f_equal; f_equal; lia.
Qed.

(** X7: the content of a triple-quoted string. In lex state 4 the content
    token is, after blanks, one character that is no blank, quote, [#], [/] or
    NUL, whatever follows it; or it starts, after blanks, with two quotes and
    then runs up to the next quote or NUL. (So the token does not run to the
    closing quotes: after an ordinary first character it ends at once.) *)
Theorem triple_quoted_content : forall ws rest,
  forallb is_space ws = true ->
  (forall c, is_plain_char c = true ->
     ts_lex 4 (ws ++ c :: rest) = Some (lexeme aux_sym_string_token3 0 (List.length ws + 1))) /\
  (forall body tail, rest = body ++ tail ->
     forallb (is_content_char 34) body = true ->
     next_is (is_content_char 34) tail = false ->
     ts_lex 4 (ws ++ 34 :: 34 :: rest) =
     Some (lexeme aux_sym_string_token3 0 (List.length ws + 2 + List.length body))).
Proof.
  intros ws rest Hws. split.
  - intros c Hc. apply lex_triple_char; assumption.
  - intros body tail -> Hbody Htail. apply lex_triple_quotes; assumption.
Qed.

(** The content [hello] in a triple-quoted string: the token is the [h]. *)
Lemma triple_quoted_content_witness :
  ts_lex 4 ([] ++ "h" :: codepoints "ello") =
  Some (lexeme aux_sym_string_token3 0 (List.length (@nil Z) + 1)).
Proof.
  apply (proj1 (triple_quoted_content [] (codepoints "ello") eq_refl) "h"). reflexivity.
Defined.

(** ** Punctuation *)

(** The characters that are a token of their own in lex state 0, whatever
    follows them. *)
Definition punctuation : list (Z * TSSymbol) :=
  [ ("#", anon_sym_POUND); ("'", anon_sym_SQUOTE); ("(", anon_sym_LPAREN);
    (")", anon_sym_RPAREN); ("*", anon_sym_STAR); ("+", anon_sym_PLUS);
    (",", anon_sym_COMMA); ("-", anon_sym_DASH); (".", anon_sym_DOT);
    (":", anon_sym_COLON); ("=", anon_sym_EQ); ("[", anon_sym_LBRACK);
    ("]", anon_sym_RBRACK); ("{", anon_sym_LBRACE); ("}", anon_sym_RBRACE) ].

(** The states that accept a token and end at once. *)
Definition final_states : list (TSStateId * TSSymbol) :=
  [ (141, anon_sym_POUND); (70, anon_sym_SQUOTE); (91, anon_sym_LPAREN);
    (92, anon_sym_RPAREN); (93, anon_sym_STAR); (95, anon_sym_PLUS);
    (87, anon_sym_COMMA); (96, anon_sym_DASH); (90, anon_sym_DOT);
    (89, anon_sym_COLON); (60, anon_sym_EQ); (86, anon_sym_LBRACK);
    (88, anon_sym_RBRACK); (63, anon_sym_LBRACE); (64, anon_sym_RBRACE);
    (149, anon_sym_SLASH_SLASH); (154, anon_sym_SLASH_STAR);
    (74, anon_sym_DQUOTE_DQUOTE_DQUOTE); (65, anon_sym_DQUOTE) ].

Lemma final_state_token s symbol rest pos lexer :
  In (s, symbol) final_states ->
  ts_lex_loop s rest pos lexer = Some (lexeme symbol (token_start_position lexer) pos).
Proof.
  intros H. apply accepts_stops;
    cbn [In final_states] in H;
    repeat (destruct H as [H | H]; [injection H as <- <-|]); try contradiction;
    first [prove_accepts | destruct rest; reflexivity].
Qed.

(** X8: punctuation. In lex state 0 each of the fifteen punctuation
    characters is a token of its own, whatever follows it: no token joins two
    of them. *)
Theorem punctuation_tokens : forall c symbol rest,
  In (c, symbol) punctuation ->
  ts_lex 0 (c :: rest) = Some (lexeme symbol 0 1).
Proof.
  intros c symbol rest H. unfold ts_lex. cbn [In punctuation] in H.
  repeat (destruct H as [H | H];
          [ injection H as <- <-;
            match goal with
            | |- ts_lex_loop 0 (?c :: _) _ _ = _ =>
                let r := eval vm_compute in (ts_lex_state 0 false c) in
                assert (Hs : ts_lex_state 0 false c = r) by reflexivity
            end;
            rewrite (ts_lex_loop_step _ _ _ _ _ _ _ Hs);
            apply final_state_token; cbn; tauto |]).
  contradiction.
Qed.

Lemma punctuation_tokens_witness :
  ts_lex 0 ("=" :: codepoints "= 1") = Some (lexeme anon_sym_EQ 0 1).
Proof.
  apply (punctuation_tokens "=" anon_sym_EQ (codepoints "= 1")). cbn. tauto.
Defined.

(** ** Quotes and slashes: the longer token wins *)

(** One step of the automaton on a given character. *)
Ltac lex_step :=
  match goal with
  | |- ts_lex_loop ?s (?c :: _) _ _ = _ =>
      let r := eval vm_compute in (ts_lex_state s false c) in
      let H := fresh in
      assert (H : ts_lex_state s false c = r) by reflexivity;
      rewrite (ts_lex_loop_step _ _ _ _ _ _ _ H); clear H; cbv beta iota
  end.

(** A state that accepts nothing and ends gives what was found before. *)
Lemma ends_without_token s rest pos lexer :
  fst (ts_lex_state s true 0) = None ->
  (forall c, fst (ts_lex_state s false c) = None) ->
  stops s rest ->
  ts_lex_loop s rest pos lexer = lexer_result lexer.
Proof.
  intros Heof Hnone Hstop. destruct rest as [|c rest]; unfold stops in Hstop.
  - rewrite ts_lex_loop_nil. unfold LEX_STATE_COUNT. rewrite ts_lex_eof_S.
    destruct (ts_lex_state s true 0) as [tok next]. cbn [fst snd] in *. subst. reflexivity.
  - rewrite ts_lex_loop_cons. specialize (Hnone c).
    destruct (ts_lex_state s false c) as [tok next]. cbn [fst snd] in *. subst. reflexivity.
Qed.

Lemma stops_3 rest : next_is (fun c => c =? 34) rest = false -> stops 3 rest.
Proof. destruct rest as [|c rest]; intros H; [reflexivity|]. unfold stops. lex_state_from H. Qed.
Lemma stops_66 rest : next_is (fun c => c =? 34) rest = false -> stops 66 rest.
Proof. destruct rest as [|c rest]; intros H; [reflexivity|]. unfold stops. lex_state_from H. Qed.
Lemma stops_8 rest :
  next_is (fun c => (c =? "/") || (c =? "*")) rest = false -> stops 8 rest.
Proof. destruct rest as [|c rest]; intros H; [reflexivity|]. unfold stops. lex_state_from H. Qed.
Lemma stops_94 rest :
  next_is (fun c => (c =? "/") || (c =? "*")) rest = false -> stops 94 rest.
Proof. destruct rest as [|c rest]; intros H; [reflexivity|]. unfold stops. lex_state_from H. Qed.

Ltac each_state H :=
  cbn [In] in H; repeat (destruct H as [H | H]; [symmetry in H; subst|]); [..|contradiction H].

(** X9: double quotes. In each of the lex states 0, 1, 2 and 46, three
    quotes in a row are one token, the opening of a triple-quoted string; a
    quote that no quote follows is the quote token, and so is the first of two
    quotes that no third follows (the lexer reads the second and gives it
    back). *)
Theorem quote_tokens : forall s rest,
  In s [0; 1; 2; 46] ->
  ts_lex s (34 :: 34 :: 34 :: rest) = Some (lexeme anon_sym_DQUOTE_DQUOTE_DQUOTE 0 3) /\
  (next_is (fun c => c =? 34) rest = false ->
   ts_lex s (34 :: rest) = Some (lexeme anon_sym_DQUOTE 0 1) /\
   ts_lex s (34 :: 34 :: rest) = Some (lexeme anon_sym_DQUOTE 0 1)).
Proof.
  intros s rest Hs. split; [|intros Hrest; split]; unfold ts_lex; each_state Hs.
  all: lex_step.
  1-4: lex_step; lex_step; apply final_state_token; cbn; tauto.
  1-4: apply (accepts_stops 66 anon_sym_DQUOTE); [prove_accepts | apply stops_66, Hrest].
  all: lex_step; rewrite ends_without_token; auto using stops_3; reflexivity.
Qed.

Lemma quote_tokens_witness :
  ts_lex 2 (34 :: 34 :: 34 :: [" "]) = Some (lexeme anon_sym_DQUOTE_DQUOTE_DQUOTE 0 3) /\
  ts_lex 2 (34 :: [" "]) = Some (lexeme anon_sym_DQUOTE 0 1) /\
  ts_lex 2 (34 :: 34 :: [" "]) = Some (lexeme anon_sym_DQUOTE 0 1).
Proof.
  destruct (quote_tokens 2 [" "]) as [H3 H]; [cbn; tauto|].
  split; [exact H3 | exact (H eq_refl)].
Defined.

(** X10: slashes. In each of the lex states 0, 1, 2, 6 and 46, two
    slashes and a slash with a star are one token each, the opening of a
    comment. A slash that neither follows is the operator in the lex states 0,
    1 and 46, and no token at all in the lex states 2 and 6, where a value
    starts or a string closes. *)
Theorem slash_tokens : forall s rest,
  In s [0; 1; 46; 2; 6] ->
  ts_lex s ("/" :: "/" :: rest) = Some (lexeme anon_sym_SLASH_SLASH 0 2) /\
  ts_lex s ("/" :: "*" :: rest) = Some (lexeme anon_sym_SLASH_STAR 0 2) /\
  (next_is (fun c => (c =? "/") || (c =? "*")) rest = false ->
   ts_lex s ("/" :: rest) =
   if (s =? 2) || (s =? 6) then None else Some (lexeme anon_sym_SLASH 0 1)).
Proof.
  intros s rest Hs. split; [|split; [|intros Hrest]]; unfold ts_lex; each_state Hs.
  all: lex_step.
  1-10: lex_step; apply final_state_token; cbn; tauto.
  1-3: apply (accepts_stops 94 anon_sym_SLASH); [prove_accepts | apply stops_94, Hrest].
  all: rewrite ends_without_token; auto using stops_8; reflexivity.
Qed.

Lemma slash_tokens_witness :
  ts_lex 2 ("/" :: "/" :: [" "]) = Some (lexeme anon_sym_SLASH_SLASH 0 2) /\
  ts_lex 2 ("/" :: "*" :: [" "]) = Some (lexeme anon_sym_SLASH_STAR 0 2) /\
  ts_lex 2 ("/" :: [" "]) = None /\
  ts_lex 1 ("/" :: [" "]) = Some (lexeme anon_sym_SLASH 0 1).
Proof.
  destruct (slash_tokens 2 [" "]) as (H1 & H2 & H3); [cbn; tauto|].
  destruct (slash_tokens 1 [" "]) as (_ & _ & H4); [cbn; tauto|].
  split; [exact H1|]. split; [exact H2|]. split; [exact (H3 eq_refl) | exact (H4 eq_refl)].
Defined.

(** ** The keywords where a statement starts *)

(** The states that lex state 46 ends a statement keyword in: they accept
    it and end, whatever follows. *)
Definition keyword_states : list (TSStateId * TSSymbol) :=
  [ (48, anon_sym_addon); (50, anon_sym_signer); (52, anon_sym_action);
    (54, anon_sym_output); (56, anon_sym_variable); (58, anon_sym_input);
    (61, anon_sym_import) ].

Lemma keyword_state_token s symbol rest pos lexer :
  In (s, symbol) keyword_states ->
  ts_lex_loop s rest pos lexer = Some (lexeme symbol (token_start_position lexer) pos).
Proof.
  intros H. apply accepts_stops;
    cbn [In keyword_states] in H;
    repeat (destruct H as [H | H]; [injection H as <- <-|]); try contradiction;
    first [prove_accepts | destruct rest; reflexivity].
Qed.

(** X11: where a statement starts (lex state 46), a statement keyword is
    lexed as soon as its letters are read, whatever follows them: the lexer
    looks for no word boundary there, and lexes no identifier. *)
Theorem statement_keywords_need_no_boundary : forall spelling symbol rest,
  In (spelling, symbol) statement_keywords ->
  ts_lex 46 (codepoints spelling ++ rest) =
  Some (lexeme symbol 0 (List.length (codepoints spelling))).
Proof.
  intros spelling symbol rest H. unfold ts_lex. cbn [In statement_keywords] in H.
  repeat (destruct H as [H | H];
          [ injection H as <- <-;
            match goal with
            | |- ts_lex_loop _ (?w ++ _) _ _ = _ =>
                let w' := eval vm_compute in w in change w with w'
            end;
            cbn [app List.length];
            repeat lex_step;
            apply keyword_state_token; cbn; tauto |]).
  contradiction.
Qed.

(** The text [inputs] where a statement starts: the keyword [input], and an
    [s] left over. *)
Lemma statement_keywords_need_no_boundary_witness :
  ts_lex 46 (codepoints "input" ++ codepoints "s") =
  Some (lexeme anon_sym_input 0 (List.length (codepoints "input"))).
Proof.
  apply (statement_keywords_need_no_boundary "input" anon_sym_input (codepoints "s")).
  cbn. tauto.
Defined.

(** ** The tokens of each lex state *)

(** The symbol that a state accepts (it does not depend on the lookahead). *)
Definition accepted_symbol (s : TSStateId) : option TSSymbol :=
  fst (ts_lex_state s false 0).

Definition next_state (r : lex_state_result) : list TSStateId :=
  match snd r with
  | ADVANCE t => [t]
  | SKIP t => [t]
  | END_STATE => []
  end.

(** The states that follow a state: found by trying the end of the input
    and each character up to 128 (no state tells greater characters from
    one another). *)
Definition successors (s : TSStateId) : list TSStateId :=
  nodup Z.eq_dec
    (next_state (ts_lex_state s true 0) ++
     flat_map (fun c => next_state (ts_lex_state s false (Z.of_nat c))) (seq 0 129)).

(** The same for each state of the [switch], computed once. *)
Definition successor_table : list (TSStateId * list TSStateId) :=
  Eval vm_compute in map (fun s => (s, successors s)) (map Z.of_nat (seq 0 160)).

Definition successors_of (s : TSStateId) : list TSStateId :=
  table_get [] successor_table s.

Definition follows (s t : TSStateId) : bool := existsb (Z.eqb t) (successors_of s).

Lemma accepted_symbol_spec s eof c : fst (ts_lex_state s eof c) = accepted_symbol s.
Proof.
  unfold accepted_symbol. each_lex_state s;
    cbv beta iota delta [ts_lex_state ACCEPT_TOKEN NO_TOKEN fst]; reflexivity.
Qed.

Lemma successors_spec s c :
  match snd (ts_lex_state s false c) with
  | ADVANCE t => follows s t = true
  | SKIP t => follows s t = true
  | END_STATE => True
  end.
Proof.
  each_lex_state s;
    cbv beta iota delta [ts_lex_state ACCEPT_TOKEN NO_TOKEN snd];
    split_lookahead; cbn [andb orb negb];
    first [exact I | vm_compute; reflexivity].
Qed.

Lemma successors_eof s :
  match snd (ts_lex_state s true 0) with
  | ADVANCE t => follows s t = true
  | SKIP t => follows s t = true
  | END_STATE => True
  end.
Proof.
  each_lex_state s; vm_compute; first [exact I | reflexivity].
Qed.

Definition mem (t : Z) (l : list Z) : bool := existsb (Z.eqb t) l.

Lemma mem_In t l : mem t l = true <-> In t l.
Proof.
  unfold mem. rewrite existsb_exists. split.
  - intros (x & Hx & Heq). apply Z.eqb_eq in Heq. subst x. exact Hx.
  - intros H. exists t. split; [exact H | apply Z.eqb_refl].
Qed.

(** A set of states that holds the states that follow its states. *)
Definition closed (R : list TSStateId) : bool :=
  forallb (fun s => forallb (fun t => mem t R) (successors_of s)) R.

Fixpoint reach (fuel : nat) (R : list TSStateId) : list TSStateId :=
  match fuel with
  | O => R
  | S fuel' => reach fuel' (nodup Z.eq_dec (R ++ flat_map successors_of R))
  end.

(** The states that the automaton can be in when it was started in [s]. *)
Definition reachable (s : TSStateId) : list TSStateId := reach 12 [s].

(** The tokens that the states of [R] accept, in the order of the symbols. *)
Definition state_tokens (R : list TSStateId) : list TSSymbol :=
  filter (fun k => existsb (fun s => match accepted_symbol s with
                                     | Some k' => k' =? k
                                     | None => false
                                     end) R)
         all_tokens.

Definition lex_state_tokens (s : TSStateId) : list TSSymbol := state_tokens (reachable s).

Lemma closed_follows R s t :
  closed R = true -> In s R -> follows s t = true -> In t R.
Proof.
  unfold closed, follows. intros Hc Hs Ht. rewrite forallb_forall in Hc.
  specialize (Hc s Hs). rewrite forallb_forall in Hc.
  apply mem_In. apply Hc. apply mem_In. exact Ht.
Qed.

Lemma accepted_in_tokens R s k :
  In s R -> accepted_symbol s = Some k -> In k (state_tokens R).
Proof.
  intros Hs Hk. unfold state_tokens. apply filter_In. split.
  - pose proof (ts_lex_state_ok s false 0) as [Htok _].
    unfold accepted_symbol in Hk. rewrite Hk in Htok. destruct Htok as [[H0 H1] _].
    unfold all_tokens. apply in_map_iff. exists (Z.to_nat k). split; [lia|].
    apply in_seq. unfold TOKEN_COUNT in *. lia.
  - apply existsb_exists. exists s. split; [exact Hs|]. rewrite Hk. apply Z.eqb_refl.
Qed.

Section Closed.
Variable R : list TSStateId.
Hypothesis R_closed : closed R = true.

Definition found_in (lexer : TSLexer) : Prop :=
  match result_symbol lexer with
  | Some (k, _) => In k (state_tokens R)
  | None => True
  end.

Lemma found_in_step s eof c pos lexer :
  In s R -> found_in lexer ->
  found_in (accept_token (fst (ts_lex_state s eof c)) pos lexer).
Proof.
  intros Hs Hf. rewrite accepted_symbol_spec.
  destruct (accepted_symbol s) as [k|] eqn:E; [|exact Hf].
  unfold found_in. cbn. exact (accepted_in_tokens R s k Hs E).
Qed.

Lemma found_in_result lexer lx :
  found_in lexer -> lexer_result lexer = Some lx -> In (lexeme_symbol lx) (state_tokens R).
Proof.
  unfold found_in, lexer_result. intros Hf H.
  destruct (result_symbol lexer) as [[k e]|]; [|discriminate H].
  injection H as <-. exact Hf.
Qed.

Lemma closed_eof fuel : forall s pos lexer lx,
  In s R -> found_in lexer ->
  ts_lex_eof fuel s pos lexer = Some lx -> In (lexeme_symbol lx) (state_tokens R).
Proof.
  induction fuel as [|fuel IH]; intros s pos lexer lx Hs Hf H; [discriminate H|].
  rewrite ts_lex_eof_S in H.
  pose proof (successors_eof s) as Hnext.
  pose proof (found_in_step s true 0 pos lexer Hs Hf) as Hf'.
  destruct (ts_lex_state s true 0) as [tok next]. cbn [fst snd] in *. cbv zeta in H.
  destruct next as [t|t|].
  - exact (IH t pos _ lx (closed_follows R s t R_closed Hs Hnext) Hf' H).
  - apply (IH t pos (skip_to pos (accept_token tok pos lexer)) lx
             (closed_follows R s t R_closed Hs Hnext)); [exact Hf' | exact H].
  - exact (found_in_result _ _ Hf' H).
Qed.

Lemma closed_loop input : forall s pos lexer lx,
  In s R -> found_in lexer ->
  ts_lex_loop s input pos lexer = Some lx -> In (lexeme_symbol lx) (state_tokens R).
Proof.
  induction input as [|c input IH]; intros s pos lexer lx Hs Hf H.
  - rewrite ts_lex_loop_nil in H. exact (closed_eof _ _ _ _ _ Hs Hf H).
  - rewrite ts_lex_loop_cons in H.
    pose proof (successors_spec s c) as Hnext.
    pose proof (found_in_step s false c pos lexer Hs Hf) as Hf'.
    destruct (ts_lex_state s false c) as [tok next]. cbn [fst snd] in *. cbv zeta in H.
    destruct next as [t|t|].
    + exact (IH t (S pos) _ lx (closed_follows R s t R_closed Hs Hnext) Hf' H).
    + apply (IH t (S pos) (skip_to (S pos) (accept_token tok pos lexer)) lx
               (closed_follows R s t R_closed Hs Hnext)); [exact Hf' | exact H].
    + exact (found_in_result _ _ Hf' H).
Qed.

End Closed.

(** The lex states of the parse states. *)
Definition lex_states_in_use : list TSStateId :=
  filter (fun s => negb (s =? NO_LEX_STATE)) (nodup Z.eq_dec (map snd ts_lex_modes)).

(** X12: the tokens of a lex state. Started in one of the ten lex states that
    the parse states name, [ts_lex] reports only a token that a state
    reachable from the lex state accepts. Where a value starts (lex state 2)
    that is no operator, no [.], [:], [=], [(] or [}] and no statement
    keyword; at the start of a statement (lex state 46) no identifier, no
    number and none of [true], [false] and [null]; where a string closes
    (lex state 6) nothing but the quote and the opening tokens of comments. *)
Theorem lex_state_token_set :
  lex_states_in_use = [2; 46; 1; 146; 7; 0; 4; 6; 67; 71] /\
  (forall s input lx,
     In s lex_states_in_use ->
     ts_lex s input = Some lx -> In (lexeme_symbol lx) (lex_state_tokens s)) /\
  lex_state_tokens 2 =
    [ anon_sym_LBRACE; anon_sym_DQUOTE; anon_sym_SQUOTE; anon_sym_DQUOTE_DQUOTE_DQUOTE;
      aux_sym_number_token1; aux_sym_number_token2; aux_sym_number_token3;
      anon_sym_true; anon_sym_false; sym_null; anon_sym_LBRACK; anon_sym_COMMA;
      anon_sym_RBRACK; anon_sym_RPAREN; sym_identifier; anon_sym_POUND;
      anon_sym_SLASH_SLASH; anon_sym_SLASH_STAR ] /\
  lex_state_tokens 6 =
    [ anon_sym_DQUOTE; anon_sym_POUND; anon_sym_SLASH_SLASH; anon_sym_SLASH_STAR ].
Proof.
  split; [vm_compute; reflexivity|]. split; [|split; vm_compute; reflexivity].
  intros s input lx Hs H.
  assert (Hclosed : closed (reachable s) = true).
  { vm_compute in Hs.
    repeat (destruct Hs as [Hs | Hs]; [subst s; vm_compute; reflexivity|]).
    contradiction. }
  apply (closed_loop (reachable s) Hclosed input s 0%nat lexer_start lx); [| exact I | exact H].
  vm_compute in Hs.
  repeat (destruct Hs as [Hs | Hs]; [subst s; vm_compute; tauto|]).
  contradiction.
Qed.

End Lexing.

(** * The tables

    What the parse table, the field map and the other tables of [parser.c]
    hold, for every state and every symbol. *)

Module Tables.
Import LexFacts ParseFacts Results Lexing.

(** ** The other constants and tables of [parser.c] *)

Definition LANGUAGE_VERSION : Z := 14.
Definition ALIAS_COUNT : Z := 0.
Definition EXTERNAL_TOKEN_COUNT : Z := 0.
Definition FIELD_COUNT : Z := 8.
Definition MAX_ALIAS_SEQUENCE_LENGTH : Z := 5.
Definition PRODUCTION_ID_COUNT : Z := 10.

Definition ts_symbol_map : list (TSSymbol * TSSymbol) :=
  [ (ts_builtin_sym_end, ts_builtin_sym_end); (anon_sym_addon, anon_sym_addon);
    (anon_sym_signer, anon_sym_signer); (anon_sym_action, anon_sym_action);
    (anon_sym_output, anon_sym_output); (anon_sym_variable, anon_sym_variable);
    (anon_sym_input, anon_sym_input); (anon_sym_EQ, anon_sym_EQ);
    (anon_sym_import, anon_sym_import); (anon_sym_LBRACE, anon_sym_LBRACE);
    (anon_sym_RBRACE, anon_sym_RBRACE); (anon_sym_DQUOTE, anon_sym_DQUOTE);
    (aux_sym_string_token1, aux_sym_string_token1); (anon_sym_SQUOTE, anon_sym_SQUOTE);
    (aux_sym_string_token2, aux_sym_string_token2); (anon_sym_DQUOTE_DQUOTE_DQUOTE, anon_sym_DQUOTE_DQUOTE_DQUOTE);
    (aux_sym_string_token3, aux_sym_string_token3); (aux_sym_number_token1, aux_sym_number_token1);
    (aux_sym_number_token2, aux_sym_number_token2); (aux_sym_number_token3, aux_sym_number_token3);
    (anon_sym_true, anon_sym_true); (anon_sym_false, anon_sym_false);
    (sym_null, sym_null); (anon_sym_LBRACK, anon_sym_LBRACK);
    (anon_sym_COMMA, anon_sym_COMMA); (anon_sym_RBRACK, anon_sym_RBRACK);
    (anon_sym_COLON, anon_sym_COLON); (anon_sym_DOT, anon_sym_DOT);
    (anon_sym_LPAREN, anon_sym_LPAREN); (anon_sym_RPAREN, anon_sym_RPAREN);
    (anon_sym_STAR, anon_sym_STAR); (anon_sym_SLASH, anon_sym_SLASH);
    (anon_sym_PLUS, anon_sym_PLUS); (anon_sym_DASH, anon_sym_DASH);
    (sym_identifier, sym_identifier); (anon_sym_POUND, anon_sym_POUND);
    (aux_sym_comment_token1, aux_sym_comment_token1); (anon_sym_SLASH_SLASH, anon_sym_SLASH_SLASH);
    (anon_sym_SLASH_STAR, anon_sym_SLASH_STAR); (aux_sym_comment_token2, aux_sym_comment_token2);
    (sym_runbook, sym_runbook); (sym__statement, sym__statement);
    (sym_addon_block, sym_addon_block); (sym_signer_block, sym_signer_block);
    (sym_action_block, sym_action_block); (sym_output_block, sym_output_block);
    (sym_variable_declaration, sym_variable_declaration); (sym_input_declaration, sym_input_declaration);
    (sym_import_statement, sym_import_statement); (sym_block, sym_block);
    (sym_attribute, sym_attribute); (sym__expression, sym__expression);
    (sym_string, sym_string); (sym_number, sym_number);
    (sym_boolean, sym_boolean); (sym_array, sym_array);
    (sym_object, sym_object); (sym_object_field, sym_object_field);
    (sym_reference, sym_reference); (sym_index_access, sym_index_access);
    (sym_function_call, sym_function_call); (sym_binary_expression, sym_binary_expression);
    (sym_comment, sym_comment); (aux_sym_runbook_repeat1, aux_sym_runbook_repeat1);
    (aux_sym_block_repeat1, aux_sym_block_repeat1); (aux_sym_array_repeat1, aux_sym_array_repeat1);
    (aux_sym_object_repeat1, aux_sym_object_repeat1); (aux_sym_reference_repeat1, aux_sym_reference_repeat1) ].

Definition ts_primary_state_ids : list (TSStateId * TSStateId) :=
  [ (0, 0); (1, 1); (2, 2); (3, 2); (4, 4); (5, 5); (6, 4); (7, 5);
    (8, 8); (9, 8); (10, 10); (11, 11); (12, 12); (13, 13); (14, 10); (15, 15);
    (16, 16); (17, 17); (18, 13); (19, 19); (20, 12); (21, 21); (22, 22); (23, 23);
    (24, 24); (25, 25); (26, 26); (27, 27); (28, 28); (29, 29); (30, 30); (31, 31);
    (32, 32); (33, 33); (34, 34); (35, 35); (36, 36); (37, 37); (38, 38); (39, 39);
    (40, 40); (41, 41); (42, 42); (43, 43); (44, 44); (45, 45); (46, 46); (47, 21);
    (48, 48); (49, 49); (50, 50); (51, 51); (52, 52); (53, 53); (54, 54); (55, 25);
    (56, 24); (57, 57); (58, 58); (59, 59); (60, 23); (61, 22); (62, 59); (63, 63);
    (64, 64); (65, 65); (66, 65); (67, 67); (68, 27); (69, 69); (70, 70); (71, 67);
    (72, 26); (73, 70); (74, 69); (75, 35); (76, 44); (77, 77); (78, 39); (79, 79);
    (80, 80); (81, 45); (82, 38); (83, 43); (84, 41); (85, 42); (86, 40); (87, 17);
    (88, 30); (89, 34); (90, 36); (91, 31); (92, 37); (93, 32); (94, 33); (95, 95);
    (96, 95); (97, 97); (98, 98); (99, 99); (100, 100); (101, 101); (102, 102); (103, 103);
    (104, 104); (105, 105); (106, 106); (107, 107); (108, 108); (109, 109); (110, 110); (111, 111);
    (112, 110); (113, 113); (114, 114); (115, 115); (116, 114); (117, 113); (118, 111); (119, 119);
    (120, 120); (121, 121); (122, 122); (123, 123); (124, 124); (125, 125); (126, 126); (127, 119);
    (128, 128); (129, 129); (130, 129); (131, 131); (132, 132); (133, 133); (134, 134); (135, 135);
    (136, 128); (137, 137); (138, 131); (139, 139); (140, 140); (141, 141); (142, 142); (143, 143);
    (144, 134); (145, 145); (146, 146); (147, 137); (148, 141); (149, 135); (150, 132); (151, 151);
    (152, 152) ].

(** [ts_alias_sequences] and [ts_non_terminal_alias_map]: the grammar has no
    aliases. *)
Definition ts_alias_sequences : list (Z * list TSSymbol) := [ (0, [0]) ].

Definition ts_non_terminal_alias_map : list Z := [ 0 ].

(** ** Every action of the table *)

Definition all_actions : list TSParseAction :=
  flat_map (fun e => actions (snd e)) ts_parse_actions.

Lemma entry_action_In e a : entry_action e = Some a -> In a (actions e).
Proof.
  unfold entry_action. intros H.
  destruct (filter (fun a => negb (is_shift_repeat a)) (actions e)) as [|b l] eqn:E;
    [discriminate H|].
  injection H as <-.
  assert (Hin : In b (filter (fun a => negb (is_shift_repeat a)) (actions e)))
    by (rewrite E; left; reflexivity).
  apply filter_In in Hin. exact (proj1 Hin).
Qed.

Lemma table_entry_In state symbol :
  ts_language_table_entry state symbol = no_actions \/
  In (ts_language_table_entry state symbol) (map snd ts_parse_actions).
Proof.
  unfold ts_language_table_entry.
  destruct (symbol =? ts_builtin_sym_error); [left; reflexivity|].
  destruct (table_get_values no_actions ts_parse_actions (ts_language_lookup state symbol))
    as [H | H]; [left; symmetry; exact H | right; exact H].
Qed.

(** The action taken in a state for a symbol is one of the actions written
    in [ts_parse_actions]. *)
Lemma action_of_In state symbol a :
  action_of state symbol = Some a -> In a all_actions.
Proof.
  unfold action_of. intros H. apply entry_action_In in H.
  destruct (table_entry_In state symbol) as [E | E].
  - rewrite E in H. contradiction H.
  - apply in_map_iff in E. destruct E as (e & He & Hin).
    unfold all_actions. apply in_flat_map. exists e. split; [exact Hin|].
    rewrite He. exact H.
Qed.

(** ** Targets in range *)

Definition action_in_range (a : TSParseAction) : Prop :=
  match a with
  | SHIFT t | SHIFT_REPEAT t => 0 < t < STATE_COUNT
  | REDUCE symbol child_count production_id =>
      TOKEN_COUNT <= symbol < SYMBOL_COUNT /\
      0 <= child_count <= MAX_ALIAS_SEQUENCE_LENGTH /\
      0 <= production_id < PRODUCTION_ID_COUNT
  | RECOVER | ACCEPT_INPUT => True
  end.

Definition action_in_rangeb (a : TSParseAction) : bool :=
  match a with
  | SHIFT t | SHIFT_REPEAT t => (0 <? t) && (t <? STATE_COUNT)
  | REDUCE symbol child_count production_id =>
      (TOKEN_COUNT <=? symbol) && (symbol <? SYMBOL_COUNT) &&
      (0 <=? child_count) && (child_count <=? MAX_ALIAS_SEQUENCE_LENGTH) &&
      (0 <=? production_id) && (production_id <? PRODUCTION_ID_COUNT)
  | RECOVER | ACCEPT_INPUT => true
  end.

Lemma action_in_rangeb_spec a : action_in_rangeb a = true -> action_in_range a.
Proof.
  destruct a; cbn; intros H; try exact I;
    repeat (apply andb_true_iff in H; destruct H as [H ?]);
    repeat match goal with
           | H : (_ <? _) = true |- _ => apply Z.ltb_lt in H
           | H : (_ <=? _) = true |- _ => apply Z.leb_le in H
           end; lia.
Qed.

Lemma all_actions_in_range : forall a, In a all_actions -> action_in_range a.
Proof.
  assert (H : forallb action_in_rangeb all_actions = true) by (vm_compute; reflexivity).
  rewrite forallb_forall in H. intros a Ha. apply action_in_rangeb_spec, H, Ha.
Qed.

(** The next state after a non-terminal is a state. *)
Lemma goto_in_range state symbol :
  TOKEN_COUNT <= symbol -> 0 <= ts_language_next_state state symbol < STATE_COUNT.
Proof.
  intros Hsym. unfold ts_language_next_state.
  assert (Hall : rows_forall (fun v symbols =>
            ((0 <=? v) && (v <? STATE_COUNT)) ||
            forallb (fun k => k <? TOKEN_COUNT) symbols) = true) by (vm_compute; reflexivity).
  destruct (rows_forall_spec _ state symbol Hall) as [H0 | (symbols & Hc & Hin)].
  - rewrite H0. unfold STATE_COUNT. lia.
  - apply orb_true_iff in Hc. destruct Hc as [Hc | Hc].
    + apply andb_true_iff in Hc. destruct Hc as [H1 H2].
      apply Z.leb_le in H1. apply Z.ltb_lt in H2. lia.
    + rewrite forallb_forall in Hc. specialize (Hc symbol Hin).
      apply Z.ltb_lt in Hc. lia.
Qed.

(** ** The fields of each kind of node *)

Definition field_name_of (id : TSFieldId) : option string := table_get None ts_field_names id.

(** The fields of a production: the name of each field and the index of the
    child that carries it. *)
Definition production_fields (production_id : Z) : list (option string * Z) :=
  map (fun e => (field_name_of (field_id e), child_index e))
      (ts_language_field_map production_id).

Definition fld (name : string) (child : Z) : option string * Z := (Some name, child).

(** The fields by the kind of node and the number of its children. *)
Definition node_fields (symbol : TSSymbol) (child_count : Z) : list (option string * Z) :=
  if symbol =? sym_import_statement then [fld "path" 1]
  else if symbol =? sym_addon_block then [fld "config" 2; fld "network" 1]
  else if (symbol =? sym_output_block) || (symbol =? sym_variable_declaration)
       then [fld "config" 2; fld "name" 1]
  else if (symbol =? sym_signer_block) || (symbol =? sym_action_block)
       then [fld "config" 3; fld "name" 1; fld "type" 2]
  else if symbol =? sym_input_declaration then [fld "name" 1; fld "value" 3]
  else if (symbol =? sym_attribute) || (symbol =? sym_object_field)
       then [fld "key" 0; fld "value" 2]
  else if symbol =? sym_function_call then
         (if child_count =? 3 then [fld "name" 0]
          else if child_count =? 4 then [fld "arguments" 2; fld "name" 0]
          else [fld "arguments" 2; fld "arguments" 3; fld "name" 0])
  else [].

Definition fields_eq_dec (x y : list (option string * Z)) : {x = y} + {x <> y}.
Proof. repeat decide equality. Defined.

Definition reduce_fields_ok (a : TSParseAction) : bool :=
  match a with
  | REDUCE symbol child_count production_id =>
      (if fields_eq_dec (production_fields production_id) (node_fields symbol child_count)
       then true else false) &&
      forallb (fun f => (0 <=? snd f) && (snd f <? child_count))
              (production_fields production_id)
  | _ => true
  end.

Lemma all_reduce_fields_ok : forallb reduce_fields_ok all_actions = true.
Proof. vm_compute. reflexivity. Qed.

(** X13: the fields of a node. Whenever the table reduces to a symbol, in any
    state and on any lookahead, the production that it names gives the node
    the fields of its kind, each on a child that the node has: [path] for
    an import statement; [network] and [config] for an addon block; [name]
    and [config] for an output block and a variable declaration; [name],
    [type] and [config] for a signer block and an action block; [name] and
    [value] for an input declaration; [key] and [value] for an attribute and
    an object field; [name] and [arguments] for a function call; none for
    the other kinds. *)
Theorem reduced_node_fields : forall state lookahead symbol child_count production_id,
  action_of state lookahead = Some (REDUCE symbol child_count production_id) ->
  production_fields production_id = node_fields symbol child_count /\
  Forall (fun f => 0 <= snd f < child_count) (production_fields production_id).
Proof.
  intros state lookahead symbol child_count production_id H.
  apply action_of_In in H.
  pose proof all_reduce_fields_ok as Hall. rewrite forallb_forall in Hall.
  specialize (Hall _ H). cbn [reduce_fields_ok] in Hall.
  apply andb_true_iff in Hall. destruct Hall as [Heq Hidx].
  split.
  - destruct (fields_eq_dec (production_fields production_id)
                            (node_fields symbol child_count)) as [E | _];
      [exact E | discriminate Heq].
  - apply Forall_forall. intros f Hf. rewrite forallb_forall in Hidx.
    specialize (Hidx f Hf). apply andb_true_iff in Hidx. destruct Hidx as [H0 H1].
    apply Z.leb_le in H0. apply Z.ltb_lt in H1. lia.
Qed.

Lemma reduced_node_fields_witness :
  production_fields 4 = node_fields sym_signer_block 4 /\
  Forall (fun f => 0 <= snd f < 4) (production_fields 4).
Proof.
  apply (reduced_node_fields 57 ts_builtin_sym_end sym_signer_block 4 4).
  vm_compute. reflexivity.
Defined.

(** ** The rows with their states *)

(** Every row that a lookup can read, with the state that reads it; [None]
    for the row read when the state is not in the table (the first row of
    the small parse table, and the empty row). *)
Definition keyed_rows : list (option TSStateId * list (Z * list Z)) :=
  (None, small_row 0) ::
  map (fun e => (Some (fst e + LARGE_STATE_COUNT), small_row (snd e)))
      ts_small_parse_table_map ++
  (None, []) ::
  map (fun e => (Some (fst e), large_row (snd e))) ts_parse_table.

Lemma ts_language_lookup_keyed state symbol :
  ts_language_lookup state symbol = 0 \/
  exists key row symbols,
    In (key, row) keyed_rows /\ (key = None \/ key = Some state) /\
    In (ts_language_lookup state symbol, symbols) row /\ In symbol symbols.
Proof.
  unfold ts_language_lookup. destruct (LARGE_STATE_COUNT <=? state).
  - set (index := table_get 0 ts_small_parse_table_map (state - LARGE_STATE_COUNT)).
    assert (Hrow : exists key, In (key, small_row index) keyed_rows /\
                               (key = None \/ key = Some state)).
    { destruct (table_get_cases 0 ts_small_parse_table_map (state - LARGE_STATE_COUNT))
        as [H | H]; fold index in H.
      - exists None. rewrite H. split; [left; reflexivity | left; reflexivity].
      - exists (Some state). split; [|right; reflexivity].
        right. apply in_or_app. left.
        apply (in_map (fun e => (Some (fst e + LARGE_STATE_COUNT), small_row (snd e)))) in H.
        cbn [fst snd] in H. replace (state - LARGE_STATE_COUNT + LARGE_STATE_COUNT)
          with state in H by lia. exact H. }
    destruct Hrow as (key & Hrow & Hkey). unfold small_row in Hrow.
    destruct (skipn (Z.to_nat index) ts_small_parse_table) as [|group_count data];
      [left; reflexivity|].
    destruct (lookup_groups_spec (Z.to_nat group_count) data symbol)
      as [H | (symbols & H1 & H2)]; [left; exact H|].
    right. exists key, (groups (Z.to_nat group_count) data), symbols. auto.
  - set (row := table_get [] ts_parse_table state).
    assert (Hrow : exists key, In (key, large_row row) keyed_rows /\
                               (key = None \/ key = Some state)).
    { destruct (table_get_cases [] ts_parse_table state) as [H | H]; fold row in H.
      - exists None. rewrite H. split; [|left; reflexivity].
        right. apply in_or_app. right. left. reflexivity.
      - exists (Some state). split; [|right; reflexivity].
        right. apply in_or_app. right. right.
        apply (in_map (fun e => (Some (fst e), large_row (snd e)))) in H. exact H. }
    destruct Hrow as (key & Hrow & Hkey).
    destruct (table_get_cases 0 row symbol) as [H | H]; [left; exact H|].
    right. exists key, (large_row row), [symbol].
    split; [exact Hrow|]. split; [exact Hkey|]. split; [|left; reflexivity].
    unfold large_row. apply (in_map (fun e => (snd e, [fst e]))) in H. exact H.
Qed.

(** A property of every entry of every row, with the state of the row,
    checked by computation. *)
Definition keyed_rows_forall (check : option TSStateId -> Z -> list Z -> bool) : bool :=
  forallb (fun kr => forallb (fun g => check (fst kr) (fst g) (snd g)) (snd kr)) keyed_rows.

Lemma keyed_rows_forall_spec check state symbol :
  keyed_rows_forall check = true ->
  ts_language_lookup state symbol = 0 \/
  exists key symbols,
    (key = None \/ key = Some state) /\
    check key (ts_language_lookup state symbol) symbols = true /\ In symbol symbols.
Proof.
  intros Hall. destruct (ts_language_lookup_keyed state symbol)
    as [H | (key & row & symbols & Hrow & Hkey & Hin & Hsym)]; [left; exact H|].
  right. exists key, symbols. split; [exact Hkey|]. split; [|exact Hsym].
  unfold keyed_rows_forall in Hall. rewrite forallb_forall in Hall.
  specialize (Hall _ Hrow). rewrite forallb_forall in Hall.
  exact (Hall _ Hin).
Qed.

Definition is_recover (a : option TSParseAction) : bool :=
  match a with
  | Some RECOVER => true
  | _ => false
  end.

Definition key_is (state : TSStateId) (key : option TSStateId) : bool :=
  match key with
  | Some s => s =? state
  | None => false
  end.

(** X14: accepting and recovering. For a token, the table accepts the input
    in state 142 on the end of the input and nowhere else, and [RECOVER]
    stands in state 0 only, the state that no shift and no goto leads to. *)
Theorem accept_and_recover_states : forall state symbol,
  symbol < TOKEN_COUNT ->
  (action_of state symbol = Some ACCEPT_INPUT <->
   state = 142 /\ symbol = ts_builtin_sym_end) /\
  (action_of state symbol = Some RECOVER -> state = 0).
Proof.
  intros state symbol Htoken.
  assert (Hall : keyed_rows_forall (fun key v symbols =>
            forallb (fun sym => (TOKEN_COUNT <=? sym) ||
              ((negb (is_accept (action_at v)) ||
                (key_is 142 key && (sym =? ts_builtin_sym_end))) &&
               (negb (is_recover (action_at v)) || key_is 0 key))) symbols) = true)
    by (vm_compute; reflexivity).
  assert (Hkey : forall s key, (key = None \/ key = Some state) ->
                   key_is s key = true -> state = s).
  { intros s key [-> | ->] H; [discriminate H|]. apply Z.eqb_eq in H. exact H. }
  assert (Hback : state = 142 /\ symbol = ts_builtin_sym_end ->
                  action_of state symbol = Some ACCEPT_INPUT).
  { intros [-> ->]. vm_compute. reflexivity. }
  unfold action_of in *.
  destruct (ts_language_table_entry_action state symbol) as [E | E]; rewrite E in *;
    [split; [split; [intros H; discriminate H | exact Hback] | intros H; discriminate H]|].
  destruct (keyed_rows_forall_spec _ state symbol Hall) as [H0 | (key & symbols & Hk & Hc & Hin)].
  - rewrite H0 in *.
    split; [split; [intros H; vm_compute in H; discriminate H | exact Hback]
           | intros H; vm_compute in H; discriminate H].
  - rewrite forallb_forall in Hc. specialize (Hc symbol Hin).
    apply orb_true_iff in Hc. destruct Hc as [Hc | Hc]; [apply Z.leb_le in Hc; lia|].
    apply andb_true_iff in Hc. destruct Hc as [Hacc Hrec].
    split; [split; [|exact Hback]|]; intros H; rewrite H in *.
    + cbn in Hacc. apply andb_true_iff in Hacc. destruct Hacc as [H1 H2].
      split; [exact (Hkey 142 key Hk H1)|].
      apply Z.eqb_eq in H2. exact H2.
    + cbn in Hrec. exact (Hkey 0 key Hk Hrec).
Qed.

Lemma accept_and_recover_states_witness :
  (action_of 142 ts_builtin_sym_end = Some ACCEPT_INPUT <->
   142 = 142 /\ ts_builtin_sym_end = ts_builtin_sym_end) /\
  (action_of 142 ts_builtin_sym_end = Some RECOVER -> 142 = 0).
Proof.
  apply (accept_and_recover_states 142 ts_builtin_sym_end). reflexivity.
Defined.

(** X15: the parse table stays in range. Whatever the state and the symbol,
    the action that the table gives shifts to a state of the table other than
    state 0, or reduces to a non-terminal with at most
    [MAX_ALIAS_SEQUENCE_LENGTH] children and a production that has a field
    map slice; the goto of a non-terminal is a state of the table; and the
    action index of a token is an index at which [ts_parse_actions] has an
    entry. *)
Theorem parse_table_in_range : forall state symbol,
  (forall a, action_of state symbol = Some a -> action_in_range a) /\
  (TOKEN_COUNT <= symbol -> 0 <= ts_language_next_state state symbol < STATE_COUNT) /\
  (symbol < TOKEN_COUNT ->
   In (ts_language_lookup state symbol) (map fst ts_parse_actions)).
Proof.
  intros state symbol. split; [|split].
  - intros a H. apply all_actions_in_range. exact (action_of_In state symbol a H).
  - apply goto_in_range.
  - intros Htoken.
    assert (Hall : rows_forall (fun v symbols =>
              existsb (Z.eqb v) (map fst ts_parse_actions) ||
              forallb (fun k => TOKEN_COUNT <=? k) symbols) = true)
      by (vm_compute; reflexivity).
    destruct (rows_forall_spec _ state symbol Hall) as [H0 | (symbols & Hc & Hin)].
    + rewrite H0. left. reflexivity.
    + apply orb_true_iff in Hc. destruct Hc as [Hc | Hc].
      * apply existsb_exists in Hc. destruct Hc as (k & Hk & Heq).
        apply Z.eqb_eq in Heq. subst k. exact Hk.
      * rewrite forallb_forall in Hc. specialize (Hc symbol Hin).
        apply Z.leb_le in Hc. lia.
Qed.

(** ** Comments in every state *)

Lemma in_range_In n x : 0 <= x < Z.of_nat n -> In x (map Z.of_nat (seq 0 n)).
Proof.
  intros H. apply in_map_iff. exists (Z.to_nat x). split; [lia|].
  apply in_seq. lia.
Qed.

Lemma all_states_In state : 0 < state < STATE_COUNT -> In state all_states.
Proof.
  intros H. unfold all_states. apply in_map_iff. exists (Z.to_nat state).
  split; [lia|]. apply in_seq. unfold STATE_COUNT in *. lia.
Qed.

Definition shifts_to (a : option TSParseAction) (t : TSStateId) : bool :=
  match a with
  | Some (SHIFT x) => x =? t
  | _ => false
  end.

Lemma shifts_to_spec a t : shifts_to a t = true -> a = Some (SHIFT t).
Proof.
  destruct a as [[x| | | |]|]; cbn; intros H; try discriminate H.
  apply Z.eqb_eq in H. subst x. reflexivity.
Qed.

Definition reduces_comment (a : option TSParseAction) : bool :=
  match a with
  | Some (REDUCE symbol _ _) => symbol =? sym_comment
  | _ => false
  end.

(** A state that a comment can start in: its three opening tokens are
    shifted, and the comment, once reduced, leads back to the state. *)
Definition comment_can_start (state : TSStateId) : bool :=
  shifts_to (action_of state anon_sym_POUND) 143 &&
  shifts_to (action_of state anon_sym_SLASH_SLASH) 145 &&
  shifts_to (action_of state anon_sym_SLASH_STAR) 145 &&
  (ts_language_next_state state sym_comment =? state).

(** A state that a comment ends in: nothing is lexed, and the one action
    reduces the comment. *)
Definition comment_ends (state : TSStateId) : bool :=
  (ts_language_lex_mode state =? NO_LEX_STATE) &&
  forallb (fun k => reduces_comment (action_of state k)) (tokens_with_action state) &&
  match tokens_with_action state with
  | [k] => k =? ts_builtin_sym_end
  | _ => false
  end.

(** X16: a comment can start in every state. Every state but 0, 151 and 152
    shifts [#] to state 143 and [//] and [/*] to state 145, and its goto on a
    comment is the state itself: a comment leaves the parser where it was.
    The states 151 and 152, where a comment is complete, lex nothing and
    only reduce the comment. *)
Theorem comments_in_every_state : forall state,
  0 < state < STATE_COUNT ->
  if (state =? 151) || (state =? 152) then
    ts_language_lex_mode state = NO_LEX_STATE /\
    tokens_with_action state = [ts_builtin_sym_end] /\
    reduces_comment (action_of state ts_builtin_sym_end) = true
  else
    ts_language_lex_mode state <> NO_LEX_STATE /\
    action_of state anon_sym_POUND = Some (SHIFT 143) /\
    action_of state anon_sym_SLASH_SLASH = Some (SHIFT 145) /\
    action_of state anon_sym_SLASH_STAR = Some (SHIFT 145) /\
    ts_language_next_state state sym_comment = state.
Proof.
  intros state Hstate.
  assert (Hall : forallb (fun s =>
            if (s =? 151) || (s =? 152) then comment_ends s
            else negb (ts_language_lex_mode s =? NO_LEX_STATE) && comment_can_start s)
            all_states = true) by (vm_compute; reflexivity).
  rewrite forallb_forall in Hall. specialize (Hall state (all_states_In state Hstate)).
  destruct ((state =? 151) || (state =? 152)).
  - unfold comment_ends in Hall.
    apply andb_true_iff in Hall. destruct Hall as [Hall H3].
    apply andb_true_iff in Hall. destruct Hall as [H1 H2].
    apply Z.eqb_eq in H1. split; [exact H1|].
    destruct (tokens_with_action state) as [|k [|k' l]]; try discriminate H3.
    apply Z.eqb_eq in H3. subst k. split; [reflexivity|].
    cbn [forallb] in H2. apply andb_true_iff in H2. exact (proj1 H2).
  - apply andb_true_iff in Hall. destruct Hall as [Hmode Hall].
    apply negb_true_iff, Z.eqb_neq in Hmode. split; [exact Hmode|].
    unfold comment_can_start in Hall.
    apply andb_true_iff in Hall. destruct Hall as [Hall H4].
    apply andb_true_iff in Hall. destruct Hall as [Hall H3].
    apply andb_true_iff in Hall. destruct Hall as [H1 H2].
    split; [exact (shifts_to_spec _ _ H1)|]. split; [exact (shifts_to_spec _ _ H2)|].
    split; [exact (shifts_to_spec _ _ H3)|]. apply Z.eqb_eq. exact H4.
Qed.

Lemma comments_in_every_state_witness :
  ts_language_lex_mode 133 <> NO_LEX_STATE /\
  action_of 133 anon_sym_POUND = Some (SHIFT 143) /\
  action_of 133 anon_sym_SLASH_SLASH = Some (SHIFT 145) /\
  action_of 133 anon_sym_SLASH_STAR = Some (SHIFT 145) /\
  ts_language_next_state 133 sym_comment = 133.
Proof.
  apply (comments_in_every_state 133). unfold STATE_COUNT. lia.
Defined.

(** ** The layout of the tables *)

(** The length of the groups of a row of the small parse table: each group
    is a value, the number of its symbols, and the symbols. [None] when the
    data end within a group, or when a group has no symbol. *)
Fixpoint groups_length (group_count : nat) (data : list Z) : option nat :=
  match group_count with
  | O => Some 0%nat
  | S n =>
      match data with
      | _ :: symbol_count :: data' =>
          if (0 <? symbol_count) && (Z.to_nat symbol_count <=? List.length data')%nat
          then option_map (fun k => (2 + Z.to_nat symbol_count + k)%nat)
                          (groups_length n (skipn (Z.to_nat symbol_count) data'))
          else None
      | _ => None
      end
  end.

(** The indices at which the rows of the small parse table start, when the
    table is read row after row from its first entry to its last. *)
Fixpoint row_starts (fuel : nat) (pos : nat) (data : list Z) : option (list Z) :=
  match data with
  | [] => Some []
  | group_count :: data' =>
      match fuel with
      | O => None
      | S fuel' =>
          match groups_length (Z.to_nat group_count) data' with
          | Some k =>
              option_map (cons (Z.of_nat pos))
                         (row_starts fuel' (pos + 1 + k) (skipn k data'))
          | None => None
          end
      end
  end.

(** The entries of [ts_parse_actions] follow each other: an entry takes one
    place for its head and one for each of its actions, and its count is the
    number of its actions. *)
Fixpoint entries_from (pos : Z) (entries : list (Z * TSParseActionEntry)) : bool :=
  match entries with
  | [] => true
  | (k, e) :: entries' =>
      (k =? pos) && (count e =? Z.of_nat (List.length (actions e))) &&
      entries_from (pos + 1 + count e) entries'
  end.

Fixpoint distinct {A} (eqb : A -> A -> bool) (l : list A) : bool :=
  match l with
  | [] => true
  | a :: l' => negb (existsb (eqb a) l') && distinct eqb l'
  end.

Definition states_from (first : Z) (n : Z) : list TSStateId :=
  map (fun k => first + Z.of_nat k) (seq 0 (Z.to_nat n)).

(** X17: the layout of the tables. Read row after row, the small parse
    table is exactly the rows of the states from [LARGE_STATE_COUNT] on, in
    their order: [ts_small_parse_table_map] holds the index at which each row
    starts, no row overlaps another and nothing is left between them. In a
    row no symbol stands twice, and every symbol is a symbol of the grammar.
    The entries of [ts_parse_actions] follow each other without a gap, each
    with as many actions as its count says. *)
Theorem tables_layout :
  row_starts (List.length ts_small_parse_table) 0 ts_small_parse_table =
    Some (map snd ts_small_parse_table_map) /\
  map fst ts_small_parse_table_map = states_from 0 (STATE_COUNT - LARGE_STATE_COUNT) /\
  map fst ts_parse_table = states_from 0 LARGE_STATE_COUNT /\
  forallb (fun row => distinct Z.eqb (flat_map snd row)) all_rows = true /\
  (forall state symbol,
     ts_language_lookup state symbol <> 0 -> 0 <= symbol < SYMBOL_COUNT) /\
  entries_from 0 ts_parse_actions = true.
Proof.
  split; [vm_compute; reflexivity|].
  split; [vm_compute; reflexivity|].
  split; [vm_compute; reflexivity|].
  split; [vm_compute; reflexivity|].
  split; [|vm_compute; reflexivity].
  intros state symbol H.
  assert (Hall : rows_forall (fun v symbols =>
            forallb (fun k => (0 <=? k) && (k <? SYMBOL_COUNT)) symbols) = true)
    by (vm_compute; reflexivity).
  destruct (rows_forall_spec _ state symbol Hall) as [H0 | (symbols & Hc & Hin)];
    [contradiction (H H0)|].
  rewrite forallb_forall in Hc. specialize (Hc symbol Hin).
  apply andb_true_iff in Hc. destruct Hc as [H1 H2].
  apply Z.leb_le in H1. apply Z.ltb_lt in H2. lia.
Qed.

(** ** Symbols and their names *)

Definition ts_symbol_name (symbol : TSSymbol) : string :=
  table_get EmptyString ts_symbol_names symbol.

Definition all_symbols : list TSSymbol := map Z.of_nat (seq 0 (Z.to_nat SYMBOL_COUNT)).

Lemma all_symbols_In symbol : 0 <= symbol < SYMBOL_COUNT -> In symbol all_symbols.
Proof. intros H. apply in_range_In. unfold SYMBOL_COUNT in *. lia. Qed.

(** X18: symbols and their names. Every symbol is its own public symbol
    (the grammar has no alias), and no two symbols have the same name: a
    symbol is told by its name. *)
Theorem symbols_are_told_by_name : forall a b,
  0 <= a < SYMBOL_COUNT -> 0 <= b < SYMBOL_COUNT ->
  table_get 0 ts_symbol_map a = a /\
  (ts_symbol_name a = ts_symbol_name b -> a = b).
Proof.
  intros a b Ha Hb.
  assert (Hall : forallb (fun x =>
            (table_get 0 ts_symbol_map x =? x) &&
            forallb (fun y =>
              negb (String.eqb (ts_symbol_name x) (ts_symbol_name y)) || (x =? y))
              all_symbols) all_symbols = true) by (vm_compute; reflexivity).
  rewrite forallb_forall in Hall. specialize (Hall a (all_symbols_In a Ha)).
  apply andb_true_iff in Hall. destruct Hall as [H1 H2].
  split; [apply Z.eqb_eq; exact H1|].
  intros Hname. rewrite forallb_forall in H2. specialize (H2 b (all_symbols_In b Hb)).
  rewrite Hname, String.eqb_refl in H2. cbn in H2.
  apply Z.eqb_eq. exact H2.
Qed.

Lemma symbols_are_told_by_name_witness :
  table_get 0 ts_symbol_map sym_string = sym_string /\
  (ts_symbol_name sym_string = ts_symbol_name sym_number -> sym_string = sym_number).
Proof.
  apply (symbols_are_told_by_name sym_string sym_number);
    (vm_compute; split; [discriminate | reflexivity]).
Defined.

(** ** States that share a primary state *)

Definition primary_state_id (state : TSStateId) : TSStateId :=
  table_get 0 ts_primary_state_ids state.

(** Two actions agree: both shift, to states with the same primary state,
    or both reduce in the same way, or both recover, or both accept. A state
    that has no action on the token agrees with every other. *)
Definition actions_agree (a b : option TSParseAction) : bool :=
  match a, b with
  | None, _ | _, None => true
  | Some (SHIFT x), Some (SHIFT y) => primary_state_id x =? primary_state_id y
  | Some (REDUCE s1 c1 p1), Some (REDUCE s2 c2 p2) => (s1 =? s2) && (c1 =? c2) && (p1 =? p2)
  | Some RECOVER, Some RECOVER => true
  | Some ACCEPT_INPUT, Some ACCEPT_INPUT => true
  | _, _ => false
  end.

Definition agrees_with_primary (state : TSStateId) : bool :=
  let p := primary_state_id state in
  (0 <=? p) && (p <=? state) && (primary_state_id p =? p) &&
  forallb (fun symbol =>
    if symbol <? TOKEN_COUNT
    then actions_agree (action_of state symbol) (action_of p symbol)
    else (symbol =? sym_comment) ||
         (primary_state_id (ts_language_next_state state symbol) =?
          primary_state_id (ts_language_next_state p symbol))) all_symbols.

(** X19: the primary states. The primary state of a state is a state not
    after it that is its own primary state, and the two behave alike: on a
    token for which both have an action, both shift, to states with the same
    primary state, or both make the same reduction; and on a non-terminal
    other than a comment their gotos have the same primary state. *)
Theorem primary_states_agree : forall state symbol,
  0 <= state < STATE_COUNT -> 0 <= symbol < SYMBOL_COUNT ->
  0 <= primary_state_id state <= state /\
  primary_state_id (primary_state_id state) = primary_state_id state /\
  (symbol < TOKEN_COUNT ->
   actions_agree (action_of state symbol)
                 (action_of (primary_state_id state) symbol) = true) /\
  (TOKEN_COUNT <= symbol -> symbol <> sym_comment ->
   primary_state_id (ts_language_next_state state symbol) =
   primary_state_id (ts_language_next_state (primary_state_id state) symbol)).
Proof.
  intros state symbol Hstate Hsymbol.
  assert (Hall : forallb agrees_with_primary (states_from 0 STATE_COUNT) = true)
    by (vm_compute; reflexivity).
  rewrite forallb_forall in Hall.
  assert (Hin : In state (states_from 0 STATE_COUNT)).
  { unfold states_from. apply in_map_iff. exists (Z.to_nat state).
    split; [lia|]. apply in_seq. lia. }
  specialize (Hall state Hin). unfold agrees_with_primary in Hall. cbv zeta in Hall.
  apply andb_true_iff in Hall. destruct Hall as [Hall Hsym].
  apply andb_true_iff in Hall. destruct Hall as [Hall H3].
  apply andb_true_iff in Hall. destruct Hall as [H1 H2].
  apply Z.leb_le in H1. apply Z.leb_le in H2. apply Z.eqb_eq in H3.
  split; [lia|]. split; [exact H3|].
  rewrite forallb_forall in Hsym. specialize (Hsym symbol (all_symbols_In symbol Hsymbol)).
  split.
  - intros Htoken. apply Z.ltb_lt in Htoken. rewrite Htoken in Hsym. exact Hsym.
  - intros Hnt Hcomment. apply Z.ltb_ge in Hnt. rewrite Hnt in Hsym.
    apply orb_true_iff in Hsym. destruct Hsym as [Hsym | Hsym].
    + apply Z.eqb_eq in Hsym. contradiction (Hcomment Hsym).
    + apply Z.eqb_eq. exact Hsym.
Qed.

(** State 47 and its primary state 21 on a number sign. *)
Lemma primary_states_agree_witness :
  0 <= primary_state_id 47 <= 47 /\
  primary_state_id (primary_state_id 47) = primary_state_id 47 /\
  (anon_sym_POUND < TOKEN_COUNT ->
   actions_agree (action_of 47 anon_sym_POUND)
                 (action_of (primary_state_id 47) anon_sym_POUND) = true) /\
  (TOKEN_COUNT <= anon_sym_POUND -> anon_sym_POUND <> sym_comment ->
   primary_state_id (ts_language_next_state 47 anon_sym_POUND) =
   primary_state_id (ts_language_next_state (primary_state_id 47) anon_sym_POUND)).
Proof.
  apply (primary_states_agree 47 anon_sym_POUND);
    (vm_compute; split; [discriminate | reflexivity]).
Defined.

(** ** The language *)

(** The language that [tree_sitter_txtx] returns: the counts and the tables
    of the file. *)
Record TSLanguage := {
  version : Z;
  symbol_count : Z;
  alias_count : Z;
  token_count : Z;
  external_token_count : Z;
  state_count : Z;
  large_state_count : Z;
  production_id_count : Z;
  field_count : Z;
  max_alias_sequence_length : Z;
  parse_table : list (TSStateId * list (TSSymbol * Z));
  small_parse_table : list Z;
  small_parse_table_map : list (Z * Z);
  parse_actions : list (Z * TSParseActionEntry);
  symbol_names : list (TSSymbol * string);
  field_names : list (TSFieldId * option string);
  field_map_slices : list (Z * TSFieldMapSlice);
  field_map_entries : list TSFieldMapEntry;
  symbol_metadata : list (TSSymbol * TSSymbolMetadata);
  public_symbol_map : list (TSSymbol * TSSymbol);
  alias_map : list Z;
  alias_sequences : list (Z * list TSSymbol);
  lex_modes : list (TSStateId * TSStateId);
  lex_fn : TSStateId -> list Z -> option Lexeme;
  primary_state_ids : list (TSStateId * TSStateId)
}.

Definition tree_sitter_txtx : TSLanguage :=
  {| version := LANGUAGE_VERSION;
     symbol_count := SYMBOL_COUNT;
     alias_count := ALIAS_COUNT;
     token_count := TOKEN_COUNT;
     external_token_count := EXTERNAL_TOKEN_COUNT;
     state_count := STATE_COUNT;
     large_state_count := LARGE_STATE_COUNT;
     production_id_count := PRODUCTION_ID_COUNT;
     field_count := FIELD_COUNT;
     max_alias_sequence_length := MAX_ALIAS_SEQUENCE_LENGTH;
     parse_table := ts_parse_table;
     small_parse_table := ts_small_parse_table;
     small_parse_table_map := ts_small_parse_table_map;
     parse_actions := ts_parse_actions;
     symbol_names := ts_symbol_names;
     field_names := ts_field_names;
     field_map_slices := ts_field_map_slices;
     field_map_entries := ts_field_map_entries;
     symbol_metadata := ts_symbol_metadata;
     public_symbol_map := ts_symbol_map;
     alias_map := ts_non_terminal_alias_map;
     alias_sequences := ts_alias_sequences;
     lex_modes := ts_lex_modes;
     lex_fn := ts_lex;
     primary_state_ids := ts_primary_state_ids |}.

(** A slice of the field map lies within the entries, and its entries name
    fields of the language. *)
Definition slice_ok (l : TSLanguage) (s : TSFieldMapSlice) : bool :=
  (0 <=? index s) && (0 <? length s) &&
  (index s + length s <=? Z.of_nat (List.length (field_map_entries l))) &&
  forallb (fun e => (0 <? field_id e) && (field_id e <=? field_count l) &&
                    (0 <=? child_index e) && (child_index e <? max_alias_sequence_length l))
          (firstn (Z.to_nat (length s)) (skipn (Z.to_nat (index s)) (field_map_entries l))).

(** X20: the language record agrees with its tables. There is a name, a
    metadata entry and a public symbol for each of the [symbol_count]
    symbols and for nothing else, a lex mode and a primary state for each of
    the [state_count] states, a name for each of the [field_count] fields;
    every field map slice belongs to a production below
    [production_id_count], lies within the field map entries and names
    fields of the language at children that a node can have; and every
    token that the lex function reports is a symbol below [token_count]. *)
Theorem language_agrees_with_tables :
  map fst (symbol_names tree_sitter_txtx) = states_from 0 (symbol_count tree_sitter_txtx) /\
  map fst (symbol_metadata tree_sitter_txtx) = states_from 0 (symbol_count tree_sitter_txtx) /\
  map fst (public_symbol_map tree_sitter_txtx) = states_from 0 (symbol_count tree_sitter_txtx) /\
  map fst (lex_modes tree_sitter_txtx) = states_from 0 (state_count tree_sitter_txtx) /\
  map fst (primary_state_ids tree_sitter_txtx) = states_from 0 (state_count tree_sitter_txtx) /\
  map fst (field_names tree_sitter_txtx) = states_from 0 (field_count tree_sitter_txtx + 1) /\
  forallb (fun e => (0 <=? fst e) && (fst e <? production_id_count tree_sitter_txtx) &&
                    slice_ok tree_sitter_txtx (snd e))
          (field_map_slices tree_sitter_txtx) = true /\
  (forall s input lx,
     lex_fn tree_sitter_txtx s input = Some lx ->
     0 <= lexeme_symbol lx < token_count tree_sitter_txtx).
Proof.
  repeat (split; [vm_compute; reflexivity|]).
  intros s input lx H. cbn [lex_fn token_count tree_sitter_txtx] in *.
  apply (ts_lex_loop_ok input s 0%nat lexer_start lx); [|exact H].
  split; [apply le_n | exact I].
Qed.

(** ** The tokens of the lexer and of the parser *)

(** The tokens of each lex state in use, computed once. *)
Definition lex_mode_tokens : list (TSStateId * list TSSymbol) :=
  Eval vm_compute in map (fun m => (m, lex_state_tokens m)) lex_states_in_use.

Lemma lex_mode_tokens_spec m :
  In m lex_states_in_use -> table_get [] lex_mode_tokens m = lex_state_tokens m.
Proof.
  intros H. vm_compute in H.
  repeat (destruct H as [H | H]; [subst m; vm_compute; reflexivity|]).
  contradiction.
Qed.

Lemma lex_mode_in_use state :
  ts_language_lex_mode state <> NO_LEX_STATE ->
  In (ts_language_lex_mode state) lex_states_in_use.
Proof.
  intros H. unfold lex_states_in_use. apply filter_In. split.
  - apply nodup_In. unfold ts_language_lex_mode.
    destruct (table_get_cases 0 ts_lex_modes state) as [H0 | Hin].
    + rewrite H0. vm_compute. tauto.
    + apply (in_map snd) in Hin. exact Hin.
  - apply negb_true_iff, Z.eqb_neq. exact H.
Qed.

Definition has_action (state : TSStateId) (symbol : TSSymbol) : bool :=
  match action_of state symbol with
  | Some _ => true
  | None => false
  end.

(** The tokens that lex state 0 can report and that no state but state 0,
    which is entered only to recover from an error, has an action for. *)
Definition error_state_tokens : list TSSymbol :=
  [ anon_sym_addon; anon_sym_signer; anon_sym_action; anon_sym_output;
    anon_sym_variable; anon_sym_input; anon_sym_import;
    aux_sym_number_token1; aux_sym_number_token2; aux_sym_number_token3;
    anon_sym_true; anon_sym_false; sym_null;
    anon_sym_LBRACK; anon_sym_DOT; anon_sym_LPAREN; sym_identifier ].

Lemma states_from_In state : 0 <= state < STATE_COUNT -> In state (states_from 0 STATE_COUNT).
Proof.
  intros H. unfold states_from. apply in_map_iff. exists (Z.to_nat state).
  split; [lia|]. apply in_seq. unfold STATE_COUNT in *. lia.
Qed.

Lemma all_tokens_In symbol : 0 <= symbol < TOKEN_COUNT -> In symbol all_tokens.
Proof. intros H. apply in_range_In. unfold TOKEN_COUNT in *. lia. Qed.

(** A state that lexes nothing acts on the end of the input only; any other
    state acts only on tokens of its lex state. *)
Definition expects_lexed_tokens (state : TSStateId) : bool :=
  forallb (fun k =>
    negb (has_action state k) ||
    (if ts_language_lex_mode state =? NO_LEX_STATE
     then ((state =? 151) || (state =? 152)) && (k =? ts_builtin_sym_end)
     else mem k (table_get [] lex_mode_tokens (ts_language_lex_mode state))))
    all_tokens.

Lemma expected_token_is_lexed state symbol :
  0 <= state < STATE_COUNT -> 0 <= symbol < TOKEN_COUNT ->
  has_action state symbol = true ->
  if ts_language_lex_mode state =? NO_LEX_STATE
  then (state = 151 \/ state = 152) /\ symbol = ts_builtin_sym_end
  else In symbol (lex_state_tokens (ts_language_lex_mode state)).
Proof.
  intros Hstate Hsymbol Haction.
  assert (Hall : forallb expects_lexed_tokens (states_from 0 STATE_COUNT) = true)
    by (vm_compute; reflexivity).
  rewrite forallb_forall in Hall. specialize (Hall state (states_from_In state Hstate)).
  unfold expects_lexed_tokens in Hall. rewrite forallb_forall in Hall.
  specialize (Hall symbol (all_tokens_In symbol Hsymbol)).
  rewrite Haction in Hall. cbn [negb orb] in Hall.
  destruct (Z.eqb_spec (ts_language_lex_mode state) NO_LEX_STATE) as [Hmode | Hmode].
  - apply andb_true_iff in Hall. destruct Hall as [H1 H2].
    apply Z.eqb_eq in H2. split; [|exact H2].
    apply orb_true_iff in H1. destruct H1 as [H1 | H1]; apply Z.eqb_eq in H1; auto.
  - apply mem_In in Hall.
    rewrite (lex_mode_tokens_spec _ (lex_mode_in_use state Hmode)) in Hall. exact Hall.
Qed.

Lemma lex_mode_tokens_In mode :
  In mode lex_states_in_use -> lex_state_tokens mode <> [] ->
  In (mode, lex_state_tokens mode) lex_mode_tokens.
Proof.
  intros Hmode Hin. rewrite <- (lex_mode_tokens_spec mode Hmode).
  destruct (table_get_cases [] lex_mode_tokens mode) as [H0 | H]; [|exact H].
  rewrite (lex_mode_tokens_spec mode Hmode) in H0. contradiction (Hin H0).
Qed.

(** Is the token, which lex state [mode] can report, one that only the
    error state has an action for? *)
Definition for_error_state (mode : TSStateId) (symbol : TSSymbol) : bool :=
  (mode =? 0) && mem symbol error_state_tokens.

Lemma lexed_token_is_expected e symbol :
  In e lex_mode_tokens -> In symbol (snd e) ->
  for_error_state (fst e) symbol = false ->
  exists state, 0 < state < STATE_COUNT /\
    ts_language_lex_mode state = fst e /\ has_action state symbol = true.
Proof.
  intros He Hin Herr.
  assert (Hall : forallb (fun e =>
            forallb (fun k =>
              for_error_state (fst e) k ||
              existsb (fun s => (ts_language_lex_mode s =? fst e) && has_action s k)
                      all_states) (snd e)) lex_mode_tokens = true)
    by (vm_compute; reflexivity).
  rewrite forallb_forall in Hall. specialize (Hall _ He).
  rewrite forallb_forall in Hall. specialize (Hall symbol Hin).
  rewrite Herr in Hall. cbn [orb] in Hall.
  apply existsb_exists in Hall. destruct Hall as (state & Hstate & Hs).
  apply andb_true_iff in Hs. destruct Hs as [H1 H2].
  exists state. split; [|split; [apply Z.eqb_eq; exact H1 | exact H2]].
  clear - Hstate. unfold all_states in Hstate. apply in_map_iff in Hstate.
  destruct Hstate as (k & <- & Hk). apply in_seq in Hk. unfold STATE_COUNT in *. lia.
Qed.

Lemma error_state_token_recovers symbol :
  In symbol error_state_tokens -> has_action 0 symbol = true.
Proof.
  intros Hsymbol.
  assert (Hall : forallb (has_action 0) error_state_tokens = true)
    by (vm_compute; reflexivity).
  rewrite forallb_forall in Hall. exact (Hall symbol Hsymbol).
Qed.

Lemma error_state_token_is_unexpected state symbol :
  In symbol error_state_tokens ->
  0 < state < STATE_COUNT -> ts_language_lex_mode state = 0 ->
  has_action state symbol = false.
Proof.
  intros Hsymbol Hstate Hmode.
  assert (Hall : forallb (fun k =>
            forallb (fun s => negb (ts_language_lex_mode s =? 0) || negb (has_action s k))
                    all_states) error_state_tokens = true)
    by (vm_compute; reflexivity).
  rewrite forallb_forall in Hall. specialize (Hall symbol Hsymbol).
  rewrite forallb_forall in Hall. specialize (Hall state (all_states_In state Hstate)).
  rewrite Hmode in Hall. cbn [Z.eqb negb orb] in Hall.
  apply negb_true_iff in Hall. exact Hall.
Qed.

(** X21: the lexer and the parser agree on the tokens, over every state of
    the table, state 0 too. A token that a state has an action for is a
    token that the lexer can report in the lex state of that state; only the
    states 151 and 152, which lex nothing, act on a token that is not lexed,
    the end of the input. And a token that the lexer can report in the lex
    state of a state has an action in one of the states 1 to 152 with that
    lex state; only in lex state 0 there are seventeen tokens (the statement
    keywords, the numbers, [true], [false], [null], the opening bracket and
    parenthesis, the dot and the identifier) that state 0 alone, the state
    of error recovery, has an action for, and no state from 1 to 152 with lex
    state 0. *)
Theorem parser_and_lexer_tokens : forall state symbol,
  0 <= state < STATE_COUNT -> 0 <= symbol < TOKEN_COUNT ->
  (has_action state symbol = true ->
   if ts_language_lex_mode state =? NO_LEX_STATE
   then (state = 151 \/ state = 152) /\ symbol = ts_builtin_sym_end
   else In symbol (lex_state_tokens (ts_language_lex_mode state))) /\
  (ts_language_lex_mode state <> NO_LEX_STATE ->
   In symbol (lex_state_tokens (ts_language_lex_mode state)) ->
   if for_error_state (ts_language_lex_mode state) symbol
   then has_action 0 symbol = true /\
        forall other, 0 < other < STATE_COUNT -> ts_language_lex_mode other = 0 ->
                      has_action other symbol = false
   else exists other, 0 < other < STATE_COUNT /\
          ts_language_lex_mode other = ts_language_lex_mode state /\
          has_action other symbol = true).
Proof.
  intros state symbol Hstate Hsymbol. split.
  - apply expected_token_is_lexed; assumption.
  - intros Hmode Hin.
    destruct (for_error_state (ts_language_lex_mode state) symbol) eqn:Herr.
    + unfold for_error_state in Herr. apply andb_true_iff in Herr.
      destruct Herr as [_ Herr]. apply mem_In in Herr. split.
      * exact (error_state_token_recovers symbol Herr).
      * intros other Hother Hzero.
        exact (error_state_token_is_unexpected other symbol Herr Hother Hzero).
    + assert (Hne : lex_state_tokens (ts_language_lex_mode state) <> []).
      { intros H0. rewrite H0 in Hin. contradiction Hin. }
      exact (lexed_token_is_expected _ symbol
               (lex_mode_tokens_In _ (lex_mode_in_use state Hmode) Hne) Hin Herr).
Qed.

Lemma lex_state_zero_identifier : In sym_identifier (lex_state_tokens 0).
Proof.
  rewrite <- (lex_mode_tokens_spec 0) by (vm_compute; tauto).
  vm_compute. tauto.
Qed.

(** The identifier in state 19, after the [=] of an attribute (lex state
    2), and in state 99, after the keyword [addon] (lex state 0). *)
Lemma parser_and_lexer_tokens_witness :
  (In sym_identifier (lex_state_tokens (ts_language_lex_mode 19)) /\
   exists other, 0 < other < STATE_COUNT /\
     ts_language_lex_mode other = ts_language_lex_mode 19 /\
     has_action other sym_identifier = true) /\
  (has_action 0 sym_identifier = true /\
   forall other, 0 < other < STATE_COUNT -> ts_language_lex_mode other = 0 ->
                 has_action other sym_identifier = false).
Proof.
  assert (Hk : 0 <= sym_identifier < TOKEN_COUNT)
    by (vm_compute; split; [discriminate | reflexivity]).
  assert (H19 : 0 <= 19 < STATE_COUNT) by (unfold STATE_COUNT; lia).
  assert (H99 : 0 <= 99 < STATE_COUNT) by (unfold STATE_COUNT; lia).
  assert (Haction : has_action 19 sym_identifier = true) by (vm_compute; reflexivity).
  assert (Hmode19 : ts_language_lex_mode 19 <> NO_LEX_STATE) by (vm_compute; discriminate).
  assert (Hmode99 : ts_language_lex_mode 99 <> NO_LEX_STATE) by (vm_compute; discriminate).
  destruct (parser_and_lexer_tokens 19 sym_identifier H19 Hk) as [Hlexed Hexpected].
  destruct (parser_and_lexer_tokens 99 sym_identifier H99 Hk) as [_ Herror].
  specialize (Hlexed Haction).
  replace (ts_language_lex_mode 19 =? NO_LEX_STATE) with false in Hlexed
    by (vm_compute; reflexivity).
  specialize (Hexpected Hmode19 Hlexed).
  replace (for_error_state (ts_language_lex_mode 19) sym_identifier) with false in Hexpected
    by (vm_compute; reflexivity).
  split; [split; [exact Hlexed | exact Hexpected]|].
  replace (for_error_state (ts_language_lex_mode 99) sym_identifier) with true in Herror
    by (vm_compute; reflexivity).
  apply Herror; [exact Hmode99|].
  replace (ts_language_lex_mode 99) with 0 by (vm_compute; reflexivity).
  apply lex_state_zero_identifier.
Defined.

End Tables.
